(** * BMQ scheduler core (kernel/sched/bmq.c): a shallow embedding

    The development follows the C source function by function.  Task
    structures live in a store indexed by their address, the per-CPU
    runqueues in an array indexed by CPU number, CPU masks and the queue
    bitmaps are machine words seen as integers with [Z.testbit].  A
    function that would hit [BUG_ON], read outside an array or follow a
    dangling pointer returns [None]. *)

From stdpp Require Import base numbers option list gmap.
From Stdlib Require Import ZArith Lia Bool.

Local Open Scope Z_scope.

(** ** Build-time constants

    The constants come from headers that are not part of the translated
    sources ([include/linux/sched/prio.h], [kernel/sched/bmq_sched.h],
    Kconfig); they are parameters of the whole development. *)

Class Config := {
  MAX_RT_PRIO : Z;
  MAX_USER_RT_PRIO : Z;
  NICE_WIDTH : Z;
  MAX_PRIORITY_ADJ : Z;
  bmq_BITS : Z;
  IDLE_TASK_SCHED_PRIO : Z;
  CONFIG_SCHED_TIMESLICE : Z;
  nr_cpu_ids : Z;
  CONFIG_SCHED_SMT : bool;
}.

(** Modelled from the spec: the values of the constants that the missing
    headers give on a 64-bit build (RT priorities 0..99, nice range of
    width 40, a boost range of 4 on each side, a 4 ms slice), used for the
    concrete examples only. *)
Definition mainline (ncpus : Z) (smt : bool) : Config := {|
  MAX_RT_PRIO := 100;
  MAX_USER_RT_PRIO := 100;
  NICE_WIDTH := 40;
  MAX_PRIORITY_ADJ := 4;
  bmq_BITS := 50;
  IDLE_TASK_SCHED_PRIO := 49;
  CONFIG_SCHED_TIMESLICE := 4;
  nr_cpu_ids := ncpus;
  CONFIG_SCHED_SMT := smt;
|}.

(** ** Machine integers *)

Definition BITS_PER_LONG : Z := 64.

(** Two's complement wrap-around of a signed [w]-bit result. *)
Definition swrap (w z : Z) : Z := (z + 2 ^ (w - 1)) mod 2 ^ w - 2 ^ (w - 1).
(** Wrap-around of an unsigned [w]-bit result. *)
Definition uwrap (w z : Z) : Z := z mod 2 ^ w.

Definition int : Z -> Z := swrap 32.
Definition s64 : Z -> Z := swrap 64.
Definition u32 : Z -> Z := uwrap 32.
Definition u64 : Z -> Z := uwrap 64.
Definition ulong : Z -> Z := uwrap BITS_PER_LONG.

Definition fits_int (z : Z) : Prop := - 2 ^ 31 <= z < 2 ^ 31.
Definition fits_s64 (z : Z) : Prop := - 2 ^ 63 <= z < 2 ^ 63.
Definition fits_ulong (z : Z) : Prop := 0 <= z < 2 ^ 64.

(** ** Words as bitmaps *)

(** [__ffs]: index of the least significant set bit; the C helper is
    undefined on 0, here it yields 0. *)
Fixpoint ffs_pos (p : positive) : Z :=
  match p with
  | xO q => Z.succ (ffs_pos q)
  | _ => 0
  end.

Definition __ffs (word : Z) : Z :=
  match word with
  | Zpos p => ffs_pos p
  | _ => 0
  end.

(** [BITMAP_FIRST_WORD_MASK(start)] is [~0UL << (start & (BITS_PER_LONG - 1))]. *)
Definition BITMAP_FIRST_WORD_MASK (start : Z) : Z :=
  ulong (Z.shiftl (Z.ones BITS_PER_LONG) (Z.land start (BITS_PER_LONG - 1))).

(** The single-word variants, selected when [bmq_BITS] and [WM_BITS] fit
    in a long. *)
Definition bmq_find_first_bit (bm size : Z) : Z :=
  if bm =? 0 then size else __ffs bm.

Definition bmq_find_next_bit (bm size start : Z) : Z :=
  let tmp := Z.land bm (BITMAP_FIRST_WORD_MASK start) in
  if tmp =? 0 then size else __ffs tmp.

Definition set_bit (nr : Z) (bm : Z) : Z := Z.setbit bm nr.
Definition clear_bit (nr : Z) (bm : Z) : Z := Z.clearbit bm nr.

(** ** CPU masks *)

Definition cpumask_t := Z.

Definition cpumask_of (c : Z) : cpumask_t := Z.shiftl 1 c.
Definition cpumask_test_cpu (c : Z) (m : cpumask_t) : bool := Z.testbit m c.
Definition cpumask_set_cpu (c : Z) (m : cpumask_t) : cpumask_t := Z.setbit m c.
Definition cpumask_clear_cpu (c : Z) (m : cpumask_t) : cpumask_t := Z.clearbit m c.
Definition cpumask_and (a b : cpumask_t) : cpumask_t := Z.land a b.
Definition cpumask_andnot (a b : cpumask_t) : cpumask_t := Z.ldiff a b.
Definition cpumask_or (a b : cpumask_t) : cpumask_t := Z.lor a b.
Definition cpumask_empty (m : cpumask_t) : bool := m =? 0.
Definition cpumask_equal (a b : cpumask_t) : bool := a =? b.
Definition cpumask_intersects (a b : cpumask_t) : bool := negb (Z.land a b =? 0).

(** [cpumask_any_and] is [cpumask_first_and]: the lowest CPU in both masks,
    or a value [>= nr_cpu_ids] when there is none. *)
Definition cpumask_any_and `{Config} (a b : cpumask_t) : Z :=
  let m := Z.land a b in
  if m =? 0 then nr_cpu_ids else __ffs m.

(** ** Scheduling policies (user ABI numbers) and error codes *)

Definition SCHED_NORMAL : Z := 0.
Definition SCHED_FIFO : Z := 1.
Definition SCHED_RR : Z := 2.
Definition SCHED_BATCH : Z := 3.
Definition SCHED_IDLE : Z := 5.
Definition SCHED_DEADLINE : Z := 6.
Definition SCHED_RESET_ON_FORK : Z := 0x40000000.
Definition SCHED_FLAG_RESET_ON_FORK : Z := 0x01.
Definition SCHED_FLAG_ALL : Z := 0x7f.

Definition EPERM : Z := 1.
Definition ESRCH : Z := 3.
Definition EINVAL : Z := 22.

Definition TASK_RUNNING : Z := 0.
Definition TASK_NEW : Z := 0x0800.
Definition TASK_ON_RQ_QUEUED : Z := 1.
Definition TASK_ON_RQ_MIGRATING : Z := 2.

(** ** Task structure (scheduling view) *)

Record task_struct := mk_task {
  state : Z;
  policy : Z;                  (* p->policy, an unsigned int, read as an int *)
  prio : Z;
  static_prio : Z;
  normal_prio_of : Z;          (* p->normal_prio *)
  rt_priority : Z;
  boost_prio : Z;
  bmq_idx : Z;
  time_slice : Z;              (* s64, nanoseconds *)
  last_ran : Z;                (* u64 *)
  sched_time : Z;              (* u64 *)
  on_rq : Z;
  on_cpu : Z;
  task_cpu : Z;                (* p->cpu *)
  cpus_mask : cpumask_t;
  pi_top_task : option nat;
  sched_reset_on_fork : bool;
  need_resched : bool;         (* TIF_NEED_RESCHED *)
  has_mm : bool;               (* p->mm != NULL *)
}.

Definition set_state v t := mk_task v (policy t) (prio t) (static_prio t) (normal_prio_of t) (rt_priority t) (boost_prio t) (bmq_idx t) (time_slice t) (last_ran t) (sched_time t) (on_rq t) (on_cpu t) (task_cpu t) (cpus_mask t) (pi_top_task t) (sched_reset_on_fork t) (need_resched t) (has_mm t).
Definition set_policy v t := mk_task (state t) v (prio t) (static_prio t) (normal_prio_of t) (rt_priority t) (boost_prio t) (bmq_idx t) (time_slice t) (last_ran t) (sched_time t) (on_rq t) (on_cpu t) (task_cpu t) (cpus_mask t) (pi_top_task t) (sched_reset_on_fork t) (need_resched t) (has_mm t).
Definition set_prio v t := mk_task (state t) (policy t) v (static_prio t) (normal_prio_of t) (rt_priority t) (boost_prio t) (bmq_idx t) (time_slice t) (last_ran t) (sched_time t) (on_rq t) (on_cpu t) (task_cpu t) (cpus_mask t) (pi_top_task t) (sched_reset_on_fork t) (need_resched t) (has_mm t).
Definition set_static_prio v t := mk_task (state t) (policy t) (prio t) v (normal_prio_of t) (rt_priority t) (boost_prio t) (bmq_idx t) (time_slice t) (last_ran t) (sched_time t) (on_rq t) (on_cpu t) (task_cpu t) (cpus_mask t) (pi_top_task t) (sched_reset_on_fork t) (need_resched t) (has_mm t).
Definition set_normal_prio v t := mk_task (state t) (policy t) (prio t) (static_prio t) v (rt_priority t) (boost_prio t) (bmq_idx t) (time_slice t) (last_ran t) (sched_time t) (on_rq t) (on_cpu t) (task_cpu t) (cpus_mask t) (pi_top_task t) (sched_reset_on_fork t) (need_resched t) (has_mm t).
Definition set_rt_priority v t := mk_task (state t) (policy t) (prio t) (static_prio t) (normal_prio_of t) v (boost_prio t) (bmq_idx t) (time_slice t) (last_ran t) (sched_time t) (on_rq t) (on_cpu t) (task_cpu t) (cpus_mask t) (pi_top_task t) (sched_reset_on_fork t) (need_resched t) (has_mm t).
Definition set_boost_prio v t := mk_task (state t) (policy t) (prio t) (static_prio t) (normal_prio_of t) (rt_priority t) v (bmq_idx t) (time_slice t) (last_ran t) (sched_time t) (on_rq t) (on_cpu t) (task_cpu t) (cpus_mask t) (pi_top_task t) (sched_reset_on_fork t) (need_resched t) (has_mm t).
Definition set_bmq_idx v t := mk_task (state t) (policy t) (prio t) (static_prio t) (normal_prio_of t) (rt_priority t) (boost_prio t) v (time_slice t) (last_ran t) (sched_time t) (on_rq t) (on_cpu t) (task_cpu t) (cpus_mask t) (pi_top_task t) (sched_reset_on_fork t) (need_resched t) (has_mm t).
Definition set_time_slice v t := mk_task (state t) (policy t) (prio t) (static_prio t) (normal_prio_of t) (rt_priority t) (boost_prio t) (bmq_idx t) v (last_ran t) (sched_time t) (on_rq t) (on_cpu t) (task_cpu t) (cpus_mask t) (pi_top_task t) (sched_reset_on_fork t) (need_resched t) (has_mm t).
Definition set_last_ran v t := mk_task (state t) (policy t) (prio t) (static_prio t) (normal_prio_of t) (rt_priority t) (boost_prio t) (bmq_idx t) (time_slice t) v (sched_time t) (on_rq t) (on_cpu t) (task_cpu t) (cpus_mask t) (pi_top_task t) (sched_reset_on_fork t) (need_resched t) (has_mm t).
Definition set_sched_time v t := mk_task (state t) (policy t) (prio t) (static_prio t) (normal_prio_of t) (rt_priority t) (boost_prio t) (bmq_idx t) (time_slice t) (last_ran t) v (on_rq t) (on_cpu t) (task_cpu t) (cpus_mask t) (pi_top_task t) (sched_reset_on_fork t) (need_resched t) (has_mm t).
Definition set_on_rq v t := mk_task (state t) (policy t) (prio t) (static_prio t) (normal_prio_of t) (rt_priority t) (boost_prio t) (bmq_idx t) (time_slice t) (last_ran t) (sched_time t) v (on_cpu t) (task_cpu t) (cpus_mask t) (pi_top_task t) (sched_reset_on_fork t) (need_resched t) (has_mm t).
Definition set_on_cpu v t := mk_task (state t) (policy t) (prio t) (static_prio t) (normal_prio_of t) (rt_priority t) (boost_prio t) (bmq_idx t) (time_slice t) (last_ran t) (sched_time t) (on_rq t) v (task_cpu t) (cpus_mask t) (pi_top_task t) (sched_reset_on_fork t) (need_resched t) (has_mm t).
Definition set_task_cpu_field v t := mk_task (state t) (policy t) (prio t) (static_prio t) (normal_prio_of t) (rt_priority t) (boost_prio t) (bmq_idx t) (time_slice t) (last_ran t) (sched_time t) (on_rq t) (on_cpu t) v (cpus_mask t) (pi_top_task t) (sched_reset_on_fork t) (need_resched t) (has_mm t).
Definition set_pi_top_task v t := mk_task (state t) (policy t) (prio t) (static_prio t) (normal_prio_of t) (rt_priority t) (boost_prio t) (bmq_idx t) (time_slice t) (last_ran t) (sched_time t) (on_rq t) (on_cpu t) (task_cpu t) (cpus_mask t) v (sched_reset_on_fork t) (need_resched t) (has_mm t).
Definition set_sched_reset_on_fork v t := mk_task (state t) (policy t) (prio t) (static_prio t) (normal_prio_of t) (rt_priority t) (boost_prio t) (bmq_idx t) (time_slice t) (last_ran t) (sched_time t) (on_rq t) (on_cpu t) (task_cpu t) (cpus_mask t) (pi_top_task t) v (need_resched t) (has_mm t).
Definition set_need_resched v t := mk_task (state t) (policy t) (prio t) (static_prio t) (normal_prio_of t) (rt_priority t) (boost_prio t) (bmq_idx t) (time_slice t) (last_ran t) (sched_time t) (on_rq t) (on_cpu t) (task_cpu t) (cpus_mask t) (pi_top_task t) (sched_reset_on_fork t) v (has_mm t).

(** ** Priority queue and runqueue *)

Record bmq := mk_bmq {
  bitmap : Z;
  heads : list (list nat);     (* heads[bmq_BITS], each a list of task addresses *)
}.

Record rq := mk_rq {
  queue : bmq;
  watermark : Z;               (* unsigned long *)
  nr_running : Z;              (* unsigned long *)
  cpu : Z;
  curr : nat;
  idle : nat;
  stop : option nat;
  skip : option nat;
  clock : Z;                   (* u64 *)
  clock_task : Z;              (* u64 *)
  last_ts_switch : Z;          (* u64 *)
  online : bool;
}.

Definition set_queue v r := mk_rq v (watermark r) (nr_running r) (cpu r) (curr r) (idle r) (stop r) (skip r) (clock r) (clock_task r) (last_ts_switch r) (online r).
Definition set_watermark v r := mk_rq (queue r) v (nr_running r) (cpu r) (curr r) (idle r) (stop r) (skip r) (clock r) (clock_task r) (last_ts_switch r) (online r).
Definition set_nr_running v r := mk_rq (queue r) (watermark r) v (cpu r) (curr r) (idle r) (stop r) (skip r) (clock r) (clock_task r) (last_ts_switch r) (online r).
Definition set_skip v r := mk_rq (queue r) (watermark r) (nr_running r) (cpu r) (curr r) (idle r) (stop r) v (clock r) (clock_task r) (last_ts_switch r) (online r).

Definition cpu_of (r : rq) : Z := cpu r.

(** ** Global scheduler state *)

Record sched := mk_sched {
  tasks : gmap nat task_struct;
  runqueues : list rq;                         (* per-CPU, indexed by CPU *)
  sched_rq_watermark : list cpumask_t;         (* [WM_BITS] *)
  sched_rq_watermark_bitmap : Z;
  sched_rq_pending_mask : cpumask_t;
  sched_yield_type : Z;
  cpu_online_mask : cpumask_t;
  sched_smt_present : bool;
  cpu_smt_masks : list cpumask_t;              (* cpu_smt_mask(cpu) *)
  sched_cpu_affinity_chk_masks : list (list cpumask_t);
}.

Definition set_tasks v s := mk_sched v (runqueues s) (sched_rq_watermark s) (sched_rq_watermark_bitmap s) (sched_rq_pending_mask s) (sched_yield_type s) (cpu_online_mask s) (sched_smt_present s) (cpu_smt_masks s) (sched_cpu_affinity_chk_masks s).
Definition set_runqueues v s := mk_sched (tasks s) v (sched_rq_watermark s) (sched_rq_watermark_bitmap s) (sched_rq_pending_mask s) (sched_yield_type s) (cpu_online_mask s) (sched_smt_present s) (cpu_smt_masks s) (sched_cpu_affinity_chk_masks s).
Definition set_sched_rq_watermark v s := mk_sched (tasks s) (runqueues s) v (sched_rq_watermark_bitmap s) (sched_rq_pending_mask s) (sched_yield_type s) (cpu_online_mask s) (sched_smt_present s) (cpu_smt_masks s) (sched_cpu_affinity_chk_masks s).
Definition set_sched_rq_watermark_bitmap v s := mk_sched (tasks s) (runqueues s) (sched_rq_watermark s) v (sched_rq_pending_mask s) (sched_yield_type s) (cpu_online_mask s) (sched_smt_present s) (cpu_smt_masks s) (sched_cpu_affinity_chk_masks s).
Definition set_sched_rq_pending_mask v s := mk_sched (tasks s) (runqueues s) (sched_rq_watermark s) (sched_rq_watermark_bitmap s) v (sched_yield_type s) (cpu_online_mask s) (sched_smt_present s) (cpu_smt_masks s) (sched_cpu_affinity_chk_masks s).

(** Array accesses: an index outside the array is an error. *)
Definition zlookup {A} (l : list A) (i : Z) : option A :=
  if 0 <=? i then l !! Z.to_nat i else None.

Definition zupdate {A} (l : list A) (i : Z) (x : A) : option (list A) :=
  if (0 <=? i) && (i <? Z.of_nat (length l)) then Some (<[Z.to_nat i := x]> l) else None.

Definition get_rq (s : sched) (c : Z) : option rq := zlookup (runqueues s) c.
Definition put_rq (s : sched) (c : Z) (r : rq) : option sched :=
  rqs ← zupdate (runqueues s) c r; Some (set_runqueues rqs s).
Definition get_task (s : sched) (p : nat) : option task_struct := tasks s !! p.
Definition put_task (s : sched) (p : nat) (t : task_struct) : sched :=
  set_tasks (<[p := t]> (tasks s)) s.

(** ** The scheduler functions *)

Section Scheduler.
Context `{cfg : Config}.

Definition MAX_PRIO : Z := MAX_RT_PRIO + NICE_WIDTH.
Definition DEFAULT_PRIO : Z := MAX_RT_PRIO + NICE_WIDTH / 2.
Definition NICE_TO_PRIO (nice : Z) : Z := nice + DEFAULT_PRIO.
Definition PRIO_TO_NICE (prio : Z) : Z := prio - DEFAULT_PRIO.

Definition STOP_PRIO : Z := MAX_RT_PRIO - 1.
Definition SCHED_TIMESLICE_NS : Z := CONFIG_SCHED_TIMESLICE * 1000 * 1000.
Definition RESCHED_NS : Z := 100 * 1000.

Definition WM_BITS : Z := bmq_BITS + 1.
Definition IDLE_WM : Z := 1.
Definition SCHED_PRIO2WATERMARK (prio : Z) : Z := IDLE_TASK_SCHED_PRIO - prio + 1.

Definition rt_prio (prio : Z) : bool := prio <? MAX_RT_PRIO.
Definition rt_task (p : task_struct) : bool := rt_prio (prio p).
Definition rt_policy (pol : Z) : bool := (pol =? SCHED_FIFO) || (pol =? SCHED_RR).
Definition task_has_rt_policy (p : task_struct) : bool := rt_policy (policy p).
Definition task_on_rq_queued (p : task_struct) : bool := on_rq p =? TASK_ON_RQ_QUEUED.

(** *** Boost and deboost *)

Definition rq_switch_time (r : rq) : Z := u64 (clock r - last_ts_switch r).
Definition boost_threshold (p : task_struct) : Z :=
  Z.shiftr SCHED_TIMESLICE_NS (int (int (10 - MAX_PRIORITY_ADJ) - boost_prio p)).

Definition boost_limit (p : task_struct) : option Z :=
  if policy p =? SCHED_NORMAL then Some (int (- MAX_PRIORITY_ADJ))
  else if (policy p =? SCHED_BATCH) || (policy p =? SCHED_IDLE) then Some 0
  else None.

Definition boost_task (p : task_struct) (r : rq) : task_struct :=
  match boost_limit p with
  | None => p
  | Some limit =>
      if (limit <? boost_prio p) && (rq_switch_time r <? u64 (boost_threshold p))
      then set_boost_prio (int (boost_prio p - 1)) p
      else p
  end.

Definition deboost_task (p : task_struct) : task_struct :=
  if boost_prio p <? MAX_PRIORITY_ADJ
  then set_boost_prio (int (boost_prio p + 1)) p
  else p.

(** *** Queue index of a task *)

Definition task_sched_prio (p : task_struct) : Z :=
  if prio p <? MAX_RT_PRIO then 0
  else int (int (prio p - MAX_RT_PRIO) + boost_prio p).

Definition normal_prio (p : task_struct) : Z :=
  if task_has_rt_policy p then int (int (MAX_RT_PRIO - 1) - rt_priority p)
  else int (static_prio p + MAX_PRIORITY_ADJ).

(** [effective_prio] also stores [normal_prio]; it returns the task and the
    priority. *)
Definition effective_prio (p : task_struct) : task_struct * Z :=
  let p1 := set_normal_prio (normal_prio p) p in
  if negb (rt_prio (prio p1)) then (p1, normal_prio_of p1) else (p1, prio p1).

(** *** The bitmap queue *)

(** Level 0 is kept ordered by [prio]: the new node goes in front of the
    first task of strictly larger [prio]. *)
Fixpoint prio_insert (ts : gmap nat task_struct) (pprio : Z) (p : nat)
    (l : list nat) : option (list nat) :=
  match l with
  | [] => Some [p]
  | n :: l' =>
      t ← ts !! n;
      if pprio <? prio t then Some (p :: n :: l')
      else l'' ← prio_insert ts pprio p l'; Some (n :: l'')
  end.

Definition bmq_add_task (ts : gmap nat task_struct) (p : nat) (q : bmq)
    (idx : Z) : option bmq :=
  l ← zlookup (heads q) idx;
  l' ← (if negb (idx =? 0) then Some (l ++ [p])
        else pt ← ts !! p; prio_insert ts (prio pt) p l);
  hs ← zupdate (heads q) idx l';
  Some (mk_bmq (bitmap q) hs).

(** [list_del(&p->bmq_node)]: the node leaves the list it is linked in. *)
Definition list_del (p : nat) (q : bmq) : bmq :=
  mk_bmq (bitmap q) (filter (λ n, n ≠ p) <$> heads q).

Definition list_empty (q : bmq) (idx : Z) : option bool :=
  l ← zlookup (heads q) idx;
  Some (match l with [] => true | _ => false end).

Definition rq_first_bmq_task (r : rq) : option nat :=
  let idx := bmq_find_first_bit (bitmap (queue r)) bmq_BITS in
  l ← zlookup (heads (queue r)) idx;
  head l.

Definition bmq_init : bmq := mk_bmq 0 (replicate (Z.to_nat bmq_BITS) []).

Definition bmq_init_idle (q : bmq) (idle_task : nat) : option bmq :=
  hs ← zupdate (heads q) IDLE_TASK_SCHED_PRIO [idle_task];
  Some (mk_bmq (set_bit IDLE_TASK_SCHED_PRIO (bitmap q)) hs).

(** *** Watermark publication *)

Definition update_sched_rq_watermark (s : sched) (c : Z) : option sched :=
  r ← get_rq s c;
  let first := bmq_find_first_bit (bitmap (queue r)) bmq_BITS in
  let last_wm := watermark r in
  if bmq_BITS =? first then None else
  let wm := ulong (SCHED_PRIO2WATERMARK first) in
  if wm =? last_wm then Some s else
  let this := cpu_of r in
  old ← zlookup (sched_rq_watermark s) last_wm;
  let old' := cpumask_andnot old (cpumask_of this) in
  masks1 ← zupdate (sched_rq_watermark s) last_wm old';
  let bm1 := if cpumask_empty old' then clear_bit last_wm (sched_rq_watermark_bitmap s)
             else sched_rq_watermark_bitmap s in
  new ← zlookup masks1 wm;
  masks2 ← zupdate masks1 wm (cpumask_set_cpu this new);
  let bm2 := set_bit wm bm1 in
  s1 ← put_rq s c (set_watermark wm r);
  let s2 := set_sched_rq_watermark_bitmap bm2 (set_sched_rq_watermark masks2 s1) in
  if negb CONFIG_SCHED_SMT || negb (sched_smt_present s) then Some s2 else
  smt ← zlookup (cpu_smt_masks s) this;
  if 1 =? last_wm then
    w0 ← zlookup masks2 0;
    let w0' := cpumask_andnot w0 smt in
    masks3 ← zupdate masks2 0 w0';
    let bm3 := if cpumask_empty w0' then clear_bit 0 bm2 else bm2 in
    Some (set_sched_rq_watermark_bitmap bm3 (set_sched_rq_watermark masks3 s2))
  else if 1 =? wm then
    idle_cpus ← zlookup masks2 IDLE_WM;
    let tmp := cpumask_and smt idle_cpus in
    if cpumask_equal tmp smt then
      w0 ← zlookup masks2 0;
      masks3 ← zupdate masks2 0 (cpumask_or smt w0);
      Some (set_sched_rq_watermark_bitmap (set_bit 0 bm2) (set_sched_rq_watermark masks3 s2))
    else Some s2
  else Some s2.

(** *** Enqueue, dequeue, requeue *)

Definition set_rq_bit (idx : Z) (q : bmq) : bmq := mk_bmq (set_bit idx (bitmap q)) (heads q).
Definition clear_rq_bit (idx : Z) (q : bmq) : bmq := mk_bmq (clear_bit idx (bitmap q)) (heads q).

Definition dequeue_task (s : sched) (p : nat) (c : Z) : option sched :=
  r ← get_rq s c;
  t ← get_task s p;
  let q := list_del p (queue r) in
  e ← list_empty q (bmq_idx t);
  s1 ← (if e : bool then
          put_rq s c (set_queue (clear_rq_bit (bmq_idx t) q) r)
            ≫= (λ s', update_sched_rq_watermark s' c)
        else put_rq s c (set_queue q r));
  r1 ← get_rq s1 c;
  let n := ulong (nr_running r1 - 1) in
  s2 ← put_rq s1 c (set_nr_running n r1);
  Some (if 1 =? n
        then set_sched_rq_pending_mask
               (cpumask_clear_cpu (cpu_of r1) (sched_rq_pending_mask s2)) s2
        else s2).

Definition enqueue_task (s : sched) (p : nat) (c : Z) : option sched :=
  r ← get_rq s c;
  t ← get_task s p;
  let idx := task_sched_prio t in
  let s0 := put_task s p (set_bmq_idx idx t) in
  q ← bmq_add_task (tasks s0) p (queue r) idx;
  s' ← put_rq s0 c (set_queue (set_rq_bit idx q) r);
  s1 ← update_sched_rq_watermark s' c;
  r1 ← get_rq s1 c;
  let n := ulong (nr_running r1 + 1) in
  s2 ← put_rq s1 c (set_nr_running n r1);
  Some (if 2 =? n
        then set_sched_rq_pending_mask
               (cpumask_set_cpu (cpu_of r1) (sched_rq_pending_mask s2)) s2
        else s2).

Definition requeue_task (s : sched) (p : nat) (c : Z) : option sched :=
  r ← get_rq s c;
  t ← get_task s p;
  let idx := task_sched_prio t in
  q ← bmq_add_task (tasks s) p (list_del p (queue r)) idx;
  if negb (idx =? bmq_idx t) then
    e ← list_empty q (bmq_idx t);
    let q1 := if e : bool then clear_rq_bit (bmq_idx t) q else q in
    s' ← put_rq (put_task s p (set_bmq_idx idx t)) c (set_queue (set_rq_bit idx q1) r);
    update_sched_rq_watermark s' c
  else put_rq s c (set_queue q r).

(** Returns the new state and the C return value. *)
Definition requeue_task_lazy (s : sched) (p : nat) (c : Z) : option (sched * Z) :=
  r ← get_rq s c;
  t ← get_task s p;
  let idx := task_sched_prio t in
  if idx =? bmq_idx t then Some (s, 0) else
  q ← bmq_add_task (tasks s) p (list_del p (queue r)) idx;
  e ← list_empty q (bmq_idx t);
  let q1 := if e : bool then clear_rq_bit (bmq_idx t) q else q in
  s' ← put_rq (put_task s p (set_bmq_idx idx t)) c (set_queue (set_rq_bit idx q1) r);
  s1 ← update_sched_rq_watermark s' c;
  Some (s1, 1).

(** The nodes that follow [p] in a list ([None] when [p] is not linked). *)
Fixpoint nodes_after (p : nat) (l : list nat) : option (list nat) :=
  match l with
  | [] => None
  | n :: l' => if bool_decide (n = p) then Some l' else nodes_after p l'
  end.

Definition rq_next_bmq_task (s : sched) (p : nat) (r : rq) : option nat :=
  t ← get_task s p;
  l ← zlookup (heads (queue r)) (bmq_idx t);
  rest ← nodes_after p l;
  match rest with
  | n :: _ => Some n
  | [] =>
      let idx := bmq_find_next_bit (bitmap (queue r)) bmq_BITS (ulong (bmq_idx t + 1)) in
      l' ← zlookup (heads (queue r)) idx;
      head l'
  end.

Definition rq_runnable_task (s : sched) (r : rq) : option nat :=
  next ← rq_first_bmq_task r;
  if bool_decide (Some next = skip r) then rq_next_bmq_task s next r else Some next.

(** [activate_task]/[deactivate_task], without the load accounting. *)
Definition activate_task (s : sched) (p : nat) (c : Z) : option sched :=
  s1 ← enqueue_task s p c;
  t ← get_task s1 p;
  Some (put_task s1 p (set_on_rq 1 t)).

Definition deactivate_task (s : sched) (p : nat) (c : Z) : option sched :=
  s1 ← dequeue_task s p c;
  t ← get_task s1 p;
  Some (put_task s1 p (set_on_rq 0 t)).

(** *** Rescheduling marks and preemption check *)

(** [resched_curr]: in every branch the current task of the runqueue ends
    up with [TIF_NEED_RESCHED] set (the cross-CPU interrupt is outside the
    model). *)
Definition resched_curr (s : sched) (c : Z) : option sched :=
  r ← get_rq s c;
  t ← get_task s (curr r);
  if need_resched t then Some s
  else Some (put_task s (curr r) (set_need_resched true t)).

Definition check_preempt_curr (s : sched) (c : Z) (p : nat) : option sched :=
  r ← get_rq s c;
  tc ← get_task s (curr r);
  s1 ← (if MAX_PRIO =? prio tc then resched_curr s c else Some s);
  r1 ← get_rq s1 c;
  first ← rq_first_bmq_task r1;
  if bool_decide (first = p) then resched_curr s1 c else Some s1.

Definition check_task_changed (s : sched) (c : Z) (p : nat) : option sched :=
  t ← get_task s p;
  if task_on_rq_queued t then
    res ← requeue_task_lazy s p c;
    if negb (res.2 =? 0) then check_preempt_curr res.1 c p else Some res.1
  else Some s.

(** *** Time-slice accounting *)

Definition update_curr (r : rq) (p : task_struct) : task_struct :=
  let ns := s64 (u64 (clock_task r - last_ran p)) in
  set_last_ran (clock_task r)
    (set_time_slice (s64 (time_slice p - ns))
       (set_sched_time (u64 (sched_time p + ns)) p)).

Definition check_curr (s : sched) (p : nat) (c : Z) : option sched :=
  r ← get_rq s c;
  if bool_decide (idle r = p) then Some s else
  t ← get_task s p;
  let t1 := update_curr r t in
  if time_slice t1 <? RESCHED_NS then
    let t2 := set_time_slice SCHED_TIMESLICE_NS t1 in
    if negb (SCHED_FIFO =? policy t2) && task_on_rq_queued t2 then
      let t3 := if negb (SCHED_RR =? policy t2) then deboost_task t2 else t2 in
      requeue_task (put_task s p t3) p c
    else Some (put_task s p t2)
  else Some (put_task s p t1).

(** *** Fork *)

(** [p] is the child, already copied from the parent; [current] is the
    forking task and [c] the CPU it runs on.  The C function returns 0. *)
Definition sched_fork (s : sched) (p : nat) (c : Z) (current : nat) : option sched :=
  r ← get_rq s c;
  t ← get_task s p;
  cur ← get_task s current;
  let t := set_sched_time 0 (set_on_rq 0 (set_on_cpu 0 t)) in
  let t := set_state TASK_NEW t in
  let t := set_prio (normal_prio_of cur) t in
  let t :=
    if sched_reset_on_fork t then
      let t :=
        if task_has_rt_policy t then
          set_rt_priority 0 (set_static_prio (NICE_TO_PRIO 0) (set_policy SCHED_NORMAL t))
        else if PRIO_TO_NICE (static_prio t) <? 0 then set_static_prio (NICE_TO_PRIO 0) t
        else t in
      let np := normal_prio t in
      set_sched_reset_on_fork false (set_prio np (set_normal_prio np t))
    else t in
  let t := set_boost_prio MAX_PRIORITY_ADJ t in
  let s := put_task s p t in
  parent ← get_task s (curr r);
  let s := put_task s (curr r) (set_time_slice (Z.quot (time_slice parent) 2) parent) in
  parent ← get_task s (curr r);
  t ← get_task s p;
  let s := put_task s p (set_time_slice (time_slice parent) t) in
  t ← get_task s p;
  s ← (if time_slice t <? RESCHED_NS then
         resched_curr (put_task s p (set_time_slice SCHED_TIMESLICE_NS t)) c
       else Some s);
  t ← get_task s p;
  Some (put_task s p (set_task_cpu_field c t)).

(** *** Yield *)

(** The result is the state handed to [schedule()] and whether
    [schedule()] is called at all. *)
Definition do_sched_yield (s : sched) (c : Z) (current : nat) : option (sched * bool) :=
  if sched_yield_type s =? 0 then Some (s, false) else
  r ← get_rq s c;
  s1 ← (if 1 =? sched_yield_type s then
          t ← get_task s current;
          if negb (rt_task t) then
            requeue_task (put_task s current (set_boost_prio MAX_PRIORITY_ADJ t)) current c
          else Some s
        else if 2 =? sched_yield_type s then
          if 1 <? nr_running r then put_rq s c (set_skip (Some current) r) else Some s
        else Some s);
  Some (s1, true).

Definition sys_sched_yield (s : sched) (c : Z) (current : nat) : option (sched * Z) :=
  res ← do_sched_yield s c current;
  Some (res.1, 0).

(** *** Choosing the next task *)

Section ChooseNext.
(** The pull from other runqueues: the new state and the C return value. *)
Variable take_other_rq_tasks : sched -> Z -> option (sched * Z).

Definition choose_next_task (s : sched) (c : Z) : option (sched * nat) :=
  r ← get_rq s c;
  match skip r with
  | Some _ =>
      next ← rq_runnable_task s r;
      res ← (if online r && bool_decide (next = idle r) then
               pulled ← take_other_rq_tasks s c;
               if negb (pulled.2 =? 0) then
                 r1 ← get_rq pulled.1 c;
                 next' ← rq_runnable_task pulled.1 r1;
                 Some (pulled.1, next')
               else Some (pulled.1, next)
             else Some (s, next));
      r2 ← get_rq res.1 c;
      s2 ← put_rq res.1 c (set_skip None r2);
      Some (s2, res.2)
  | None =>
      next ← rq_first_bmq_task r;
      if online r && bool_decide (next = idle r) then
        pulled ← take_other_rq_tasks s c;
        if negb (pulled.2 =? 0) then
          r1 ← get_rq pulled.1 c;
          next' ← rq_first_bmq_task r1;
          Some (pulled.1, next')
        else Some (pulled.1, next)
      else Some (s, next)
  end.

End ChooseNext.

(** *** Priority inheritance *)

Definition __rt_effective_prio (s : sched) (pi_task : option nat) (prio0 : Z) : option Z :=
  match pi_task with
  | Some d => dt ← get_task s d; Some (Z.min prio0 (prio dt))
  | None => Some prio0
  end.

Definition rt_effective_prio (s : sched) (p : task_struct) (prio0 : Z) : option Z :=
  __rt_effective_prio s (pi_top_task p) prio0.

Definition rt_mutex_setprio (s : sched) (p : nat) (pi_task : option nat) : option sched :=
  t ← get_task s p;
  new_prio ← __rt_effective_prio s pi_task (normal_prio_of t);
  if bool_decide (pi_top_task t = pi_task) && (new_prio =? prio t) then Some s else
  let c := task_cpu t in
  r ← get_rq s c;
  let t1 := set_pi_top_task pi_task t in
  let s1 := put_task s p t1 in
  if new_prio =? prio t1 then Some s1 else
  if bool_decide (p = idle r) then Some s1 else
  check_task_changed (put_task s1 p (set_prio new_prio t1)) c p.

(** *** Policy and priority changes *)

Record sched_attr := mk_attr {
  sched_policy : Z;            (* u32 *)
  sched_flags : Z;             (* u64 *)
  sched_nice : Z;              (* s32 *)
  sched_priority : Z;          (* u32 *)
}.

(** What the permission hooks answer for the calling context. *)
Record caller := mk_caller {
  capable_sys_nice : bool;               (* capable(CAP_SYS_NICE) *)
  rlimit_rtprio : Z;                     (* task_rlimit(p, RLIMIT_RTPRIO) *)
  same_owner : bool;                     (* check_same_owner(p) *)
  security_task_setscheduler : Z;        (* return value of the LSM hook *)
}.

Definition SETPARAM_POLICY : Z := -1.

Definition __setscheduler_params (p : task_struct) (attr : sched_attr) : task_struct :=
  let pol := int (sched_policy attr) in
  let pol := if pol =? SETPARAM_POLICY then policy p else pol in
  let p := set_policy pol p in
  let p := set_static_prio (int (NICE_TO_PRIO (sched_nice attr))) p in
  let p := set_rt_priority (sched_priority attr) p in
  set_normal_prio (normal_prio p) p.

Definition __setscheduler (s : sched) (p : task_struct) (attr : sched_attr)
    (keep_boost : bool) : option task_struct :=
  let p := __setscheduler_params p attr in
  let p := set_prio (normal_prio p) p in
  if keep_boost then np ← rt_effective_prio s p (prio p); Some (set_prio np p)
  else Some p.

Definition dl_squash_attr : sched_attr := mk_attr SCHED_FIFO 0 0 99.

(** The body from the [recheck] label on; [fuel] bounds the number of
    passes through the label. *)
Fixpoint setscheduler_recheck (fuel : nat) (who : caller) (s : sched) (p : nat)
    (attr : sched_attr) (user pi : bool) (newprio pol oldpolicy : Z)
    : option (sched * Z) :=
  match fuel with
  | O => None
  | S fuel' =>
    t ← get_task s p;
    let reset_on_fork :=
      if pol <? 0 then sched_reset_on_fork t
      else negb (Z.land (sched_flags attr) SCHED_RESET_ON_FORK =? 0) in
    let oldpolicy := if pol <? 0 then policy t else oldpolicy in
    let bad_policy := negb (pol <? 0) && (SCHED_IDLE <? pol) in
    let pol := if pol <? 0 then policy t else pol in
    if bad_policy then Some (s, - EINVAL) else
    if negb (Z.land (sched_flags attr) (u64 (Z.lnot SCHED_FLAG_ALL)) =? 0)
    then Some (s, - EINVAL) else
    if (has_mm t && (u32 (MAX_USER_RT_PRIO - 1) <? sched_priority attr))
       || (negb (has_mm t) && (u32 (MAX_RT_PRIO - 1) <? sched_priority attr))
    then Some (s, - EINVAL) else
    if negb (eqb ((SCHED_RR =? pol) || (SCHED_FIFO =? pol))
                 (negb (sched_priority attr =? 0)))
    then Some (s, - EINVAL) else
    let perm :=
      if user && negb (capable_sys_nice who) then
        if ((SCHED_FIFO =? pol) || (SCHED_RR =? pol))
           && (negb (pol =? policy t) && (rlimit_rtprio who =? 0)
               || (rt_priority t <? sched_priority attr)
                  && (rlimit_rtprio who <? sched_priority attr))
        then false
        else if negb (same_owner who) then false
        else if sched_reset_on_fork t && negb reset_on_fork then false
        else true
      else true in
    if negb perm then Some (s, - EPERM) else
    if user && negb (security_task_setscheduler who =? 0)
    then Some (s, security_task_setscheduler who) else
    let c := task_cpu t in
    r ← get_rq s c;
    if bool_decide (Some p = stop r) then Some (s, - EINVAL) else
    let unchanged :=
      (pol =? policy t)
      && negb (rt_policy pol && negb (sched_priority attr =? rt_priority t))
      && negb (negb (rt_policy pol)
               && negb (int (NICE_TO_PRIO (sched_nice attr)) =? static_prio t)) in
    if unchanged then
      Some (put_task s p (set_sched_reset_on_fork reset_on_fork t), 0)
    else
    if negb (oldpolicy =? -1) && negb (oldpolicy =? policy t) then
      setscheduler_recheck fuel' who s p attr user pi newprio (-1) (-1)
    else
    let t1 := set_sched_reset_on_fork reset_on_fork t in
    eff ← (if pi then rt_effective_prio s t1 newprio else Some newprio);
    if pi && (eff =? prio t1) then
      Some (put_task s p (__setscheduler_params t1 attr), 0)
    else
      t2 ← __setscheduler s t1 attr pi;
      s2 ← check_task_changed (put_task s p t2) c p;
      Some (s2, 0)
  end.

Definition __sched_setscheduler (who : caller) (s : sched) (p : nat)
    (attr : sched_attr) (user pi : bool) : option (sched * Z) :=
  let newprio := int (MAX_RT_PRIO - 1 - sched_priority attr) in
  let pol := int (sched_policy attr) in
  let squash := SCHED_DEADLINE =? pol in
  let attr := if squash then dl_squash_attr else attr in
  let pol := if squash then int (sched_policy attr) else pol in
  let newprio := if squash then int (MAX_RT_PRIO - 1 - sched_priority attr)
                 else newprio in
  setscheduler_recheck 2 who s p attr user pi newprio pol (-1).

Definition _sched_setscheduler (who : caller) (s : sched) (p : nat) (pol : Z)
    (param_priority : Z) (check : bool) : option (sched * Z) :=
  t ← get_task s p;
  let legacy := negb (pol =? SETPARAM_POLICY)
                && negb (Z.land pol SCHED_RESET_ON_FORK =? 0) in
  let attr := mk_attr (u32 (if legacy then Z.land pol (Z.lnot SCHED_RESET_ON_FORK) else pol))
                      (if legacy then SCHED_FLAG_RESET_ON_FORK else 0)
                      (PRIO_TO_NICE (static_prio t))
                      (u32 param_priority) in
  __sched_setscheduler who s p attr check true.

Definition sched_setscheduler (who : caller) (s : sched) (p : nat) (pol : Z)
    (param_priority : Z) : option (sched * Z) :=
  _sched_setscheduler who s p pol param_priority true.

(** The system call, after the parameter block was copied in and the task
    looked up ([None] for an unknown pid). *)
Definition sys_sched_setscheduler (who : caller) (s : sched) (p : option nat)
    (pol : Z) (param_priority : Z) : option (sched * Z) :=
  if pol <? 0 then Some (s, - EINVAL) else
  match p with
  | None => Some (s, - ESRCH)
  | Some p => sched_setscheduler who s p pol param_priority
  end.

(** *** CPU selection at wakeup *)

Fixpoint best_mask_scan (cpumask : cpumask_t) (masks : list cpumask_t) : option Z :=
  match masks with
  | [] => None
  | m :: rest =>
      let c := cpumask_any_and cpumask m in
      if nr_cpu_ids <=? c then best_mask_scan cpumask rest else Some c
  end.

Definition best_mask_cpu (s : sched) (c : Z) (cpumask : cpumask_t) : option Z :=
  if cpumask_test_cpu c cpumask then Some c
  else masks ← zlookup (sched_cpu_affinity_chk_masks s) c; best_mask_scan cpumask masks.

Fixpoint select_scan (fuel : nat) (s : sched) (chk_mask : cpumask_t)
    (preempt_level : Z) (tcpu : Z) (level : Z) : option Z :=
  match fuel with
  | O => None
  | S fuel' =>
      if level <? preempt_level then
        m ← zlookup (sched_rq_watermark s) level;
        let tmp := cpumask_and chk_mask m in
        if negb (cpumask_empty tmp) then best_mask_cpu s tcpu tmp
        else select_scan fuel' s chk_mask preempt_level tcpu
               (bmq_find_next_bit (sched_rq_watermark_bitmap s) WM_BITS (ulong (level + 1)))
      else best_mask_cpu s tcpu chk_mask
  end.

Section SelectTaskRq.
(** [select_fallback_rq] is only reached when no allowed CPU is online. *)
Variable select_fallback_rq : sched -> Z -> nat -> option Z.

Definition select_task_rq (s : sched) (p : nat) : option Z :=
  t ← get_task s p;
  let chk_mask := cpumask_and (cpus_mask t) (cpu_online_mask s) in
  if cpumask_empty chk_mask then select_fallback_rq s (task_cpu t) p else
  let preempt_level := ulong (int (SCHED_PRIO2WATERMARK (task_sched_prio t))) in
  let level := bmq_find_first_bit (sched_rq_watermark_bitmap s) WM_BITS in
  select_scan (Z.to_nat WM_BITS + 1) s chk_mask preempt_level (task_cpu t) level.

End SelectTaskRq.

End Scheduler.

(** * Specification-level definitions *)

Definition clamp (lo hi z : Z) : Z := Z.max lo (Z.min hi z).

(** The configuration of the examples: one CPU, no SMT. *)
Definition cfg1 : Config := mainline 1 false.

(** A NORMAL task at nice -20 that has been boosted down to the limit. *)
Definition boosted_nice_m20 : task_struct :=
  mk_task TASK_RUNNING SCHED_NORMAL 104 100 104 0 (-4) 0 4000000 0 0
          TASK_ON_RQ_QUEUED 0 0 1 None false false true.

(** ** Runqueue invariants *)

Section Invariants.
Context `{cfg : Config}.

(** Requirements on the constants: the single-word bitmap variants are the
    ones compiled in, and the idle level is the last one. *)
Definition config_ok : Prop :=
  0 < bmq_BITS /\ WM_BITS <= BITS_PER_LONG /\ IDLE_TASK_SCHED_PRIO = bmq_BITS - 1.

(** [p] is linked in some level of the queue of [r]. *)
Definition queued (r : rq) (p : nat) : Prop :=
  exists l hs, zlookup (heads (queue r)) l = Some hs /\ p ∈ hs.

(** Number of nodes linked in a queue. *)
Definition nr_queued (hs : list (list nat)) : Z :=
  Z.of_nat (sum_list (length <$> hs)).


Definition smt_active (s : sched) : bool := CONFIG_SCHED_SMT && sched_smt_present s.

(** I3: the cached watermark is the one of the first set bit. *)
Definition wm_current (r : rq) : Prop :=
  watermark r
  = SCHED_PRIO2WATERMARK (bmq_find_first_bit (bitmap (queue r)) bmq_BITS).

(** Everything else that holds of runqueue [c] under its lock.  [k] is the
    number of nodes linked or unlinked since [nr_running] was last
    updated (0 outside enqueue and dequeue). *)
Record rq_body (s : sched) (c : Z) (r : rq) (k : Z) : Prop := {
  inv_cpu : cpu r = c;
  inv_heads_len : Z.of_nat (length (heads (queue r))) = bmq_BITS;
  inv_bitmap_nonneg : 0 <= bitmap (queue r);
  inv_bitmap_high : forall j, bmq_BITS <= j -> Z.testbit (bitmap (queue r)) j = false;
  (* I5 *)
  inv_bitmap : forall l hs, zlookup (heads (queue r)) l = Some hs ->
      (Z.testbit (bitmap (queue r)) l = true <-> hs ≠ []);
  (* I4 *)
  inv_level : forall l hs p, zlookup (heads (queue r)) l = Some hs -> p ∈ hs ->
      exists t, get_task s p = Some t /\ bmq_idx t = l;
  inv_nodup : forall l hs, zlookup (heads (queue r)) l = Some hs -> NoDup hs;
  inv_idle : queued r (idle r);
  (* I2 *)
  inv_nr : nr_running r + 1 + k = nr_queued (heads (queue r));
  inv_nr_fit : fits_ulong (nr_running r);
  (* watermark map *)
  inv_wm_range : 1 <= watermark r <= bmq_BITS;
  inv_wm_in : exists m, zlookup (sched_rq_watermark s) (watermark r) = Some m
                        /\ Z.testbit m c = true;
  inv_wm_out : forall w m, 1 <= w -> w ≠ watermark r ->
      zlookup (sched_rq_watermark s) w = Some m -> Z.testbit m c = false;
  inv_wm_slot0 : smt_active s = false ->
      forall m, zlookup (sched_rq_watermark s) 0 = Some m -> Z.testbit m c = false;
  inv_pending : Z.testbit (sched_rq_pending_mask s) c = true <-> 2 <= nr_running r;
}.

Record sched_globals (s : sched) : Prop := {
  inv_wm_len : Z.of_nat (length (sched_rq_watermark s)) = WM_BITS;
  inv_smt_len : smt_active s = true ->
      (length (runqueues s) <= length (cpu_smt_masks s))%nat;
  inv_unique : forall c1 c2 r1 r2 p,
      get_rq s c1 = Some r1 -> get_rq s c2 = Some r2 ->
      queued r1 p -> queued r2 p -> c1 = c2;
}.

(** The state between the list operation on runqueue [c] and the end of
    [enqueue_task]/[dequeue_task]: the watermark of [c] may be stale and
    its counter is off by [k]. *)
Definition sched_mid (s : sched) (c : Z) (k : Z) (stale : bool) : Prop :=
  sched_globals s /\
  forall c' r', get_rq s c' = Some r' ->
    rq_body s c' r' (if decide (c' = c) then k else 0)
    /\ ((stale = false \/ c' ≠ c) -> wm_current r').

(** The invariant that holds whenever no runqueue operation is under way. *)
Definition sched_inv (s : sched) : Prop :=
  sched_globals s /\
  forall c r, get_rq s c = Some r -> rq_body s c r 0 /\ wm_current r.

(** The runqueue operations, with the conditions their callers establish,
    and the writes to task fields other than [bmq_idx]. *)
Inductive sched_step : sched -> sched -> Prop :=
| step_enqueue s p c r s' :
    get_rq s c = Some r ->
    (forall c' r', get_rq s c' = Some r' -> ~ queued r' p) ->
    nr_running r + 1 < 2 ^ BITS_PER_LONG ->
    enqueue_task s p c = Some s' ->
    sched_step s s'
| step_dequeue s p c r s' :
    get_rq s c = Some r -> queued r p -> p ≠ idle r ->
    dequeue_task s p c = Some s' ->
    sched_step s s'
| step_requeue s p c r s' :
    get_rq s c = Some r -> queued r p -> p ≠ idle r ->
    requeue_task s p c = Some s' ->
    sched_step s s'
| step_requeue_lazy s p c r s' rv :
    get_rq s c = Some r -> queued r p -> p ≠ idle r ->
    requeue_task_lazy s p c = Some (s', rv) ->
    sched_step s s'
| step_task_write s p t t' :
    get_task s p = Some t -> bmq_idx t' = bmq_idx t ->
    sched_step s (put_task s p t').

End Invariants.

(** ** A machine after boot

    Two CPUs that are SMT siblings of each other, each with its idle task
    queued at the idle level, as [sched_init] and [init_idle] leave them;
    [smt] says whether SMT is compiled in and present. *)

Definition cfg2 (smt : bool) : Config := mainline 2 smt.

Definition boot_idle_task (c : Z) : task_struct :=
  mk_task TASK_RUNNING SCHED_NORMAL 140 120 124 0 0 49 0 0 0
          0 1 c (cpumask_of c) None false false false.

Definition boot_queue (idle_task : nat) : bmq :=
  default (bmq_init (cfg := cfg1))
          (bmq_init_idle (cfg := cfg1) (bmq_init (cfg := cfg1)) idle_task).

Definition boot_rq (c : Z) (idle_task : nat) : rq :=
  mk_rq (boot_queue idle_task) 1 0 c idle_task idle_task None None 0 0 0 true.

Definition boot (smt : bool) : sched :=
  mk_sched {[ 0%nat := boot_idle_task 0; 1%nat := boot_idle_task 1 ]}
           [boot_rq 0 0; boot_rq 1 1]
           (<[1%nat := 3]> (replicate 51 0))
           2 0 1 3 smt [3; 3] [[2]; [1]].

(** A NORMAL task at nice 0, not yet queued, allowed on both CPUs. *)
Definition fresh_task : task_struct :=
  mk_task TASK_RUNNING SCHED_NORMAL 124 120 124 0 4 0 4000000 0 0
          0 0 0 3 None false false true.

Definition boot_with_task (smt : bool) : sched := put_task (boot smt) 7 fresh_task.

(** ** Fields written by the queue operations

    The queue operations and the reschedule marks write only [bmq_idx]
    and [TIF_NEED_RESCHED] of a task. *)

Definition sched_fields (t : task_struct) : task_struct :=
  set_need_resched false (set_bmq_idx 0 t).

Definition same_but_queue (s s' : sched) : Prop :=
  forall x, sched_fields <$> get_task s' x = sched_fields <$> get_task s x.

(** ** Example tasks and states for the time-slice expiry *)

(** A NORMAL task whose slice is used up and whose boost is at its
    maximum, as [sched_fork] sets it. *)
Definition expired_task : task_struct :=
  mk_task TASK_RUNNING SCHED_NORMAL 124 120 124 0 4 0 50000 0 0
          0 0 0 3 None false false true.

(** An RR task (rt_priority 50, prio 49) whose slice is used up, and a
    FIFO task of lower priority (rt_priority 10, prio 89). *)
Definition rr_task : task_struct :=
  mk_task TASK_RUNNING SCHED_RR 49 120 49 50 0 0 0 0 0
          0 0 0 3 None false false true.
Definition fifo_task : task_struct :=
  mk_task TASK_RUNNING SCHED_FIFO 89 120 89 10 0 0 50000 0 0
          0 0 0 3 None false false true.

Definition boot_with_tasks : sched :=
  put_task (put_task (put_task (boot false) 7 expired_task) 8 rr_task) 9 fifo_task.

(** The three tasks activated on CPU 0: the two RT tasks share level 0. *)
Definition three_queued : option sched :=
  s1 ← activate_task (cfg := cfg2 false) boot_with_tasks 7 0;
  s2 ← activate_task (cfg := cfg2 false) s1 8 0;
  activate_task (cfg := cfg2 false) s2 9 0.

Definition three_queued_state : sched := default boot_with_tasks three_queued.

(** ** Example state for fork: task 7 runs on CPU 0 with 3 ms left, task
    10 is its freshly copied child. *)

Definition forking_task : task_struct :=
  mk_task TASK_RUNNING SCHED_NORMAL 124 120 124 0 0 24 3000000 0 0
          TASK_ON_RQ_QUEUED 1 0 1 None false false true.

Definition fork_state : sched :=
  put_task (put_task
    (set_runqueues [mk_rq (boot_queue 0) 1 0 0 7 0 None None 0 0 0 true] (boot false))
    7 forking_task) 10 forking_task.

(** [boost_prio] of every task lies in [-MAX_PRIORITY_ADJ, MAX_PRIORITY_ADJ]. *)
Definition boost_in_range `{Config} (t : task_struct) : Prop :=
  - MAX_PRIORITY_ADJ <= boost_prio t <= MAX_PRIORITY_ADJ.

Definition boost_ok `{Config} (s : sched) : Prop :=
  forall x t, get_task s x = Some t -> boost_in_range t.

Definition boost_same (s s' : sched) : Prop :=
  forall x, boost_prio <$> get_task s' x = boost_prio <$> get_task s x.

(** ** Example states for yield *)

Definition set_sched_yield_type (v : Z) (s : sched) : sched :=
  mk_sched (tasks s) (runqueues s) (sched_rq_watermark s) (sched_rq_watermark_bitmap s)
           (sched_rq_pending_mask s) v (cpu_online_mask s) (sched_smt_present s)
           (cpu_smt_masks s) (sched_cpu_affinity_chk_masks s).

(** Yield mode 2 with a single queued task on CPU 0. *)
Definition one_queued_mode2 : sched :=
  set_sched_yield_type 2
    (default boot_with_tasks (activate_task (cfg := cfg2 false) boot_with_tasks 7 0)).

(** ** Policy requests *)

(** The policy a request asks for: the one it names, or the task's own
    when it names none (a negative value, as [sched_setparam] passes). *)
Definition requested_policy (t : task_struct) (attr : sched_attr) : Z :=
  if int (sched_policy attr) <? 0 then policy t else int (sched_policy attr).

(** A caller holding CAP_SYS_NICE that the security hook lets through. *)
Definition privileged : caller := mk_caller true 0 true 0.

(** ** CPU selection *)

(** [c] is the lowest CPU of the mask [m]. *)
Definition lowest_cpu (m : cpumask_t) (c : Z) : Prop :=
  0 <= c /\ Z.testbit m c = true /\ forall j, 0 <= j < c -> Z.testbit m j = false.

(** The preferred CPU of the mask [m] for a task that last ran on [c]:
    [c] itself when it is in [m], otherwise the lowest CPU that [m] shares
    with the first affinity ring of [c] that meets [m]. *)
Definition best_choice (s : sched) (c : Z) (m : cpumask_t) (r : Z) : Prop :=
  (Z.testbit m c = true /\ r = c) \/
  (Z.testbit m c = false /\
   exists rings (i : nat) ring,
     zlookup (sched_cpu_affinity_chk_masks s) c = Some rings /\
     rings !! i = Some ring /\
     (forall (j : nat) ring', (j < i)%nat -> rings !! j = Some ring' -> Z.land m ring' = 0) /\
     lowest_cpu (Z.land m ring) r).

(** The affinity rings of CPU [c] reach every other online CPU, as
    [sched_init_topology_cpumask] sets them up. *)
Definition affinity_rings_cover (s : sched) (c : Z) : Prop :=
  exists rings, zlookup (sched_cpu_affinity_chk_masks s) c = Some rings /\
    forall j, 0 <= j -> j ≠ c -> Z.testbit (cpu_online_mask s) j = true ->
      exists ring, ring ∈ rings /\ Z.testbit ring j = true.

(** The masks handed to [best_mask_cpu] hold online CPUs only. *)
Definition online_only (s : sched) (m : cpumask_t) : Prop :=
  0 <= m /\ forall j, Z.testbit m j = true -> Z.testbit (cpu_online_mask s) j = true.

(** [l] is the first level below [preempt] that is set in the watermark
    bitmap and whose CPUs, [m], meet the mask [chk]. *)
Definition first_fit_level (s : sched) (chk : cpumask_t) (preempt l : Z)
    (m : cpumask_t) : Prop :=
  0 <= l < preempt /\ Z.testbit (sched_rq_watermark_bitmap s) l = true /\
  zlookup (sched_rq_watermark s) l = Some m /\ Z.land chk m ≠ 0 /\
  forall l' m', 0 <= l' < l -> Z.testbit (sched_rq_watermark_bitmap s) l' = true ->
    zlookup (sched_rq_watermark s) l' = Some m' -> Z.land chk m' = 0.

(** No level below [level], and below [preempt], that is set in the
    watermark bitmap has a CPU in [chk]. *)
Definition no_fit_below (s : sched) (chk : cpumask_t) (preempt level : Z) : Prop :=
  forall l m, 0 <= l < level -> l < preempt ->
    Z.testbit (sched_rq_watermark_bitmap s) l = true ->
    zlookup (sched_rq_watermark s) l = Some m -> Z.land chk m = 0.

(** The CPU [select_task_rq] is to return for the allowed online CPUs
    [chk], the preemption level [preempt] and the last CPU [tcpu]. *)
Definition selected_cpu (s : sched) (chk : cpumask_t) (preempt tcpu r : Z) : Prop :=
  (exists l m, first_fit_level s chk preempt l m /\
     best_choice s tcpu (Z.land chk m) r /\ Z.testbit m r = true) \/
  (no_fit_below s chk preempt preempt /\ best_choice s tcpu chk r).

(** ** Example states with one queued task

    The boot state after task 7 was enqueued on CPU 0, and the same state
    with task 7 marked as the task to skip. *)

Definition boot_one_queued : sched :=
  default (boot_with_task false)
          (enqueue_task (cfg := cfg2 false) (boot_with_task false) 7 0).

Definition boot_one_skipped : sched :=
  default boot_one_queued
          (r ← get_rq boot_one_queued 0;
           put_rq boot_one_queued 0 (set_skip (Some 7%nat) r)).

(** * Further functions of the scheduler *)

(** The nice range of [include/linux/sched/prio.h], of which [NICE_WIDTH]
    is the width. *)
Definition MAX_NICE : Z := 19.
Definition MIN_NICE : Z := -20.

(** What the permission hooks answer to a caller of [nice]. *)
Record nice_caller := mk_nice_caller {
  nice_capable : bool;             (* capable(CAP_SYS_NICE) *)
  rlimit_nice : Z;                 (* task_rlimit(p, RLIMIT_NICE), unsigned long *)
  security_task_setnice : Z;       (* return value of the LSM hook *)
}.

Section Nice.
Context `{cfg : Config}.

(** [task_nice] and [nice_to_rlimit] are the inline helpers of
    [include/linux/sched.h] and [include/linux/sched/prio.h]. *)
Definition task_nice (p : task_struct) : Z := int (PRIO_TO_NICE (static_prio p)).
Definition nice_to_rlimit (nice : Z) : Z := MAX_NICE - nice + 1.

(** [clamp(val, lo, hi)] is [min(max(val, lo), hi)]. *)
Definition clamp_val (val lo hi : Z) : Z := Z.min (Z.max val lo) hi.

Definition set_user_nice (s : sched) (p : nat) (nice : Z) : option sched :=
  t ← get_task s p;
  if (task_nice t =? nice) || (nice <? MIN_NICE) || (MAX_NICE <? nice) then Some s else
  r ← get_rq s (task_cpu t);
  let t1 := set_static_prio (int (NICE_TO_PRIO nice)) t in
  if task_has_rt_policy t1 then Some (put_task s p t1) else
  let res := effective_prio t1 in
  check_task_changed (put_task s p (set_prio res.2 res.1)) (task_cpu t) p.

Definition can_nice (who : nice_caller) (nice : Z) : bool :=
  let nice_rlim := int (nice_to_rlimit nice) in
  (ulong nice_rlim <=? rlimit_nice who) || nice_capable who.

(** The [nice] system call; [current] is the calling task. *)
Definition sys_nice (who : nice_caller) (s : sched) (current : nat) (increment : Z)
    : option (sched * Z) :=
  t ← get_task s current;
  let increment := clamp_val increment (- NICE_WIDTH) NICE_WIDTH in
  let nice := clamp_val (task_nice t + increment) MIN_NICE MAX_NICE in
  if (increment <? 0) && negb (can_nice who nice) then Some (s, - EPERM) else
  if negb (security_task_setnice who =? 0) then Some (s, security_task_setnice who) else
  s' ← set_user_nice s current nice;
  Some (s', 0).

(** The priority shown in /proc. *)
Definition task_prio (p : task_struct) : Z :=
  if prio p <? MAX_RT_PRIO then int (prio p - MAX_RT_PRIO)
  else int (int (prio p - MAX_RT_PRIO) + boost_prio p).

Definition sys_sched_get_priority_max (pol : Z) : Z :=
  if (pol =? SCHED_FIFO) || (pol =? SCHED_RR) then int (MAX_USER_RT_PRIO - 1)
  else if (pol =? SCHED_NORMAL) || (pol =? SCHED_BATCH) || (pol =? SCHED_IDLE) then 0
  else - EINVAL.

Definition sys_sched_get_priority_min (pol : Z) : Z :=
  if (pol =? SCHED_FIFO) || (pol =? SCHED_RR) then 1
  else if (pol =? SCHED_NORMAL) || (pol =? SCHED_BATCH) || (pol =? SCHED_IDLE) then 0
  else - EINVAL.

End Nice.

(** The state with task 7 queued on CPU 0, after its priority was raised
    to 110 behind the back of the queue. *)
Definition boot_one_reniced : sched :=
  put_task boot_one_queued 7
    (set_prio 110 (set_on_rq TASK_ON_RQ_QUEUED
                     (default fresh_task (get_task boot_one_queued 7)))).

(** Requirements on the priority constants: the nice range is the one of
    [prio.h] and the priorities fit an [int]. *)
Definition prio_config_ok `{Config} : Prop :=
  0 <= MAX_RT_PRIO /\ 0 <= MAX_PRIORITY_ADJ /\
  NICE_WIDTH = MAX_NICE - MIN_NICE + 1 /\
  MAX_RT_PRIO + NICE_WIDTH + 2 * MAX_PRIORITY_ADJ < 2 ^ 31.

(** The state after [activate_task] of task 7 on CPU 0. *)
Definition boot_one_active : sched :=
  default (boot_with_task false)
          (activate_task (cfg := cfg2 false) (boot_with_task false) 7 0).

(** A caller of [nice] without CAP_SYS_NICE and with RLIMIT_NICE 0. *)
Definition plain_nice_caller : nice_caller := mk_nice_caller false 0 0.

Section PolicyCalls.
Context `{cfg : Config}.

Definition sched_setscheduler_nocheck (who : caller) (s : sched) (p : nat) (pol : Z)
    (param_priority : Z) : option (sched * Z) :=
  _sched_setscheduler who s p pol param_priority false.

(** The [sched_setparam] system call, after the parameter block was
    copied in and the task looked up ([None] for an unknown pid). *)
Definition sys_sched_setparam (who : caller) (s : sched) (p : option nat)
    (param_priority : Z) : option (sched * Z) :=
  match p with
  | None => Some (s, - ESRCH)
  | Some p => sched_setscheduler who s p SETPARAM_POLICY param_priority
  end.

End PolicyCalls.

(** A request that passes the validation of [__sched_setscheduler]: a
    policy from 0 to [SCHED_IDLE] (or a negative one, which stands for the
    policy [pe] the task has), known flags only, and a priority that
    matches the policy. *)
Definition valid_request (attr : sched_attr) (pol pe : Z) : Prop :=
  (0 <= pol -> pol <= SCHED_IDLE /\ pe = pol) /\
  Z.land (sched_flags attr) (u64 (Z.lnot SCHED_FLAG_ALL)) = 0 /\
  (((pe = SCHED_FIFO \/ pe = SCHED_RR) /\ 1 <= sched_priority attr <= 99) \/
   (pe ≠ SCHED_FIFO /\ pe ≠ SCHED_RR /\ sched_priority attr = 0)).

(** A caller without CAP_SYS_NICE and with RLIMIT_RTPRIO 0, who owns the
    task and whom the security hook lets through. *)
Definition unprivileged : caller := mk_caller false 0 true 0.

(** The fork example with an RR parent that asked for a reset on fork:
    task 7 runs on CPU 0, task 10 is its freshly copied child. *)
Definition fork_reset_state : sched :=
  put_task (put_task fork_state 7 (set_sched_reset_on_fork true rr_task))
           10 (set_sched_reset_on_fork true rr_task).

(** ** Pulling tasks from another runqueue *)

Definition SCHED_RQ_NR_MIGRATION : Z := 32.

Section Migration.
Context `{cfg : Config}.

(** [task_running(p)] of the scheduler's header: the task is on a CPU. *)
Definition task_running (t : task_struct) : bool := negb (on_cpu t =? 0).

(** [set_task_cpu], without the tracing and the debug warnings. *)
Definition set_task_cpu (s : sched) (p : nat) (new_cpu : Z) : option sched :=
  t ← get_task s p;
  if task_cpu t =? new_cpu then Some s
  else Some (put_task s p (set_task_cpu_field new_cpu t)).

(** The loop of [migrate_pending_tasks], entered at its condition with
    the task [p]; [fuel] bounds the number of passes.  A task that is
    looked at is followed by a jump over its successor. *)
Fixpoint migrate_loop (fuel : nat) (s : sched) (src dst dest_cpu : Z) (p : nat)
    (nr_tries nr_migrated : Z) : option (sched * Z) :=
  match fuel with
  | O => None
  | S fuel =>
      rq ← get_rq s src;
      if (nr_tries =? 0) || bool_decide (p = idle rq) then Some (s, nr_migrated) else
      t ← get_task s p;
      if task_running t then
        p' ← rq_next_bmq_task s p rq;
        migrate_loop fuel s src dst dest_cpu p' nr_tries nr_migrated
      else
        next ← rq_next_bmq_task s p rq;
        res ← (if cpumask_test_cpu dest_cpu (cpus_mask t) then
                 s1 ← dequeue_task s p src;
                 s2 ← set_task_cpu s1 p dest_cpu;
                 s3 ← enqueue_task s2 p dst;
                 Some (s3, int (nr_migrated + 1))
               else Some (s, nr_migrated));
        let nr_tries := int (nr_tries - 1) in
        rq' ← get_rq res.1 src;
        if bool_decide (next = idle rq') then Some res else
        p' ← rq_next_bmq_task res.1 next rq';
        migrate_loop fuel res.1 src dst dest_cpu p' nr_tries res.2
  end.

(** [migrate_pending_tasks(rq, dest_rq)] for the runqueues of the CPUs
    [src] and [dst]: the new state and the number of migrated tasks.  No
    walk over the queue is longer than the number of linked nodes. *)
Definition migrate_pending_tasks (s : sched) (src dst : Z) : option (sched * Z) :=
  rq ← get_rq s src;
  dest_rq ← get_rq s dst;
  let dest_cpu := cpu_of dest_rq in
  let nr_tries := int (Z.min (ulong (nr_running rq + 1) / 2) SCHED_RQ_NR_MIGRATION) in
  p ← rq_first_bmq_task rq;
  migrate_loop (S (length (concat (heads (queue rq))))) s src dst dest_cpu p nr_tries 0.

End Migration.

(** What a migration from the runqueue [rs] to the runqueue [rd] has done
    when [k] tasks were moved: [rs'] and [rd'] are the two runqueues and
    [s'] the state afterwards.  The counters moved by [k]; no linked task
    was lost and none appeared on the source; a task structure is as it
    was, unless the task was linked on the source, is not the idle task,
    was not running and allows the destination CPU: then it is linked on
    the destination, with that CPU and its queue index recorded. *)
Definition migration `{Config} (dest_cpu : Z) (s s' : sched) (rs rs' rd rd' : rq)
    (k : Z) : Prop :=
  nr_running rs' = nr_running rs - k /\ nr_running rd' = nr_running rd + k /\
  idle rs' = idle rs /\ idle rd' = idle rd /\
  (forall x, queued rs x -> queued rs' x \/ queued rd' x) /\
  (forall x, queued rd x -> queued rd' x) /\
  (forall x, queued rs' x -> queued rs x) /\
  (forall x t, get_task s x = Some t ->
     exists t', get_task s' x = Some t' /\
       (t' = t \/
        (queued rs x /\ ~ queued rs' x /\ x ≠ idle rs /\ queued rd' x /\
         task_running t = false /\ cpumask_test_cpu dest_cpu (cpus_mask t) = true /\
         t' = set_bmq_idx (task_sched_prio t) (set_task_cpu_field dest_cpu t)))).

(** ** Example state with two queued tasks

    Tasks 7 and 8, both NORMAL at nice 0, enqueued on CPU 0 in this
    order, and the same state with task 7 marked as the task to skip. *)

Definition boot_two_tasks : sched := put_task (boot_with_task false) 8 fresh_task.

Definition two_queued : sched :=
  default boot_two_tasks
          (s1 ← enqueue_task (cfg := cfg2 false) boot_two_tasks 7 0;
           enqueue_task (cfg := cfg2 false) s1 8 0).

Definition two_queued_skipped : sched :=
  default two_queued
          (r ← get_rq two_queued 0; put_rq two_queued 0 (set_skip (Some 7%nat) r)).

(** * Proofs *)

(** ** Machine integers *)

Lemma swrap_small w z :
  0 < w -> - 2 ^ (w - 1) <= z < 2 ^ (w - 1) -> swrap w z = z.
Proof.
  intros Hw Hz. unfold swrap.
  assert (E : 2 ^ w = 2 * 2 ^ (w - 1)).
  { replace w with (Z.succ (w - 1)) at 1 by lia. rewrite Z.pow_succ_r; lia. }
  rewrite Z.mod_small; lia.
Qed.

Lemma int_small z : fits_int z -> int z = z.
Proof. intros H. apply swrap_small; [lia | exact H]. Qed.

Lemma s64_small z : fits_s64 z -> s64 z = z.
Proof. intros H. apply swrap_small; [lia | exact H]. Qed.

Lemma uwrap_small w z : 0 <= z < 2 ^ w -> uwrap w z = z.
Proof. intros H. unfold uwrap. apply Z.mod_small; exact H. Qed.

Lemma ulong_small z : fits_ulong z -> ulong z = z.
Proof. intros H. apply uwrap_small. exact H. Qed.

Lemma swrap_range w z : 0 < w -> - 2 ^ (w - 1) <= swrap w z < 2 ^ (w - 1).
Proof.
  intros Hw. unfold swrap.
  assert (E : 2 ^ w = 2 * 2 ^ (w - 1)).
  { replace w with (Z.succ (w - 1)) at 1 by lia. rewrite Z.pow_succ_r; lia. }
  assert (0 < 2 ^ (w - 1)) by (apply Z.pow_pos_nonneg; lia).
  pose proof (Z.mod_pos_bound (z + 2 ^ (w - 1)) (2 ^ w)). lia.
Qed.

Lemma int_range z : fits_int (int z).
Proof. apply (swrap_range 32). lia. Qed.

(** ** Queue index of a task *)

Section TaskSchedPrio.
Context `{cfg : Config}.

Lemma task_sched_prio_rt t : prio t < MAX_RT_PRIO -> task_sched_prio t = 0.
Proof.
  intros H. unfold task_sched_prio.
  destruct (Z.ltb_spec (prio t) MAX_RT_PRIO); [done | lia].
Qed.

Lemma task_sched_prio_normal t :
  MAX_RT_PRIO <= prio t ->
  fits_int (prio t - MAX_RT_PRIO) ->
  fits_int (prio t - MAX_RT_PRIO + boost_prio t) ->
  task_sched_prio t = prio t - MAX_RT_PRIO + boost_prio t.
Proof.
  intros H F1 F2. unfold task_sched_prio.
  destruct (Z.ltb_spec (prio t) MAX_RT_PRIO); [lia |].
  rewrite (int_small _ F1). apply int_small, F2.
Qed.

(** C2 (as amended): [task_sched_prio] returns 0 for every task with
    [prio < MAX_RT_PRIO]; for every other task it returns
    [prio - MAX_RT_PRIO + boost_prio] as it is, without clamping.  Hence it
    returns 0 exactly when the task is RT or [prio + boost_prio =
    MAX_RT_PRIO], and the value agrees with its clamp to [0, L-1] exactly
    when it already lies in that range. *)
Theorem task_sched_prio_spec (t : task_struct) :
  0 < bmq_BITS ->
  fits_int (prio t - MAX_RT_PRIO) ->
  fits_int (prio t - MAX_RT_PRIO + boost_prio t) ->
  (prio t < MAX_RT_PRIO -> task_sched_prio t = 0) /\
  (MAX_RT_PRIO <= prio t ->
     task_sched_prio t = prio t - MAX_RT_PRIO + boost_prio t) /\
  (task_sched_prio t = 0 <->
     prio t < MAX_RT_PRIO \/ prio t + boost_prio t = MAX_RT_PRIO) /\
  (MAX_RT_PRIO <= prio t ->
     (task_sched_prio t
        = clamp 0 (bmq_BITS - 1) (prio t - MAX_RT_PRIO + boost_prio t)
      <-> 0 <= prio t - MAX_RT_PRIO + boost_prio t <= bmq_BITS - 1)).
Proof.
  intros HL F1 F2.
  split; [apply task_sched_prio_rt |].
  split; [intros H; by apply task_sched_prio_normal |].
  split.
  - destruct (Z.lt_ge_cases (prio t) MAX_RT_PRIO) as [Hrt | Hn].
    + rewrite task_sched_prio_rt by done. split; auto.
    + rewrite task_sched_prio_normal by done. lia.
  - intros Hn. rewrite task_sched_prio_normal by done. unfold clamp. lia.
Qed.

End TaskSchedPrio.

(** At nice -20 and boost -4 a NORMAL task gets queue index 0: the claim's
    "0 iff RT" fails there. *)
Lemma task_sched_prio_zero_not_rt :
  task_sched_prio (cfg := cfg1) boosted_nice_m20 = 0 /\
  ~ (prio boosted_nice_m20 < MAX_RT_PRIO (Config := cfg1)) /\
  ~ (task_sched_prio (cfg := cfg1) boosted_nice_m20 = 0
     <-> prio boosted_nice_m20 < MAX_RT_PRIO (Config := cfg1)).
Proof.
  split; [reflexivity |]. split.
  - cbn. lia.
  - intros [H _]. specialize (H eq_refl). cbn in H. lia.
Qed.

Lemma task_sched_prio_spec_witness :
  task_sched_prio (cfg := cfg1) boosted_nice_m20 = 0 <->
    prio boosted_nice_m20 < MAX_RT_PRIO (Config := cfg1)
    \/ prio boosted_nice_m20 + boost_prio boosted_nice_m20
       = MAX_RT_PRIO (Config := cfg1).
Proof.
  refine (proj1 (proj2 (proj2
    (@task_sched_prio_spec cfg1 boosted_nice_m20 _ _ _)))).
  - cbn. lia.
  - unfold fits_int. cbn. lia.
  - unfold fits_int. cbn. lia.
Defined.

(** ** The task store and the runqueue array *)

Lemma get_task_put_task s p t q :
  get_task (put_task s p t) q = if decide (p = q) then Some t else get_task s q.
Proof.
  unfold get_task, put_task; cbn. destruct (decide (p = q)) as [-> | Hne].
  - apply lookup_insert_eq.
  - by apply lookup_insert_ne.
Qed.

Lemma get_task_put_task_eq s p t : get_task (put_task s p t) p = Some t.
Proof. rewrite get_task_put_task. by destruct (decide (p = p)). Qed.

Lemma get_task_put_task_ne s p t q :
  p ≠ q -> get_task (put_task s p t) q = get_task s q.
Proof. intros. rewrite get_task_put_task. by destruct (decide (p = q)). Qed.

Lemma get_rq_put_task s p t c : get_rq (put_task s p t) c = get_rq s c.
Proof. reflexivity. Qed.

Lemma zlookup_Some {A} (l : list A) i x :
  zlookup l i = Some x -> 0 <= i < Z.of_nat (length l) /\ l !! Z.to_nat i = Some x.
Proof.
  unfold zlookup. destruct (Z.leb_spec 0 i); [| done].
  intros E. split; [| done]. apply lookup_lt_Some in E. lia.
Qed.

Lemma zlookup_in_range {A} (l : list A) i :
  0 <= i < Z.of_nat (length l) -> is_Some (zlookup l i).
Proof.
  intros H. unfold zlookup. destruct (Z.leb_spec 0 i); [| lia].
  apply lookup_lt_is_Some. lia.
Qed.

Lemma zupdate_Some {A} (l l' : list A) i x :
  zupdate l i x = Some l' ->
  0 <= i < Z.of_nat (length l) /\ l' = <[Z.to_nat i := x]> l.
Proof.
  unfold zupdate. destruct (Z.leb_spec 0 i), (Z.ltb_spec i (Z.of_nat (length l)));
    cbn; intros E; simplify_eq; done || lia.
Qed.

Lemma zupdate_in_range {A} (l : list A) i x :
  0 <= i < Z.of_nat (length l) -> zupdate l i x = Some (<[Z.to_nat i := x]> l).
Proof.
  intros H. unfold zupdate.
  destruct (Z.leb_spec 0 i), (Z.ltb_spec i (Z.of_nat (length l))); cbn; done || lia.
Qed.

Lemma zlookup_zupdate {A} (l l' : list A) i x j :
  zupdate l i x = Some l' ->
  zlookup l' j = if decide (i = j) then Some x else zlookup l j.
Proof.
  intros [Hr ->]%zupdate_Some. unfold zlookup.
  destruct (decide (i = j)) as [<- | Hne].
  - destruct (Z.leb_spec 0 i); [| lia]. apply list_lookup_insert_eq. lia.
  - destruct (Z.leb_spec 0 j); [| done]. apply list_lookup_insert_ne. lia.
Qed.

Lemma zupdate_length {A} (l l' : list A) i x :
  zupdate l i x = Some l' -> length l' = length l.
Proof. intros [_ ->]%zupdate_Some. apply length_insert. Qed.

Lemma get_rq_put_rq s c r s' c' :
  put_rq s c r = Some s' ->
  get_rq s' c' = if decide (c = c') then Some r else get_rq s c'.
Proof.
  unfold put_rq, get_rq. intros H.
  apply bind_Some in H as (rqs & E & H). simplify_eq. cbn.
  by eapply zlookup_zupdate.
Qed.

Lemma put_rq_tasks s c r s' : put_rq s c r = Some s' -> tasks s' = tasks s.
Proof.
  unfold put_rq. intros H. apply bind_Some in H as (rqs & E & H). by simplify_eq.
Qed.

Lemma put_rq_is_Some s c r r0 : get_rq s c = Some r0 -> is_Some (put_rq s c r).
Proof.
  unfold get_rq, put_rq. intros [Hr _]%zlookup_Some.
  rewrite zupdate_in_range by done. by eexists.
Qed.

(** ** Bitmaps *)

Lemma ffs_pos_nonneg p : 0 <= ffs_pos p.
Proof. induction p; cbn; lia. Qed.

Lemma ffs_pos_set p : Z.testbit (Zpos p) (ffs_pos p) = true.
Proof.
  induction p as [q _ | q IH |]; cbn [ffs_pos]; try reflexivity.
  change (Zpos q~0) with (2 * Zpos q).
  rewrite Z.testbit_even_succ by apply ffs_pos_nonneg. exact IH.
Qed.

Lemma ffs_pos_least p j : 0 <= j < ffs_pos p -> Z.testbit (Zpos p) j = false.
Proof.
  revert j. induction p as [q _ | q IH |]; cbn [ffs_pos]; intros j Hj; try lia.
  change (Zpos q~0) with (2 * Zpos q).
  destruct (decide (j = 0)) as [-> | Hne].
  - apply Z.testbit_even_0.
  - replace j with (Z.succ (j - 1)) by lia.
    rewrite Z.testbit_even_succ by lia. apply IH. lia.
Qed.

Lemma find_first_bit_spec bm size :
  0 <= bm -> bm ≠ 0 ->
  let f := bmq_find_first_bit bm size in
  0 <= f /\ Z.testbit bm f = true /\ (forall j, 0 <= j < f -> Z.testbit bm j = false).
Proof.
  intros Hpos Hne. unfold bmq_find_first_bit.
  destruct (Z.eqb_spec bm 0); [done |].
  destruct bm as [| p | p]; [done | | lia]. cbn [__ffs].
  auto using ffs_pos_nonneg, ffs_pos_set, ffs_pos_least.
Qed.

Lemma find_first_bit_unique bm size f :
  0 <= bm -> 0 <= f -> Z.testbit bm f = true ->
  (forall j, 0 <= j < f -> Z.testbit bm j = false) ->
  bmq_find_first_bit bm size = f.
Proof.
  intros Hpos Hf Hset Hleast.
  assert (bm ≠ 0) by (intros ->; by rewrite Z.bits_0 in Hset).
  destruct (find_first_bit_spec bm size Hpos) as (Hg & Hgset & Hgleast); [done |].
  set (g := bmq_find_first_bit bm size) in *.
  destruct (Z.lt_trichotomy f g) as [Hlt | [Heq | Hgt]]; [| done |].
  - rewrite Hgleast in Hset by lia. done.
  - rewrite Hleast in Hgset by lia. done.
Qed.

Lemma find_first_bit_zero size : bmq_find_first_bit 0 size = size.
Proof. reflexivity. Qed.

Lemma set_bit_nonneg nr bm : 0 <= bm -> 0 <= set_bit nr bm.
Proof.
  intros H. unfold set_bit, Z.setbit. apply Z.lor_nonneg. split; [done |].
  apply Z.shiftl_nonneg. lia.
Qed.

Lemma clear_bit_nonneg nr bm : 0 <= bm -> 0 <= clear_bit nr bm.
Proof.
  intros H. unfold clear_bit, Z.clearbit. apply Z.ldiff_nonneg. by left.
Qed.

Lemma testbit_set_bit nr bm j :
  0 <= nr -> Z.testbit (set_bit nr bm) j = bool_decide (nr = j) || Z.testbit bm j.
Proof.
  intros Hnr. unfold set_bit. case_bool_decide as E.
  - subst. by rewrite Z.setbit_eq.
  - by rewrite Z.setbit_neq.
Qed.

Lemma testbit_clear_bit nr bm j :
  0 <= nr -> Z.testbit (clear_bit nr bm) j = negb (bool_decide (nr = j)) && Z.testbit bm j.
Proof.
  intros Hnr. unfold clear_bit. case_bool_decide as E.
  - subst. by rewrite Z.clearbit_eq.
  - by rewrite Z.clearbit_neq.
Qed.


(** ** Watermark publication *)

Section Watermark.
Context `{cfg : Config}.


Lemma update_wm_shape s c r s' :
  get_rq s c = Some r ->
  update_sched_rq_watermark s c = Some s' ->
  let new := ulong (SCHED_PRIO2WATERMARK (bmq_find_first_bit (bitmap (queue r)) bmq_BITS)) in
  bmq_find_first_bit (bitmap (queue r)) bmq_BITS ≠ bmq_BITS /\
  ((new = watermark r /\ s' = s) \/
   (new ≠ watermark r /\
    exists old masks1 nw masks2 s1,
      zlookup (sched_rq_watermark s) (watermark r) = Some old /\
      zupdate (sched_rq_watermark s) (watermark r) (cpumask_clear_cpu (cpu r) old) = Some masks1 /\
      zlookup masks1 new = Some nw /\
      zupdate masks1 new (cpumask_set_cpu (cpu r) nw) = Some masks2 /\
      put_rq s c (set_watermark new r) = Some s1 /\
      tasks s' = tasks s /\ runqueues s' = runqueues s1 /\
      sched_rq_pending_mask s' = sched_rq_pending_mask s /\
      sched_smt_present s' = sched_smt_present s /\
      cpu_smt_masks s' = cpu_smt_masks s /\
      (sched_rq_watermark s' = masks2 \/
       (smt_active s = true /\ exists m0, zupdate masks2 0 m0 = Some (sched_rq_watermark s'))))).
Proof.
  intros Hr H. unfold update_sched_rq_watermark in H. rewrite Hr in H. cbn [mbind option_bind] in H.
  set (f := bmq_find_first_bit (bitmap (queue r)) bmq_BITS) in *.
  set (new := ulong (SCHED_PRIO2WATERMARK f)) in *. cbv zeta.
  destruct (Z.eqb_spec bmq_BITS f) as [|Hf]; [done |].
  split; [done |].
  destruct (Z.eqb_spec new (watermark r)) as [Heq | Hne].
  { left. by simplify_eq. }
  right. split; [done |].
  apply bind_Some in H as (old & Hold & H).
  apply bind_Some in H as (masks1 & Hm1 & H).
  apply bind_Some in H as (nw & Hnw & H).
  apply bind_Some in H as (masks2 & Hm2 & H).
  apply bind_Some in H as (s1 & Hs1 & H).
  exists old, masks1, nw, masks2, s1.
  pose proof (put_rq_tasks _ _ _ _ Hs1) as Ht.
  assert (Hp : sched_rq_pending_mask s1 = sched_rq_pending_mask s
               /\ sched_smt_present s1 = sched_smt_present s
               /\ cpu_smt_masks s1 = cpu_smt_masks s).
  { unfold put_rq in Hs1. apply bind_Some in Hs1 as (? & ? & ?). by simplify_eq. }
  destruct Hp as (Hp1 & Hp2 & Hp3).
  do 5 (split; [done |]).
  unfold smt_active.
  destruct (negb CONFIG_SCHED_SMT || negb (sched_smt_present s)) eqn:Hsmt.
  { simplify_eq. cbn. auto 10. }
  assert (CONFIG_SCHED_SMT && sched_smt_present s = true) as ->.
  { destruct CONFIG_SCHED_SMT, (sched_smt_present s); done. }
  apply bind_Some in H as (smt & Hsmtm & H).
  destruct (1 =? watermark r).
  - apply bind_Some in H as (w0 & Hw0 & H).
    apply bind_Some in H as (masks3 & Hm3 & H).
    simplify_eq. cbn. repeat split; try done. right. eauto.
  - destruct (1 =? new); [| simplify_eq; cbn; auto 10].
    apply bind_Some in H as (idle_cpus & Hic & H).
    destruct (cpumask_equal _ _); [| simplify_eq; cbn; auto 10].
    apply bind_Some in H as (w0 & Hw0 & H).
    apply bind_Some in H as (masks3 & Hm3 & H).
    simplify_eq. cbn. repeat split; try done. right. eauto.
Qed.

Lemma rq_body_transfer s s' c r k :
  rq_body s c r k ->
  (forall p t, queued r p -> get_task s p = Some t ->
     exists t', get_task s' p = Some t' /\ bmq_idx t' = bmq_idx t) ->
  length (sched_rq_watermark s') = length (sched_rq_watermark s) ->
  smt_active s' = smt_active s ->
  (forall w m m', 1 <= w \/ (w = 0 /\ smt_active s = false) ->
     zlookup (sched_rq_watermark s) w = Some m ->
     zlookup (sched_rq_watermark s') w = Some m' ->
     Z.testbit m' c = Z.testbit m c) ->
  Z.testbit (sched_rq_pending_mask s') c = Z.testbit (sched_rq_pending_mask s) c ->
  rq_body s' c r k.
Proof.
  intros [Hcpu Hhl Hnn Hhigh HI5 HI4 Hnd Hidle HI2 Hfit Hrange Hin Hout Hslot0 Hpd]
         Htasks Hlen Hsmt Hwm Hpend.
  assert (Hex : forall w m, zlookup (sched_rq_watermark s) w = Some m ->
                 exists m', zlookup (sched_rq_watermark s') w = Some m').
  { intros w m [Hw _]%zlookup_Some. apply zlookup_in_range. lia. }
  assert (Hex' : forall w m', zlookup (sched_rq_watermark s') w = Some m' ->
                 exists m, zlookup (sched_rq_watermark s) w = Some m).
  { intros w m [Hw _]%zlookup_Some. apply zlookup_in_range. lia. }
  split; try done.
  - intros l hs p Hl Hp. destruct (HI4 l hs p Hl Hp) as (t & Ht & Hi).
    destruct (Htasks p t) as (t' & Ht' & Hi'); [by exists l, hs | done |].
    exists t'. split; [done | congruence].
  - destruct Hin as (m & Hm & Hbit).
    destruct (Hex _ _ Hm) as (m' & Hm'). exists m'. split; [done |].
    by rewrite (Hwm (watermark r) m m') by (done || (left; lia)).
  - intros w m' Hw Hne Hm'. destruct (Hex' _ _ Hm') as (m & Hm).
    rewrite (Hwm w m m') by (done || by left). eauto.
  - rewrite Hsmt. intros Hoff m' Hm'. destruct (Hex' _ _ Hm') as (m & Hm).
    rewrite (Hwm 0 m m') by (done || by right). eauto.
  - by rewrite Hpend.
Qed.


Lemma queued_set_watermark w r p : queued (set_watermark w r) p <-> queued r p.
Proof. reflexivity. Qed.

Lemma first_bit_range r s c k :
  config_ok -> rq_body s c r k ->
  bmq_find_first_bit (bitmap (queue r)) bmq_BITS ≠ bmq_BITS ->
  let f := bmq_find_first_bit (bitmap (queue r)) bmq_BITS in
  0 <= f < bmq_BITS /\ Z.testbit (bitmap (queue r)) f = true /\
  ulong (SCHED_PRIO2WATERMARK f) = SCHED_PRIO2WATERMARK f /\
  1 <= SCHED_PRIO2WATERMARK f <= bmq_BITS.
Proof.
  intros (Hb1 & Hb2 & Hb3) Hb Hf f.
  assert (Hnz : bitmap (queue r) ≠ 0).
  { intros E. apply Hf. by rewrite E. }
  destruct (find_first_bit_spec _ bmq_BITS (inv_bitmap_nonneg _ _ _ _ Hb) Hnz)
    as (Hf0 & Hset & _). fold f in Hf0, Hset.
  assert (f < bmq_BITS).
  { destruct (Z.lt_ge_cases f bmq_BITS) as [|Hge]; [done |].
    rewrite (inv_bitmap_high _ _ _ _ Hb f Hge) in Hset. done. }
  unfold SCHED_PRIO2WATERMARK, WM_BITS, BITS_PER_LONG in *.
  split; [lia |]. split; [done |].
  split; [apply ulong_small; unfold fits_ulong; lia | lia].
Qed.

Lemma update_wm_mid s c k s' :
  config_ok -> sched_mid s c k true ->
  update_sched_rq_watermark s c = Some s' ->
  sched_mid s' c k false.
Proof.
  intros Hcfg [Hg Hrq] Hup.
  assert (exists r, get_rq s c = Some r) as [r Hr].
  { unfold update_sched_rq_watermark in Hup.
    apply bind_Some in Hup as (r & Hr & _). eauto. }
  destruct (Hrq c r Hr) as [Hb _]. rewrite decide_True in Hb by done.
  destruct (update_wm_shape s c r s' Hr Hup) as (Hf & Hcase).
  destruct (first_bit_range r s c k Hcfg Hb Hf) as (Hfr & Hfset & Hul & Hnr).
  set (f := bmq_find_first_bit (bitmap (queue r)) bmq_BITS) in *.
  rewrite Hul in Hcase. set (new := SCHED_PRIO2WATERMARK f) in *.
  destruct Hcase as [[Heq ->] | (Hne & old & masks1 & nw & masks2 & s1 & Hold & Hm1
      & Hnw & Hm2 & Hs1 & Ht & Hrqs & Hp & Hsp & Hsm & Hfin)].
  { split; [done |]. intros c' r' Hr'. destruct (Hrq c' r' Hr') as [Hb' Hw'].
    split; [done |]. intros _. destruct (decide (c' = c)) as [-> | Hne].
    - simplify_eq. unfold wm_current. by rewrite <- Heq.
    - apply Hw'. by right. }
  assert (Hc0 : 0 <= c).
  { apply zlookup_Some in Hr. lia. }
  assert (Hget : forall c', get_rq s' c'
            = if decide (c = c') then Some (set_watermark new r) else get_rq s c').
  { intros c'. unfold get_rq at 1. rewrite Hrqs. by apply get_rq_put_rq. }
  assert (Hsa : smt_active s' = smt_active s).
  { unfold smt_active. by rewrite Hsp. }
  assert (Hlen2 : length masks2 = length (sched_rq_watermark s)).
  { erewrite zupdate_length by done. by eapply zupdate_length. }
  assert (Hlen : length (sched_rq_watermark s') = length (sched_rq_watermark s)).
  { destruct Hfin as [-> | (_ & m0 & Hm0)]; [done |].
    erewrite zupdate_length by done. done. }
  assert (Hlk : forall w, 1 <= w \/ (w = 0 /\ smt_active s = false) ->
            zlookup (sched_rq_watermark s') w
            = if decide (new = w) then Some (cpumask_set_cpu (cpu r) nw)
              else if decide (watermark r = w) then Some (cpumask_clear_cpu (cpu r) old)
              else zlookup (sched_rq_watermark s) w).
  { intros w Hw.
    assert (zlookup (sched_rq_watermark s') w = zlookup masks2 w) as ->.
    { destruct Hfin as [-> | (Hon & m0 & Hm0)]; [done |].
      rewrite (zlookup_zupdate _ _ _ _ w Hm0).
      destruct (decide (0 = w)); [| done]. destruct Hw as [? | [_ ?]]; [lia | congruence]. }
    rewrite (zlookup_zupdate _ _ _ _ w Hm2). destruct (decide (new = w)); [done |].
    by rewrite (zlookup_zupdate _ _ _ _ w Hm1). }
  pose proof (inv_cpu _ _ _ _ Hb) as Hcpu.
  pose proof (inv_wm_range _ _ _ _ Hb) as Hrange.
  split.
  { destruct Hg as [Hg1 Hg2 Hg3]. split.
    - by rewrite Hlen.
    - rewrite Hsa, Hsm. intros Hon. specialize (Hg2 Hon).
      rewrite Hrqs. unfold put_rq in Hs1.
      apply bind_Some in Hs1 as (rqs & Hrqs' & E). simplify_eq. cbn.
      by erewrite zupdate_length.
    - intros c1 c2 r1 r2 p. rewrite !Hget. intros H1 H2 Hq1 Hq2.
      destruct (decide (c = c1)) as [<- | N1], (decide (c = c2)) as [<- | N2];
        try done.
      + injection H1 as <-. exact (Hg3 _ _ _ _ p Hr H2 Hq1 Hq2).
      + injection H2 as <-. exact (Hg3 _ _ _ _ p H1 Hr Hq1 Hq2).
      + exact (Hg3 _ _ _ _ p H1 H2 Hq1 Hq2). }
  intros c' r'. rewrite Hget. destruct (decide (c = c')) as [<- | Hne'].
  - intros [= <-]. rewrite decide_True by done. split.
    + destruct Hb as [? Hhl Hnn Hhigh HI5 HI4 Hnd Hidle HI2 Hfit ? Hin Hout Hslot0 Hpd].
      split; try done.
      * intros l hs p Hl Hin'. unfold get_task. rewrite Ht. by eapply HI4.
      * cbn. exists (cpumask_set_cpu (cpu r) nw). rewrite Hlk by (left; lia).
        rewrite decide_True by done. split; [done |].
        unfold cpumask_set_cpu. rewrite Hcpu. by apply Z.setbit_eq.
      * cbn. intros w m Hw Hwn. rewrite Hlk by (by left).
        rewrite decide_False by done. destruct (decide (watermark r = w)).
        -- intros [= <-]. unfold cpumask_clear_cpu. rewrite Hcpu. by apply Z.clearbit_eq.
        -- by apply Hout.
      * rewrite Hsa. intros Hoff m. rewrite Hlk by (by right).
        rewrite !decide_False by lia. by apply Hslot0.
      * by rewrite Hp.
    + intros _. reflexivity.
  - intros Hr'. destruct (Hrq c' r' Hr') as [Hb' Hw']. split; [| intros _; apply Hw'; by right].
    rewrite decide_False in Hb' by done. rewrite decide_False by done.
    eapply rq_body_transfer; try done.
    + intros p t _ Hpt. exists t. unfold get_task. by rewrite Ht.
    + intros w m m' Hw Hm. rewrite Hlk by done.
      destruct (decide (new = w)) as [<- |].
      { intros [= <-].
        unfold cpumask_set_cpu. rewrite Hcpu, Z.setbit_neq by lia.
        rewrite (zlookup_zupdate _ _ _ _ new Hm1) in Hnw.
        destruct (decide (watermark r = new)); [done |]. congruence. }
      destruct (decide (watermark r = w)) as [<- |]; [| congruence].
      intros [= <-]. unfold cpumask_clear_cpu. rewrite Hcpu, Z.clearbit_neq by lia.
      congruence.
    + by rewrite Hp.
Qed.


End Watermark.

(** ** Lists of the bitmap queue *)

Section QueueLists.
Context `{cfg : Config}.




Lemma zlookup_fmap {A B} (g : A -> B) (l : list A) i :
  zlookup (g <$> l) i = g <$> zlookup l i.
Proof.
  unfold zlookup. destruct (0 <=? i); [| done]. apply list_lookup_fmap.
Qed.

Lemma sum_length_insert (hs : list (list nat)) n x y :
  hs !! n = Some y ->
  (sum_list (length <$> <[n := x]> hs) + length y
   = sum_list (length <$> hs) + length x)%nat.
Proof.
  revert n. induction hs as [| h hs IH]; intros [| n] Hn; simplify_eq/=; [lia |].
  specialize (IH n Hn). lia.
Qed.

Lemma nr_queued_update hs i x y hs' :
  zlookup hs i = Some y -> zupdate hs i x = Some hs' ->
  nr_queued hs' + Z.of_nat (length y) = nr_queued hs + Z.of_nat (length x).
Proof.
  intros [_ Hy]%zlookup_Some [_ ->]%zupdate_Some. unfold nr_queued.
  pose proof (sum_length_insert hs (Z.to_nat i) x y Hy). lia.
Qed.

Lemma filter_ne_notin (p : nat) (l : list nat) :
  p ∉ l -> filter (λ n, n ≠ p) l = l.
Proof.
  induction l as [| a l IH]; [done |]. intros Hn.
  apply not_elem_of_cons in Hn as [Hne Hn].
  rewrite filter_cons_True by done. by rewrite IH.
Qed.

Lemma filter_ne_length (p : nat) (l : list nat) :
  NoDup l -> p ∈ l -> S (length (filter (λ n, n ≠ p) l)) = length l.
Proof.
  induction l as [| a l IH]; intros Hnd Hin.
  - by apply elem_of_nil in Hin.
  - apply NoDup_cons in Hnd as [Ha Hnd].
    destruct (decide (a = p)) as [-> | Hne].
    + rewrite filter_cons_False by (intros ?; done).
      rewrite filter_ne_notin by done. done.
    + rewrite filter_cons_True by done. cbn.
      apply elem_of_cons in Hin as [-> | Hin]; [done |]. by rewrite IH.
Qed.

Lemma prio_insert_perm ts pr p l l' :
  prio_insert ts pr p l = Some l' -> l' ≡ₚ p :: l.
Proof.
  revert l'. induction l as [| n l IH]; intros l' H; cbn in H.
  - by simplify_eq.
  - apply bind_Some in H as (t & Ht & H).
    destruct (pr <? prio t); [by simplify_eq |].
    apply bind_Some in H as (l'' & Hl & H). simplify_eq.
    rewrite (IH _ Hl). apply Permutation_swap.
Qed.

Lemma prio_insert_is_Some ts pr p l :
  (forall n, n ∈ l -> is_Some (ts !! n)) -> is_Some (prio_insert ts pr p l).
Proof.
  induction l as [| n l IH]; intros Hl; cbn; [by eexists |].
  destruct (Hl n) as [t ->]; [by left |]. cbn.
  destruct (pr <? prio t); [by eexists |].
  destruct IH as [l'' ->]; [| by eexists]. intros m Hm. apply Hl. by right.
Qed.

Lemma bmq_add_task_spec ts p q idx q' :
  bmq_add_task ts p q idx = Some q' ->
  exists l l', zlookup (heads q) idx = Some l /\ l' ≡ₚ p :: l /\
    zupdate (heads q) idx l' = Some (heads q') /\ bitmap q' = bitmap q.
Proof.
  unfold bmq_add_task. intros H.
  apply bind_Some in H as (l & Hl & H).
  apply bind_Some in H as (l' & Hl' & H).
  apply bind_Some in H as (hs & Hhs & H). simplify_eq. cbn.
  exists l, l'. repeat split; try done.
  destruct (negb (idx =? 0)).
  - simplify_eq. symmetry. apply Permutation_cons_append.
  - apply bind_Some in Hl' as (pt & _ & Hl'). by eapply prio_insert_perm.
Qed.


End QueueLists.

(** ** Enqueue keeps the invariant *)

Section EnqueueInv.
Context `{cfg : Config}.

Lemma set_tasks_id s : set_tasks (tasks s) s = s.
Proof. by destruct s. Qed.

Lemma put_rq_fields s c r s' :
  put_rq s c r = Some s' ->
  tasks s' = tasks s /\
  sched_rq_watermark s' = sched_rq_watermark s /\
  sched_rq_watermark_bitmap s' = sched_rq_watermark_bitmap s /\
  sched_rq_pending_mask s' = sched_rq_pending_mask s /\
  sched_smt_present s' = sched_smt_present s /\
  cpu_smt_masks s' = cpu_smt_masks s /\
  length (runqueues s') = length (runqueues s).
Proof.
  unfold put_rq. intros H. apply bind_Some in H as (rqs & E & H). simplify_eq.
  cbn. repeat split. by eapply zupdate_length.
Qed.

(** Replacing the queue of runqueue [c] (and writing task fields). *)
Lemma queue_replace s c r k b ts' q' k' s1 :
  sched_mid s c k b -> get_rq s c = Some r ->
  put_rq (set_tasks ts' s) c (set_queue q' r) = Some s1 ->
  Z.of_nat (length (heads q')) = bmq_BITS ->
  0 <= bitmap q' ->
  (forall j, bmq_BITS <= j -> Z.testbit (bitmap q') j = false) ->
  (forall l hs, zlookup (heads q') l = Some hs ->
     (Z.testbit (bitmap q') l = true <-> hs ≠ [])) ->
  (forall l hs x, zlookup (heads q') l = Some hs -> x ∈ hs ->
     exists t, ts' !! x = Some t /\ bmq_idx t = l) ->
  (forall l hs, zlookup (heads q') l = Some hs -> NoDup hs) ->
  (exists l hs, zlookup (heads q') l = Some hs /\ idle r ∈ hs) ->
  nr_running r + 1 + k' = nr_queued (heads q') ->
  (forall c' r' x t, c' ≠ c -> get_rq s c' = Some r' -> queued r' x ->
     get_task s x = Some t ->
     (exists t', ts' !! x = Some t' /\ bmq_idx t' = bmq_idx t)
     /\ ~ (exists l hs, zlookup (heads q') l = Some hs /\ x ∈ hs)) ->
  sched_mid s1 c k' true /\
  (bitmap q' = bitmap (queue r) -> sched_mid s1 c k' b).
Proof.
  intros [Hg Hrq] Hr Hput Hlen Hnn Hhigh HI5 HI4 Hnd Hidle HI2 Hoth.
  destruct (put_rq_fields _ _ _ _ Hput) as (Ft & Fw & Fb & Fp & Fs & Fm & Fl).
  cbn in Ft, Fw, Fb, Fp, Fs, Fm, Fl.
  assert (Hget : forall c', get_rq s1 c'
            = if decide (c = c') then Some (set_queue q' r) else get_rq s c').
  { intros c'. by rewrite (get_rq_put_rq _ _ _ _ c' Hput). }
  assert (Hsa : smt_active s1 = smt_active s).
  { unfold smt_active. by rewrite Fs. }
  destruct (Hrq c r Hr) as [Hb Hwc]. rewrite decide_True in Hb by done.
  assert (Hcom : sched_globals s1 /\
    forall c' r', get_rq s1 c' = Some r' ->
      rq_body s1 c' r' (if decide (c' = c) then k' else 0)
      /\ (c' ≠ c -> wm_current r')).
  { split.
    - destruct Hg as [Hg1 Hg2 Hg3]. split.
      + by rewrite Fw.
      + rewrite Hsa, Fm, Fl. done.
      + intros c1 c2 r1 r2 x. rewrite !Hget. intros H1 H2 Hq1 Hq2.
        destruct (decide (c = c1)) as [<- | N1], (decide (c = c2)) as [<- | N2];
          try done.
        * injection H1 as <-. destruct (Hrq c2 r2 H2) as [Hb2 _].
          rewrite decide_False in Hb2 by done.
          pose proof Hq2 as (l2 & hs2 & Hl2 & Hx2).
          destruct (inv_level _ _ _ _ Hb2 _ _ _ Hl2 Hx2) as (t & Ht & _).
          destruct (Hoth c2 r2 x t) as [_ Hno]; [done .. |].
          by destruct Hno.
        * injection H2 as <-. destruct (Hrq c1 r1 H1) as [Hb1 _].
          rewrite decide_False in Hb1 by done.
          pose proof Hq1 as (l1 & hs1 & Hl1 & Hx1).
          destruct (inv_level _ _ _ _ Hb1 _ _ _ Hl1 Hx1) as (t & Ht & _).
          destruct (Hoth c1 r1 x t) as [_ Hno]; [done .. |].
          by destruct Hno.
        * exact (Hg3 _ _ _ _ x H1 H2 Hq1 Hq2).
    - intros c' r'. rewrite Hget. destruct (decide (c = c')) as [<- | Hne].
      + intros [= <-]. rewrite decide_True by done. split; [| done].
        destruct Hb as [? ? ? ? ? ? ? ? ? ? ? Hin Hout Hslot0 Hpd].
        split; try done.
        * intros l hs x Hl Hx. unfold get_task. rewrite Ft. by eapply HI4.
        * by rewrite Fw.
        * by rewrite Fw.
        * by rewrite Hsa, Fw.
        * by rewrite Fp.
      + intros Hr'. destruct (Hrq c' r' Hr') as [Hb' Hw'].
        rewrite decide_False in Hb' by done. rewrite decide_False by done.
        split; [| intros _; apply Hw'; by right].
        eapply rq_body_transfer; try done.
        * intros x t Hq Hx. unfold get_task. rewrite Ft.
          by destruct (Hoth c' r' x t).
        * by rewrite Fw.
        * rewrite Fw. congruence.
        * by rewrite Fp. }
  destruct Hcom as [Hg1 Hrq1]. split.
  - split; [done |]. intros c' r' Hr'. destruct (Hrq1 c' r' Hr') as [? Hw].
    split; [done |]. intros [? | ?]; [done | by apply Hw].
  - intros Hbm. split; [done |]. intros c' r' Hr'.
    destruct (Hrq1 c' r' Hr') as [? Hw]. split; [done |].
    destruct (decide (c' = c)) as [-> | Hne]; [| intros _; by apply Hw].
    intros Hst. rewrite Hget, decide_True in Hr' by done. injection Hr' as <-.
    unfold wm_current in *. cbn. rewrite Hbm. apply Hwc. destruct Hst; [by left | done].
Qed.


Lemma sched_inv_mid s c : sched_inv s <-> sched_mid s c 0 false.
Proof.
  split; intros [Hg Hrq]; (split; [done |]); intros c' r' Hr';
    destruct (Hrq c' r' Hr') as [Hb Hw].
  - split; [by destruct (decide (c' = c)) | done].
  - split; [by destruct (decide (c' = c)) | apply Hw; by left].
Qed.

Lemma enqueue_mid s p c r t idx q s1 :
  sched_inv s -> get_rq s c = Some r -> get_task s p = Some t ->
  (forall c' r', get_rq s c' = Some r' -> ~ queued r' p) ->
  bmq_add_task (tasks (put_task s p (set_bmq_idx idx t))) p (queue r) idx = Some q ->
  put_rq (put_task s p (set_bmq_idx idx t)) c (set_queue (set_rq_bit idx q) r) = Some s1 ->
  sched_mid s1 c 1 true.
Proof.
  intros Hinv Hr Ht Hnq Hadd Hput.
  pose proof (proj1 (sched_inv_mid s c) Hinv) as Hmid.
  destruct Hinv as [Hg Hrq]. destruct (Hrq c r Hr) as [Hb _].
  destruct (bmq_add_task_spec _ _ _ _ _ Hadd) as (l & l' & Hl & Hperm & Hup & Hbm).
  destruct (zlookup_Some _ _ _ Hl) as [Hidx _].
  rewrite (inv_heads_len _ _ _ _ Hb) in Hidx.
  assert (Hlk : forall lv, zlookup (heads q) lv
            = if decide (idx = lv) then Some l' else zlookup (heads (queue r)) lv).
  { intros lv. by apply (zlookup_zupdate _ _ _ _ lv Hup). }
  assert (Hpl : p ∉ l).
  { intros Hin. apply (Hnq c r Hr). by exists idx, l. }
  destruct Hb as [? Hhl Hnn Hhigh HI5 HI4 Hnd Hidle HI2 ? ? ? ? ? ?].
  refine (proj1 (queue_replace s c r 0 false _ (set_rq_bit idx q) 1 s1 Hmid Hr Hput
            _ _ _ _ _ _ _ _ _)); cbn.
  - by rewrite (zupdate_length _ _ _ _ Hup).
  - rewrite Hbm. by apply set_bit_nonneg.
  - intros j Hj. rewrite Hbm, testbit_set_bit by lia.
    rewrite bool_decide_eq_false_2 by lia. by apply Hhigh.
  - intros lv hs. rewrite Hlk, Hbm, testbit_set_bit by lia.
    destruct (decide (idx = lv)) as [<- | Hne].
    + intros [= <-]. rewrite bool_decide_eq_true_2 by done. split; [| done].
      intros _ E. rewrite E in Hperm. by apply Permutation_nil_cons in Hperm.
    + rewrite bool_decide_eq_false_2 by done. apply HI5.
  - intros lv hs x. rewrite Hlk. intros Hlv Hx.
    assert (x = p \/ (x ≠ p /\ exists hs0, zlookup (heads (queue r)) lv = Some hs0 /\ x ∈ hs0))
      as [-> | (Hxp & hs0 & Hl0 & Hx0)].
    { destruct (decide (idx = lv)) as [<- | Hne].
      - injection Hlv as <-. rewrite Hperm in Hx.
        apply elem_of_cons in Hx as [-> | Hx]; [by left | right].
        split; [congruence | eauto].
      - right. split; [| eauto]. intros ->. apply (Hnq c r Hr). by exists lv, hs. }
    + rewrite lookup_insert_eq. eexists. split; [done |]. cbn.
      destruct (decide (idx = lv)) as [| Hne]; [done |].
      exfalso. apply (Hnq c r Hr). by exists lv, hs.
    + rewrite lookup_insert_ne by done. by eapply HI4.
  - intros lv hs. rewrite Hlk. destruct (decide (idx = lv)) as [<- | Hne].
    + intros [= <-]. rewrite Hperm. apply NoDup_cons. split; [done |]. by eapply Hnd.
    + apply Hnd.
  - destruct Hidle as (li & hi & Hli & Hi). destruct (decide (idx = li)) as [<- | Hne].
    + exists idx, l'. rewrite Hlk, decide_True by done. split; [done |].
      rewrite Hperm. right. congruence.
    + exists li, hi. by rewrite Hlk, decide_False.
  - pose proof (nr_queued_update _ _ _ _ _ Hl Hup) as Hn.
    apply Permutation_length in Hperm. cbn in Hperm. lia.
  - intros c' r' x t' Hne Hr' Hq Hx. split.
    + assert (x ≠ p) by (intros ->; by apply (Hnq c' r' Hr')).
      rewrite lookup_insert_ne by done. eauto.
    + intros (lv & hs & Hlv & Hxin). rewrite Hlk in Hlv.
      destruct (decide (idx = lv)) as [<- | Hne'].
      * injection Hlv as <-. rewrite Hperm in Hxin.
        apply elem_of_cons in Hxin as [-> | Hxin]; [by apply (Hnq c' r' Hr') |].
        apply Hne. eapply (inv_unique _ Hg c' c r' r x); try done. by exists idx, l.
      * apply Hne. eapply (inv_unique _ Hg c' c r' r x); try done. by exists lv, hs.
Qed.


Lemma set_pending_id s : set_sched_rq_pending_mask (sched_rq_pending_mask s) s = s.
Proof. by destruct s. Qed.

Lemma set_watermark_id r : set_watermark (watermark r) r = r.
Proof. by destruct r. Qed.

Lemma update_wm_get_rq s c r s' :
  get_rq s c = Some r -> update_sched_rq_watermark s c = Some s' ->
  exists w, get_rq s' c = Some (set_watermark w r).
Proof.
  intros Hr Hup. destruct (update_wm_shape s c r s' Hr Hup) as (_ & Hcase).
  destruct Hcase as [[_ ->] | (_ & old & masks1 & nw & masks2 & s1 & _ & _ & _ & _
      & Hs1 & _ & Hrqs & _)].
  - exists (watermark r). by rewrite set_watermark_id.
  - eexists. unfold get_rq. rewrite Hrqs. fold (get_rq s1 c).
    rewrite (get_rq_put_rq _ _ _ _ c Hs1). by rewrite decide_True.
Qed.

Lemma counter_finish s c r k n pend' s2 :
  sched_mid s c k false -> get_rq s c = Some r -> n = nr_running r + k ->
  fits_ulong n ->
  put_rq s c (set_nr_running n r) = Some s2 ->
  (forall c', c' ≠ c -> Z.testbit pend' c' = Z.testbit (sched_rq_pending_mask s) c') ->
  (Z.testbit pend' c = true <-> 2 <= n) ->
  sched_inv (set_sched_rq_pending_mask pend' s2).
Proof.
  intros [Hg Hrq] Hr -> Hfitn Hput Hoth Hc.
  destruct (put_rq_fields _ _ _ _ Hput) as (Ft & Fw & Fb & Fp & Fs & Fm & Fl).
  set (s3 := set_sched_rq_pending_mask pend' s2).
  assert (Hget : forall c', get_rq s3 c'
            = if decide (c = c') then Some (set_nr_running (nr_running r + k) r)
              else get_rq s c').
  { intros c'. by rewrite <- (get_rq_put_rq _ _ _ _ c' Hput). }
  assert (Hsa : smt_active s3 = smt_active s).
  { unfold smt_active. cbn. by rewrite Fs. }
  split.
  - destruct Hg as [Hg1 Hg2 Hg3]. split.
    + cbn. by rewrite Fw.
    + rewrite Hsa. cbn. by rewrite Fm, Fl.
    + intros c1 c2 r1 r2 x. rewrite !Hget. intros H1 H2 Hq1 Hq2.
      destruct (decide (c = c1)) as [<- | N1], (decide (c = c2)) as [<- | N2];
        try done.
      * injection H1 as <-. exact (Hg3 _ _ _ _ x Hr H2 Hq1 Hq2).
      * injection H2 as <-. exact (Hg3 _ _ _ _ x H1 Hr Hq1 Hq2).
      * exact (Hg3 _ _ _ _ x H1 H2 Hq1 Hq2).
  - intros c' r'. rewrite Hget. destruct (decide (c = c')) as [<- | Hne].
    + intros [= <-]. destruct (Hrq c r Hr) as [Hb Hw].
      rewrite decide_True in Hb by done. split; [| apply Hw; by left].
      destruct Hb as [? ? ? ? ? HI4 ? ? HI2 ? ? Hin Hout Hslot0 Hpd].
      split; try done; cbn.
      * intros l hs x Hl Hx. unfold get_task. cbn. rewrite Ft. by eapply HI4.
      * lia.
      * by rewrite Fw.
      * by rewrite Fw.
      * rewrite Hsa, Fw. done.
    + intros Hr'. destruct (Hrq c' r' Hr') as [Hb' Hw'].
      rewrite decide_False in Hb' by done. split; [| apply Hw'; by left].
      eapply rq_body_transfer; try done; cbn.
      * intros x t _ Hx. exists t. unfold get_task. cbn. by rewrite Ft.
      * by rewrite Fw.
      * rewrite Fw. congruence.
      * apply Hoth. congruence.
Qed.

Lemma nr_queued_nonneg hs : 0 <= nr_queued hs.
Proof. unfold nr_queued. lia. Qed.

Lemma nr_queued_pos hs l h (x : nat) :
  zlookup hs l = Some h -> x ∈ h -> 1 <= nr_queued hs.
Proof.
  intros Hl Hx.
  assert (Hr : 0 <= l < Z.of_nat (length hs)) by (apply zlookup_Some in Hl; lia).
  pose proof (nr_queued_update hs l [] h _ Hl (zupdate_in_range hs l [] Hr)) as Hn.
  destruct h; [by apply elem_of_nil in Hx |]. cbn in Hn.
  pose proof (nr_queued_nonneg (<[Z.to_nat l := []]> hs)). lia.
Qed.

Theorem enqueue_task_inv s p c r s' :
  config_ok -> sched_inv s ->
  get_rq s c = Some r ->
  (forall c' r', get_rq s c' = Some r' -> ~ queued r' p) ->
  nr_running r + 1 < 2 ^ BITS_PER_LONG ->
  enqueue_task s p c = Some s' ->
  sched_inv s'.
Proof.
  intros Hcfg Hinv Hr Hnq Hfit H. unfold enqueue_task in H.
  rewrite Hr in H. cbn [mbind option_bind] in H.
  apply bind_Some in H as (t & Ht & H).
  apply bind_Some in H as (q & Hadd & H).
  apply bind_Some in H as (sa & Hput & H).
  apply bind_Some in H as (s1 & Hup & H).
  apply bind_Some in H as (r1 & Hr1 & H).
  apply bind_Some in H as (s2 & Hput2 & H).
  pose proof (enqueue_mid _ _ _ _ _ _ _ _ Hinv Hr Ht Hnq Hadd Hput) as Hmid.
  pose proof (update_wm_mid _ _ _ _ Hcfg Hmid Hup) as Hmid1.
  assert (Hra : get_rq sa c = Some (set_queue (set_rq_bit (task_sched_prio t) q) r)).
  { rewrite (get_rq_put_rq _ _ _ _ c Hput). by rewrite decide_True. }
  destruct (update_wm_get_rq _ _ _ _ Hra Hup) as (w & Hr1').
  rewrite Hr1 in Hr1'. injection Hr1' as ->.
  cbn [nr_running set_watermark set_queue cpu_of cpu] in Hput2, H.
  destruct Hinv as [_ Hrq]. destruct (Hrq c r Hr) as [Hb _].
  pose proof (inv_nr _ _ _ _ Hb) as HI2.
  pose proof (inv_cpu _ _ _ _ Hb) as Hcpu.
  pose proof (nr_queued_nonneg (heads (queue r))).
  assert (Hc0 : 0 <= c) by (apply zlookup_Some in Hr; lia).
  assert (Hfitn : fits_ulong (nr_running r + 1)).
  { unfold fits_ulong, BITS_PER_LONG in *. lia. }
  rewrite ulong_small in * by done.
  destruct (2 =? nr_running r + 1) eqn:E; injection H as <-.
  - apply Z.eqb_eq in E.
    eapply (counter_finish s1 c _ 1 (nr_running r + 1) _ s2 Hmid1 Hr1 eq_refl Hfitn Hput2).
    + intros c' Hne. unfold cpumask_set_cpu, cpu_of. cbn. rewrite Hcpu.
      rewrite (proj1 (proj2 (proj2 (proj2 (put_rq_fields _ _ _ _ Hput2))))).
      by rewrite Z.setbit_neq by lia.
    + unfold cpumask_set_cpu, cpu_of. cbn. rewrite Hcpu, Z.setbit_eq by lia. lia.
  - apply Z.eqb_neq in E. rewrite <- (set_pending_id s2).
    eapply (counter_finish s1 c _ 1 (nr_running r + 1) _ s2 Hmid1 Hr1 eq_refl Hfitn Hput2).
    + intros c' _. by rewrite (proj1 (proj2 (proj2 (proj2 (put_rq_fields _ _ _ _ Hput2))))).
    + rewrite (proj1 (proj2 (proj2 (proj2 (put_rq_fields _ _ _ _ Hput2))))).
      destruct Hmid1 as [_ Hrq1]. destruct (Hrq1 c _ Hr1) as [Hb1 _].
      rewrite (inv_pending _ _ _ _ Hb1). cbn in *. lia.
Qed.

End EnqueueInv.

(** ** Dequeue keeps the invariant *)

Section DequeueInv.
Context `{cfg : Config}.

Lemma fmap_filter_insert (hs : list (list nat)) k hk (p : nat) :
  hs !! k = Some hk ->
  (forall j h, j ≠ k -> hs !! j = Some h -> p ∉ h) ->
  filter (λ n, n ≠ p) <$> hs = <[k := filter (λ n, n ≠ p) hk]> hs.
Proof.
  intros Hk Hoth. apply list_eq. intros i. rewrite list_lookup_fmap.
  destruct (decide (i = k)) as [-> | Hne].
  - rewrite list_lookup_insert_eq by (by eapply lookup_lt_Some). by rewrite Hk.
  - rewrite list_lookup_insert_ne by done.
    destruct (hs !! i) as [h |] eqn:Hi; [| done]. cbn.
    by rewrite filter_ne_notin by (by eapply Hoth).
Qed.

(** Where a queued task is linked. *)
Lemma queued_level s c r k p t :
  rq_body s c r k -> queued r p -> get_task s p = Some t ->
  exists hk, zlookup (heads (queue r)) (bmq_idx t) = Some hk /\ p ∈ hk /\
    forall l hs, zlookup (heads (queue r)) l = Some hs -> p ∈ hs -> l = bmq_idx t.
Proof.
  intros Hb (l & hs & Hl & Hp) Ht.
  assert (Hlev : forall l hs, zlookup (heads (queue r)) l = Some hs -> p ∈ hs ->
                   l = bmq_idx t).
  { intros l0 hs0 Hl0 Hp0.
    destruct (inv_level _ _ _ _ Hb _ _ _ Hl0 Hp0) as (t0 & Ht0 & <-). congruence. }
  pose proof (Hlev l hs Hl Hp) as E. rewrite E in Hl. exists hs. auto.
Qed.

Lemma list_del_heads s c r k p t hk :
  rq_body s c r k -> get_task s p = Some t ->
  zlookup (heads (queue r)) (bmq_idx t) = Some hk ->
  (forall l hs, zlookup (heads (queue r)) l = Some hs -> p ∈ hs -> l = bmq_idx t) ->
  zupdate (heads (queue r)) (bmq_idx t) (filter (λ n, n ≠ p) hk)
  = Some (heads (list_del p (queue r))).
Proof.
  intros Hb Ht Hk Hlev. destruct (zlookup_Some _ _ _ Hk) as [Hr Hk'].
  rewrite zupdate_in_range by done. f_equal. cbn. symmetry.
  apply fmap_filter_insert; [done |].
  intros j h Hne Hj Hp. apply Hne.
  assert (Z.of_nat j = bmq_idx t); [| lia].
  apply (Hlev _ h); [| done]. unfold zlookup.
  destruct (Z.leb_spec 0 (Z.of_nat j)); [| lia]. by rewrite Nat2Z.id.
Qed.

Lemma dequeue_mid s p c r t e s1 :
  sched_inv s -> get_rq s c = Some r -> get_task s p = Some t ->
  queued r p -> p ≠ idle r ->
  list_empty (list_del p (queue r)) (bmq_idx t) = Some e ->
  put_rq s c (set_queue (if e then clear_rq_bit (bmq_idx t) (list_del p (queue r))
                         else list_del p (queue r)) r) = Some s1 ->
  sched_mid s1 c (-1) true /\ (e = false -> sched_mid s1 c (-1) false).
Proof.
  intros Hinv Hr Ht Hq Hni He Hput.
  pose proof (proj1 (sched_inv_mid s c) Hinv) as Hmid.
  destruct Hinv as [Hg Hrq]. destruct (Hrq c r Hr) as [Hb _].
  destruct (queued_level _ _ _ _ _ _ Hb Hq Ht) as (hk & Hk & Hpk & Hlev).
  pose proof (list_del_heads _ _ _ _ _ _ _ Hb Ht Hk Hlev) as Hup.
  set (k := bmq_idx t) in *.
  set (q := list_del p (queue r)) in *.
  assert (Hk0 : 0 <= k) by (apply zlookup_Some in Hk; lia).
  assert (Hlk : forall lv, zlookup (heads q) lv
            = if decide (k = lv) then Some (filter (λ n, n ≠ p) hk)
              else zlookup (heads (queue r)) lv).
  { intros lv. by apply (zlookup_zupdate _ _ _ _ lv Hup). }
  assert (Hee : e = true <-> filter (λ n, n ≠ p) hk = []).
  { unfold list_empty in He. rewrite Hlk, decide_True in He by done. cbn in He.
    destruct (filter _ hk); simplify_eq; done. }
  set (q' := if e then clear_rq_bit k q else q) in *.
  assert (Hhq : heads q' = heads q) by (unfold q'; by destruct e).
  assert (Hbq : bitmap q' = if e then clear_bit k (bitmap (queue r)) else bitmap (queue r)).
  { unfold q'. by destruct e. }
  destruct Hb as [? Hhl Hnn Hhigh HI5 HI4 Hnd Hidle HI2 ? ? ? ? ? ?].
  rewrite <- (set_tasks_id s) in Hput.
  assert (Hpre :
    Z.of_nat (length (heads q')) = bmq_BITS /\
    0 <= bitmap q' /\
    (forall j, bmq_BITS <= j -> Z.testbit (bitmap q') j = false) /\
    (forall l hs, zlookup (heads q') l = Some hs ->
       (Z.testbit (bitmap q') l = true <-> hs ≠ [])) /\
    (forall l hs x, zlookup (heads q') l = Some hs -> x ∈ hs ->
       exists t, tasks s !! x = Some t /\ bmq_idx t = l) /\
    (forall l hs, zlookup (heads q') l = Some hs -> NoDup hs) /\
    (exists l hs, zlookup (heads q') l = Some hs /\ idle r ∈ hs) /\
    nr_running r + 1 + -1 = nr_queued (heads q') /\
    (forall c' r' x t, c' ≠ c -> get_rq s c' = Some r' -> queued r' x ->
       get_task s x = Some t ->
       (exists t', tasks s !! x = Some t' /\ bmq_idx t' = bmq_idx t)
       /\ ~ (exists l hs, zlookup (heads q') l = Some hs /\ x ∈ hs))).
  { rewrite Hhq, Hbq. repeat apply conj.
    - by rewrite (zupdate_length _ _ _ _ Hup).
    - destruct e; [by apply clear_bit_nonneg | done].
    - intros j Hj. destruct e; [| by apply Hhigh].
      rewrite testbit_clear_bit by done. rewrite (Hhigh j Hj). apply andb_false_r.
    - intros lv hs. rewrite Hlk. destruct (decide (k = lv)) as [<- | Hne].
      + intros [= <-]. destruct e.
        * rewrite testbit_clear_bit, bool_decide_eq_true_2 by done. cbn.
          split; [done |]. intros Hn. by destruct Hn, (proj1 Hee).
        * rewrite (HI5 k hk Hk). split; intros _.
          -- intros E. by specialize (proj2 Hee E).
          -- intros ->. by apply elem_of_nil in Hpk.
      + intros Hlv. rewrite <- (HI5 lv hs Hlv). destruct e; [| done].
        by rewrite testbit_clear_bit, bool_decide_eq_false_2 by done.
    - intros lv hs x. rewrite Hlk. destruct (decide (k = lv)) as [<- | Hne].
      + intros [= <-] [_ Hx]%list_elem_of_filter. by eapply HI4.
      + apply HI4.
    - intros lv hs. rewrite Hlk. destruct (decide (k = lv)) as [<- | Hne].
      + intros [= <-]. apply NoDup_filter. by eapply Hnd.
      + apply Hnd.
    - destruct Hidle as (li & hi & Hli & Hi). destruct (decide (k = li)) as [<- | Hne].
      + exists k, (filter (λ n, n ≠ p) hk). rewrite Hlk, decide_True by done.
        split; [done |]. apply list_elem_of_filter. split; [congruence |]. congruence.
      + exists li, hi. by rewrite Hlk, decide_False.
    - pose proof (nr_queued_update _ _ _ _ _ Hk Hup) as Hn.
      pose proof (filter_ne_length p hk (Hnd _ _ Hk) Hpk). lia.
    - intros c' r' x t' Hne Hr' Hqx Hx. split; [eauto |].
      intros (lv & hs & Hlv & Hxin). apply Hne.
      eapply (inv_unique _ Hg c' c r' r x); try done.
      rewrite Hlk in Hlv. destruct (decide (k = lv)) as [<- | Hne'].
      + injection Hlv as <-. apply list_elem_of_filter in Hxin as [_ Hxin].
        by exists k, hk.
      + by exists lv, hs. }
  destruct Hpre as (P1 & P2 & P3 & P4 & P5 & P6 & P7 & P8 & P9).
  destruct (queue_replace s c r 0 false (tasks s) q' (-1) s1 Hmid Hr Hput
              P1 P2 P3 P4 P5 P6 P7 P8 P9) as [Hm1 Hm2].
  split; [done |]. intros ->. apply Hm2. by rewrite Hbq.
Qed.


Theorem dequeue_task_inv s p c r s' :
  config_ok -> sched_inv s ->
  get_rq s c = Some r -> queued r p -> p ≠ idle r ->
  dequeue_task s p c = Some s' ->
  sched_inv s'.
Proof.
  intros Hcfg Hinv Hr Hq Hni H. unfold dequeue_task in H.
  rewrite Hr in H. cbn [mbind option_bind] in H.
  apply bind_Some in H as (t & Ht & H).
  apply bind_Some in H as (e & He & H).
  apply bind_Some in H as (s1 & Hs1 & H).
  apply bind_Some in H as (r1 & Hr1 & H).
  apply bind_Some in H as (s2 & Hput2 & H).
  assert (Hmid : sched_mid s1 c (-1) false /\ nr_running r1 = nr_running r
                 /\ cpu r1 = cpu r).
  { destruct e.
    - apply bind_Some in Hs1 as (sa & Hput & Hup).
      destruct (dequeue_mid _ _ _ _ _ true _ Hinv Hr Ht Hq Hni He Hput) as [Hm _].
      split; [by eapply update_wm_mid |].
      assert (Hra : get_rq sa c = Some (set_queue
                (clear_rq_bit (bmq_idx t) (list_del p (queue r))) r)).
      { rewrite (get_rq_put_rq _ _ _ _ c Hput). by rewrite decide_True. }
      destruct (update_wm_get_rq _ _ _ _ Hra Hup) as (w & Hr1').
      rewrite Hr1 in Hr1'. by injection Hr1' as ->.
    - destruct (dequeue_mid _ _ _ _ _ false _ Hinv Hr Ht Hq Hni He Hs1) as [_ Hm].
      split; [by apply Hm |].
      rewrite (get_rq_put_rq _ _ _ _ c Hs1), decide_True in Hr1 by done.
      by injection Hr1 as <-. }
  destruct Hmid as (Hmid & Hnr & Hcpu).
  destruct (proj2 Hmid c r1 Hr1) as [Hb1 _]. rewrite decide_True in Hb1 by done.
  pose proof (inv_nr _ _ _ _ Hb1) as HI2.
  pose proof (inv_nr_fit _ _ _ _ Hb1) as Hfit.
  pose proof (inv_cpu _ _ _ _ Hb1) as Hc1.
  destruct (inv_idle _ _ _ _ Hb1) as (li & hi & Hli & Hi).
  pose proof (nr_queued_pos _ _ _ _ Hli Hi).
  assert (Hc0 : 0 <= c) by (apply zlookup_Some in Hr; lia).
  assert (Hfitn : fits_ulong (nr_running r1 - 1)).
  { unfold fits_ulong in *. lia. }
  rewrite ulong_small in * by done.
  pose proof (put_rq_fields _ _ _ _ Hput2) as (_ & _ & _ & Fp & _).
  destruct (1 =? nr_running r1 - 1) eqn:E; injection H as <-.
  - apply Z.eqb_eq in E.
    eapply (counter_finish s1 c _ (-1) (nr_running r1 - 1) _ s2 Hmid Hr1 eq_refl Hfitn Hput2).
    + intros c' Hne. unfold cpumask_clear_cpu, cpu_of. rewrite Hc1, Fp.
      by rewrite Z.clearbit_neq by lia.
    + unfold cpumask_clear_cpu, cpu_of. rewrite Hc1, Z.clearbit_eq by lia. lia.
  - apply Z.eqb_neq in E. rewrite <- (set_pending_id s2).
    eapply (counter_finish s1 c _ (-1) (nr_running r1 - 1) _ s2 Hmid Hr1 eq_refl Hfitn Hput2).
    + intros c' _. by rewrite Fp.
    + rewrite Fp, (inv_pending _ _ _ _ Hb1). lia.
Qed.

End DequeueInv.

(** ** Requeue keeps the invariant; the step relation *)

Section StepInv.
Context `{cfg : Config}.

Lemma filter_ne_perm (p : nat) (l : list nat) :
  NoDup l -> p ∈ l -> p :: filter (λ n, n ≠ p) l ≡ₚ l.
Proof.
  intros Hnd Hin. apply NoDup_Permutation; [| done |].
  - apply NoDup_cons. split; [| by apply NoDup_filter].
    intros [Hne _]%list_elem_of_filter. done.
  - intros x. rewrite elem_of_cons, list_elem_of_filter.
    destruct (decide (x = p)) as [-> | Hne]; [by split; auto |].
    split; [by intros [? | [_ ?]] | auto].
Qed.

Lemma requeue_same_inv s p c r t q s1 :
  sched_inv s -> get_rq s c = Some r -> get_task s p = Some t ->
  queued r p ->
  bmq_add_task (tasks s) p (list_del p (queue r)) (bmq_idx t) = Some q ->
  put_rq s c (set_queue q r) = Some s1 ->
  sched_inv s1.
Proof.
  intros Hinv Hr Ht Hq Hadd Hput.
  pose proof (proj1 (sched_inv_mid s c) Hinv) as Hmid.
  apply (sched_inv_mid s1 c).
  destruct Hinv as [Hg Hrq]. destruct (Hrq c r Hr) as [Hb _].
  destruct (queued_level _ _ _ _ _ _ Hb Hq Ht) as (hk & Hk & Hpk & Hlev).
  pose proof (list_del_heads _ _ _ _ _ _ _ Hb Ht Hk Hlev) as Hdel.
  destruct (bmq_add_task_spec _ _ _ _ _ Hadd) as (l & l' & Hl & Hperm & Hup & Hbm).
  set (k := bmq_idx t) in *.
  rewrite (zlookup_zupdate _ _ _ _ k Hdel), decide_True in Hl by done.
  injection Hl as <-.
  destruct Hb as [? Hhl Hnn Hhigh HI5 HI4 Hnd Hidle HI2 ? ? ? ? ? ?].
  rewrite (filter_ne_perm p hk (Hnd _ _ Hk) Hpk) in Hperm.
  assert (Hlk : forall lv, zlookup (heads q) lv
            = if decide (k = lv) then Some l' else zlookup (heads (queue r)) lv).
  { intros lv. rewrite (zlookup_zupdate _ _ _ _ lv Hup).
    destruct (decide (k = lv)); [done |].
    rewrite (zlookup_zupdate _ _ _ _ lv Hdel). by rewrite decide_False. }
  cbn in Hbm. rewrite <- (set_tasks_id s) in Hput.
  refine (proj2 (queue_replace s c r 0 false _ q 0 s1 Hmid Hr Hput
            _ _ _ _ _ _ _ _ _) Hbm); rewrite ?Hbm.
  - rewrite (zupdate_length _ _ _ _ Hup), (zupdate_length _ _ _ _ Hdel). done.
  - done.
  - done.
  - intros lv hs. rewrite Hlk. destruct (decide (k = lv)) as [<- | Hne]; [| apply HI5].
    intros [= <-]. rewrite (HI5 k hk Hk). split; intros Hn E.
    + rewrite E in Hperm. apply Permutation_nil_l in Hperm. done.
    + rewrite E in Hperm. apply Permutation_nil_r in Hperm. done.
  - intros lv hs x. rewrite Hlk. destruct (decide (k = lv)) as [<- | Hne]; [| apply HI4].
    intros [= <-]. rewrite Hperm. by apply HI4.
  - intros lv hs. rewrite Hlk. destruct (decide (k = lv)) as [<- | Hne]; [| apply Hnd].
    intros [= <-]. rewrite Hperm. by eapply Hnd.
  - destruct Hidle as (li & hi & Hli & Hi). destruct (decide (k = li)) as [<- | Hne].
    + exists k, l'. rewrite Hlk, decide_True by done. split; [done |].
      rewrite Hperm. congruence.
    + exists li, hi. by rewrite Hlk, decide_False.
  - pose proof (nr_queued_update _ _ _ _ _ Hk Hdel) as Hn1.
    assert (Hk' : zlookup (heads (list_del p (queue r))) k
                  = Some (filter (λ n, n ≠ p) hk)).
    { rewrite (zlookup_zupdate _ _ _ _ k Hdel). by rewrite decide_True. }
    pose proof (nr_queued_update _ _ _ _ _ Hk' Hup) as Hn2.
    apply Permutation_length in Hperm. lia.
  - intros c' r' x t' Hne Hr' Hqx Hx. split; [eauto |].
    intros (lv & hs & Hlv & Hxin). apply Hne.
    eapply (inv_unique _ Hg c' c r' r x); try done.
    rewrite Hlk in Hlv. destruct (decide (k = lv)) as [<- | Hne'].
    + injection Hlv as <-. rewrite Hperm in Hxin. by exists k, hk.
    + by exists lv, hs.
Qed.


Lemma requeue_move_mid s p c r t idx q e s1 :
  sched_inv s -> get_rq s c = Some r -> get_task s p = Some t ->
  queued r p -> p ≠ idle r -> idx ≠ bmq_idx t ->
  bmq_add_task (tasks s) p (list_del p (queue r)) idx = Some q ->
  list_empty q (bmq_idx t) = Some e ->
  put_rq (put_task s p (set_bmq_idx idx t)) c
    (set_queue (set_rq_bit idx (if e then clear_rq_bit (bmq_idx t) q else q)) r)
    = Some s1 ->
  sched_mid s1 c 0 true.
Proof.
  intros Hinv Hr Ht Hq Hni Hik Hadd He Hput.
  pose proof (proj1 (sched_inv_mid s c) Hinv) as Hmid.
  destruct Hinv as [Hg Hrq]. destruct (Hrq c r Hr) as [Hb _].
  destruct (queued_level _ _ _ _ _ _ Hb Hq Ht) as (hk & Hk & Hpk & Hlev).
  pose proof (list_del_heads _ _ _ _ _ _ _ Hb Ht Hk Hlev) as Hdel.
  destruct (bmq_add_task_spec _ _ _ _ _ Hadd) as (l & l' & Hl & Hperm & Hup & Hbm).
  set (k := bmq_idx t) in *.
  set (fk := filter (λ n, n ≠ p) hk) in *.
  rewrite (zlookup_zupdate _ _ _ _ idx Hdel), decide_False in Hl by done.
  assert (Hk0 : 0 <= k) by (apply zlookup_Some in Hk; lia).
  assert (Hi0 : 0 <= idx) by (apply zlookup_Some in Hl; lia).
  destruct (zlookup_Some _ _ _ Hl) as [Hidx _].
  rewrite (inv_heads_len _ _ _ _ Hb) in Hidx.
  destruct Hb as [? Hhl Hnn Hhigh HI5 HI4 Hnd Hidle HI2 ? ? ? ? ? ?].
  assert (Hpl : p ∉ l).
  { intros Hin. apply Hik. by apply (Hlev idx l). }
  assert (Hlk : forall lv, zlookup (heads q) lv
            = if decide (idx = lv) then Some l'
              else if decide (k = lv) then Some fk
              else zlookup (heads (queue r)) lv).
  { intros lv. rewrite (zlookup_zupdate _ _ _ _ lv Hup).
    destruct (decide (idx = lv)); [done |].
    by rewrite (zlookup_zupdate _ _ _ _ lv Hdel). }
  assert (Hee : e = true <-> fk = []).
  { unfold list_empty in He. rewrite Hlk, decide_False, decide_True in He by done.
    cbn in He. destruct fk; simplify_eq; done. }
  set (q1 := if e then clear_rq_bit k q else q) in *.
  assert (Hhq : heads (set_rq_bit idx q1) = heads q) by (unfold q1; by destruct e).
  assert (Hbq : bitmap (set_rq_bit idx q1)
                = set_bit idx (if e then clear_bit k (bitmap (queue r))
                               else bitmap (queue r))).
  { unfold q1. cbn in Hbm. destruct e; cbn; by rewrite Hbm. }
  assert (Hxp : forall lv hs x, zlookup (heads (queue r)) lv = Some hs -> x ∈ hs ->
                  lv ≠ k -> x ≠ p).
  { intros lv hs x Hlv Hx Hne ->. apply Hne. by apply (Hlev lv hs). }
  refine (proj1 (queue_replace s c r 0 false _ (set_rq_bit idx q1) 0 s1 Hmid Hr Hput
            _ _ _ _ _ _ _ _ _)); rewrite ?Hhq, ?Hbq.
  - rewrite (zupdate_length _ _ _ _ Hup), (zupdate_length _ _ _ _ Hdel). done.
  - apply set_bit_nonneg. destruct e; [by apply clear_bit_nonneg | done].
  - intros j Hj. rewrite testbit_set_bit, bool_decide_eq_false_2 by lia. cbn.
    destruct e; [| by apply Hhigh].
    rewrite testbit_clear_bit, (Hhigh j Hj) by done. apply andb_false_r.
  - intros lv hs. rewrite Hlk, testbit_set_bit by done.
    destruct (decide (idx = lv)) as [<- | Hne].
    { intros [= <-]. rewrite bool_decide_eq_true_2 by done. split; [| done].
      intros _ E. rewrite E in Hperm. by apply Permutation_nil_cons in Hperm. }
    rewrite bool_decide_eq_false_2 by done. cbn.
    destruct (decide (k = lv)) as [<- | Hne'].
    + intros [= <-]. destruct e.
      * rewrite testbit_clear_bit, bool_decide_eq_true_2 by done. cbn.
        split; [done |]. intros Hn. by destruct Hn, (proj1 Hee).
      * rewrite (HI5 k hk Hk). split; intros _.
        -- intros E. by specialize (proj2 Hee E).
        -- intros ->. by apply elem_of_nil in Hpk.
    + intros Hlv. rewrite <- (HI5 lv hs Hlv). destruct e; [| done].
      by rewrite testbit_clear_bit, bool_decide_eq_false_2 by done.
  - intros lv hs x. rewrite Hlk. destruct (decide (idx = lv)) as [<- | Hne].
    { intros [= <-]. rewrite Hperm. intros [-> | Hx]%elem_of_cons.
      - rewrite lookup_insert_eq. by eexists.
      - rewrite lookup_insert_ne by (intros ->; done). by eapply HI4. }
    destruct (decide (k = lv)) as [<- | Hne'].
    + intros [= <-] [Hxne Hx]%list_elem_of_filter.
      rewrite lookup_insert_ne by done. by eapply HI4.
    + intros Hlv Hx. rewrite lookup_insert_ne.
      * by eapply HI4.
      * intros ->. by eapply (Hxp lv hs x).
  - intros lv hs. rewrite Hlk. destruct (decide (idx = lv)) as [<- | Hne].
    { intros [= <-]. rewrite Hperm. apply NoDup_cons. split; [done |]. by eapply Hnd. }
    destruct (decide (k = lv)) as [<- | Hne']; [| apply Hnd].
    intros [= <-]. apply NoDup_filter. by eapply Hnd.
  - destruct Hidle as (li & hi & Hli & Hi). destruct (decide (idx = li)) as [<- | Hne].
    { exists idx, l'. rewrite Hlk, decide_True by done. split; [done |].
      rewrite Hperm. right. congruence. }
    destruct (decide (k = li)) as [<- | Hne'].
    + exists k, fk. rewrite Hlk, decide_False, decide_True by done.
      split; [done |]. apply list_elem_of_filter. split; congruence.
    + exists li, hi. by rewrite Hlk, !decide_False.
  - pose proof (nr_queued_update _ _ _ _ _ Hk Hdel) as Hn1.
    assert (Hl' : zlookup (heads (list_del p (queue r))) idx = Some l).
    { rewrite (zlookup_zupdate _ _ _ _ idx Hdel). by rewrite decide_False. }
    pose proof (nr_queued_update _ _ _ _ _ Hl' Hup) as Hn2.
    pose proof (filter_ne_length p hk (Hnd _ _ Hk) Hpk) as Hfl. fold fk in Hfl.
    apply Permutation_length in Hperm. cbn in Hperm. lia.
  - intros c' r' x t' Hne Hr' Hqx Hx.
    assert (Hq' : forall y, queued r y -> x ≠ y).
    { intros y Hy ->. apply Hne. by eapply (inv_unique _ Hg c' c r' r y). }
    split.
    + rewrite lookup_insert_ne; [eauto |]. intros ->. by apply (Hq' x).
    + intros (lv & hs & Hlv & Hxin). rewrite Hlk in Hlv.
      destruct (decide (idx = lv)) as [<- | N1].
      { injection Hlv as <-. rewrite Hperm in Hxin.
        apply elem_of_cons in Hxin as [-> | Hxin]; [by apply (Hq' p) |].
        apply (Hq' x); [| done]. by exists idx, l. }
      destruct (decide (k = lv)) as [<- | N2].
      * injection Hlv as <-. apply list_elem_of_filter in Hxin as [_ Hxin].
        apply (Hq' x); [| done]. by exists k, hk.
      * apply (Hq' x); [| done]. by exists lv, hs.
Qed.


Theorem requeue_task_inv s p c r s' :
  config_ok -> sched_inv s ->
  get_rq s c = Some r -> queued r p -> p ≠ idle r ->
  requeue_task s p c = Some s' ->
  sched_inv s'.
Proof.
  intros Hcfg Hinv Hr Hq Hni H. unfold requeue_task in H.
  rewrite Hr in H. cbn [mbind option_bind] in H.
  apply bind_Some in H as (t & Ht & H).
  apply bind_Some in H as (q & Hadd & H).
  destruct (Z.eqb_spec (task_sched_prio t) (bmq_idx t)) as [E | E]; cbn [negb] in H.
  - rewrite E in Hadd. by eapply requeue_same_inv.
  - apply bind_Some in H as (e & He & H).
    apply bind_Some in H as (sa & Hput & Hup).
    apply (sched_inv_mid s' c). eapply update_wm_mid; [done | | done].
    by eapply requeue_move_mid.
Qed.

Theorem requeue_task_lazy_inv s p c r s' rv :
  config_ok -> sched_inv s ->
  get_rq s c = Some r -> queued r p -> p ≠ idle r ->
  requeue_task_lazy s p c = Some (s', rv) ->
  sched_inv s'.
Proof.
  intros Hcfg Hinv Hr Hq Hni H. unfold requeue_task_lazy in H.
  rewrite Hr in H. cbn [mbind option_bind] in H.
  apply bind_Some in H as (t & Ht & H).
  destruct (Z.eqb_spec (task_sched_prio t) (bmq_idx t)) as [E | E].
  - by simplify_eq.
  - apply bind_Some in H as (q & Hadd & H).
    apply bind_Some in H as (e & He & H).
    apply bind_Some in H as (sa & Hput & H).
    apply bind_Some in H as (sb & Hup & H). simplify_eq.
    apply (sched_inv_mid s' c). eapply update_wm_mid; [done | | done].
    by eapply requeue_move_mid.
Qed.

Theorem task_write_inv s p t t' :
  sched_inv s -> get_task s p = Some t -> bmq_idx t' = bmq_idx t ->
  sched_inv (put_task s p t').
Proof.
  intros [[Hg1 Hg2 Hg3] Hrq] Ht Hidx. split; [by split |].
  intros c r Hr. destruct (Hrq c r Hr) as [Hb Hw]. split; [| done].
  apply (rq_body_transfer s _ c r 0 Hb); try done.
  - intros x tx _ Hx. rewrite get_task_put_task.
    destruct (decide (p = x)) as [-> | Hne]; [| eauto].
    exists t'. split; [done | congruence].
  - cbn. intros w m m' _ Hm Hm'. congruence.
Qed.

(** Every step of the runqueue operations keeps the invariant. *)
Theorem sched_step_inv s s' :
  config_ok -> sched_inv s -> sched_step s s' -> sched_inv s'.
Proof.
  intros Hcfg Hinv Hstep. destruct Hstep.
  - by eapply enqueue_task_inv.
  - by eapply dequeue_task_inv.
  - by eapply requeue_task_inv.
  - by eapply requeue_task_lazy_inv.
  - by eapply task_write_inv.
Qed.

Theorem sched_steps_inv s s' :
  config_ok -> sched_inv s -> rtc sched_step s s' -> sched_inv s'.
Proof.
  intros Hcfg Hinv Hsteps. induction Hsteps; [done |].
  apply IHHsteps. by eapply sched_step_inv.
Qed.

End StepInv.

(** ** What is published after each step *)

Section Published.
Context `{cfg : Config}.





(** C4: after any enqueue or dequeue (or requeue) on a state that
    satisfies the runqueue invariant, the bit of every CPU in
    [sched_rq_pending_mask] is set exactly when its runqueue has
    [nr_running >= 2]. *)
Theorem pending_after_step s s' :
  config_ok -> sched_inv s -> sched_step s s' ->
  forall c r, get_rq s' c = Some r ->
    (cpumask_test_cpu c (sched_rq_pending_mask s') = true <-> 2 <= nr_running r).
Proof.
  intros Hcfg Hinv Hstep c r Hr.
  destruct (sched_step_inv s s' Hcfg Hinv Hstep) as [_ Hrq].
  destruct (Hrq c r Hr) as [Hb _]. apply (inv_pending _ _ _ _ Hb).
Qed.

End Published.

Lemma boot_queue_eq it :
  boot_queue it = mk_bmq (set_bit 49 0) (<[49%nat := [it]]> (replicate 50%nat [])).
Proof. reflexivity. Qed.

Lemma boot_heads_lookup it l hs :
  zlookup (heads (boot_queue it)) l = Some hs ->
  (l = 49 /\ hs = [it]) \/ (l ≠ 49 /\ hs = []).
Proof.
  rewrite boot_queue_eq. cbn [heads].
  intros [Hr Hl]%zlookup_Some. rewrite length_insert, length_replicate in Hr.
  destruct (decide (l = 49)) as [-> | Hne].
  - left. split; [done |]. vm_compute in Hl. by injection Hl as <-.
  - right. split; [done |].
    rewrite list_lookup_insert_ne in Hl by lia.
    apply lookup_replicate in Hl as [-> _]. done.
Qed.

Lemma boot_wm_lookup smt w m :
  zlookup (sched_rq_watermark (boot smt)) w = Some m ->
  (w = 1 /\ m = 3) \/ (w ≠ 1 /\ m = 0).
Proof.
  cbn [boot sched_rq_watermark].
  intros [Hr Hl]%zlookup_Some. rewrite length_insert, length_replicate in Hr.
  destruct (decide (w = 1)) as [-> | Hne].
  - left. split; [done |]. vm_compute in Hl. by injection Hl as <-.
  - right. split; [done |].
    rewrite list_lookup_insert_ne in Hl by lia.
    apply lookup_replicate in Hl as [-> _]. done.
Qed.

Lemma boot_rq_body smt c :
  (c = 0 \/ c = 1) ->
  rq_body (cfg := cfg2 smt) (boot_with_task smt) c (boot_rq c (Z.to_nat c)) 0
  /\ wm_current (cfg := cfg2 smt) (boot_rq c (Z.to_nat c)).
Proof.
  intros Hc. split; [| by destruct Hc as [-> | ->]].
  split; cbn [boot_rq queue cpu nr_running watermark idle].
  - done.
  - done.
  - rewrite boot_queue_eq. by apply set_bit_nonneg.
  - intros j Hj. rewrite boot_queue_eq. cbn [bitmap]. cbn in Hj.
    rewrite testbit_set_bit by done.
    rewrite bool_decide_eq_false_2 by lia. apply Z.bits_0.
  - intros l hs [[-> ->] | [Hne ->]]%boot_heads_lookup.
    + split; done.
    + rewrite boot_queue_eq. cbn [bitmap]. rewrite testbit_set_bit by done.
      rewrite bool_decide_eq_false_2 by congruence.
      rewrite Z.bits_0. split; done.
  - intros l hs p [[-> ->] | [Hne ->]]%boot_heads_lookup Hp.
    + apply list_elem_of_singleton in Hp as ->.
      destruct Hc as [-> | ->]; eexists; split; reflexivity.
    + by apply elem_of_nil in Hp.
  - intros l hs [[-> ->] | [Hne ->]]%boot_heads_lookup.
    + apply NoDup_singleton.
    + apply NoDup_nil_2.
  - exists 49, [Z.to_nat c]. split; [done |]. by left.
  - reflexivity.
  - done.
  - cbn. lia.
  - exists 3. split; [done |]. by destruct Hc as [-> | ->].
  - intros w m Hw Hne Hm.
    destruct (boot_wm_lookup smt w m Hm) as [[-> ->] | [_ ->]]; [done |]. apply Z.bits_0.
  - intros _ m Hm.
    destruct (boot_wm_lookup smt 0 m Hm) as [[? ->] | [_ ->]]; [done |]. apply Z.bits_0.
  - cbn. rewrite Z.bits_0. split; [done | lia].
Qed.

Lemma boot_get_rq smt c r :
  get_rq (boot_with_task smt) c = Some r ->
  (c = 0 \/ c = 1) /\ r = boot_rq c (Z.to_nat c).
Proof.
  intros [Hr Hl]%zlookup_Some. cbn in Hr.
  assert (c = 0 \/ c = 1) as [-> | ->] by lia; vm_compute in Hl;
    injection Hl as <-; split; auto.
Qed.

Lemma boot_inv smt : sched_inv (cfg := cfg2 smt) (boot_with_task smt).
Proof.
  split.
  - split.
    + done.
    + intros _. cbn. lia.
    + intros c1 c2 r1 r2 p [H1 ->]%boot_get_rq [H2 ->]%boot_get_rq
        (l1 & hs1 & [[-> ->] | [_ ->]]%boot_heads_lookup & Hp1)
        (l2 & hs2 & [[-> ->] | [_ ->]]%boot_heads_lookup & Hp2);
        try (by apply elem_of_nil in Hp1); try (by apply elem_of_nil in Hp2).
      apply list_elem_of_singleton in Hp1, Hp2. lia.
  - intros c r [Hc ->]%boot_get_rq. by apply boot_rq_body.
Qed.


Lemma cfg2_ok smt : config_ok (cfg := cfg2 smt).
Proof. unfold config_ok, WM_BITS, BITS_PER_LONG. cbn. lia. Qed.

Lemma boot_not_queued smt c r :
  get_rq (boot_with_task smt) c = Some r -> ~ queued r 7%nat.
Proof.
  intros [Hc ->]%boot_get_rq (l & hs & [[-> ->] | [_ ->]]%boot_heads_lookup & Hp).
  - apply list_elem_of_singleton in Hp. lia.
  - by apply elem_of_nil in Hp.
Qed.

Lemma boot_enqueue_step smt s' :
  enqueue_task (cfg := cfg2 smt) (boot_with_task smt) 7 0 = Some s' ->
  sched_step (cfg := cfg2 smt) (boot_with_task smt) s'.
Proof.
  intros H. eapply (step_enqueue _ 7%nat 0 (boot_rq 0 0)); [done | | done | done].
  apply boot_not_queued.
Qed.



Lemma pending_after_step_witness :
  exists s', enqueue_task (cfg := cfg2 false) (boot_with_task false) 7 0 = Some s' /\
    forall c r, get_rq s' c = Some r ->
      (cpumask_test_cpu c (sched_rq_pending_mask s') = true <-> 2 <= nr_running r).
Proof.
  eexists. split; [vm_compute; reflexivity |].
  apply (pending_after_step (cfg := cfg2 false) (boot_with_task false) _
           (cfg2_ok false) (boot_inv false)).
  apply boot_enqueue_step. vm_compute. reflexivity.
Defined.

(** ** Task fields kept by the queue operations *)

Section TaskFields.
Context `{cfg : Config}.

Lemma update_wm_tasks s c s' :
  update_sched_rq_watermark s c = Some s' -> tasks s' = tasks s.
Proof.
  intros Hup.
  assert (exists r, get_rq s c = Some r) as [r Hr].
  { unfold update_sched_rq_watermark in Hup.
    apply bind_Some in Hup as (r & Hr & _). eauto. }
  destruct (update_wm_shape s c r s' Hr Hup) as (_ & [[_ ->] | (_ & ? & ? & ? & ? & s1
    & _ & _ & _ & _ & Hs1 & Ht & _)]); [done |]. done.
Qed.

Lemma update_wm_rqs s c s' c' :
  update_sched_rq_watermark s c = Some s' ->
  set_watermark 0 <$> get_rq s' c' = set_watermark 0 <$> get_rq s c'.
Proof.
  intros Hup.
  assert (exists r, get_rq s c = Some r) as [r Hr].
  { unfold update_sched_rq_watermark in Hup.
    apply bind_Some in Hup as (r & Hr & _). eauto. }
  destruct (update_wm_shape s c r s' Hr Hup) as (_ & [[_ ->] | (_ & ? & ? & ? & ? & s1
    & _ & _ & _ & _ & Hs1 & _ & Hrqs & _)]); [done |].
  unfold get_rq at 1. rewrite Hrqs. fold (get_rq s1 c').
  rewrite (get_rq_put_rq _ _ _ _ c' Hs1).
  destruct (decide (c = c')) as [<- | Hne]; [| done]. by rewrite Hr.
Qed.

Lemma same_tasks_fields s s' :
  tasks s' = tasks s -> same_but_queue s s'.
Proof. intros E x. unfold get_task. by rewrite E. Qed.

Lemma same_but_queue_refl s : same_but_queue s s.
Proof. done. Qed.

Lemma same_but_queue_trans s1 s2 s3 :
  same_but_queue s1 s2 -> same_but_queue s2 s3 -> same_but_queue s1 s3.
Proof. intros H1 H2 x. by rewrite H2, H1. Qed.

Lemma same_but_queue_put s p t t' :
  get_task s p = Some t -> sched_fields t' = sched_fields t ->
  same_but_queue s (put_task s p t').
Proof.
  intros Ht E x. rewrite get_task_put_task.
  destruct (decide (p = x)) as [<- | Hne]; [| done]. rewrite Ht. cbn. by f_equal.
Qed.

Lemma same_but_queue_get s s' p t :
  same_but_queue s s' -> get_task s p = Some t ->
  exists t', get_task s' p = Some t' /\ sched_fields t' = sched_fields t.
Proof.
  intros H Ht. specialize (H p). rewrite Ht in H.
  destruct (get_task s' p) as [t' |]; [| done]. exists t'. split; [done |].
  cbn in H. by apply (inj Some) in H.
Qed.

Lemma requeue_task_fields s p c s' :
  requeue_task s p c = Some s' -> same_but_queue s s'.
Proof.
  unfold requeue_task. intros H.
  apply bind_Some in H as (r & Hr & H).
  apply bind_Some in H as (t & Ht & H).
  apply bind_Some in H as (q & Hadd & H).
  destruct (negb _).
  - apply bind_Some in H as (e & He & H).
    apply bind_Some in H as (sa & Hput & Hup).
    eapply same_but_queue_trans;
      [by apply (same_but_queue_put s p t (set_bmq_idx (task_sched_prio t) t)) |].
    apply (same_but_queue_trans _ sa); apply same_tasks_fields.
    + by eapply put_rq_tasks.
    + by eapply update_wm_tasks.
  - apply same_tasks_fields. by eapply put_rq_tasks.
Qed.

Lemma requeue_task_lazy_fields s p c s' rv :
  requeue_task_lazy s p c = Some (s', rv) -> same_but_queue s s'.
Proof.
  unfold requeue_task_lazy. intros H.
  apply bind_Some in H as (r & Hr & H).
  apply bind_Some in H as (t & Ht & H).
  destruct (_ =? _); [by simplify_eq |].
  apply bind_Some in H as (q & Hadd & H).
  apply bind_Some in H as (e & He & H).
  apply bind_Some in H as (sa & Hput & H).
  apply bind_Some in H as (sb & Hup & H). simplify_eq.
  eapply same_but_queue_trans;
      [by apply (same_but_queue_put s p t (set_bmq_idx (task_sched_prio t) t)) |].
  apply (same_but_queue_trans _ sa); apply same_tasks_fields.
  + by eapply put_rq_tasks.
  + by eapply update_wm_tasks.
Qed.

Lemma resched_curr_fields s c s' :
  resched_curr s c = Some s' -> same_but_queue s s'.
Proof.
  unfold resched_curr. intros H.
  apply bind_Some in H as (r & Hr & H).
  apply bind_Some in H as (t & Ht & H).
  destruct (need_resched t); simplify_eq; [done |].
  by apply (same_but_queue_put s (curr r) t (set_need_resched true t)).
Qed.

Lemma check_preempt_curr_fields s c p s' :
  check_preempt_curr s c p = Some s' -> same_but_queue s s'.
Proof.
  unfold check_preempt_curr. intros H.
  apply bind_Some in H as (r & Hr & H).
  apply bind_Some in H as (tc & Htc & H).
  apply bind_Some in H as (s1 & Hs1 & H).
  apply bind_Some in H as (r1 & Hr1 & H).
  apply bind_Some in H as (first & Hf & H).
  assert (same_but_queue s s1).
  { destruct (_ =? _); [by eapply resched_curr_fields | by simplify_eq]. }
  eapply same_but_queue_trans; [done |].
  destruct (bool_decide _); [by eapply resched_curr_fields | by simplify_eq].
Qed.

Lemma check_task_changed_fields s c p s' :
  check_task_changed s c p = Some s' -> same_but_queue s s'.
Proof.
  unfold check_task_changed. intros H.
  apply bind_Some in H as (t & Ht & H).
  destruct (task_on_rq_queued t); [| by simplify_eq].
  apply bind_Some in H as ([s1 rv] & Hl & H). cbn in H.
  eapply same_but_queue_trans; [by eapply requeue_task_lazy_fields |].
  destruct (negb _); [by eapply check_preempt_curr_fields | by simplify_eq].
Qed.

End TaskFields.

(** ** Where requeue_task puts a task *)

Section RequeuePosition.
Context `{cfg : Config}.

Lemma prio_insert_position ts pr p l l' :
  prio_insert ts pr p l = Some l' ->
  exists l1 l2, l = l1 ++ l2 /\ l' = l1 ++ p :: l2 /\
    (forall x, x ∈ l1 -> exists tx, ts !! x = Some tx /\ prio tx <= pr) /\
    (forall y, head l2 = Some y -> exists ty, ts !! y = Some ty /\ pr < prio ty).
Proof.
  revert l'. induction l as [| n l IH]; intros l' H; cbn in H.
  - simplify_eq. exists [], []. repeat split; try done.
    intros x Hx. by apply elem_of_nil in Hx.
  - apply bind_Some in H as (t & Ht & H).
    destruct (Z.ltb_spec pr (prio t)) as [Hlt | Hge].
    + simplify_eq. exists [], (n :: l). repeat split; try done.
      * intros x Hx. by apply elem_of_nil in Hx.
      * intros y [= <-]. eauto.
    + apply bind_Some in H as (l'' & Hl & H). simplify_eq.
      destruct (IH _ Hl) as (l1 & l2 & -> & -> & H1 & H2).
      exists (n :: l1), l2. repeat split; try done.
      intros x [-> | Hx]%elem_of_cons; [eauto | by apply H1].
Qed.

Lemma requeue_task_heads s p c r t s' :
  get_rq s c = Some r -> get_task s p = Some t ->
  requeue_task s p c = Some s' ->
  exists q r', bmq_add_task (tasks s) p (list_del p (queue r)) (task_sched_prio t) = Some q
    /\ get_rq s' c = Some r' /\ heads (queue r') = heads q.
Proof.
  intros Hr Ht H. unfold requeue_task in H. rewrite Hr in H. cbn [mbind option_bind] in H.
  rewrite Ht in H. cbn [mbind option_bind] in H.
  apply bind_Some in H as (q & Hadd & H). exists q.
  destruct (negb _).
  - apply bind_Some in H as (e & He & H).
    apply bind_Some in H as (sa & Hput & Hup).
    pose proof (update_wm_rqs _ _ _ c Hup) as Hrqs.
    rewrite (get_rq_put_rq _ _ _ _ c Hput), decide_True in Hrqs by done.
    destruct (get_rq s' c) as [r' |]; [| done]. exists r'. repeat split; try done.
    cbn in Hrqs. apply (inj Some) in Hrqs. apply (f_equal (λ x, heads (queue x))) in Hrqs.
    cbn in Hrqs. rewrite Hrqs. by destruct e.
  - eexists. rewrite (get_rq_put_rq _ _ _ _ c H), decide_True by done. done.
Qed.

(** Where [requeue_task] puts a task whose queue index is 0: in level 0,
    directly in front of the first task of larger [prio] (at the tail when
    there is none), so that every task linked in front of it has a [prio]
    not larger than its own. *)
Lemma requeue_level0_position s p c r t s' :
  get_rq s c = Some r -> get_task s p = Some t ->
  task_sched_prio t = 0 ->
  requeue_task s p c = Some s' ->
  exists r' l1 l2, get_rq s' c = Some r' /\
    zlookup (heads (list_del p (queue r))) 0 = Some (l1 ++ l2) /\
    zlookup (heads (queue r')) 0 = Some (l1 ++ p :: l2) /\
    (forall x, x ∈ l1 -> exists tx, get_task s x = Some tx /\ prio tx <= prio t) /\
    (forall y, head l2 = Some y -> exists ty, get_task s y = Some ty /\ prio t < prio ty).
Proof.
  intros Hr Ht Hidx H.
  destruct (requeue_task_heads _ _ _ _ _ _ Hr Ht H) as (q & r' & Hadd & Hr' & Hh).
  rewrite Hidx in Hadd. unfold bmq_add_task in Hadd.
  apply bind_Some in Hadd as (l & Hl & Hadd).
  apply bind_Some in Hadd as (l' & Hl' & Hadd).
  apply bind_Some in Hadd as (hs & Hhs & Hadd). simplify_eq. cbn in Hh.
  cbn [negb Z.eqb] in Hl'. apply bind_Some in Hl' as (pt & Hpt & Hins).
  unfold get_task in Ht. rewrite Ht in Hpt. injection Hpt as <-.
  destruct (prio_insert_position _ _ _ _ _ Hins) as (l1 & l2 & -> & -> & H1 & H2).
  exists r', l1, l2. repeat split; try done.
  rewrite Hh, (zlookup_zupdate _ _ _ _ 0 Hhs). by rewrite decide_True.
Qed.

End RequeuePosition.

(** ** Time-slice expiry *)

Section SliceExpiry.
Context `{cfg : Config}.

(** Where [requeue_task] puts a task whose new level is not 0: at the
    tail of that level. *)
Lemma requeue_tail_position s p c r t s' :
  get_rq s c = Some r -> get_task s p = Some t ->
  task_sched_prio t ≠ 0 ->
  requeue_task s p c = Some s' ->
  exists r' l, get_rq s' c = Some r' /\
    zlookup (heads (list_del p (queue r))) (task_sched_prio t) = Some l /\
    zlookup (heads (queue r')) (task_sched_prio t) = Some (l ++ [p]).
Proof.
  intros Hr Ht Hidx H.
  destruct (requeue_task_heads _ _ _ _ _ _ Hr Ht H) as (q & r' & Hadd & Hr' & Hh).
  unfold bmq_add_task in Hadd.
  apply bind_Some in Hadd as (l & Hl & Hadd).
  apply bind_Some in Hadd as (l' & Hl' & Hadd).
  apply bind_Some in Hadd as (hs & Hhs & Hadd). simplify_eq. cbn in Hh.
  destruct (Z.eqb_spec (task_sched_prio t) 0); [done |]. cbn in Hl'.
  injection Hl' as <-.
  exists r', l. repeat split; try done.
  rewrite Hh, (zlookup_zupdate _ _ _ _ _ Hhs). by rewrite decide_True.
Qed.

(** C3 (as amended): in [check_curr], for a task that is not the idle
    task and whose slice, after the runtime update, is below [RESCHED_NS],
    the slice is set to [SCHED_TIMESLICE_NS].  A FIFO task, or a task that
    is not queued, is not requeued.  Every other task is requeued: an RR
    task with its boost unchanged, a task of any other policy after
    [boost_prio] went up by one unless it already was [MAX_PRIORITY_ADJ].
    Where the requeue links the task depends on its queue index, not on
    its policy.  With index 0, which every task of [prio] below
    [MAX_RT_PRIO] has, the task is linked into level 0 directly in front
    of the first task of that level whose [prio] is larger than its own,
    and at the tail of the level when there is none: every task linked in
    front of it has a [prio] not larger than its own, and the task linked
    right behind it, if any, a larger one.  With any other index the task
    is linked at the tail of the level of that index. *)
Theorem check_curr_expired s p c r t s' :
  get_rq s c = Some r -> get_task s p = Some t -> idle r ≠ p ->
  time_slice (update_curr r t) < RESCHED_NS ->
  check_curr s p c = Some s' ->
  let t2 := set_time_slice SCHED_TIMESLICE_NS (update_curr r t) in
  let requeued := negb (policy t =? SCHED_FIFO) && task_on_rq_queued t in
  let deboosted := requeued && negb (policy t =? SCHED_RR) in
  let t3 := if deboosted then deboost_task t2 else t2 in
  (exists t', get_task s' p = Some t' /\ time_slice t' = SCHED_TIMESLICE_NS /\
     boost_prio t' = if deboosted && (boost_prio t <? MAX_PRIORITY_ADJ)
                     then int (boost_prio t + 1) else boost_prio t) /\
  (requeued = false -> s' = put_task s p t2) /\
  (requeued = true -> requeue_task (put_task s p t3) p c = Some s') /\
  (prio t < MAX_RT_PRIO -> task_sched_prio t3 = 0) /\
  (requeued = true -> task_sched_prio t3 = 0 ->
     exists r' l1 l2, get_rq s' c = Some r' /\
       zlookup (heads (list_del p (queue r))) 0 = Some (l1 ++ l2) /\
       zlookup (heads (queue r')) 0 = Some (l1 ++ p :: l2) /\
       (forall x, x ∈ l1 ->
          exists tx, get_task (put_task s p t3) x = Some tx /\ prio tx <= prio t) /\
       (forall y, head l2 = Some y ->
          exists ty, get_task (put_task s p t3) y = Some ty /\ prio t < prio ty)) /\
  (requeued = true -> task_sched_prio t3 ≠ 0 ->
     exists r' l, get_rq s' c = Some r' /\
       zlookup (heads (list_del p (queue r))) (task_sched_prio t3) = Some l /\
       zlookup (heads (queue r')) (task_sched_prio t3) = Some (l ++ [p])).
Proof.
  intros Hr Ht Hidle Hexp H t2 requeued deboosted t3.
  unfold check_curr in H. rewrite Hr in H. cbn [mbind option_bind] in H.
  rewrite bool_decide_eq_false_2 in H by done.
  rewrite Ht in H. cbn [mbind option_bind] in H.
  destruct (Z.ltb_spec (time_slice (update_curr r t)) RESCHED_NS) as [_ | ?]; [| lia].
  change (policy (set_time_slice SCHED_TIMESLICE_NS (update_curr r t))) with (policy t) in H.
  change (task_on_rq_queued (set_time_slice SCHED_TIMESLICE_NS (update_curr r t)))
    with (task_on_rq_queued t) in H.
  rewrite (Z.eqb_sym SCHED_FIFO), (Z.eqb_sym SCHED_RR) in H.
  fold t2 in H. fold requeued in H.
  assert (Ht3 : (if negb (policy t =? SCHED_RR) then deboost_task t2 else t2) = t3
                \/ requeued = false).
  { unfold t3, deboosted. destruct requeued; [by left | by right]. }
  assert (Hp3 : prio t3 = prio t).
  { unfold t3, deboost_task. destruct deboosted; [| done]. by destruct (_ <? _). }
  assert (Hrt0 : prio t < MAX_RT_PRIO -> task_sched_prio t3 = 0).
  { intros Hrt. apply task_sched_prio_rt. by rewrite Hp3. }
  destruct requeued eqn:Hrq.
  - destruct Ht3 as [Ht3 | ?]; [| done]. rewrite Ht3 in H.
    assert (Hr0 : get_rq (put_task s p t3) c = Some r) by done.
    assert (Ht0 : get_task (put_task s p t3) p = Some t3) by apply get_task_put_task_eq.
    split; [| split; [done | split; [done | split; [exact Hrt0 | split]]]].
    + destruct (same_but_queue_get _ _ p t3 (requeue_task_fields _ _ _ _ H) Ht0)
        as (t' & Ht' & E).
      exists t'. split; [done |].
      pose proof (f_equal time_slice E) as E1. cbn in E1.
      pose proof (f_equal boost_prio E) as E2. cbn in E2.
      rewrite E1, E2. unfold t3, deboost_task.
      destruct deboosted; [| done]. cbn.
      change (boost_prio t2) with (boost_prio t). by destruct (_ <? _).
    + intros _ Hidx. rewrite <- Hp3.
      by apply (requeue_level0_position (put_task s p t3) p c r t3 s').
    + intros _ Hidx.
      by apply (requeue_tail_position (put_task s p t3) p c r t3 s').
  - simplify_eq. split; [| split; [done | split; [done | split; [exact Hrt0 | by split]]]].
    exists t2. rewrite get_task_put_task_eq. by repeat split.
Qed.

End SliceExpiry.

(** An expired RR task stays in front of a queued FIFO task of lower
    priority, and an expired NORMAL task whose boost is already
    [MAX_PRIORITY_ADJ] keeps its boost. *)
Lemma check_curr_rr_not_tail :
  exists s s8 s7 r8 t7 t7',
    s = three_queued_state /\ three_queued = Some s /\
    check_curr (cfg := cfg2 false) s 8 0 = Some s8 /\
    get_rq s8 0 = Some r8 /\
    zlookup (heads (queue r8)) 0 = Some [8; 9]%nat /\
    last [8; 9]%nat ≠ Some 8%nat /\
    get_task s 7 = Some t7 /\ policy t7 = SCHED_NORMAL /\
    check_curr (cfg := cfg2 false) s 7 0 = Some s7 /\
    get_task s7 7 = Some t7' /\
    boost_prio t7' ≠ boost_prio t7 + 1.
Proof.
  do 6 eexists.
  split; [reflexivity |].
  split; [vm_compute; reflexivity |].
  split; [vm_compute; reflexivity |].
  split; [vm_compute; reflexivity |].
  split; [vm_compute; reflexivity |].
  split; [done |].
  split; [vm_compute; reflexivity |].
  split; [reflexivity |].
  split; [vm_compute; reflexivity |].
  split; [vm_compute; reflexivity |].
  done.
Qed.

Lemma check_curr_expired_witness :
  exists s' t' r' l1 l2,
    check_curr (cfg := cfg2 false) three_queued_state 8 0 = Some s' /\
    get_task s' 8 = Some t' /\ time_slice t' = 4000000 /\ boost_prio t' = 0 /\
    get_rq s' 0 = Some r' /\ zlookup (heads (queue r')) 0 = Some (l1 ++ 8%nat :: l2).
Proof.
  assert (Hr : get_rq three_queued_state 0
               = Some (default (boot_rq 0 0) (get_rq three_queued_state 0)))
    by (vm_compute; reflexivity).
  assert (Ht : get_task three_queued_state 8
               = Some (default rr_task (get_task three_queued_state 8)))
    by (vm_compute; reflexivity).
  assert (Hidle : idle (default (boot_rq 0 0) (get_rq three_queued_state 0)) ≠ 8%nat)
    by (vm_compute; lia).
  assert (Hexp : time_slice (update_curr (default (boot_rq 0 0) (get_rq three_queued_state 0))
                               (default rr_task (get_task three_queued_state 8)))
                 < RESCHED_NS) by (vm_compute; reflexivity).
  assert (E : check_curr (cfg := cfg2 false) three_queued_state 8 0
              = Some (default three_queued_state
                        (check_curr (cfg := cfg2 false) three_queued_state 8 0)))
    by (vm_compute; reflexivity).
  destruct (check_curr_expired (cfg := cfg2 false) three_queued_state 8%nat 0 _ _ _
              Hr Ht Hidle Hexp E) as ((t' & Ht' & Hts & Hb) & _ & _ & _ & Hpos & _).
  destruct Hpos as (r' & l1 & l2 & Hr' & _ & Hl & _);
    [vm_compute; reflexivity | vm_compute; reflexivity |].
  eexists _, t', r', l1, l2. split; [exact E |]. split; [exact Ht' |].
  split; [exact Hts |]. split; [exact Hb |]. split; [exact Hr' | exact Hl].
Defined.

(** ** Fork and the boost range *)

Section ForkBoost.
Context `{cfg : Config}.

(** C10: [sched_fork] halves the remaining slice of the running parent
    ([rq->curr]) and gives the child that halved value, except that when
    the halved value is below [RESCHED_NS] the child gets
    [SCHED_TIMESLICE_NS] and the parent is marked for rescheduling. *)
Theorem sched_fork_time_slice s p c current r child0 cur parent :
  get_rq s c = Some r ->
  get_task s p = Some child0 ->
  get_task s current = Some cur ->
  get_task s (curr r) = Some parent ->
  p ≠ curr r ->
  let half := Z.quot (time_slice parent) 2 in
  exists s' parent' child,
    sched_fork s p c current = Some s' /\
    get_task s' (curr r) = Some parent' /\
    get_task s' p = Some child /\
    time_slice parent' = half /\
    (RESCHED_NS <= half ->
       time_slice child = half /\ need_resched parent' = need_resched parent) /\
    (half < RESCHED_NS ->
       time_slice child = SCHED_TIMESLICE_NS /\ need_resched parent' = true).
Proof.
  intros Hr Hp Hcur Hpar Hne half.
  unfold sched_fork. rewrite Hr. cbn [mbind option_bind].
  rewrite Hp. cbn [mbind option_bind]. rewrite Hcur. cbn [mbind option_bind].
  set (t1 := set_boost_prio MAX_PRIORITY_ADJ _).
  rewrite (get_task_put_task_ne _ p t1 (curr r)) by done.
  rewrite Hpar. cbn [mbind option_bind].
  rewrite get_task_put_task_eq. cbn [mbind option_bind].
  rewrite (get_task_put_task_ne _ (curr r) _ p) by done.
  rewrite get_task_put_task_eq. cbn [mbind option_bind].
  rewrite get_task_put_task_eq. cbn [mbind option_bind].
  change (time_slice (set_time_slice (time_slice
            (set_time_slice (time_slice parent ÷ 2) parent)) t1)) with half.
  set (par1 := set_time_slice (time_slice parent ÷ 2) parent).
  destruct (Z.ltb_spec half RESCHED_NS) as [Hlt | Hge].
  - unfold resched_curr. rewrite !get_rq_put_task, Hr.
    cbn [mbind option_bind].
    rewrite (get_task_put_task_ne _ p _ (curr r)) by done.
    rewrite (get_task_put_task_ne _ p _ (curr r)) by done.
    rewrite get_task_put_task_eq. cbn [mbind option_bind].
    change (need_resched par1) with (need_resched parent).
    destruct (need_resched parent) eqn:Hnr; cbn [mbind option_bind].
    + rewrite get_task_put_task_eq. cbn [mbind option_bind].
      eexists _, par1, _. split; [done |].
      rewrite (get_task_put_task_ne _ p _ (curr r)) by done.
      rewrite (get_task_put_task_ne _ p _ (curr r)) by done.
      rewrite (get_task_put_task_ne _ p _ (curr r)) by done.
      rewrite !get_task_put_task_eq.
      repeat split; try done; lia.
    + rewrite (get_task_put_task_ne _ (curr r) _ p) by done.
      rewrite get_task_put_task_eq. cbn [mbind option_bind].
      eexists _, (set_need_resched true par1), _. split; [done |].
      rewrite (get_task_put_task_ne _ p _ (curr r)) by done.
      rewrite !get_task_put_task_eq.
      repeat split; try done; lia.
  - cbn [mbind option_bind]. rewrite get_task_put_task_eq. cbn [mbind option_bind].
    eexists _, par1, _. split; [done |].
    rewrite (get_task_put_task_ne _ p _ (curr r)) by done.
    rewrite (get_task_put_task_ne _ p _ (curr r)) by done.
    rewrite !get_task_put_task_eq.
    repeat split; try done; lia.
Qed.


Lemma boost_ok_put s p t : boost_ok s -> boost_in_range t -> boost_ok (put_task s p t).
Proof.
  intros Hs Ht x tx. rewrite get_task_put_task.
  destruct (decide (p = x)); [by intros [= <-] | apply Hs].
Qed.

Lemma boost_ok_same s s' : same_but_queue s s' -> boost_ok s -> boost_ok s'.
Proof.
  intros Hsame Hs x t' Ht'. specialize (Hsame x). rewrite Ht' in Hsame.
  destruct (get_task s x) as [t |] eqn:Ht; [| done].
  cbn in Hsame. apply (inj Some) in Hsame.
  apply (f_equal boost_prio) in Hsame. cbn in Hsame.
  unfold boost_in_range. rewrite Hsame. by apply (Hs x).
Qed.

Lemma boost_task_spec t r :
  0 <= MAX_PRIORITY_ADJ < 2 ^ 31 -> boost_in_range t ->
  boost_in_range (boost_task t r) /\
  (boost_prio (boost_task t r) = boost_prio t \/
   boost_prio (boost_task t r) = boost_prio t - 1 /\
   rq_switch_time r < u64 (boost_threshold t) /\
   (policy t = SCHED_NORMAL /\ - MAX_PRIORITY_ADJ <= boost_prio t - 1
    \/ (policy t = SCHED_BATCH \/ policy t = SCHED_IDLE) /\ 0 <= boost_prio t - 1)) /\
  (policy t ≠ SCHED_NORMAL -> policy t ≠ SCHED_BATCH -> policy t ≠ SCHED_IDLE ->
   boost_task t r = t).
Proof.
  intros HM Hb. unfold boost_in_range in *. unfold boost_task, boost_limit.
  assert (Hneg : int (- MAX_PRIORITY_ADJ) = - MAX_PRIORITY_ADJ).
  { apply int_small. unfold fits_int. lia. }
  assert (Hdec : int (boost_prio t - 1) = boost_prio t - 1).
  { apply int_small. unfold fits_int. lia. }
  destruct (Z.eqb_spec (policy t) SCHED_NORMAL) as [Hn | Hn].
  { rewrite Hneg.
    destruct (Z.ltb_spec (- MAX_PRIORITY_ADJ) (boost_prio t)) as [Hl | Hl];
      destruct (Z.ltb_spec (rq_switch_time r) (u64 (boost_threshold t))) as [Hs | Hs];
      cbn [andb set_boost_prio boost_prio]; rewrite ?Hdec;
      (split; [lia |]); (split; [| done]); auto.
    right. repeat split; try done. left. split; [done | lia]. }
  destruct (Z.eqb_spec (policy t) SCHED_BATCH) as [Hba | Hba];
    destruct (Z.eqb_spec (policy t) SCHED_IDLE) as [Hi | Hi]; cbn [orb].
  4: { repeat split; try lia; auto. }
  all: destruct (Z.ltb_spec 0 (boost_prio t)) as [Hl | Hl];
      destruct (Z.ltb_spec (rq_switch_time r) (u64 (boost_threshold t))) as [Hs | Hs];
      cbn [andb set_boost_prio boost_prio]; rewrite ?Hdec;
      (split; [lia |]); (split; [| done]); auto.
  all: right; repeat split; try done; right; split; [auto | lia].
Qed.

Lemma deboost_task_spec t :
  0 <= MAX_PRIORITY_ADJ < 2 ^ 31 -> boost_in_range t ->
  boost_in_range (deboost_task t) /\
  boost_prio (deboost_task t)
  = if boost_prio t <? MAX_PRIORITY_ADJ then boost_prio t + 1 else boost_prio t.
Proof.
  intros HM Hb. unfold boost_in_range in *. unfold deboost_task.
  destruct (Z.ltb_spec (boost_prio t) MAX_PRIORITY_ADJ) as [Hl | Hl]; [| done].
  cbn. rewrite int_small by (unfold fits_int; lia). lia.
Qed.


Lemma boost_same_refl s : boost_same s s.
Proof. done. Qed.

Lemma boost_same_trans s1 s2 s3 :
  boost_same s1 s2 -> boost_same s2 s3 -> boost_same s1 s3.
Proof. intros H1 H2 x. by rewrite H2, H1. Qed.

Lemma boost_same_put s y ty t' :
  get_task s y = Some ty -> boost_prio t' = boost_prio ty ->
  boost_same s (put_task s y t').
Proof.
  intros Hy E x. rewrite get_task_put_task.
  destruct (decide (y = x)) as [<- | Hne]; [| done]. rewrite Hy. cbn. by f_equal.
Qed.

Lemma boost_same_queue s s' : same_but_queue s s' -> boost_same s s'.
Proof.
  intros H x. specialize (H x).
  destruct (get_task s' x), (get_task s x); try done. cbn in *.
  apply (inj Some) in H. apply (f_equal boost_prio) in H. cbn in H. by f_equal.
Qed.

Lemma boost_same_ok s s' : boost_same s s' -> boost_ok s -> boost_ok s'.
Proof.
  intros Hsame Hs x t' Ht'. specialize (Hsame x). rewrite Ht' in Hsame.
  destruct (get_task s x) as [t |] eqn:Ht; [| done].
  cbn in Hsame. apply (inj Some) in Hsame.
  unfold boost_in_range. rewrite Hsame. by apply (Hs x).
Qed.

Lemma boost_same_get s s' x t :
  boost_same s s' -> get_task s x = Some t ->
  exists t', get_task s' x = Some t' /\ boost_prio t' = boost_prio t.
Proof.
  intros H Hx. specialize (H x). rewrite Hx in H.
  destruct (get_task s' x) as [t' |]; [| done]. exists t'. split; [done |].
  cbn in H. by apply (inj Some) in H.
Qed.

Lemma sched_fork_boost s p c current s' :
  sched_fork s p c current = Some s' ->
  exists s1 child0 t1, get_task s p = Some child0 /\
    boost_prio t1 = MAX_PRIORITY_ADJ /\ s1 = put_task s p t1 /\ boost_same s1 s'.
Proof.
  unfold sched_fork. intros H.
  apply bind_Some in H as (r & Hr & H).
  apply bind_Some in H as (t & Ht & H).
  apply bind_Some in H as (cur & Hcur & H).
  set (t1 := set_boost_prio MAX_PRIORITY_ADJ _) in H.
  set (s1 := put_task s p t1) in H.
  apply bind_Some in H as (parent & Hpar & H).
  set (s2 := put_task s1 _ _) in H.
  apply bind_Some in H as (parent' & Hpar' & H).
  apply bind_Some in H as (tc & Htc & H).
  set (s3 := put_task s2 _ _) in H.
  apply bind_Some in H as (tc' & Htc' & H).
  apply bind_Some in H as (s4 & Hs4 & H).
  apply bind_Some in H as (tc'' & Htc'' & H). injection H as <-.
  exists s1, t, t1. repeat split; try done.
  assert (H12 : boost_same s1 s2) by (by eapply boost_same_put).
  assert (H23 : boost_same s2 s3) by (by eapply boost_same_put).
  assert (H34 : boost_same s3 s4).
  { destruct (time_slice tc' <? RESCHED_NS); [| by injection Hs4 as <-].
    apply (boost_same_trans _ (put_task s3 p (set_time_slice SCHED_TIMESLICE_NS tc')));
      [by apply (boost_same_put s3 p tc') |].
    apply boost_same_queue. by eapply resched_curr_fields. }
  eapply boost_same_trans; [exact H12 |].
  eapply boost_same_trans; [exact H23 |].
  eapply boost_same_trans; [exact H34 |].
  by eapply boost_same_put.
Qed.

(** C9: with [0 <= MAX_PRIORITY_ADJ], if every [boost_prio] is within
    [-MAX_PRIORITY_ADJ, MAX_PRIORITY_ADJ] it stays so: [boost_task] only
    decrements, by one, and not below the limit of the policy (NORMAL:
    [-MAX_PRIORITY_ADJ]; BATCH and IDLE: 0; any other policy: no change);
    [deboost_task] only increments, by one, and not above
    [MAX_PRIORITY_ADJ]; [sched_fork] assigns [MAX_PRIORITY_ADJ] to the
    child and yield in mode 1 assigns [MAX_PRIORITY_ADJ] to the caller;
    [check_curr] writes it through [deboost_task] only. *)
Theorem boost_prio_bounded :
  0 <= MAX_PRIORITY_ADJ < 2 ^ 31 ->
  (forall t r, boost_in_range t ->
     boost_in_range (boost_task t r) /\
     (boost_prio (boost_task t r) = boost_prio t \/
      boost_prio (boost_task t r) = boost_prio t - 1 /\
      rq_switch_time r < u64 (boost_threshold t) /\
      (policy t = SCHED_NORMAL /\ - MAX_PRIORITY_ADJ <= boost_prio t - 1
       \/ (policy t = SCHED_BATCH \/ policy t = SCHED_IDLE) /\ 0 <= boost_prio t - 1)) /\
     (policy t ≠ SCHED_NORMAL -> policy t ≠ SCHED_BATCH -> policy t ≠ SCHED_IDLE ->
      boost_task t r = t)) /\
  (forall t, boost_in_range t ->
     boost_in_range (deboost_task t) /\
     boost_prio (deboost_task t)
     = if boost_prio t <? MAX_PRIORITY_ADJ then boost_prio t + 1 else boost_prio t) /\
  (forall s p c current s', boost_ok s -> sched_fork s p c current = Some s' ->
     boost_ok s' /\
     (exists child, get_task s' p = Some child /\ boost_prio child = MAX_PRIORITY_ADJ) /\
     (forall x, x ≠ p -> boost_prio <$> get_task s' x = boost_prio <$> get_task s x)) /\
  (forall s c current s' called, boost_ok s ->
     do_sched_yield s c current = Some (s', called) ->
     boost_ok s' /\
     (forall x, x ≠ current -> boost_prio <$> get_task s' x = boost_prio <$> get_task s x) /\
     (forall t, get_task s current = Some t ->
        exists t', get_task s' current = Some t' /\
          boost_prio t' = if (sched_yield_type s =? 1) && negb (rt_task t)
                          then MAX_PRIORITY_ADJ else boost_prio t)) /\
  (forall s p c s', boost_ok s -> check_curr s p c = Some s' -> boost_ok s').
Proof.
  intros HM. split; [intros; by apply boost_task_spec |].
  split; [intros; by apply deboost_task_spec |].
  split; [| split].
  - intros s p c current s' Hok H.
    destruct (sched_fork_boost _ _ _ _ _ H) as (s1 & child0 & t1 & Hc0 & Ht1 & -> & Hsame).
    assert (Hok1 : boost_ok (put_task s p t1)).
    { apply boost_ok_put; [done |]. unfold boost_in_range. lia. }
    split; [by eapply boost_same_ok |]. split.
    + destruct (boost_same_get _ _ p t1 Hsame) as (t' & Ht' & E);
        [apply get_task_put_task_eq |]. exists t'. split; [done | congruence].
    + intros x Hx. rewrite (Hsame x). by rewrite get_task_put_task_ne.
  - intros s c current s' called Hok H. unfold do_sched_yield in H.
    destruct (Z.eqb_spec (sched_yield_type s) 0) as [E0 | E0].
    { injection H as <- <-. split; [done |]. split; [done |].
      intros t Ht. exists t. split; [done |].
      destruct (Z.eqb_spec (sched_yield_type s) 1); [lia | done]. }
    apply bind_Some in H as (r & Hr & H).
    apply bind_Some in H as (s1 & Hs1 & H). injection H as <- <-.
    destruct (Z.eqb_spec 1 (sched_yield_type s)) as [E1 | E1].
    + apply bind_Some in Hs1 as (t & Ht & Hs1).
      rewrite <- E1. cbn [Z.eqb Pos.eqb andb].
      destruct (rt_task t) eqn:Hrt; cbn [negb] in *.
      * injection Hs1 as <-. split; [done |]. split; [done |].
        intros t0 Ht0. exists t0. split; [done |]. rewrite Ht in Ht0.
        injection Ht0 as <-. by rewrite Hrt.
      * pose proof (boost_same_queue _ _ (requeue_task_fields _ _ _ _ Hs1)) as Hsame.
        assert (Hok1 : boost_ok (put_task s current (set_boost_prio MAX_PRIORITY_ADJ t))).
        { apply boost_ok_put; [done |]. unfold boost_in_range. cbn. lia. }
        split; [by eapply boost_same_ok |]. split.
        -- intros x Hx. rewrite (Hsame x). by rewrite get_task_put_task_ne.
        -- intros t0 Ht0. rewrite Ht in Ht0. injection Ht0 as <-. rewrite Hrt.
           destruct (boost_same_get _ _ current _ Hsame
             (get_task_put_task_eq _ _ _)) as (t' & Ht' & E). eauto.
    + assert (Hsame : boost_same s s1).
      { destruct (2 =? sched_yield_type s); [| by injection Hs1 as <-].
        destruct (1 <? nr_running r); [| by injection Hs1 as <-].
        intros x. unfold get_task. by rewrite (put_rq_tasks _ _ _ _ Hs1). }
      split; [by eapply boost_same_ok |]. split; [intros; apply Hsame |].
      intros t Ht. destruct (boost_same_get _ _ _ _ Hsame Ht) as (t' & Ht' & E).
      exists t'. split; [done |].
      destruct (Z.eqb_spec (sched_yield_type s) 1); [congruence | done].
  - intros s p c s' Hok H. unfold check_curr in H.
    apply bind_Some in H as (r & Hr & H).
    destruct (bool_decide _); [by injection H as <- |].
    apply bind_Some in H as (t & Ht & H).
    assert (Hb : boost_in_range t) by (by apply (Hok p)).
    destruct (_ <? _).
    + destruct (_ && _).
      * eapply boost_same_ok; [apply boost_same_queue; by eapply requeue_task_fields |].
        apply boost_ok_put; [done |]. destruct (negb _); [| done].
        by apply deboost_task_spec.
      * injection H as <-. by apply boost_ok_put.
    + injection H as <-. by apply boost_ok_put.
Qed.

End ForkBoost.

Lemma sched_fork_time_slice_witness :
  exists s' parent' child,
    sched_fork (cfg := cfg1) fork_state 10 0 7 = Some s' /\
    get_task s' 7 = Some parent' /\
    get_task s' 10 = Some child /\
    time_slice parent' = 1500000 /\
    (RESCHED_NS <= 1500000 ->
       time_slice child = 1500000 /\ need_resched parent' = false) /\
    (1500000 < RESCHED_NS ->
       time_slice child = SCHED_TIMESLICE_NS (cfg := cfg1) /\ need_resched parent' = true).
Proof.
  apply (sched_fork_time_slice (cfg := cfg1) fork_state 10%nat 0 7%nat
           (mk_rq (boot_queue 0) 1 0 0 7 0 None None 0 0 0 true)
           forking_task forking_task forking_task).
  - reflexivity.
  - vm_compute. reflexivity.
  - vm_compute. reflexivity.
  - vm_compute. reflexivity.
  - cbn. lia.
Defined.

Lemma boost_prio_bounded_witness :
  boost_in_range (H := cfg1) (deboost_task (cfg := cfg1) fresh_task) /\
  boost_prio (deboost_task (cfg := cfg1) fresh_task)
  = if boost_prio fresh_task <? MAX_PRIORITY_ADJ (Config := cfg1)
    then boost_prio fresh_task + 1 else boost_prio fresh_task.
Proof.
  refine (proj1 (proj2 (boost_prio_bounded (cfg := cfg1) _)) fresh_task _).
  - cbn. lia.
  - unfold boost_in_range. cbn. lia.
Defined.

(** ** Yield *)

Section Yield.
Context `{cfg : Config}.

Lemma choose_next_task_clears_skip pull s c r x s' next :
  get_rq s c = Some r -> skip r = Some x ->
  choose_next_task pull s c = Some (s', next) ->
  exists r', get_rq s' c = Some r' /\ skip r' = None.
Proof.
  intros Hr Hskip H. unfold choose_next_task in H. rewrite Hr in H.
  cbn [mbind option_bind] in H. rewrite Hskip in H.
  apply bind_Some in H as (nx & _ & H).
  apply bind_Some in H as (res & _ & H).
  apply bind_Some in H as (r2 & Hr2 & H).
  apply bind_Some in H as (s2 & Hput & H). injection H as <- <-.
  eexists. rewrite (get_rq_put_rq _ _ _ _ c Hput), decide_True by done. done.
Qed.

(** C8 (as amended): [sys_sched_yield] returns 0 whenever it returns.
    In mode 0 nothing changes.  In mode 1 the caller's [boost_prio] is set
    to [MAX_PRIORITY_ADJ] and the caller is requeued, unless the caller has
    RT priority, in which case nothing changes.  In mode 2 the runqueue's
    skip pointer is set to the caller, unless [nr_running <= 1], in which
    case nothing changes; the next [choose_next_task] clears the pointer. *)
Theorem sched_yield_spec s c current :
  (forall s' rv, sys_sched_yield s c current = Some (s', rv) -> rv = 0) /\
  (sched_yield_type s = 0 -> sys_sched_yield s c current = Some (s, 0)) /\
  (sched_yield_type s = 1 -> forall r t,
     get_rq s c = Some r -> get_task s current = Some t ->
     (rt_task t = true -> sys_sched_yield s c current = Some (s, 0)) /\
     (rt_task t = false ->
        sys_sched_yield s c current
        = (s' ← requeue_task (put_task s current (set_boost_prio MAX_PRIORITY_ADJ t))
                   current c; Some (s', 0)) /\
        forall s' rv, sys_sched_yield s c current = Some (s', rv) ->
          exists t', get_task s' current = Some t' /\ boost_prio t' = MAX_PRIORITY_ADJ)) /\
  (sched_yield_type s = 2 -> forall r,
     get_rq s c = Some r ->
     (nr_running r <= 1 -> sys_sched_yield s c current = Some (s, 0)) /\
     (1 < nr_running r ->
        exists s', sys_sched_yield s c current = Some (s', 0) /\
          put_rq s c (set_skip (Some current) r) = Some s' /\
          get_rq s' c = Some (set_skip (Some current) r) /\
          forall pull s'' next, choose_next_task pull s' c = Some (s'', next) ->
            exists r'', get_rq s'' c = Some r'' /\ skip r'' = None)).
Proof.
  split; [| split; [| split]].
  - intros s' rv H. unfold sys_sched_yield in H.
    apply bind_Some in H as (res & _ & H). by injection H as _ <-.
  - intros E. unfold sys_sched_yield, do_sched_yield. by rewrite E.
  - intros E r t Hr Ht. unfold sys_sched_yield, do_sched_yield.
    rewrite E, Hr. cbn [Z.eqb Pos.eqb mbind option_bind]. rewrite Ht.
    cbn [mbind option_bind]. split; intros Hrt; rewrite Hrt; cbn [negb]; [done |].
    split.
    + by destruct (requeue_task _ _ _).
    + intros s' rv H.
      destruct (requeue_task _ _ _) as [s1 |] eqn:Hrq; [| done].
      cbn in H. injection H as <- <-.
      destruct (same_but_queue_get _ _ current _ (requeue_task_fields _ _ _ _ Hrq)
                  (get_task_put_task_eq _ _ _)) as (t' & Ht' & Ef).
      exists t'. split; [done |]. by apply (f_equal boost_prio) in Ef.
  - intros E r Hr. unfold sys_sched_yield, do_sched_yield.
    rewrite E, Hr. cbn [Z.eqb Pos.eqb mbind option_bind]. split; intros Hn.
    + destruct (Z.ltb_spec 1 (nr_running r)); [lia | done].
    + destruct (Z.ltb_spec 1 (nr_running r)); [| lia].
      destruct (put_rq_is_Some s c (set_skip (Some current) r) r Hr) as [s' Hs'].
      exists s'. rewrite Hs'. cbn. split; [done |]. split; [done |].
      assert (Hr' : get_rq s' c = Some (set_skip (Some current) r)).
      { by rewrite (get_rq_put_rq _ _ _ _ c Hs'), decide_True. }
      split; [done |]. intros pull s'' next Hcn.
      by eapply (choose_next_task_clears_skip pull s' c _ current).
Qed.

End Yield.

(** In mode 1 an RT caller is neither deboosted nor requeued, and in mode 2
    a caller that is alone on its runqueue does not become the skip task. *)
Lemma sched_yield_guards :
  exists t r,
    sched_yield_type three_queued_state = 1 /\
    get_task three_queued_state 8 = Some t /\
    sys_sched_yield (cfg := cfg2 false) three_queued_state 0 8
      = Some (three_queued_state, 0) /\
    boost_prio t ≠ MAX_PRIORITY_ADJ (Config := cfg2 false) /\
    sched_yield_type one_queued_mode2 = 2 /\
    sys_sched_yield (cfg := cfg2 false) one_queued_mode2 0 7
      = Some (one_queued_mode2, 0) /\
    get_rq one_queued_mode2 0 = Some r /\ skip r ≠ Some 7%nat.
Proof.
  do 2 eexists.
  split; [reflexivity |].
  split; [vm_compute; reflexivity |].
  split; [vm_compute; reflexivity |].
  split; [done |].
  split; [reflexivity |].
  split; [vm_compute; reflexivity |].
  split; [vm_compute; reflexivity |].
  done.
Qed.

(** In mode 1 the queued NORMAL task 7 yields on CPU 0: the call returns
    0 and leaves the task with the maximum boost. *)
Lemma sched_yield_spec_witness :
  exists s' t',
    sys_sched_yield (cfg := cfg2 false) three_queued_state 0 7 = Some (s', 0) /\
    get_task s' 7 = Some t' /\ boost_prio t' = 4.
Proof.
  assert (E : sys_sched_yield (cfg := cfg2 false) three_queued_state 0 7
              = Some (default three_queued_state
                        (fst <$> sys_sched_yield (cfg := cfg2 false) three_queued_state 0 7), 0))
    by (vm_compute; reflexivity).
  destruct (sched_yield_spec (cfg := cfg2 false) three_queued_state 0 7%nat)
    as (_ & _ & H & _).
  edestruct H as [_ H1].
  - vm_compute. reflexivity.
  - vm_compute. reflexivity.
  - vm_compute. reflexivity.
  - destruct H1 as [_ H1]; [vm_compute; reflexivity |].
    destruct (H1 _ _ E) as (t' & Ht' & Hb).
    eexists _, t'. split; [exact E |]. split; [exact Ht' | exact Hb].
Defined.


(** ** Priority inheritance *)

Section PrioInherit.
Context `{cfg : Config}.

(** C7 (as amended): after [rt_mutex_setprio(p, pi_task)] returns, for a
    task that is not the idle task of its runqueue the effective [prio]
    equals [min(normal_prio, pi_task->prio)] (just [normal_prio] without a
    donor), so it is at most that minimum; for its runqueue's idle task
    [prio] is left unchanged.  In both cases [normal_prio] is unchanged and
    the donor is recorded in [pi_top_task], and the call changes nothing
    when the recorded donor and the resulting prio are both unchanged. *)
Theorem rt_mutex_setprio_spec s p pi_task s' t r :
  get_task s p = Some t ->
  get_rq s (task_cpu t) = Some r ->
  rt_mutex_setprio s p pi_task = Some s' ->
  exists t' new_prio,
    get_task s' p = Some t' /\
    __rt_effective_prio s pi_task (normal_prio_of t) = Some new_prio /\
    new_prio <= normal_prio_of t /\
    (forall d dt, pi_task = Some d -> get_task s d = Some dt ->
       new_prio = Z.min (normal_prio_of t) (prio dt)) /\
    (pi_task = None -> new_prio = normal_prio_of t) /\
    normal_prio_of t' = normal_prio_of t /\
    pi_top_task t' = pi_task /\
    (p ≠ idle r -> prio t' = new_prio) /\
    (p = idle r -> prio t' = prio t) /\
    (pi_top_task t = pi_task -> prio t = new_prio -> s' = s).
Proof.
  intros Ht Hr H. unfold rt_mutex_setprio in H. rewrite Ht in H.
  cbn [mbind option_bind] in H.
  apply bind_Some in H as (np & Hnp & H).
  assert (Hle : np <= normal_prio_of t
                /\ (forall d dt, pi_task = Some d -> get_task s d = Some dt ->
                      np = Z.min (normal_prio_of t) (prio dt))
                /\ (pi_task = None -> np = normal_prio_of t)).
  { unfold __rt_effective_prio in Hnp. destruct pi_task as [d |].
    - apply bind_Some in Hnp as (dt & Hdt & Hnp). injection Hnp as <-.
      split; [lia |]. split; [| done]. intros d' dt' [= <-] Hd'. congruence.
    - injection Hnp as <-. split; [lia |]. split; [done | done]. }
  destruct Hle as (Hle & Hmin & Hnone).
  change (prio (set_pi_top_task pi_task t)) with (prio t) in H.
  destruct (Z.eqb_spec np (prio t)) as [Heq | Hneq].
  - destruct (bool_decide (pi_top_task t = pi_task)) eqn:Hsame; cbn [andb] in H.
    + injection H as <-. apply bool_decide_eq_true in Hsame.
      exists t, np. repeat split; try done; auto.
    + rewrite Hr in H. cbn [mbind option_bind] in H. injection H as <-.
      apply bool_decide_eq_false in Hsame.
      exists (set_pi_top_task pi_task t), np. rewrite get_task_put_task_eq.
      repeat split; try done.
  - rewrite andb_false_r in H. rewrite Hr in H. cbn [mbind option_bind] in H.
    destruct (bool_decide (p = idle r)) eqn:Hidle.
    + injection H as <-. apply bool_decide_eq_true in Hidle.
      exists (set_pi_top_task pi_task t), np. rewrite get_task_put_task_eq.
      repeat split; try done; try (intros _ E; by symmetry in E).
    + apply bool_decide_eq_false in Hidle.
      destruct (same_but_queue_get _ _ p _ (check_task_changed_fields _ _ _ _ H)
                  (get_task_put_task_eq _ _ _)) as (t' & Ht' & Ef).
      exists t', np. split; [done |]. split; [done |].
      repeat split; try done; try (intros _ E; by symmetry in E).
      * by apply (f_equal normal_prio_of) in Ef.
      * by apply (f_equal pi_top_task) in Ef.
      * intros _. by apply (f_equal prio) in Ef.
Qed.

End PrioInherit.

(** The idle task of a runqueue keeps its [prio] (here [MAX_PRIO] = 140)
    whatever the donor (here an RR task of prio 49). *)
Lemma rt_mutex_setprio_idle :
  exists s' idle_t idle_t' dt,
    get_task boot_with_tasks 0 = Some idle_t /\
    get_task boot_with_tasks 8 = Some dt /\
    rt_mutex_setprio (cfg := cfg2 false) boot_with_tasks 0 (Some 8%nat) = Some s' /\
    get_task s' 0 = Some idle_t' /\
    ~ (prio idle_t' <= Z.min (normal_prio_of idle_t) (prio dt)).
Proof.
  do 4 eexists.
  split; [vm_compute; reflexivity |].
  split; [vm_compute; reflexivity |].
  split; [vm_compute; reflexivity |].
  split; [vm_compute; reflexivity |].
  cbn. lia.
Qed.

Lemma rt_mutex_setprio_spec_witness :
  exists s' t', rt_mutex_setprio (cfg := cfg2 false) three_queued_state 7 (Some 8%nat) = Some s'
    /\ get_task s' 7 = Some t' /\ prio t' = 49 /\ normal_prio_of t' = 124
    /\ pi_top_task t' = Some 8%nat.
Proof.
  eexists.
  edestruct (rt_mutex_setprio_spec (cfg := cfg2 false) three_queued_state 7%nat (Some 8%nat))
    as (t' & np & Ht' & Hnp & _ & _ & _ & Hn & Hpi & Hprio & _).
  - vm_compute. reflexivity.
  - vm_compute. reflexivity.
  - vm_compute. reflexivity.
  - exists t'. split; [vm_compute; reflexivity |]. split; [exact Ht' |].
    split; [| split; [exact Hn | exact Hpi]].
    rewrite Hprio by (vm_compute; lia).
    vm_compute in Hnp. by injection Hnp as <-.
Defined.


(** ** Validation of policy requests *)

Section SetScheduler.
Context `{cfg : Config}.
Hypothesis Hrt : MAX_RT_PRIO = 100.
Hypothesis Hurt : MAX_USER_RT_PRIO = 100.

Lemma setscheduler_params_policy t attr :
  -1 <= int (sched_policy attr) ->
  policy (__setscheduler_params t attr) = requested_policy t attr.
Proof.
  intros H. unfold __setscheduler_params, requested_policy, SETPARAM_POLICY. cbn.
  destruct (Z.eqb_spec (int (sched_policy attr)) (-1)) as [E | E];
    destruct (Z.ltb_spec (int (sched_policy attr)) 0); try done; lia.
Qed.

Lemma same_but_queue_policy s s' p t :
  same_but_queue s s' -> get_task s p = Some t ->
  exists t', get_task s' p = Some t' /\ policy t' = policy t.
Proof.
  intros H Ht. specialize (H p). rewrite Ht in H.
  destruct (get_task s' p) as [t' |]; [| done].
  exists t'. split; [done |]. cbn in H.
  injection H as H. destruct t, t'. cbn in *. unfold sched_fields in H. cbn in H. by simplify_eq.
Qed.

(** One pass from the [recheck] label with [oldpolicy] still unset: the
    outcome of every request. *)
Lemma recheck_outcome n who s p t attr user pi newprio pol s' ret :
  get_task s p = Some t -> 0 <= sched_priority attr ->
  setscheduler_recheck (S n) who s p attr user pi newprio pol (-1) = Some (s', ret) ->
  (ret ≠ 0 /\ s' = s) \/
  (ret = 0 /\ (0 <= pol -> pol <= SCHED_IDLE) /\
   ((if pol <? 0 then policy t else pol) = SCHED_FIFO \/
    (if pol <? 0 then policy t else pol) = SCHED_RR ->
      1 <= sched_priority attr <= 99) /\
   ((if pol <? 0 then policy t else pol) ≠ SCHED_FIFO ->
    (if pol <? 0 then policy t else pol) ≠ SCHED_RR -> sched_priority attr = 0) /\
   exists t', get_task s' p = Some t' /\
     (pol = int (sched_policy attr) -> -1 <= pol -> policy t' = requested_policy t attr)).
Proof.
  intros Ht Hsp. cbn [setscheduler_recheck]. rewrite Ht. cbn [mbind option_bind].
  set (pe := if pol <? 0 then policy t else pol).
  destruct (negb (pol <? 0) && (SCHED_IDLE <? pol)) eqn:Hbad;
    [intros ?; simplify_eq; left; split; [unfold EINVAL, EPERM; lia | reflexivity] |].
  destruct (negb (Z.land _ _ =? 0)); [intros ?; simplify_eq; left; split; [unfold EINVAL, EPERM; lia | reflexivity] |].
  rewrite Hrt, Hurt. change (u32 (100 - 1)) with 99.
  destruct (_ || _) eqn:Hrange; [intros ?; simplify_eq; left; split; [unfold EINVAL, EPERM; lia | reflexivity] |].
  destruct (negb (eqb _ _)) eqn:Hmatch; [intros ?; simplify_eq; left; split; [unfold EINVAL, EPERM; lia | reflexivity] |].
  match goal with
  | |- context [if negb ?b then Some (s, - EPERM) else _] => destruct b
  end; cbn [negb]; [| intros ?; simplify_eq; left; split; [unfold EPERM; lia | reflexivity]].
  destruct (user && negb (security_task_setscheduler who =? 0)) eqn:Hsec.
  { intros ?; simplify_eq. left. split; [| done].
    apply andb_true_iff in Hsec as [_ Hsec]. apply negb_true_iff in Hsec. lia. }
  intros H. apply bind_Some in H as (r & Hr & H).
  destruct (bool_decide _); [simplify_eq; left; split; [unfold EINVAL, EPERM; lia | reflexivity] |].
  assert (Hle : sched_priority attr <= 99).
  { apply orb_false_iff in Hrange as [H1 H2].
    destruct (has_mm t); cbn in H1, H2; lia. }
  assert (Hpol : 0 <= pol -> pol <= SCHED_IDLE).
  { intros Hp. apply andb_false_iff in Hbad as [Hbad | Hbad]; [| lia].
    apply negb_false_iff in Hbad. lia. }
  apply negb_false_iff, eqb_prop in Hmatch.
  assert (Hrt1 : pe = SCHED_FIFO \/ pe = SCHED_RR -> 1 <= sched_priority attr <= 99).
  { intros Hp. assert (E : (SCHED_RR =? pe) || (SCHED_FIFO =? pe) = true).
    { apply orb_true_iff. destruct Hp as [-> | ->]; [by right | by left]. }
    rewrite E in Hmatch. symmetry in Hmatch. apply negb_true_iff in Hmatch. lia. }
  assert (Hrt0 : pe ≠ SCHED_FIFO -> pe ≠ SCHED_RR -> sched_priority attr = 0).
  { intros H1 H2. assert (E : (SCHED_RR =? pe) || (SCHED_FIFO =? pe) = false).
    { apply orb_false_iff. split; apply Z.eqb_neq; done. }
    rewrite E in Hmatch. symmetry in Hmatch. apply negb_false_iff in Hmatch. lia. }
  assert (Hreq : pol = int (sched_policy attr) -> pe = requested_policy t attr).
  { intros ->. reflexivity. }
  destruct (_ && _ && _) eqn:Hsame.
  { simplify_eq. right. do 4 (split; [done |]).
    eexists. split; [apply get_task_put_task_eq |].
    intros E _. rewrite <- (Hreq E).
    apply andb_true_iff in Hsame as [Hsame _]. apply andb_true_iff in Hsame as [Hsame _].
    cbn. fold pe in Hsame. lia. }
  replace (negb ((if pol <? 0 then policy t else -1) =? -1)
           && negb ((if pol <? 0 then policy t else -1) =? policy t)) with false in H.
  2:{ destruct (pol <? 0); [| done]. rewrite Z.eqb_refl. cbn. by rewrite andb_false_r. }
  apply bind_Some in H as (eff & Heff & H).
  destruct (pi && _).
  { simplify_eq. right. do 4 (split; [done |]).
    eexists. split; [apply get_task_put_task_eq |].
    intros E Hm. subst pol. rewrite setscheduler_params_policy by done. reflexivity. }
  apply bind_Some in H as (t2 & Ht2 & H).
  apply bind_Some in H as (s2 & Hs2 & H). simplify_eq.
  right. do 4 (split; [done |]).
  apply check_task_changed_fields in Hs2.
  destruct (same_but_queue_policy _ _ p t2 Hs2) as (t' & Ht' & Hp');
    [apply get_task_put_task_eq |].
  exists t'. split; [done |]. intros E Hm. subst pol. rewrite Hp'.
  unfold __setscheduler in Ht2.
  transitivity (policy (__setscheduler_params (set_sched_reset_on_fork
      (if int (sched_policy attr) <? 0 then sched_reset_on_fork t
       else negb (Z.land (sched_flags attr) SCHED_RESET_ON_FORK =? 0)) t) attr)).
  - destruct pi; [apply bind_Some in Ht2 as (np & _ & Ht2) |]; by injection Ht2 as <-.
  - by rewrite setscheduler_params_policy.
Qed.

(** The pass bound of [setscheduler_recheck] is never reached from
    [__sched_setscheduler]: with [oldpolicy] unset the jump back to the
    label is not taken. *)
Lemma recheck_fuel n who s p attr user pi newprio pol :
  setscheduler_recheck (S n) who s p attr user pi newprio pol (-1)
  = setscheduler_recheck 1 who s p attr user pi newprio pol (-1).
Proof.
  cbn [setscheduler_recheck]. destruct (get_task s p) as [t |]; [| done].
  cbn [mbind option_bind].
  replace (negb ((if pol <? 0 then policy t else -1) =? -1)
           && negb ((if pol <? 0 then policy t else -1) =? policy t)) with false.
  - reflexivity.
  - destruct (pol <? 0); [| done]. rewrite Z.eqb_refl. cbn. by rewrite andb_false_r.
Qed.

(** Requests that fail validation. *)
Lemma recheck_invalid n who s p t attr user pi newprio pol :
  get_task s p = Some t -> 0 <= sched_priority attr ->
  (0 <= pol /\ SCHED_IDLE < pol) \/ 99 < sched_priority attr \/
  (((if pol <? 0 then policy t else pol) = SCHED_FIFO \/
    (if pol <? 0 then policy t else pol) = SCHED_RR) /\ sched_priority attr = 0) \/
  ((if pol <? 0 then policy t else pol) ≠ SCHED_FIFO /\
   (if pol <? 0 then policy t else pol) ≠ SCHED_RR /\ sched_priority attr ≠ 0) ->
  setscheduler_recheck (S n) who s p attr user pi newprio pol (-1) = Some (s, - EINVAL).
Proof.
  intros Ht Hsp Hbad. cbn [setscheduler_recheck]. rewrite Ht. cbn [mbind option_bind].
  set (pe := if pol <? 0 then policy t else pol) in *.
  destruct (negb (pol <? 0) && (SCHED_IDLE <? pol)) eqn:Hpol; [done |].
  destruct (negb (Z.land _ _ =? 0)); [done |].
  rewrite Hrt, Hurt. change (u32 (100 - 1)) with 99.
  destruct (_ || _) eqn:Hrange; [done |].
  destruct (negb (eqb _ _)) eqn:Hmatch; [done |]. exfalso.
  apply negb_false_iff, eqb_prop in Hmatch.
  destruct Hbad as [[H1 H2] | [H | [[H1 H2] | (H1 & H2 & H3)]]].
  - apply andb_false_iff in Hpol as [Hpol | Hpol]; [apply negb_false_iff in Hpol |]; lia.
  - apply orb_false_iff in Hrange as [R1 R2]. destruct (has_mm t); cbn in R1, R2; lia.
  - assert (E : (SCHED_RR =? pe) || (SCHED_FIFO =? pe) = true).
    { apply orb_true_iff. destruct H1 as [-> | ->]; [by right | by left]. }
    rewrite E, H2 in Hmatch. done.
  - assert (E : (SCHED_RR =? pe) || (SCHED_FIFO =? pe) = false).
    { apply orb_false_iff. split; apply Z.eqb_neq; done. }
    rewrite E in Hmatch. symmetry in Hmatch. apply negb_false_iff in Hmatch. lia.
Qed.


End SetScheduler.

(** The priority of a request built by [_sched_setscheduler] is an
    unsigned value, as the theorem above asks. *)
Lemma sched_priority_unsigned z : 0 <= u32 z.
Proof. unfold u32, uwrap. apply Z.mod_pos_bound. lia. Qed.

(** A DEADLINE request on the queued NORMAL task 7 is accepted and leaves
    it a FIFO task at priority 99 (prio 0), at the head level of its
    runqueue. *)
Lemma sched_setscheduler_deadline_example :
  (x ← __sched_setscheduler (cfg := cfg2 false) privileged three_queued_state 7
         (mk_attr SCHED_DEADLINE 0 0 0) true true;
   t ← get_task x.1 7;
   Some (x.2, policy t, rt_priority t, prio t, bmq_idx t))
  = Some (0, SCHED_FIFO, 99, 0, 0).
Proof. vm_compute. reflexivity. Qed.



(** ** CPU selection at wakeup *)

Section SelectCpu.
Context `{cfg : Config}.

Lemma ffs_lowest m : 0 < m -> lowest_cpu m (__ffs m).
Proof.
  destruct m as [| q | q]; try lia. intros _. cbn [__ffs].
  split; [apply ffs_pos_nonneg |]. split; [apply ffs_pos_set |]. apply ffs_pos_least.
Qed.

Lemma bits_below m n j : 0 <= m < 2 ^ n -> Z.testbit m j = true -> j < n.
Proof.
  intros [H0 H1] Hb. destruct (Z.lt_ge_cases j n) as [| Hge]; [done |].
  destruct (decide (m = 0)) as [-> | Hne]; [by rewrite Z.bits_0 in Hb |].
  rewrite Z.bits_above_log2 in Hb; [done | lia |].
  assert (Z.log2 m < n); [| lia].
  apply Z.log2_lt_pow2; lia.
Qed.

Lemma first_word_mask_bits start j :
  0 <= start < BITS_PER_LONG -> 0 <= j ->
  Z.testbit (BITMAP_FIRST_WORD_MASK start) j = bool_decide (start <= j < BITS_PER_LONG).
Proof.
  unfold BITMAP_FIRST_WORD_MASK, ulong, uwrap, BITS_PER_LONG. intros Hs Hj.
  change (64 - 1) with (Z.ones 6). rewrite Z.land_ones by lia.
  change (2 ^ 6) with 64. rewrite (Z.mod_small start) by lia.
  destruct (Z.lt_ge_cases j 64) as [Hlt | Hge].
  - rewrite Z.mod_pow2_bits_low by lia. rewrite Z.shiftl_spec by lia.
    destruct (Z.lt_ge_cases j start).
    + rewrite Z.testbit_neg_r by lia. rewrite bool_decide_eq_false_2; [done | lia].
    + rewrite Z.ones_spec_low by lia. rewrite bool_decide_eq_true_2; [done | lia].
  - rewrite Z.mod_pow2_bits_high by lia. rewrite bool_decide_eq_false_2; [done | lia].
Qed.

(** [bmq_find_next_bit]: the first set bit at or after [start], or [size]. *)
Lemma find_next_bit_spec bm size start :
  0 <= bm < 2 ^ size -> 0 <= size <= BITS_PER_LONG -> 0 <= start < BITS_PER_LONG ->
  (bmq_find_next_bit bm size start = size /\
   forall j, start <= j -> Z.testbit bm j = false) \/
  (start <= bmq_find_next_bit bm size start < size /\
   Z.testbit bm (bmq_find_next_bit bm size start) = true /\
   forall j, start <= j < bmq_find_next_bit bm size start -> Z.testbit bm j = false).
Proof.
  intros Hbm Hsize Hstart. unfold bmq_find_next_bit.
  set (tmp := Z.land bm (BITMAP_FIRST_WORD_MASK start)).
  assert (Hbits : forall j, 0 <= j ->
            Z.testbit tmp j = Z.testbit bm j && bool_decide (start <= j)).
  { intros j Hj. unfold tmp. rewrite Z.land_spec, first_word_mask_bits by done.
    destruct (Z.testbit bm j) eqn:Hb; [| done]. cbn.
    apply (bits_below _ size) in Hb; [| done].
    apply bool_decide_ext. lia. }
  assert (Htmp : 0 <= tmp) by (apply Z.land_nonneg; lia).
  destruct (Z.eqb_spec tmp 0) as [E | E].
  - left. split; [done |]. intros j Hj.
    assert (Hz : Z.testbit tmp j = false) by (rewrite E; apply Z.bits_0).
    rewrite Hbits in Hz by lia. rewrite bool_decide_eq_true_2 in Hz by done.
    by rewrite andb_true_r in Hz.
  - right. destruct (ffs_lowest tmp) as (Hf & Hset & Hleast); [lia |].
    rewrite Hbits in Hset by done. apply andb_true_iff in Hset as [Hset Hge].
    apply bool_decide_eq_true in Hge.
    split; [split; [done | by apply (bits_below bm)] |]. split; [done |].
    intros j Hj. specialize (Hleast j). rewrite Hbits in Hleast by lia.
    rewrite bool_decide_eq_true_2 in Hleast by lia. rewrite andb_true_r in Hleast.
    apply Hleast. lia.
Qed.

Lemma online_only_land s a b : online_only s a -> online_only s (Z.land a b).
Proof.
  intros [H0 H]. split; [apply Z.land_nonneg; by left |].
  intros j Hj. rewrite Z.land_spec in Hj. apply andb_true_iff in Hj as [Hj _]. auto.
Qed.

Lemma best_mask_scan_spec s m rings :
  0 <= cpu_online_mask s < 2 ^ nr_cpu_ids -> online_only s m ->
  (exists ring, ring ∈ rings /\ Z.land m ring ≠ 0) ->
  exists r (i : nat) ring,
    best_mask_scan m rings = Some r /\ rings !! i = Some ring /\
    (forall (j : nat) ring', (j < i)%nat -> rings !! j = Some ring' -> Z.land m ring' = 0) /\
    lowest_cpu (Z.land m ring) r.
Proof.
  intros Hon Hm. induction rings as [| ring0 rest IH]; intros (ring & Hin & Hne).
  { by apply elem_of_nil in Hin. }
  cbn [best_mask_scan]. unfold cpumask_any_and.
  destruct (Z.eqb_spec (Z.land m ring0) 0) as [E | E].
  - rewrite Z.leb_refl.
    destruct IH as (r & i & ring' & Hr & Hi & Hbefore & Hlow).
    { apply elem_of_cons in Hin as [-> | Hin]; [done |]. by exists ring. }
    exists r, (S i), ring'. split; [done |]. split; [done |]. split; [| done].
    intros [| j] ring'' Hj Hl; cbn in Hl; [by simplify_eq |].
    apply (Hbefore j); [lia | done].
  - destruct (online_only_land s m ring0 Hm) as [H0 Hsub].
    destruct (ffs_lowest (Z.land m ring0)) as (Hf & Hset & Hleast); [lia |].
    assert (__ffs (Z.land m ring0) < nr_cpu_ids).
    { apply (bits_below (cpu_online_mask s)); [done |]. by apply Hsub. }
    destruct (Z.leb_spec nr_cpu_ids (__ffs (Z.land m ring0))); [lia |].
    exists (__ffs (Z.land m ring0)), 0%nat, ring0.
    split; [done |]. split; [done |]. split; [intros; lia |]. done.
Qed.

Lemma best_mask_cpu_spec s c m :
  0 <= cpu_online_mask s < 2 ^ nr_cpu_ids -> online_only s m -> m ≠ 0 ->
  affinity_rings_cover s c ->
  exists r, best_mask_cpu s c m = Some r /\ best_choice s c m r /\ Z.testbit m r = true.
Proof.
  intros Hon Hm Hne (rings & Hrings & Hcover). unfold best_mask_cpu, cpumask_test_cpu.
  destruct (Z.testbit m c) eqn:Hc.
  - exists c. split; [done |]. split; [by left | done].
  - rewrite Hrings. cbn [mbind option_bind].
    destruct Hm as [H0 Hsub].
    destruct (ffs_lowest m) as (Hf & Hset & _); [lia |].
    destruct (Hcover (__ffs m)) as (ring & Hin & Hbit); [done | | by apply Hsub |].
    { intros E. rewrite E in Hset. congruence. }
    destruct (best_mask_scan_spec s m rings Hon) as (r & i & ring' & Hr & Hi & Hbefore & Hlow).
    { done. }
    { exists ring. split; [done |]. intros E.
      assert (Hb : Z.testbit (Z.land m ring) (__ffs m) = true).
      { rewrite Z.land_spec, Hset, Hbit. done. }
      rewrite E, Z.bits_0 in Hb. done. }
    exists r. split; [done |]. split.
    + right. split; [done |]. by exists rings, i, ring'.
    + destruct Hlow as (_ & Hb & _). rewrite Z.land_spec in Hb.
      by apply andb_true_iff in Hb as [Hb _].
Qed.

Lemma select_scan_spec fuel s chk preempt tcpu level :
  config_ok -> 0 <= cpu_online_mask s < 2 ^ nr_cpu_ids ->
  online_only s chk -> chk ≠ 0 ->
  0 <= sched_rq_watermark_bitmap s < 2 ^ WM_BITS ->
  length (sched_rq_watermark s) = Z.to_nat WM_BITS ->
  0 <= preempt < WM_BITS ->
  affinity_rings_cover s tcpu ->
  no_fit_below s chk preempt level ->
  level = WM_BITS \/
    (0 <= level < WM_BITS /\ Z.testbit (sched_rq_watermark_bitmap s) level = true) ->
  (Z.to_nat (WM_BITS - level) < fuel)%nat ->
  exists r, select_scan fuel s chk preempt tcpu level = Some r /\
    Z.testbit chk r = true /\ selected_cpu s chk preempt tcpu r.
Proof.
  intros (Hbits & Hword & Hidle) Hon Hchk Hne Hbm Hlen Hpre Hcover.
  revert level. induction fuel as [| fuel IH]; intros level Hbelow Hlevel Hfuel; [lia |].
  cbn [select_scan]. destruct (Z.ltb_spec level preempt) as [Hlt | Hge].
  - destruct Hlevel as [-> | [Hl Hset]]; [lia |].
    destruct (zlookup_in_range (sched_rq_watermark s) level) as [m Hm]; [lia |].
    rewrite Hm. cbn [mbind option_bind]. unfold cpumask_empty, cpumask_and.
    destruct (Z.eqb_spec (Z.land chk m) 0) as [E | E]; cbn [negb].
    + assert (Hs : ulong (level + 1) = level + 1).
      { unfold ulong, uwrap, BITS_PER_LONG in *. apply Z.mod_small. lia. }
      rewrite Hs.
      set (next := bmq_find_next_bit (sched_rq_watermark_bitmap s) WM_BITS (level + 1)).
      assert (Hnext : level < next <= WM_BITS /\
                (forall j, level < j < next ->
                   Z.testbit (sched_rq_watermark_bitmap s) j = false) /\
                (next = WM_BITS \/
                 (0 <= next < WM_BITS /\
                  Z.testbit (sched_rq_watermark_bitmap s) next = true))).
      { assert (Hsz : 0 <= WM_BITS <= BITS_PER_LONG) by (unfold WM_BITS in *; lia).
        assert (Hst : 0 <= level + 1 < BITS_PER_LONG) by lia.
        destruct (find_next_bit_spec (sched_rq_watermark_bitmap s) WM_BITS (level + 1)
                    Hbm Hsz Hst) as [[H1 H2] | (H1 & H2 & H3)]; fold next in H1.
        - split; [lia |]. split; [intros j Hj; apply H2; lia | left; exact H1].
        - fold next in H2, H3.
          split; [lia |]. split; [intros j Hj; apply H3; lia |]. right. split; [lia | exact H2]. }
      destruct Hnext as (Hrange & Hgap & Hnext).
      apply IH; [| done | lia].
      intros l m' Hl' Hp Hb Hm'.
      destruct (Z.lt_trichotomy l level) as [Hlo | [-> | Hhi]].
      * apply (Hbelow l m'); [lia | lia | done | done].
      * congruence.
      * rewrite Hgap in Hb by lia. done.
    + destruct (best_mask_cpu_spec s tcpu (Z.land chk m)) as (r & Hr & Hbest & Hin);
        [done | by apply online_only_land | done | done |].
      exists r. split; [done |].
      rewrite Z.land_spec in Hin. apply andb_true_iff in Hin as [Hin1 Hin2].
      split; [done |]. left. exists level, m. split; [| done].
      split; [lia |]. split; [done |]. split; [done |]. split; [done |].
      intros l' m' Hl' Hb Hm'. apply (Hbelow l' m'); [lia | lia | done | done].
  - destruct (best_mask_cpu_spec s tcpu chk) as (r & Hr & Hbest & Hin); [done.. |].
    exists r. split; [done |]. split; [done |]. right. split; [| done].
    intros l m Hl Hp. apply Hbelow; lia.
Qed.

(** C5: for a task with an allowed online CPU, [select_task_rq] returns a
    CPU [r] that is allowed and online.  It is the preferred CPU within
    the CPUs of the first level, among the levels set in the watermark
    bitmap and strictly below the task's preemption level, that has an
    allowed online CPU; and the preferred CPU among all allowed online
    CPUs when there is no such level.  The preferred CPU of a mask is the
    task's last CPU when it is in the mask, otherwise the lowest CPU the
    mask shares with the first affinity ring that meets it. *)
Theorem select_task_rq_spec fallback s p t :
  config_ok ->
  get_task s p = Some t ->
  0 <= cpu_online_mask s < 2 ^ nr_cpu_ids ->
  Z.land (cpus_mask t) (cpu_online_mask s) ≠ 0 ->
  0 <= sched_rq_watermark_bitmap s < 2 ^ WM_BITS ->
  length (sched_rq_watermark s) = Z.to_nat WM_BITS ->
  0 <= task_sched_prio t < bmq_BITS ->
  affinity_rings_cover s (task_cpu t) ->
  exists r, select_task_rq fallback s p = Some r /\
    Z.testbit (Z.land (cpus_mask t) (cpu_online_mask s)) r = true /\
    selected_cpu s (Z.land (cpus_mask t) (cpu_online_mask s))
      (SCHED_PRIO2WATERMARK (task_sched_prio t)) (task_cpu t) r.
Proof.
  intros Hcfg Ht Hon Hne Hbm Hlen Hprio Hcover.
  pose proof Hcfg as (Hbits & Hword & Hidle).
  unfold select_task_rq. rewrite Ht. cbn [mbind option_bind].
  unfold cpumask_empty, cpumask_and.
  destruct (Z.eqb_spec (Z.land (cpus_mask t) (cpu_online_mask s)) 0) as [E | _]; [done |].
  assert (Hpre : ulong (int (SCHED_PRIO2WATERMARK (task_sched_prio t)))
                 = SCHED_PRIO2WATERMARK (task_sched_prio t)).
  { unfold SCHED_PRIO2WATERMARK, WM_BITS, BITS_PER_LONG in *.
    rewrite int_small by (unfold fits_int; lia).
    unfold ulong, uwrap, BITS_PER_LONG. apply Z.mod_small. lia. }
  rewrite Hpre.
  assert (Hchk : online_only s (Z.land (cpus_mask t) (cpu_online_mask s))).
  { split; [apply Z.land_nonneg; right; lia |].
    intros j Hj. rewrite Z.land_spec in Hj. by apply andb_true_iff in Hj as [_ Hj]. }
  apply select_scan_spec; try done.
  - unfold SCHED_PRIO2WATERMARK, WM_BITS in *. lia.
  - intros l m Hl _ Hb _.
    destruct (decide (sched_rq_watermark_bitmap s = 0)) as [E | E].
    { rewrite E, Z.bits_0 in Hb. done. }
    destruct (find_first_bit_spec (sched_rq_watermark_bitmap s) WM_BITS) as (_ & _ & Hleast);
      [lia | done |].
    rewrite Hleast in Hb; done.
  - destruct (decide (sched_rq_watermark_bitmap s = 0)) as [E | E].
    { left. rewrite E. apply find_first_bit_zero. }
    right.
    destruct (find_first_bit_spec (sched_rq_watermark_bitmap s) WM_BITS) as (H0 & Hset & _);
      [lia | done |].
    split; [| done]. split; [done |]. by apply (bits_below (sched_rq_watermark_bitmap s)).
  - assert (0 <= bmq_find_first_bit (sched_rq_watermark_bitmap s) WM_BITS).
    { destruct (decide (sched_rq_watermark_bitmap s = 0)) as [E | E].
      - rewrite E, find_first_bit_zero. unfold WM_BITS. lia.
      - by destruct (find_first_bit_spec (sched_rq_watermark_bitmap s) WM_BITS)
          as (H0 & _ & _); [lia | done |]. }
    unfold WM_BITS in *. lia.
Qed.

End SelectCpu.

(** The example state with its three tasks queued on CPU 0: the rings of
    CPU 0 reach CPU 1. *)
Lemma three_queued_rings_cover : affinity_rings_cover three_queued_state 0.
Proof.
  exists [2]. split; [vm_compute; reflexivity |].
  assert (E : cpu_online_mask three_queued_state = 3) by (vm_compute; reflexivity).
  rewrite E. intros j Hj Hne Hb.
  assert (j < 2) by (apply (bits_below 3); [lia | done]).
  assert (j = 1) as -> by lia.
  exists 2. split; [apply list_elem_of_singleton; reflexivity | reflexivity].
Qed.

(** The FIFO task 9 last ran on CPU 0, which is at level 50; CPU 1 idles
    at level 1, below the task's preemption level 50, and is selected. *)
Lemma select_task_rq_example :
  select_task_rq (cfg := cfg2 false) (fun _ _ _ => None) three_queued_state 9 = Some 1.
Proof. vm_compute. reflexivity. Qed.

Lemma select_task_rq_spec_witness :
  exists r,
    select_task_rq (cfg := cfg2 false) (fun _ _ _ => None) three_queued_state 9 = Some r /\
    Z.testbit 3 r = true.
Proof.
  assert (Ht : get_task three_queued_state 9
               = Some (default fifo_task (get_task three_queued_state 9)))
    by (vm_compute; reflexivity).
  assert (E1 : cpu_online_mask three_queued_state = 3) by (vm_compute; reflexivity).
  assert (E2 : cpus_mask (default fifo_task (get_task three_queued_state 9)) = 3)
    by (vm_compute; reflexivity).
  assert (E3 : sched_rq_watermark_bitmap three_queued_state = 1125899906842626)
    by (vm_compute; reflexivity).
  assert (E4 : task_cpu (default fifo_task (get_task three_queued_state 9)) = 0)
    by (vm_compute; reflexivity).
  assert (E5 : task_sched_prio (cfg := cfg2 false)
                 (default fifo_task (get_task three_queued_state 9)) = 0)
    by (vm_compute; reflexivity).
  assert (H1 : 0 <= cpu_online_mask three_queued_state < 2 ^ nr_cpu_ids (Config := cfg2 false)).
  { rewrite E1. split; [lia | reflexivity]. }
  assert (H2 : Z.land (cpus_mask (default fifo_task (get_task three_queued_state 9)))
                 (cpu_online_mask three_queued_state) ≠ 0).
  { rewrite E1, E2. change (Z.land 3 3) with 3. lia. }
  assert (H3 : 0 <= sched_rq_watermark_bitmap three_queued_state < 2 ^ WM_BITS (cfg := cfg2 false)).
  { rewrite E3. split; [lia | reflexivity]. }
  assert (H4 : length (sched_rq_watermark three_queued_state)
               = Z.to_nat (WM_BITS (cfg := cfg2 false))).
  { vm_compute. reflexivity. }
  assert (H5 : 0 <= task_sched_prio (cfg := cfg2 false)
                      (default fifo_task (get_task three_queued_state 9))
               < bmq_BITS (Config := cfg2 false)).
  { rewrite E5. split; [lia | reflexivity]. }
  assert (H6 : affinity_rings_cover three_queued_state
                 (task_cpu (default fifo_task (get_task three_queued_state 9)))).
  { rewrite E4. apply three_queued_rings_cover. }
  destruct (select_task_rq_spec (cfg := cfg2 false) (fun _ _ _ => None)
              three_queued_state 9%nat _ (cfg2_ok false) Ht H1 H2 H3 H4 H5 H6)
    as (r & Hr & Hb & _).
  exists r. split; [exact Hr |]. rewrite E1, E2 in Hb. exact Hb.
Defined.

(** ** Shape of the queues and the first runnable task *)

Section QueueShape.
Context `{cfg : Config}.

(** X1: Along any sequence of enqueue, dequeue and requeue operations and of
    writes to task fields other than [bmq_idx], every runqueue keeps its
    bitmap in step with its lists: bit [l] is set exactly when level [l]
    is non-empty, no bit at or above [bmq_BITS] is set, and every task
    linked in level [l] has [bmq_idx = l]. *)
Theorem bitmap_mirrors_levels s s' :
  config_ok -> sched_inv s -> rtc sched_step s s' ->
  forall c r, get_rq s' c = Some r ->
    Z.of_nat (length (heads (queue r))) = bmq_BITS /\
    (forall l hs, zlookup (heads (queue r)) l = Some hs ->
       (Z.testbit (bitmap (queue r)) l = true <-> hs ≠ [])) /\
    (forall j, bmq_BITS <= j -> Z.testbit (bitmap (queue r)) j = false) /\
    (forall l hs p, zlookup (heads (queue r)) l = Some hs -> p ∈ hs ->
       exists t, get_task s' p = Some t /\ bmq_idx t = l).
Proof.
  intros Hcfg Hinv Hsteps c r Hr.
  destruct (sched_steps_inv s s' Hcfg Hinv Hsteps) as [_ Hrqs].
  destruct (Hrqs c r Hr) as [Hbody _].
  split; [apply (inv_heads_len _ _ _ _ Hbody) |].
  split; [apply (inv_bitmap _ _ _ _ Hbody) |].
  split; [apply (inv_bitmap_high _ _ _ _ Hbody) |].
  apply (inv_level _ _ _ _ Hbody).
Qed.

(** X2: Along the same sequences [nr_running] counts the linked tasks other
    than the idle task, which stays linked; no task is linked twice in a
    level, and no task is linked in two runqueues. *)
Theorem nr_running_counts_linked s s' :
  config_ok -> sched_inv s -> rtc sched_step s s' ->
  forall c r, get_rq s' c = Some r ->
    nr_running r + 1 = nr_queued (heads (queue r)) /\
    queued r (idle r) /\
    (forall l hs, zlookup (heads (queue r)) l = Some hs -> NoDup hs) /\
    (forall c2 r2 p, get_rq s' c2 = Some r2 -> queued r p -> queued r2 p -> c = c2).
Proof.
  intros Hcfg Hinv Hsteps c r Hr.
  destruct (sched_steps_inv s s' Hcfg Hinv Hsteps) as [Hglob Hrqs].
  destruct (Hrqs c r Hr) as [Hbody _].
  split; [pose proof (inv_nr _ _ _ _ Hbody); lia |].
  split; [apply (inv_idle _ _ _ _ Hbody) |].
  split; [apply (inv_nodup _ _ _ _ Hbody) |].
  intros c2 r2 p Hr2 Hq Hq2. by apply (inv_unique _ Hglob c c2 r r2 p).
Qed.

(** A non-negative word whose bits from [n] on are clear is below [2^n]. *)
Lemma bits_high_bound m n :
  0 <= n -> 0 <= m -> (forall j, n <= j -> Z.testbit m j = false) -> m < 2 ^ n.
Proof.
  intros Hn Hm Hhigh. destruct (decide (m = 0)) as [-> | Hne].
  { apply Z.pow_pos_nonneg; lia. }
  destruct (Z.lt_ge_cases m (2 ^ n)) as [| Hge]; [done |].
  assert (Hlog : n <= Z.log2 m) by (apply Z.log2_le_pow2; lia).
  pose proof (Z.bit_log2 m ltac:(lia)) as Hb. rewrite (Hhigh _ Hlog) in Hb. done.
Qed.

Lemma queue_bitmap_bound s c r k :
  config_ok -> rq_body s c r k -> 0 <= bitmap (queue r) < 2 ^ bmq_BITS.
Proof.
  intros (Hbits & _ & _) Hb. split; [apply (inv_bitmap_nonneg _ _ _ _ Hb) |].
  apply bits_high_bound; [lia | apply (inv_bitmap_nonneg _ _ _ _ Hb) |].
  apply (inv_bitmap_high _ _ _ _ Hb).
Qed.

(** The idle task keeps the bitmap of its queue non-zero. *)
Lemma queue_bitmap_nonzero s c r k : rq_body s c r k -> bitmap (queue r) ≠ 0.
Proof.
  intros Hb E. destruct (inv_idle _ _ _ _ Hb) as (l & hs & Hl & Hin).
  assert (Hne : hs ≠ []) by (intros ->; by apply elem_of_nil in Hin).
  apply (inv_bitmap _ _ _ _ Hb l hs Hl) in Hne. rewrite E, Z.bits_0 in Hne. done.
Qed.

Lemma first_level_lookup s c r k :
  config_ok -> rq_body s c r k ->
  exists p hs,
    0 <= bmq_find_first_bit (bitmap (queue r)) bmq_BITS < bmq_BITS /\
    zlookup (heads (queue r)) (bmq_find_first_bit (bitmap (queue r)) bmq_BITS)
      = Some (p :: hs) /\
    forall j, 0 <= j < bmq_find_first_bit (bitmap (queue r)) bmq_BITS ->
      Z.testbit (bitmap (queue r)) j = false.
Proof.
  intros Hcfg Hb.
  pose proof (queue_bitmap_nonzero _ _ _ _ Hb) as Hnz.
  destruct (find_first_bit_spec (bitmap (queue r)) bmq_BITS) as (H0 & Hset & Hleast);
    [apply (inv_bitmap_nonneg _ _ _ _ Hb) | done |].
  set (f := bmq_find_first_bit (bitmap (queue r)) bmq_BITS) in *.
  assert (Hf : f < bmq_BITS).
  { destruct (Z.lt_ge_cases f bmq_BITS) as [| Hge]; [done |].
    rewrite (inv_bitmap_high _ _ _ _ Hb _ Hge) in Hset. done. }
  destruct (zlookup_in_range (heads (queue r)) f) as [hs Hhs].
  { rewrite (inv_heads_len _ _ _ _ Hb). lia. }
  apply (inv_bitmap _ _ _ _ Hb f hs Hhs) in Hset.
  destruct hs as [| p hs]; [done |].
  exists p, hs. split; [lia |]. split; [done | done].
Qed.

(** X3: [rq_first_bmq_task] never hits its [BUG_ON] on a runqueue that
    satisfies the invariants: it returns a linked task, and no linked task
    sits at a lower level than the one it returns. *)
Theorem rq_first_bmq_task_lowest s c r :
  config_ok -> sched_inv s -> get_rq s c = Some r ->
  exists p t,
    rq_first_bmq_task r = Some p /\ get_task s p = Some t /\ queued r p /\
    forall q tq, queued r q -> get_task s q = Some tq -> bmq_idx t <= bmq_idx tq.
Proof.
  intros Hcfg [_ Hrqs] Hr. destruct (Hrqs c r Hr) as [Hb _].
  destruct (first_level_lookup s c r 0 Hcfg Hb) as (p & hs & Hf & Hl & Hleast).
  set (f := bmq_find_first_bit (bitmap (queue r)) bmq_BITS) in *.
  destruct (inv_level _ _ _ _ Hb f (p :: hs) p Hl) as (t & Ht & Hidx); [by left |].
  exists p, t. split.
  { unfold rq_first_bmq_task. fold f. rewrite Hl. done. }
  split; [done |]. split; [exists f, (p :: hs); split; [done | by left] |].
  intros q tq (l & hq & Hlq & Hin) Htq.
  destruct (inv_level _ _ _ _ Hb l hq q Hlq Hin) as (tq' & Htq' & Hidxq).
  assert (tq' = tq) as -> by congruence.
  assert (Hset : Z.testbit (bitmap (queue r)) l = true).
  { apply (inv_bitmap _ _ _ _ Hb l hq Hlq). intros ->. by apply elem_of_nil in Hin. }
  apply zlookup_Some in Hlq as [Hl0 _].
  destruct (Z.le_gt_cases f l) as [| Hlt]; [lia |].
  rewrite Hleast in Hset by lia. done.
Qed.

(** *** The order of the walk *)

Lemma app_eq_cons_split (l C pre rest : list nat) p :
  l ++ C = pre ++ p :: rest ->
  (exists b, l = pre ++ p :: b /\ rest = b ++ C) \/
  (exists pre', pre = l ++ pre' /\ C = pre' ++ p :: rest).
Proof.
  revert pre. induction l as [| x l IH]; intros pre E.
  { right. by exists pre. }
  destruct pre as [| y pre]; cbn in E.
  - injection E as -> <-. left. by exists l.
  - injection E as -> E. destruct (IH _ E) as [(b & -> & ->) | (pre' & -> & ->)].
    + left. by exists b.
    + right. by exists pre'.
Qed.

Lemma concat_split (L : list (list nat)) pre p rest :
  concat L = pre ++ p :: rest ->
  exists i a b, L !! i = Some (a ++ p :: b) /\
    pre = concat (take i L) ++ a /\ rest = b ++ concat (drop (S i) L).
Proof.
  revert pre. induction L as [| l L IH]; intros pre E.
  { by destruct pre. }
  cbn [concat] in E.
  destruct (app_eq_cons_split _ _ _ _ _ E) as [(b & -> & ->) | (pre' & -> & E')].
  - by exists 0%nat, pre, b.
  - destruct (IH _ E') as (i & a & b & Hi & -> & ->).
    exists (S i), a, b. cbn. split; [done |]. split; [| done]. by rewrite app_assoc.
Qed.

Lemma concat_head (M : list (list nat)) n rest :
  concat M = n :: rest ->
  exists k l', M !! k = Some (n :: l') /\ forall k', (k' < k)%nat -> M !! k' = Some [].
Proof.
  induction M as [| l M IH]; [done |]. cbn [concat]. destruct l as [| x l].
  - cbn. intros E. destruct (IH E) as (k & l' & Hk & Hlow).
    exists (S k), l'. split; [done |]. intros [| k'] Hk'; [done |]. apply Hlow. lia.
  - cbn. intros [= -> _]. exists 0%nat, l. split; [done |]. lia.
Qed.

Lemma concat_take_nil (L : list (list nat)) f :
  (forall k, (k < f)%nat -> L !! k = Some []) -> concat (take f L) = [].
Proof.
  revert L. induction f as [| f IH]; intros L H; [done |].
  destruct L as [| l L]; [done |]. cbn.
  pose proof (H 0%nat ltac:(lia)) as H0. cbn in H0. injection H0 as ->. cbn.
  apply IH. intros k Hk. apply (H (S k)). lia.
Qed.

Lemma elem_of_concat (L : list (list nat)) x :
  x ∈ concat L <-> exists i l, L !! i = Some l /\ x ∈ l.
Proof.
  induction L as [| l L IH]; cbn.
  { split; [by intros ?%elem_of_nil | by intros (i & l & ? & _)]. }
  rewrite elem_of_app, IH. split.
  - intros [H | (i & l' & Hi & Hx)]; [by exists 0%nat, l | by exists (S i), l'].
  - intros ([| i] & l' & Hi & Hx); cbn in Hi; [left; by simplify_eq | right; by exists i, l'].
Qed.

Lemma NoDup_concat (L : list (list nat)) :
  (forall i l, L !! i = Some l -> NoDup l) ->
  (forall i j l l' x, L !! i = Some l -> L !! j = Some l' -> x ∈ l -> x ∈ l' -> i = j) ->
  NoDup (concat L).
Proof.
  induction L as [| l L IH]; intros Hnd Hdisj; [constructor |].
  cbn. apply NoDup_app. split; [by apply (Hnd 0%nat) |]. split.
  - intros x Hx (j & l' & Hj & Hx')%elem_of_concat.
    by pose proof (Hdisj 0%nat (S j) l l' x eq_refl Hj Hx Hx').
  - apply IH.
    + intros i l' Hi. by apply (Hnd (S i)).
    + intros i j l1 l2 x Hi Hj H1 H2.
      pose proof (Hdisj (S i) (S j) l1 l2 x Hi Hj H1 H2). lia.
Qed.

Lemma concat_filter (L : list (list nat)) (p : nat) :
  concat (filter (λ n, n ≠ p) <$> L) = filter (λ n, n ≠ p) (concat L).
Proof.
  induction L as [| l L IH]; [done |]. cbn. by rewrite filter_app, IH.
Qed.

Lemma filter_ne_NoDup (pre rest : list nat) p :
  NoDup (pre ++ p :: rest) -> filter (λ n, n ≠ p) (pre ++ p :: rest) = pre ++ rest.
Proof.
  intros Hnd. apply NoDup_app in Hnd as (_ & Hdisj & Hnd2).
  apply NoDup_cons in Hnd2 as [Hp _].
  assert (Hid : forall l : list nat, p ∉ l -> filter (λ n, n ≠ p) l = l).
  { induction l as [| x l IH]; [done |]. intros Hx.
    apply not_elem_of_cons in Hx as [Hne Hx].
    rewrite filter_cons_True by done. by rewrite IH. }
  rewrite filter_app, filter_cons_False by (intros H; by apply H).
  rewrite !Hid; [done | done |]. intros Hin. apply (Hdisj p Hin). by left.
Qed.

Lemma nodes_after_app (a b : list nat) p :
  p ∉ a -> nodes_after p (a ++ p :: b) = Some b.
Proof.
  induction a as [| x a IH]; cbn.
  - intros _. by rewrite bool_decide_eq_true_2.
  - intros [Hne Ha]%not_elem_of_cons. rewrite bool_decide_eq_false_2 by done. by apply IH.
Qed.

Lemma zlookup_nat {A} (l : list A) (i : nat) : zlookup l (Z.of_nat i) = l !! i.
Proof. unfold zlookup. destruct (Z.leb_spec 0 (Z.of_nat i)); [| lia]. by rewrite Nat2Z.id. Qed.

Lemma queued_concat r p : queued r p <-> p ∈ concat (heads (queue r)).
Proof.
  rewrite elem_of_concat. unfold queued. split.
  - intros (l & hs & Hl & Hin). apply zlookup_Some in Hl as [_ Hl]. by eexists _, _.
  - intros (i & l & Hi & Hin). exists (Z.of_nat i), l. by rewrite zlookup_nat.
Qed.

Lemma walk_NoDup s c r k : rq_body s c r k -> NoDup (concat (heads (queue r))).
Proof.
  intros Hb. apply NoDup_concat.
  - intros i l Hi. apply (inv_nodup _ _ _ _ Hb (Z.of_nat i)). by rewrite zlookup_nat.
  - intros i j l l' x Hi Hj H1 H2.
    destruct (inv_level _ _ _ _ Hb (Z.of_nat i) l x) as (t & Ht & E1);
      [by rewrite zlookup_nat | done |].
    destruct (inv_level _ _ _ _ Hb (Z.of_nat j) l' x) as (t' & Ht' & E2);
      [by rewrite zlookup_nat | done |].
    assert (t' = t) as -> by congruence. lia.
Qed.

(** [rq_next_bmq_task] follows the order of the levels: it returns the
    node after [p] in the concatenation of the lists. *)
Lemma rq_next_walk s c r k pre p n rest :
  config_ok -> rq_body s c r k ->
  concat (heads (queue r)) = pre ++ p :: n :: rest ->
  rq_next_bmq_task s p r = Some n.
Proof.
  intros Hcfg Hb E. pose proof Hcfg as (Hbits & Hword & _).
  pose proof (walk_NoDup _ _ _ _ Hb) as Hnd.
  destruct (concat_split _ _ _ _ E) as (i & a & b & Hi & _ & Hrest).
  assert (Hzi : zlookup (heads (queue r)) (Z.of_nat i) = Some (a ++ p :: b))
    by (by rewrite zlookup_nat).
  destruct (inv_level _ _ _ _ Hb _ _ p Hzi) as (t & Ht & Hidx).
  { apply elem_of_app. right. by left. }
  pose proof (inv_nodup _ _ _ _ Hb _ _ Hzi) as Hndl.
  apply NoDup_app in Hndl as (_ & Hdisj & _).
  assert (Hpa : p ∉ a) by (intros Hin; apply (Hdisj p Hin); by left).
  unfold rq_next_bmq_task. rewrite Ht. cbn [mbind option_bind].
  rewrite Hidx, Hzi. cbn [mbind option_bind]. rewrite nodes_after_app by done.
  cbn [mbind option_bind]. destruct b as [| n' b].
  2:{ cbn in Hrest. by injection Hrest as ->. }
  cbn in Hrest. symmetry in Hrest.
  destruct (concat_head _ _ _ Hrest) as (k0 & l' & Hk0 & Hlow).
  rewrite lookup_drop in Hk0.
  assert (Hlen : (S i + k0 < length (heads (queue r)))%nat) by (by apply lookup_lt_Some in Hk0).
  pose proof (inv_heads_len _ _ _ _ Hb) as Hhl.
  assert (Hs : ulong (Z.of_nat i + 1) = Z.of_nat i + 1).
  { unfold ulong, uwrap, BITS_PER_LONG, WM_BITS in *. apply Z.mod_small. lia. }
  rewrite Hs.
  assert (Hj : zlookup (heads (queue r)) (Z.of_nat (S i + k0)) = Some (n :: l'))
    by (by rewrite zlookup_nat).
  assert (Hjset : Z.testbit (bitmap (queue r)) (Z.of_nat (S i + k0)) = true).
  { by apply (inv_bitmap _ _ _ _ Hb _ _ Hj). }
  destruct (find_next_bit_spec (bitmap (queue r)) bmq_BITS (Z.of_nat i + 1))
    as [[_ Hnone] | (Hrange & Hset & Hclear)].
  - by apply (queue_bitmap_bound s c r k).
  - unfold BITS_PER_LONG, WM_BITS in *. lia.
  - unfold BITS_PER_LONG, WM_BITS in *. lia.
  - rewrite Hnone in Hjset by lia. done.
  - set (g := bmq_find_next_bit (bitmap (queue r)) bmq_BITS (Z.of_nat i + 1)) in *.
    assert (Hg : g = Z.of_nat (S i + k0)).
    { destruct (Z.lt_trichotomy g (Z.of_nat (S i + k0))) as [Hlt | [-> | Hgt]]; [| done |].
      - exfalso. specialize (Hlow (Z.to_nat g - S i)%nat ltac:(lia)).
        rewrite lookup_drop in Hlow.
        replace (S i + (Z.to_nat g - S i))%nat with (Z.to_nat g) in Hlow by lia.
        assert (Hzg : zlookup (heads (queue r)) g = Some []).
        { unfold zlookup. destruct (Z.leb_spec 0 g); [done | lia]. }
        apply (inv_bitmap _ _ _ _ Hb _ _ Hzg) in Hset. done.
      - rewrite Hclear in Hjset by lia. done. }
    rewrite Hg, Hj. done.
Qed.

(** [rq_first_bmq_task] returns the first node of that order. *)
Lemma rq_first_walk s c r k p :
  config_ok -> rq_body s c r k -> rq_first_bmq_task r = Some p ->
  exists rest, concat (heads (queue r)) = p :: rest.
Proof.
  intros Hcfg Hb Hfirst.
  destruct (first_level_lookup s c r k Hcfg Hb) as (p' & hs & Hf & Hl & Hleast).
  set (f := bmq_find_first_bit (bitmap (queue r)) bmq_BITS) in *.
  unfold rq_first_bmq_task in Hfirst. fold f in Hfirst. rewrite Hl in Hfirst.
  cbn in Hfirst. injection Hfirst as ->.
  pose proof (inv_heads_len _ _ _ _ Hb) as Hhl.
  assert (Hlow : forall j, (j < Z.to_nat f)%nat -> heads (queue r) !! j = Some []).
  { intros j Hj.
    destruct (zlookup_in_range (heads (queue r)) (Z.of_nat j)) as [h Hh]; [lia |].
    destruct h as [| x h]; [by rewrite zlookup_nat in Hh |].
    assert (Hset : Z.testbit (bitmap (queue r)) (Z.of_nat j) = true)
      by (by apply (inv_bitmap _ _ _ _ Hb _ _ Hh)).
    rewrite Hleast in Hset by lia. done. }
  apply zlookup_Some in Hl as [_ Hl].
  rewrite <- (take_drop (Z.to_nat f) (heads (queue r))), concat_app.
  rewrite (concat_take_nil _ _ Hlow). cbn [app].
  rewrite (drop_S _ _ _ Hl). cbn. by eexists.
Qed.

(** X4: the tasks of a runqueue are walked level by level, lowest level
    first, each level from its head: the order of [concat] of the lists,
    which starts with the task [rq_first_bmq_task] returns.  When
    [rq->skip] is set to a task other than the idle task,
    [rq_runnable_task] returns a linked task that is not the skipped one:
    the first task of that order when it is not the one to skip, and
    else the second, which is what [rq_next_bmq_task] returns for the
    skipped task. *)
Theorem rq_runnable_task_skips s c r x :
  config_ok -> sched_inv s -> get_rq s c = Some r ->
  skip r = Some x -> x ≠ idle r ->
  exists first rest n,
    concat (heads (queue r)) = first :: rest /\
    rq_first_bmq_task r = Some first /\
    rq_runnable_task s r = Some n /\ n ≠ x /\ queued r n /\
    (first ≠ x -> n = first) /\
    (first = x -> head rest = Some n /\ rq_next_bmq_task s x r = Some n).
Proof.
  intros Hcfg [_ Hrqs] Hr Hskip Hx. destruct (Hrqs c r Hr) as [Hb _].
  destruct (first_level_lookup s c r 0 Hcfg Hb) as (p & hs & _ & Hl & _).
  assert (Hfirst : rq_first_bmq_task r = Some p).
  { unfold rq_first_bmq_task. by rewrite Hl. }
  destruct (rq_first_walk s c r 0 p Hcfg Hb Hfirst) as [rest Hwalk].
  pose proof (walk_NoDup s c r 0 Hb) as Hnd. rewrite Hwalk in Hnd.
  unfold rq_runnable_task. rewrite Hfirst. cbn [mbind option_bind]. rewrite Hskip.
  destruct (decide (p = x)) as [-> | Hne].
  2:{ rewrite bool_decide_eq_false_2 by congruence.
      exists p, rest, p. split; [done |]. split; [done |]. split; [done |].
      split; [done |]. split; [| split; done].
      apply queued_concat. rewrite Hwalk. by left. }
  rewrite bool_decide_eq_true_2 by done.
  assert (Hi : idle r ∈ rest).
  { pose proof (inv_idle _ _ _ _ Hb) as Hq. apply queued_concat in Hq.
    rewrite Hwalk in Hq. apply elem_of_cons in Hq as [Hq | Hq]; [congruence | done]. }
  destruct rest as [| n rest']; [by apply elem_of_nil in Hi |].
  pose proof (rq_next_walk s c r 0 [] x n rest' Hcfg Hb Hwalk) as Hnext.
  exists x, (n :: rest'), n. split; [done |]. split; [done |]. split; [done |].
  split; [| split; [| split; done]].
  - apply NoDup_cons in Hnd as [Hnotin _]. intros ->. apply Hnotin. by left.
  - apply queued_concat. rewrite Hwalk. right. by left.
Qed.

(** Writing runqueue fields other than the queue, the watermark, the
    counter, the CPU number and the idle task keeps the invariants. *)
Lemma rq_fields_inv s c r r' s' :
  sched_inv s -> get_rq s c = Some r ->
  queue r' = queue r -> watermark r' = watermark r -> nr_running r' = nr_running r ->
  cpu r' = cpu r -> idle r' = idle r ->
  put_rq s c r' = Some s' -> sched_inv s'.
Proof.
  intros [Hglob Hrqs] Hr Eq Ew En Ec Ei Hput.
  destruct (put_rq_fields _ _ _ _ Hput) as (Et & Ewm & Ebm & Epend & Esmt & Emasks & Elen).
  assert (Hsame : forall c1 r1, get_rq s' c1 = Some r1 ->
            exists r0, get_rq s c1 = Some r0 /\ queue r1 = queue r0 /\
              watermark r1 = watermark r0 /\ nr_running r1 = nr_running r0 /\
              cpu r1 = cpu r0 /\ idle r1 = idle r0).
  { intros c1 r1 H1. rewrite (get_rq_put_rq _ _ _ _ c1 Hput) in H1.
    destruct (decide (c = c1)) as [<- | Hne].
    - injection H1 as <-. by exists r.
    - by exists r1. }
  assert (Hact : smt_active s' = smt_active s) by (unfold smt_active; by rewrite Esmt).
  split.
  - destruct Hglob as [Hl Hs Hu]. split.
    + by rewrite Ewm.
    + rewrite Hact, Emasks, Elen. done.
    + intros c1 c2 r1 r2 p H1 H2 Hq1 Hq2.
      destruct (Hsame c1 r1 H1) as (r1' & H1' & E1 & _).
      destruct (Hsame c2 r2 H2) as (r2' & H2' & E2 & _).
      apply (Hu c1 c2 r1' r2' p H1' H2'); unfold queued in *;
        [by rewrite <- E1 | by rewrite <- E2].
  - intros c1 r1 H1.
    destruct (Hsame c1 r1 H1) as (r0 & H0 & E1 & E2 & E3 & E4 & E5).
    destruct (Hrqs c1 r0 H0) as [Hb Hw]. split.
    + assert (Hb' : rq_body s' c1 r0 0).
      { apply (rq_body_transfer s s' c1 r0 0 Hb).
        - intros p t _ Hp. exists t. split; [| done]. unfold get_task. by rewrite Et.
        - by rewrite Ewm.
        - done.
        - intros w m m' _ Hm Hm'. rewrite Ewm in Hm'. congruence.
        - by rewrite Epend. }
      destruct Hb'. split; unfold queued in *; rewrite ?E1, ?E2, ?E3, ?E4, ?E5; done.
    + unfold wm_current in *. by rewrite E1, E2.
Qed.

End QueueShape.

Lemma boot_one_queued_eq :
  enqueue_task (cfg := cfg2 false) (boot_with_task false) 7 0 = Some boot_one_queued.
Proof. vm_compute. reflexivity. Qed.

Lemma boot_one_queued_steps :
  rtc (sched_step (cfg := cfg2 false)) (boot_with_task false) boot_one_queued.
Proof. apply rtc_once, boot_enqueue_step, boot_one_queued_eq. Qed.

Lemma boot_one_queued_inv : sched_inv (cfg := cfg2 false) boot_one_queued.
Proof.
  apply (sched_steps_inv (cfg := cfg2 false) (boot_with_task false));
    [apply cfg2_ok | apply boot_inv | apply boot_one_queued_steps].
Qed.

Lemma boot_one_skipped_inv : sched_inv (cfg := cfg2 false) boot_one_skipped.
Proof.
  assert (Hr : get_rq boot_one_queued 0
               = Some (default (boot_rq 0 0) (get_rq boot_one_queued 0)))
    by (vm_compute; reflexivity).
  eapply (rq_fields_inv (cfg := cfg2 false) boot_one_queued 0 _
            (set_skip (Some 7%nat) (default (boot_rq 0 0) (get_rq boot_one_queued 0))));
    [apply boot_one_queued_inv | exact Hr | reflexivity.. |].
  vm_compute. reflexivity.
Qed.

Lemma boot_one_queued_rq0 :
  get_rq boot_one_queued 0 = Some (default (boot_rq 0 0) (get_rq boot_one_queued 0)).
Proof. vm_compute. reflexivity. Qed.

Lemma bitmap_mirrors_levels_witness :
  Z.of_nat (length (heads (queue (default (boot_rq 0 0) (get_rq boot_one_queued 0))))) = 50 /\
  (forall l hs p,
     zlookup (heads (queue (default (boot_rq 0 0) (get_rq boot_one_queued 0)))) l = Some hs ->
     p ∈ hs -> exists t, get_task boot_one_queued p = Some t /\ bmq_idx t = l).
Proof.
  destruct (bitmap_mirrors_levels (cfg := cfg2 false) (boot_with_task false) boot_one_queued
              (cfg2_ok false) (boot_inv false) boot_one_queued_steps 0 _ boot_one_queued_rq0)
    as (H1 & _ & _ & H4).
  split; [exact H1 | exact H4].
Defined.

Lemma nr_running_counts_linked_witness :
  nr_running (default (boot_rq 0 0) (get_rq boot_one_queued 0)) + 1
  = nr_queued (heads (queue (default (boot_rq 0 0) (get_rq boot_one_queued 0)))) /\
  queued (default (boot_rq 0 0) (get_rq boot_one_queued 0))
         (idle (default (boot_rq 0 0) (get_rq boot_one_queued 0))).
Proof.
  destruct (nr_running_counts_linked (cfg := cfg2 false) (boot_with_task false)
              boot_one_queued (cfg2_ok false) (boot_inv false) boot_one_queued_steps
              0 _ boot_one_queued_rq0) as (H1 & H2 & _).
  split; [exact H1 | exact H2].
Defined.

Lemma rq_first_bmq_task_lowest_witness :
  exists p t,
    rq_first_bmq_task (cfg := cfg2 false)
      (default (boot_rq 0 0) (get_rq boot_one_queued 0)) = Some p /\
    get_task boot_one_queued p = Some t /\
    queued (default (boot_rq 0 0) (get_rq boot_one_queued 0)) p /\
    forall q tq, queued (default (boot_rq 0 0) (get_rq boot_one_queued 0)) q ->
      get_task boot_one_queued q = Some tq -> bmq_idx t <= bmq_idx tq.
Proof.
  apply (rq_first_bmq_task_lowest (cfg := cfg2 false) boot_one_queued 0 _
           (cfg2_ok false) boot_one_queued_inv).
  vm_compute. reflexivity.
Defined.

Lemma task_add_inv `{cfg : Config} s p t :
  sched_inv s -> (forall c r, get_rq s c = Some r -> ~ queued r p) ->
  sched_inv (put_task s p t).
Proof.
  intros [[Hg1 Hg2 Hg3] Hrq] Hnq. split; [by split |].
  intros c r Hr. destruct (Hrq c r Hr) as [Hb Hw]. split; [| done].
  apply (rq_body_transfer s _ c r 0 Hb); try done.
  - intros x tx Hq Hx. rewrite get_task_put_task.
    destruct (decide (p = x)) as [-> | Hne]; [| eauto]. by destruct (Hnq c r Hr).
  - cbn. intros w m m' _ Hm Hm'. congruence.
Qed.

Lemma get_rq_elem s c r : get_rq s c = Some r -> r ∈ runqueues s.
Proof. intros [_ H]%zlookup_Some. by eapply list_elem_of_lookup_2. Qed.

Lemma boot_two_tasks_inv : sched_inv (cfg := cfg2 false) boot_two_tasks.
Proof.
  apply (task_add_inv (cfg := cfg2 false)); [apply boot_inv |].
  intros c r [Hc ->]%boot_get_rq (l & hs & [[-> ->] | [_ ->]]%boot_heads_lookup & Hp).
  - apply list_elem_of_singleton in Hp. lia.
  - by apply elem_of_nil in Hp.
Qed.

Lemma two_queued_inv : sched_inv (cfg := cfg2 false) two_queued.
Proof.
  set (s1 := default boot_two_tasks (enqueue_task (cfg := cfg2 false) boot_two_tasks 7 0)).
  assert (E1 : enqueue_task (cfg := cfg2 false) boot_two_tasks 7 0 = Some s1)
    by (vm_compute; reflexivity).
  assert (E2 : enqueue_task (cfg := cfg2 false) s1 8 0 = Some two_queued)
    by (vm_compute; reflexivity).
  assert (Hinv1 : sched_inv (cfg := cfg2 false) s1).
  { apply (enqueue_task_inv (cfg := cfg2 false) boot_two_tasks 7%nat 0 (boot_rq 0 0) s1
             (cfg2_ok false) boot_two_tasks_inv); [reflexivity | | vm_compute; reflexivity | exact E1].
    intros c' r' Hr'. by apply (boot_not_queued false c'). }
  assert (Hr1 : get_rq s1 0 = Some (default (boot_rq 0 0) (get_rq s1 0)))
    by (vm_compute; reflexivity).
  apply (enqueue_task_inv (cfg := cfg2 false) s1 8%nat 0 _ two_queued
           (cfg2_ok false) Hinv1 Hr1); [| vm_compute; reflexivity | exact E2].
  intros c' r' Hr' Hq. apply get_rq_elem in Hr'.
  assert (Erq : runqueues s1 = [default (boot_rq 0 0) (get_rq s1 0); boot_rq 1 1])
    by (vm_compute; reflexivity).
  rewrite Erq in Hr'. apply queued_concat in Hq.
  apply elem_of_cons in Hr' as [-> | Hr'].
  - assert (Ec : concat (heads (queue (default (boot_rq 0 0) (get_rq s1 0)))) = [7; 0]%nat)
      by (vm_compute; reflexivity).
    rewrite Ec in Hq. apply elem_of_cons in Hq as [Hq | Hq]; [lia |].
    apply list_elem_of_singleton in Hq. lia.
  - apply list_elem_of_singleton in Hr' as ->.
    assert (Ec : concat (heads (queue (boot_rq 1 1))) = [1%nat]) by (vm_compute; reflexivity).
    rewrite Ec in Hq. apply list_elem_of_singleton in Hq. lia.
Qed.

Lemma two_queued_rq0 :
  get_rq two_queued 0 = Some (default (boot_rq 0 0) (get_rq two_queued 0)).
Proof. vm_compute. reflexivity. Qed.

Lemma two_queued_skipped_inv : sched_inv (cfg := cfg2 false) two_queued_skipped.
Proof.
  eapply (rq_fields_inv (cfg := cfg2 false) two_queued 0 _
            (set_skip (Some 7%nat) (default (boot_rq 0 0) (get_rq two_queued 0))));
    [apply two_queued_inv | exact two_queued_rq0 | reflexivity.. |].
  vm_compute. reflexivity.
Qed.

Lemma rq_runnable_task_skips_witness :
  exists rest,
    concat (heads (queue (default (boot_rq 0 0) (get_rq two_queued_skipped 0))))
    = 7%nat :: rest /\
    head rest = Some 8%nat /\
    rq_runnable_task (cfg := cfg2 false) two_queued_skipped
      (default (boot_rq 0 0) (get_rq two_queued_skipped 0)) = Some 8%nat /\
    8%nat ≠ idle (default (boot_rq 0 0) (get_rq two_queued_skipped 0)).
Proof.
  assert (Hr : get_rq two_queued_skipped 0
               = Some (default (boot_rq 0 0) (get_rq two_queued_skipped 0)))
    by (vm_compute; reflexivity).
  assert (Hskip : skip (default (boot_rq 0 0) (get_rq two_queued_skipped 0)) = Some 7%nat)
    by (vm_compute; reflexivity).
  assert (Hni : 7%nat ≠ idle (default (boot_rq 0 0) (get_rq two_queued_skipped 0)))
    by (vm_compute; lia).
  destruct (rq_runnable_task_skips (cfg := cfg2 false) two_queued_skipped 0 _ 7%nat
              (cfg2_ok false) two_queued_skipped_inv Hr Hskip Hni)
    as (first & rest & n & Hwalk & Hfirst & Hrun & _ & _ & _ & Hsecond).
  assert (E7 : rq_first_bmq_task (cfg := cfg2 false)
                 (default (boot_rq 0 0) (get_rq two_queued_skipped 0)) = Some 7%nat)
    by (vm_compute; reflexivity).
  rewrite E7 in Hfirst. injection Hfirst as <-.
  destruct (Hsecond eq_refl) as [Hhead _].
  assert (E8 : rq_runnable_task (cfg := cfg2 false) two_queued_skipped
                 (default (boot_rq 0 0) (get_rq two_queued_skipped 0)) = Some 8%nat)
    by (vm_compute; reflexivity).
  rewrite E8 in Hrun. injection Hrun as <-.
  exists rest. split; [exact Hwalk |]. split; [exact Hhead |]. split; [exact E8 |].
  vm_compute. lia.
Defined.

(** ** Enqueue and dequeue: what they return *)

Section EnqueueDequeue.
Context `{cfg : Config}.

Lemma update_wm_other s c s' c' :
  update_sched_rq_watermark s c = Some s' -> c' ≠ c -> get_rq s' c' = get_rq s c'.
Proof.
  intros Hup Hne.
  assert (exists r, get_rq s c = Some r) as [r Hr].
  { unfold update_sched_rq_watermark in Hup.
    apply bind_Some in Hup as (r & Hr & _). eauto. }
  destruct (update_wm_shape _ _ _ _ Hr Hup) as (_ & [[_ ->] | (_ & H)]); [done |].
  destruct H as (old & m1 & nw & m2 & s1 & _ & _ & _ & _ & Hput & _ & Hrqs & _).
  unfold get_rq at 1. rewrite Hrqs. fold (get_rq s1 c').
  rewrite (get_rq_put_rq _ _ _ _ c' Hput). by rewrite decide_False.
Qed.

(** [update_sched_rq_watermark] meets neither its [BUG_ON] nor an index
    outside the watermark table. *)
Lemma update_wm_total s c k stale :
  config_ok -> sched_mid s c k stale -> is_Some (get_rq s c) ->
  is_Some (update_sched_rq_watermark s c).
Proof.
  intros Hcfg [Hglob Hrqs] [r Hr]. destruct (Hrqs c r Hr) as [Hb _].
  pose proof Hcfg as (Hbits & Hword & Hidle).
  unfold update_sched_rq_watermark. rewrite Hr. cbn [mbind option_bind].
  destruct (first_level_lookup s c r _ Hcfg Hb) as (p & hs & Hf & _ & _).
  destruct (first_bit_range r s c _ Hcfg Hb) as (_ & _ & Hul & Hwm); [lia |].
  set (f := bmq_find_first_bit (bitmap (queue r)) bmq_BITS) in *.
  destruct (Z.eqb_spec bmq_BITS f) as [E | _]; [lia |].
  rewrite Hul. set (wm := SCHED_PRIO2WATERMARK f) in *.
  destruct (wm =? watermark r); [by eexists |].
  pose proof (inv_wm_range _ _ _ _ Hb) as Hlast.
  pose proof (inv_wm_len _ Hglob) as Hlen. unfold WM_BITS in Hlen.
  destruct (zlookup_in_range (sched_rq_watermark s) (watermark r)) as [old Hold]; [lia |].
  rewrite Hold. cbn [mbind option_bind].
  rewrite zupdate_in_range by lia. cbn [mbind option_bind].
  destruct (zlookup_in_range
              (<[Z.to_nat (watermark r) := cpumask_andnot old (cpumask_of (cpu_of r))]>
                 (sched_rq_watermark s)) wm) as [nw Hnw].
  { rewrite length_insert. lia. }
  rewrite Hnw. cbn [mbind option_bind].
  rewrite zupdate_in_range by (rewrite length_insert; lia). cbn [mbind option_bind].
  destruct (put_rq_is_Some s c (set_watermark wm r) r Hr) as [s1 Hs1].
  rewrite Hs1. cbn [mbind option_bind].
  destruct (negb CONFIG_SCHED_SMT || negb (sched_smt_present s)) eqn:Hsmt; [by eexists |].
  assert (Hact : smt_active s = true).
  { unfold smt_active. apply orb_false_iff in Hsmt as [H1 H2].
    apply negb_false_iff in H1, H2. by rewrite H1, H2. }
  pose proof (inv_smt_len _ Hglob Hact) as Hsl.
  pose proof Hr as [Hc _]%zlookup_Some.
  unfold cpu_of. rewrite (inv_cpu _ _ _ _ Hb).
  destruct (zlookup_in_range (cpu_smt_masks s) c) as [smt Hsm]; [lia |].
  rewrite Hsm. cbn [mbind option_bind].
  set (masks2 := <[Z.to_nat wm := _]> (<[Z.to_nat (watermark r) := _]> (sched_rq_watermark s))).
  assert (Hl2 : Z.of_nat (length masks2) = bmq_BITS + 1).
  { unfold masks2. by rewrite !length_insert. }
  destruct (zlookup_in_range masks2 0) as [w0 Hw0]; [lia |].
  destruct (zlookup_in_range masks2 IDLE_WM) as [w1 Hw1]; [unfold IDLE_WM; lia |].
  destruct (1 =? watermark r).
  { rewrite Hw0. cbn [mbind option_bind]. rewrite zupdate_in_range by lia. by eexists. }
  destruct (1 =? wm); [| by eexists].
  rewrite Hw1. cbn [mbind option_bind].
  destruct (cpumask_equal _ _); [| by eexists].
  rewrite Hw0. cbn [mbind option_bind]. rewrite zupdate_in_range by lia. by eexists.
Qed.

Lemma prio_insert_filter ts pr p l l' :
  prio_insert ts pr p l = Some l' -> p ∉ l -> filter (λ n, n ≠ p) l' = l.
Proof.
  revert l'. induction l as [| n l IH]; intros l' H Hnotin; cbn in H.
  - injection H as <-. by rewrite filter_cons_False by (intros H; by apply H).
  - apply bind_Some in H as (tn & _ & H).
    apply not_elem_of_cons in Hnotin as [Hne Hnotin].
    destruct (pr <? prio tn).
    + injection H as <-. rewrite filter_cons_False by (intros H; by apply H).
      rewrite filter_cons_True by done. f_equal. by apply filter_ne_notin.
    + apply bind_Some in H as (l'' & Hins & H). injection H as <-.
      rewrite filter_cons_True by done. f_equal. by apply IH.
Qed.

Lemma bmq_add_task_is_Some ts p q idx :
  0 <= idx < Z.of_nat (length (heads q)) ->
  is_Some (ts !! p) ->
  (forall l n, zlookup (heads q) 0 = Some l -> n ∈ l -> is_Some (ts !! n)) ->
  is_Some (bmq_add_task ts p q idx).
Proof.
  intros Hidx [pt Hp] Hall. unfold bmq_add_task.
  destruct (zlookup_in_range (heads q) idx Hidx) as [l Hl].
  rewrite Hl. cbn [mbind option_bind].
  destruct (Z.eqb_spec idx 0) as [-> | Hne]; cbn [negb].
  - rewrite Hp. cbn [mbind option_bind].
    destruct (prio_insert_is_Some ts (prio pt) p l) as [l' Hl'].
    { intros n Hn. by apply (Hall l). }
    rewrite Hl'. cbn [mbind option_bind]. rewrite zupdate_in_range by done. by eexists.
  - cbn [mbind option_bind]. rewrite zupdate_in_range by done. by eexists.
Qed.

Lemma enqueue_task_returns s p c r t :
  config_ok -> sched_inv s ->
  get_rq s c = Some r -> get_task s p = Some t ->
  (forall c' r', get_rq s c' = Some r' -> ~ queued r' p) ->
  0 <= task_sched_prio t < bmq_BITS ->
  nr_running r + 1 < 2 ^ BITS_PER_LONG ->
  exists s' r',
    enqueue_task s p c = Some s' /\ get_rq s' c = Some r' /\
    get_task s' p = Some (set_bmq_idx (task_sched_prio t) t) /\
    (forall x, x ≠ p -> get_task s' x = get_task s x) /\
    (forall c', c' ≠ c -> get_rq s' c' = get_rq s c') /\
    r' = set_nr_running (nr_running r + 1)
           (set_watermark (watermark r') (set_queue (queue r') r)) /\
    exists l l',
      zlookup (heads (queue r)) (task_sched_prio t) = Some l /\
      zupdate (heads (queue r)) (task_sched_prio t) l' = Some (heads (queue r')) /\
      p ∈ l' /\ filter (λ n, n ≠ p) l' = l.
Proof.
  intros Hcfg Hinv Hr Ht Hnq Hidx Hfit.
  pose proof Hinv as [Hglob Hrqs]. destruct (Hrqs c r Hr) as [Hb _].
  set (idx := task_sched_prio t) in *.
  set (s0 := put_task s p (set_bmq_idx idx t)).
  destruct (bmq_add_task_is_Some (tasks s0) p (queue r) idx) as [q Hadd].
  { rewrite (inv_heads_len _ _ _ _ Hb). done. }
  { unfold s0. cbn. rewrite lookup_insert_eq. by eexists. }
  { intros l n Hl Hn.
    destruct (inv_level _ _ _ _ Hb 0 l n Hl Hn) as (tn & Htn & _).
    unfold s0. cbn. destruct (decide (p = n)) as [<- | Hne].
    - rewrite lookup_insert_eq. by eexists.
    - rewrite lookup_insert_ne by done. by eexists. }
  destruct (put_rq_is_Some s0 c (set_queue (set_rq_bit idx q) r) r) as [sa Hput].
  { exact Hr. }
  pose proof (enqueue_mid _ _ _ _ _ _ _ _ Hinv Hr Ht Hnq Hadd Hput) as Hmid.
  assert (Hra : get_rq sa c = Some (set_queue (set_rq_bit idx q) r)).
  { rewrite (get_rq_put_rq _ _ _ _ c Hput). by rewrite decide_True. }
  destruct (update_wm_total sa c 1 true Hcfg Hmid) as [s1 Hup]; [by eexists |].
  destruct (update_wm_get_rq _ _ _ _ Hra Hup) as (w & Hr1).
  destruct (put_rq_is_Some s1 c
              (set_nr_running (ulong (nr_running r + 1))
                 (set_watermark w (set_queue (set_rq_bit idx q) r))) _ Hr1) as [s2 Hput2].
  assert (Hfitn : fits_ulong (nr_running r + 1)).
  { pose proof (inv_nr_fit _ _ _ _ Hb). unfold fits_ulong, BITS_PER_LONG in *. lia. }
  eexists _, (set_nr_running (nr_running r + 1)
                (set_watermark w (set_queue (set_rq_bit idx q) r))).
  split.
  { unfold enqueue_task. rewrite Hr, Ht. cbn [mbind option_bind]. fold idx. fold s0.
    rewrite Hadd. cbn [mbind option_bind]. rewrite Hput. cbn [mbind option_bind].
    rewrite Hup. cbn [mbind option_bind]. rewrite Hr1. cbn [mbind option_bind].
    cbn [nr_running set_watermark set_queue]. rewrite Hput2. cbn [mbind option_bind].
    reflexivity. }
  rewrite ulong_small in Hput2 by done.
  assert (Hget : forall pend, get_rq (set_sched_rq_pending_mask pend s2) c
            = Some (set_nr_running (nr_running r + 1)
                      (set_watermark w (set_queue (set_rq_bit idx q) r)))).
  { intros pend. change (get_rq (set_sched_rq_pending_mask pend s2) c) with (get_rq s2 c).
    rewrite (get_rq_put_rq _ _ _ _ c Hput2). by rewrite decide_True. }
  assert (Htasks : tasks s2 = tasks s0).
  { rewrite (put_rq_tasks _ _ _ _ Hput2), (update_wm_tasks _ _ _ Hup).
    apply (put_rq_tasks _ _ _ _ Hput). }
  rewrite ulong_small by done.
  split.
  { destruct (2 =? _); [apply Hget |]. rewrite <- (set_pending_id s2). apply Hget. }
  split.
  { assert (E : get_task s2 p = Some (set_bmq_idx idx t)).
    { unfold get_task. rewrite Htasks. unfold s0. cbn. apply lookup_insert_eq. }
    by destruct (2 =? _). }
  split.
  { intros x Hx.
    assert (E : get_task s2 x = get_task s x).
    { unfold get_task. rewrite Htasks. unfold s0. cbn. by rewrite lookup_insert_ne. }
    by destruct (2 =? _). }
  split.
  { intros c' Hc'.
    assert (E : get_rq s2 c' = get_rq s c').
    { rewrite (get_rq_put_rq _ _ _ _ c' Hput2), decide_False by done.
      rewrite (update_wm_other _ _ _ c' Hup) by done.
      rewrite (get_rq_put_rq _ _ _ _ c' Hput), decide_False by done. done. }
    by destruct (2 =? _). }
  split; [by destruct r |].
  cbn [queue set_nr_running set_watermark set_queue set_rq_bit heads].
  unfold bmq_add_task in Hadd.
  apply bind_Some in Hadd as (l & Hl & Hadd).
  apply bind_Some in Hadd as (l' & Hl' & Hadd).
  apply bind_Some in Hadd as (hs' & Hupd & Hadd). injection Hadd as <-. cbn [heads].
  assert (Hnotin : p ∉ l).
  { intros Hin. apply (Hnq c r Hr). by exists idx, l. }
  exists l, l'. split; [done |]. split; [done |].
  destruct (negb (idx =? 0)).
  - injection Hl' as <-. split; [apply elem_of_app; right; by left |].
    rewrite filter_app, filter_ne_notin by done.
    rewrite filter_cons_False by (intros H; by apply H). rewrite filter_nil.
    apply app_nil_r.
  - apply bind_Some in Hl' as (pt & _ & Hins). split.
    + rewrite (prio_insert_perm _ _ _ _ _ Hins). by left.
    + by apply (prio_insert_filter _ _ _ _ _ Hins).
Qed.

(** X5: Enqueueing a task that is linked nowhere and whose queue index is
    within the queue meets no [BUG_ON] and no index outside an array, and
    keeps the invariants.
    Afterwards the index is recorded in [bmq_idx], the level of that index
    holds the task together with its former tasks in their former order,
    the other levels are as before, [nr_running] is one higher, and
    nothing else of the runqueue but its bitmap and watermark, and no other
    task, has changed. *)
Theorem enqueue_task_links s p c r t :
  config_ok -> sched_inv s ->
  get_rq s c = Some r -> get_task s p = Some t ->
  (forall c' r', get_rq s c' = Some r' -> ~ queued r' p) ->
  0 <= task_sched_prio t < bmq_BITS ->
  nr_running r + 1 < 2 ^ BITS_PER_LONG ->
  exists s' r',
    enqueue_task s p c = Some s' /\ sched_inv s' /\ get_rq s' c = Some r' /\
    get_task s' p = Some (set_bmq_idx (task_sched_prio t) t) /\
    (forall x, x ≠ p -> get_task s' x = get_task s x) /\
    (forall c', c' ≠ c -> get_rq s' c' = get_rq s c') /\
    r' = set_nr_running (nr_running r + 1)
           (set_watermark (watermark r') (set_queue (queue r') r)) /\
    exists l l',
      zlookup (heads (queue r)) (task_sched_prio t) = Some l /\
      zupdate (heads (queue r)) (task_sched_prio t) l' = Some (heads (queue r')) /\
      p ∈ l' /\ filter (λ n, n ≠ p) l' = l.
Proof.
  intros Hcfg Hinv Hr Ht Hnq Hidx Hfit.
  destruct (enqueue_task_returns s p c r t Hcfg Hinv Hr Ht Hnq Hidx Hfit)
    as (s' & r' & Hs' & Hrest).
  exists s', r'. split; [exact Hs' |]. split; [| exact Hrest].
  by apply (enqueue_task_inv s p c r s').
Qed.

Lemma list_del_not_linked p q l hs :
  zlookup (heads (list_del p q)) l = Some hs -> p ∉ hs.
Proof.
  unfold list_del. cbn [heads]. rewrite zlookup_fmap.
  destruct (zlookup (heads q) l) as [h |]; [| done]. cbn. intros [= <-].
  intros [H _]%list_elem_of_filter. done.
Qed.

Lemma dequeue_task_returns s p c r :
  config_ok -> sched_inv s ->
  get_rq s c = Some r -> queued r p -> p ≠ idle r ->
  exists s' r',
    dequeue_task s p c = Some s' /\ get_rq s' c = Some r' /\
    ~ queued r' p /\
    heads (queue r') = filter (λ n, n ≠ p) <$> heads (queue r) /\
    1 <= nr_running r /\ tasks s' = tasks s /\
    (forall c', c' ≠ c -> get_rq s' c' = get_rq s c') /\
    r' = set_nr_running (nr_running r - 1)
           (set_watermark (watermark r') (set_queue (queue r') r)).
Proof.
  intros Hcfg Hinv Hr Hq Hni.
  pose proof Hinv as [Hglob Hrqs]. destruct (Hrqs c r Hr) as [Hb _].
  pose proof Hq as (l & hs & Hl & Hin).
  destruct (inv_level _ _ _ _ Hb l hs p Hl Hin) as (t & Ht & Hidx).
  assert (Hrange : 0 <= bmq_idx t < Z.of_nat (length (heads (queue r)))).
  { rewrite Hidx. apply zlookup_Some in Hl. lia. }
  destruct (zlookup_in_range (heads (list_del p (queue r))) (bmq_idx t)) as [h He0].
  { unfold list_del. cbn [heads]. by rewrite length_fmap. }
  set (e := match h with [] => true | _ => false end).
  assert (He : list_empty (list_del p (queue r)) (bmq_idx t) = Some e).
  { unfold list_empty. by rewrite He0. }
  set (q' := if e then clear_rq_bit (bmq_idx t) (list_del p (queue r))
             else list_del p (queue r)).
  assert (Hhq : heads q' = filter (λ n, n ≠ p) <$> heads (queue r)).
  { unfold q'. by destruct e. }
  destruct (put_rq_is_Some s c (set_queue q' r) r Hr) as [sa Hput].
  destruct (dequeue_mid _ _ _ _ _ e _ Hinv Hr Ht Hq Hni He Hput) as [Hm1 Hm2].
  assert (Hra : get_rq sa c = Some (set_queue q' r)).
  { rewrite (get_rq_put_rq _ _ _ _ c Hput). by rewrite decide_True. }
  assert (Hs1 : exists s1 w,
            (if e : bool then
               put_rq s c (set_queue (clear_rq_bit (bmq_idx t) (list_del p (queue r))) r)
                 ≫= (λ s', update_sched_rq_watermark s' c)
             else put_rq s c (set_queue (list_del p (queue r)) r)) = Some s1 /\
            get_rq s1 c = Some (set_watermark w (set_queue q' r)) /\
            tasks s1 = tasks s /\
            (forall c', c' ≠ c -> get_rq s1 c' = get_rq s c') /\
            sched_mid s1 c (-1) false).
  { unfold q' in *. destruct e.
    - destruct (update_wm_total sa c (-1) true Hcfg Hm1) as [s1 Hup]; [by eexists |].
      destruct (update_wm_get_rq _ _ _ _ Hra Hup) as (w & Hr1).
      exists s1, w. rewrite Hput. cbn [mbind option_bind].
      split; [done |]. split; [done |]. split; [| split].
      + rewrite (update_wm_tasks _ _ _ Hup). apply (put_rq_tasks _ _ _ _ Hput).
      + intros c' Hc'. rewrite (update_wm_other _ _ _ c' Hup) by done.
        by rewrite (get_rq_put_rq _ _ _ _ c' Hput), decide_False.
      + by eapply update_wm_mid.
    - exists sa, (watermark r). split; [done |]. split.
      + rewrite Hra. by destruct r.
      + split; [apply (put_rq_tasks _ _ _ _ Hput) |]. split; [| by apply Hm2].
        intros c' Hc'. by rewrite (get_rq_put_rq _ _ _ _ c' Hput), decide_False. }
  destruct Hs1 as (s1 & w & Hs1 & Hr1 & Ht1 & Hoth & Hmid).
  destruct (proj2 Hmid c _ Hr1) as [Hb1 _]. rewrite decide_True in Hb1 by done.
  pose proof (inv_nr _ _ _ _ Hb1) as HI2.
  pose proof (inv_nr_fit _ _ _ _ Hb1) as Hfit.
  destruct (inv_idle _ _ _ _ Hb1) as (li & hi & Hli & Hi).
  pose proof (nr_queued_pos _ _ _ _ Hli Hi) as Hpos.
  cbn [nr_running set_watermark set_queue] in HI2, Hfit.
  assert (Hfitn : fits_ulong (nr_running r - 1)) by (unfold fits_ulong in *; lia).
  destruct (put_rq_is_Some s1 c
              (set_nr_running (nr_running r - 1) (set_watermark w (set_queue q' r)))
              _ Hr1) as [s2 Hput2].
  eexists _, (set_nr_running (nr_running r - 1) (set_watermark w (set_queue q' r))).
  split.
  { unfold dequeue_task. rewrite Hr, Ht. cbn [mbind option_bind]. rewrite He.
    cbn [mbind option_bind]. rewrite Hs1. cbn [mbind option_bind]. rewrite Hr1.
    cbn [mbind option_bind nr_running set_watermark set_queue].
    rewrite ulong_small by done. rewrite Hput2. cbn [mbind option_bind]. reflexivity. }
  assert (Hget : get_rq s2 c
            = Some (set_nr_running (nr_running r - 1) (set_watermark w (set_queue q' r)))).
  { rewrite (get_rq_put_rq _ _ _ _ c Hput2). by rewrite decide_True. }
  split; [by destruct (1 =? _) |].
  cbn [queue set_nr_running set_watermark set_queue nr_running curr idle skip].
  split.
  { intros (l' & hs' & Hl' & Hin').
    cbn [queue set_nr_running set_watermark set_queue] in Hl'. rewrite Hhq in Hl'.
    by apply (list_del_not_linked p (queue r) l' hs'). }
  split; [done |]. split; [lia |]. split.
  { assert (E : tasks s2 = tasks s) by (by rewrite (put_rq_tasks _ _ _ _ Hput2)).
    by destruct (1 =? _). }
  split; [| by destruct r].
  intros c' Hc'.
  assert (E : get_rq s2 c' = get_rq s c').
  { rewrite (get_rq_put_rq _ _ _ _ c' Hput2), decide_False by done. by apply Hoth. }
  by destruct (1 =? _).
Qed.

(** X6: Dequeueing a linked task other than the idle task meets no [BUG_ON]
    and no index outside an array, and keeps the invariants.  Afterwards
    the task is linked nowhere
    in the runqueue, every level holds its other tasks in their order,
    [nr_running], which was at least 1, is one lower, and nothing else of
    the runqueue but its bitmap and watermark, and no task structure, has
    changed. *)
Theorem dequeue_task_unlinks s p c r :
  config_ok -> sched_inv s ->
  get_rq s c = Some r -> queued r p -> p ≠ idle r ->
  exists s' r',
    dequeue_task s p c = Some s' /\ sched_inv s' /\ get_rq s' c = Some r' /\
    ~ queued r' p /\
    heads (queue r') = filter (λ n, n ≠ p) <$> heads (queue r) /\
    1 <= nr_running r /\ tasks s' = tasks s /\
    (forall c', c' ≠ c -> get_rq s' c' = get_rq s c') /\
    r' = set_nr_running (nr_running r - 1)
           (set_watermark (watermark r') (set_queue (queue r') r)).
Proof.
  intros Hcfg Hinv Hr Hq Hni.
  destruct (dequeue_task_returns s p c r Hcfg Hinv Hr Hq Hni) as (s' & r' & Hs' & Hrest).
  exists s', r'. split; [exact Hs' |]. split; [| exact Hrest].
  by apply (dequeue_task_inv s p c r s').
Qed.

(** Under the invariants the bitmap of a queue is determined by its lists. *)
Lemma bitmap_of_heads s c r k s' c' r' k' :
  config_ok -> rq_body s c r k -> rq_body s' c' r' k' ->
  heads (queue r') = heads (queue r) -> bitmap (queue r') = bitmap (queue r).
Proof.
  intros (Hbits & _ & _) Hb Hb' Eh. apply Z.bits_inj'. intros n Hn.
  destruct (Z.lt_ge_cases n bmq_BITS) as [Hlt | Hge].
  - destruct (zlookup_in_range (heads (queue r)) n) as [hs Hhs].
    { rewrite (inv_heads_len _ _ _ _ Hb). lia. }
    pose proof (inv_bitmap _ _ _ _ Hb n hs Hhs) as H1.
    rewrite <- Eh in Hhs. pose proof (inv_bitmap _ _ _ _ Hb' n hs Hhs) as H2.
    destruct (Z.testbit (bitmap (queue r')) n), (Z.testbit (bitmap (queue r)) n);
      try done.
    + by destruct (proj2 H1 (proj1 H2 eq_refl)).
    + by destruct (proj2 H2 (proj1 H1 eq_refl)).
  - by rewrite (inv_bitmap_high _ _ _ _ Hb), (inv_bitmap_high _ _ _ _ Hb').
Qed.

Lemma fmap_filter_not_linked (p : nat) (hs : list (list nat)) :
  (forall h, h ∈ hs -> p ∉ h) -> filter (λ n, n ≠ p) <$> hs = hs.
Proof.
  induction hs as [| h hs IH]; intros H; [done |]. cbn. f_equal.
  - apply filter_ne_notin, H. by left.
  - apply IH. intros h' Hh'. apply H. by right.
Qed.

(** X7: Enqueueing a task and dequeueing it again gives the runqueue back as
    it was, bitmap, watermark and counter included; the task keeps the
    queue index that the enqueue recorded, and no other task and no other
    runqueue changes. *)
Theorem enqueue_dequeue_round_trip s p c r t :
  config_ok -> sched_inv s ->
  get_rq s c = Some r -> get_task s p = Some t ->
  (forall c' r', get_rq s c' = Some r' -> ~ queued r' p) ->
  0 <= task_sched_prio t < bmq_BITS ->
  nr_running r + 1 < 2 ^ BITS_PER_LONG ->
  exists s1 s2,
    enqueue_task s p c = Some s1 /\ dequeue_task s1 p c = Some s2 /\
    (forall c', get_rq s2 c' = get_rq s c') /\
    get_task s2 p = Some (set_bmq_idx (task_sched_prio t) t) /\
    (forall x, x ≠ p -> get_task s2 x = get_task s x).
Proof.
  intros Hcfg Hinv Hr Ht Hnq Hidx Hfit.
  destruct (enqueue_task_returns s p c r t Hcfg Hinv Hr Ht Hnq Hidx Hfit)
    as (s1 & r1 & Henq & Hr1 & Htp & Htx & Hrx & Ef1 & l & l' & Hl & Hupd & Hin & Hfil).
  pose proof (enqueue_task_inv s p c r s1 Hcfg Hinv Hr Hnq Hfit Henq) as Hinv1.
  pose proof Hinv as [_ Hrqs]. destruct (Hrqs c r Hr) as [Hb Hw].
  assert (Hq1 : queued r1 p).
  { exists (task_sched_prio t), l'. split; [| done].
    rewrite (zlookup_zupdate _ _ _ _ (task_sched_prio t) Hupd). by rewrite decide_True. }
  assert (Hidle : p ≠ idle r1).
  { rewrite Ef1. cbn [idle set_nr_running set_watermark set_queue].
    intros ->. apply (Hnq c r Hr). apply (inv_idle _ _ _ _ Hb). }
  destruct (dequeue_task_returns s1 p c r1 Hcfg Hinv1 Hr1 Hq1 Hidle)
    as (s2 & r2 & Hdeq & Hr2 & _ & Hh2 & _ & Ht2 & Hrx2 & Ef2).
  pose proof (dequeue_task_inv s1 p c r1 s2 Hcfg Hinv1 Hr1 Hq1 Hidle Hdeq) as Hinv2.
  pose proof Hinv2 as [_ Hrqs2]. destruct (Hrqs2 c r2 Hr2) as [Hb2 Hw2].
  exists s1, s2. split; [done |]. split; [done |].
  assert (Hheads : heads (queue r2) = heads (queue r)).
  { rewrite Hh2. apply zupdate_Some in Hupd as [Hrange ->].
    apply zlookup_Some in Hl as [_ Hl].
    rewrite list_fmap_insert, Hfil, fmap_filter_not_linked.
    - by apply list_insert_id.
    - intros h Hh Hp. apply list_elem_of_lookup in Hh as [i Hi].
      apply (Hnq c r Hr). exists (Z.of_nat i), h. split; [| done].
      unfold zlookup. rewrite Nat2Z.id. by destruct (Z.leb_spec 0 (Z.of_nat i)); [| lia]. }
  assert (Hbm : bitmap (queue r2) = bitmap (queue r)).
  { by apply (bitmap_of_heads s c r 0 s2 c r2 0). }
  assert (Hwm : watermark r2 = watermark r).
  { unfold wm_current in Hw, Hw2. by rewrite Hw, Hw2, Hbm. }
  assert (Er : r2 = r).
  { assert (Hq : queue r2 = queue r).
    { destruct (queue r2), (queue r). cbn in *. congruence. }
    assert (Hn : nr_running r2 = nr_running r).
    { rewrite Ef2, Ef1. cbn. lia. }
    assert (Hrest : cpu r2 = cpu r /\ curr r2 = curr r /\ idle r2 = idle r /\
              stop r2 = stop r /\ skip r2 = skip r /\ clock r2 = clock r /\
              clock_task r2 = clock_task r /\ last_ts_switch r2 = last_ts_switch r /\
              online r2 = online r).
    { rewrite Ef2, Ef1. cbn. done. }
    destruct Hrest as (? & ? & ? & ? & ? & ? & ? & ? & ?).
    destruct r, r2. cbn in *. congruence. }
  split.
  { intros c'. destruct (decide (c' = c)) as [-> | Hne].
    - by rewrite Hr2, Er.
    - rewrite Hrx2 by done. by apply Hrx. }
  split.
  - unfold get_task. rewrite Ht2. exact Htp.
  - intros x Hx. unfold get_task. rewrite Ht2. by apply Htx.
Qed.

End EnqueueDequeue.

Lemma fresh_task_index :
  0 <= task_sched_prio (cfg := cfg2 false) fresh_task < bmq_BITS (Config := cfg2 false).
Proof. vm_compute. split; [discriminate | reflexivity]. Qed.

Lemma boot_counter_fits : nr_running (boot_rq 0 0) + 1 < 2 ^ BITS_PER_LONG.
Proof. vm_compute. reflexivity. Qed.

Lemma enqueue_task_links_witness :
  exists s' r',
    enqueue_task (cfg := cfg2 false) (boot_with_task false) 7 0 = Some s' /\
    sched_inv (cfg := cfg2 false) s' /\
    get_rq s' 0 = Some r' /\
    get_task s' 7 = Some (set_bmq_idx (task_sched_prio (cfg := cfg2 false) fresh_task)
                            fresh_task) /\
    (forall x, x ≠ 7%nat -> get_task s' x = get_task (boot_with_task false) x) /\
    (forall c', c' ≠ 0 -> get_rq s' c' = get_rq (boot_with_task false) c') /\
    r' = set_nr_running (nr_running (boot_rq 0 0) + 1)
           (set_watermark (watermark r') (set_queue (queue r') (boot_rq 0 0))) /\
    exists l l',
      zlookup (heads (queue (boot_rq 0 0))) (task_sched_prio (cfg := cfg2 false) fresh_task)
        = Some l /\
      zupdate (heads (queue (boot_rq 0 0))) (task_sched_prio (cfg := cfg2 false) fresh_task) l'
        = Some (heads (queue r')) /\
      7%nat ∈ l' /\ filter (λ n, n ≠ 7%nat) l' = l.
Proof.
  apply (enqueue_task_links (cfg := cfg2 false) (boot_with_task false) 7%nat 0
           (boot_rq 0 0) fresh_task (cfg2_ok false) (boot_inv false)).
  - reflexivity.
  - vm_compute. reflexivity.
  - apply boot_not_queued.
  - apply fresh_task_index.
  - apply boot_counter_fits.
Defined.

Lemma boot_one_queued_rq :
  get_rq boot_one_queued 0 = Some (default (boot_rq 0 0) (get_rq boot_one_queued 0)).
Proof. vm_compute. reflexivity. Qed.

Lemma boot_one_queued_linked : queued (default (boot_rq 0 0) (get_rq boot_one_queued 0)) 7%nat.
Proof.
  exists 28, [7%nat]. split; [vm_compute; reflexivity | by left].
Qed.

Lemma dequeue_task_unlinks_witness :
  exists s' r',
    dequeue_task (cfg := cfg2 false) boot_one_queued 7 0 = Some s' /\
    sched_inv (cfg := cfg2 false) s' /\
    get_rq s' 0 = Some r' /\ ~ queued r' 7%nat /\
    heads (queue r')
      = filter (λ n, n ≠ 7%nat)
          <$> heads (queue (default (boot_rq 0 0) (get_rq boot_one_queued 0))) /\
    1 <= nr_running (default (boot_rq 0 0) (get_rq boot_one_queued 0)) /\
    tasks s' = tasks boot_one_queued /\
    (forall c', c' ≠ 0 -> get_rq s' c' = get_rq boot_one_queued c') /\
    r' = set_nr_running (nr_running (default (boot_rq 0 0) (get_rq boot_one_queued 0)) - 1)
           (set_watermark (watermark r')
              (set_queue (queue r') (default (boot_rq 0 0) (get_rq boot_one_queued 0)))).
Proof.
  apply (dequeue_task_unlinks (cfg := cfg2 false) boot_one_queued 7%nat 0 _
           (cfg2_ok false) boot_one_queued_inv boot_one_queued_rq boot_one_queued_linked).
  vm_compute. lia.
Defined.

Lemma enqueue_dequeue_round_trip_witness :
  exists s1 s2,
    enqueue_task (cfg := cfg2 false) (boot_with_task false) 7 0 = Some s1 /\
    dequeue_task (cfg := cfg2 false) s1 7 0 = Some s2 /\
    (forall c', get_rq s2 c' = get_rq (boot_with_task false) c') /\
    get_task s2 7 = Some (set_bmq_idx (task_sched_prio (cfg := cfg2 false) fresh_task)
                            fresh_task) /\
    (forall x, x ≠ 7%nat -> get_task s2 x = get_task (boot_with_task false) x).
Proof.
  apply (enqueue_dequeue_round_trip (cfg := cfg2 false) (boot_with_task false) 7%nat 0
           (boot_rq 0 0) fresh_task (cfg2_ok false) (boot_inv false)).
  - reflexivity.
  - vm_compute. reflexivity.
  - apply boot_not_queued.
  - apply fresh_task_index.
  - apply boot_counter_fits.
Defined.

(** ** Rescheduling marks, requeueing, nice values and priority ranges *)

Section Changes.
Context `{cfg : Config}.

(** *** Rescheduling marks *)

Lemma resched_curr_returns s c r :
  get_rq s c = Some r -> is_Some (get_task s (curr r)) ->
  exists s' tc,
    resched_curr s c = Some s' /\
    runqueues s' = runqueues s /\
    (sched_inv s -> sched_inv s') /\
    (forall x, is_Some (get_task s x) -> is_Some (get_task s' x)) /\
    get_task s' (curr r) = Some tc /\ need_resched tc = true.
Proof.
  intros Hr [tc Htc]. unfold resched_curr. rewrite Hr. cbn [mbind option_bind].
  rewrite Htc. cbn [mbind option_bind]. destruct (need_resched tc) eqn:E.
  - exists s, tc. split; [done |]. split; [done |]. split; [done |].
    split; [done |]. split; done.
  - exists (put_task s (curr r) (set_need_resched true tc)), (set_need_resched true tc).
    split; [done |]. split; [done |]. split.
    { intros Hinv. by apply (task_write_inv s (curr r) tc). }
    split; [| split; [apply get_task_put_task_eq | done]].
    intros x Hx. rewrite get_task_put_task. by destruct (decide _).
Qed.

Lemma check_preempt_curr_returns s c r p tc :
  config_ok -> sched_inv s ->
  get_rq s c = Some r -> get_task s (curr r) = Some tc ->
  exists s',
    check_preempt_curr s c p = Some s' /\
    sched_inv s' /\ runqueues s' = runqueues s /\
    (prio tc ≠ MAX_PRIO -> rq_first_bmq_task r ≠ Some p -> s' = s) /\
    (prio tc = MAX_PRIO \/ rq_first_bmq_task r = Some p ->
       exists tc', get_task s' (curr r) = Some tc' /\ need_resched tc' = true).
Proof.
  intros Hcfg Hinv Hr Htc.
  unfold check_preempt_curr. rewrite Hr. cbn [mbind option_bind].
  rewrite Htc. cbn [mbind option_bind].
  assert (Hf : exists f, rq_first_bmq_task r = Some f).
  { pose proof Hinv as [_ Hrqs0]. destruct (Hrqs0 c r Hr) as [Hb0 _].
    destruct (first_level_lookup s c r 0 Hcfg Hb0) as (f & hs0 & _ & Hl0 & _).
    exists f. unfold rq_first_bmq_task. by rewrite Hl0. }
  destruct Hf as [f Hf].
  destruct (resched_curr_returns s c r Hr) as (sa & ta & Hsa & Hrqa & Hinva & Hka & Hta & Hna);
    [by eexists |].
  assert (Hs1 : exists s1,
            (if MAX_PRIO =? prio tc then resched_curr s c else Some s) = Some s1 /\
            runqueues s1 = runqueues s /\ sched_inv s1 /\
            is_Some (get_task s1 (curr r)) /\
            (prio tc ≠ MAX_PRIO -> s1 = s) /\
            (prio tc = MAX_PRIO ->
               exists tc', get_task s1 (curr r) = Some tc' /\ need_resched tc' = true)).
  { destruct (Z.eqb_spec MAX_PRIO (prio tc)) as [E | E].
    - exists sa. split; [done |]. split; [done |]. split; [by apply Hinva |].
      split; [by eexists |]. split; [congruence | by eexists]. 
    - exists s. split; [done |]. split; [done |]. split; [done |].
      split; [by eexists |]. split; [done | congruence]. }
  destruct Hs1 as (s1 & -> & Hrq1 & Hinv1 & Hk1 & Hsame1 & Hmark1).
  cbn [mbind option_bind].
  assert (Hr1 : get_rq s1 c = Some r) by (unfold get_rq; by rewrite Hrq1).
  rewrite Hr1. cbn [mbind option_bind]. rewrite Hf. cbn [mbind option_bind].
  destruct (resched_curr_returns s1 c r Hr1 Hk1)
    as (sb & tb & Hsb & Hrqb & Hinvb & _ & Htb & Hnb).
  destruct (decide (f = p)) as [-> | Hne].
  - rewrite bool_decide_eq_true_2 by done. exists sb.
    split; [done |]. split; [by apply Hinvb |]. split; [congruence |].
    split; [intros _ H; by destruct H |]. intros _. by eexists.
  - rewrite bool_decide_eq_false_2 by done. exists s1.
    split; [done |]. split; [done |]. split; [done |].
    split; [intros H _; by apply Hsame1 |].
    intros [H | H]; [by apply Hmark1 | congruence].
Qed.

(** [check_preempt_curr] writes nothing but the reschedule mark of the
    current task: the state it returns is the one it was given, or that
    state with [TIF_NEED_RESCHED] set in the current task. *)
Lemma check_preempt_curr_writes s c r p tc s' :
  get_rq s c = Some r -> get_task s (curr r) = Some tc ->
  check_preempt_curr s c p = Some s' ->
  s' = s \/ s' = put_task s (curr r) (set_need_resched true tc).
Proof.
  intros Hr Htc. unfold check_preempt_curr. rewrite Hr. cbn [mbind option_bind].
  rewrite Htc. cbn [mbind option_bind].
  assert (Hres : resched_curr s c
                 = Some (if need_resched tc then s
                         else put_task s (curr r) (set_need_resched true tc))).
  { unfold resched_curr. rewrite Hr. cbn [mbind option_bind]. rewrite Htc.
    cbn [mbind option_bind]. by destruct (need_resched tc). }
  assert (Hres' : resched_curr (put_task s (curr r) (set_need_resched true tc)) c
                  = Some (put_task s (curr r) (set_need_resched true tc))).
  { unfold resched_curr. rewrite get_rq_put_task, Hr. cbn [mbind option_bind].
    rewrite get_task_put_task_eq. done. }
  intros H. apply bind_Some in H as (s1 & Hs1 & H).
  assert (Es1 : s1 = s \/ s1 = put_task s (curr r) (set_need_resched true tc)).
  { destruct (MAX_PRIO =? prio tc); [| left; congruence].
    rewrite Hres in Hs1. injection Hs1 as <-. destruct (need_resched tc); [by left | by right]. }
  apply bind_Some in H as (r1 & Hr1 & H). apply bind_Some in H as (f & _ & H).
  destruct (bool_decide (f = p)); [| injection H as <-; exact Es1].
  destruct Es1 as [-> | ->].
  - rewrite Hres in H. injection H as <-. destruct (need_resched tc); [by left | by right].
  - rewrite Hres' in H. injection H as <-. by right.
Qed.

(** X8: [check_preempt_curr] returns on a runqueue that satisfies the
    invariants.  When neither the current task has the idle priority
    [MAX_PRIO] nor [p] is the first task of the queue nothing changes;
    otherwise the current task ends up with [TIF_NEED_RESCHED] set.  No
    runqueue is touched, and no task field other than that mark is
    written: the state returned is the given state, or the given state
    with the mark set in the current task. *)
Theorem check_preempt_curr_marks s c r p tc :
  config_ok -> sched_inv s ->
  get_rq s c = Some r -> get_task s (curr r) = Some tc ->
  exists s',
    check_preempt_curr s c p = Some s' /\
    sched_inv s' /\ runqueues s' = runqueues s /\ same_but_queue s s' /\
    (s' = s \/ s' = put_task s (curr r) (set_need_resched true tc)) /\
    (prio tc ≠ MAX_PRIO -> rq_first_bmq_task r ≠ Some p -> s' = s) /\
    (prio tc = MAX_PRIO \/ rq_first_bmq_task r = Some p ->
       exists tc', get_task s' (curr r) = Some tc' /\ need_resched tc' = true).
Proof.
  intros Hcfg Hinv Hr Htc.
  destruct (check_preempt_curr_returns s c r p tc Hcfg Hinv Hr Htc)
    as (s' & Hs' & Hinv' & Hrqs & Hrest).
  exists s'. split; [exact Hs' |]. split; [exact Hinv' |]. split; [exact Hrqs |].
  split; [by apply (check_preempt_curr_fields s c p) |].
  split; [| exact Hrest]. by apply (check_preempt_curr_writes s c r p tc).
Qed.

(** *** Requeueing after a priority change *)

Lemma set_bmq_idx_id t : set_bmq_idx (bmq_idx t) t = t.
Proof. by destruct t. Qed.

Lemma requeue_task_lazy_returns s p c r t :
  config_ok -> sched_inv s ->
  get_rq s c = Some r -> get_task s p = Some t ->
  queued r p -> p ≠ idle r ->
  0 <= task_sched_prio t < bmq_BITS ->
  exists s' rv r',
    requeue_task_lazy s p c = Some (s', rv) /\
    sched_inv s' /\
    (task_sched_prio t = bmq_idx t -> rv = 0 /\ s' = s) /\
    (task_sched_prio t ≠ bmq_idx t -> rv = 1) /\
    tasks s' = <[p := set_bmq_idx (task_sched_prio t) t]> (tasks s) /\
    get_rq s' c = Some r' /\
    (exists hs, zlookup (heads (queue r')) (task_sched_prio t) = Some hs /\ p ∈ hs) /\
    curr r' = curr r /\ idle r' = idle r.
Proof.
  intros Hcfg Hinv Hr Ht Hq Hni Hidx.
  pose proof Hinv as [Hglob Hrqs]. destruct (Hrqs c r Hr) as [Hb _].
  destruct (queued_level _ _ _ _ _ _ Hb Hq Ht) as (hk & Hk & Hpk & Hlev).
  unfold requeue_task_lazy. rewrite Hr, Ht. cbn [mbind option_bind].
  destruct (Z.eqb_spec (task_sched_prio t) (bmq_idx t)) as [E | E].
  - exists s, 0, r. split; [done |]. split; [done |]. split; [done |].
    split; [done |]. split.
    { rewrite E, set_bmq_idx_id. symmetry. by apply insert_id. }
    split; [done |]. split; [| done]. exists hk. by rewrite E.
  - set (idx := task_sched_prio t) in *.
    destruct (bmq_add_task_is_Some (tasks s) p (list_del p (queue r)) idx) as [q Hadd].
    { unfold list_del. cbn [heads]. rewrite length_fmap, (inv_heads_len _ _ _ _ Hb). done. }
    { by eexists. }
    { intros l n Hl Hn. unfold list_del in Hl. cbn [heads] in Hl.
      rewrite zlookup_fmap in Hl.
      destruct (zlookup (heads (queue r)) 0) as [l0 |] eqn:Hl0; [| done].
      injection Hl as <-. apply list_elem_of_filter in Hn as [_ Hn].
      destruct (inv_level _ _ _ _ Hb 0 l0 n Hl0 Hn) as (tn & Htn & _). by eexists. }
    rewrite Hadd. cbn [mbind option_bind].
    destruct (bmq_add_task_spec _ _ _ _ _ Hadd) as (l & l' & Hl & Hperm & Hupd & _).
    destruct (zlookup_in_range (heads q) (bmq_idx t)) as [h He0].
    { rewrite (zupdate_length _ _ _ _ Hupd). unfold list_del. cbn [heads].
      rewrite length_fmap. apply zlookup_Some in Hk. lia. }
    assert (He : list_empty q (bmq_idx t)
                 = Some (match h with [] => true | _ => false end)).
    { unfold list_empty. by rewrite He0. }
    rewrite He. cbn [mbind option_bind].
    set (e := match h with [] => true | _ => false end) in *.
    set (q1 := if e then clear_rq_bit (bmq_idx t) q else q).
    destruct (put_rq_is_Some (put_task s p (set_bmq_idx idx t)) c
                (set_queue (set_rq_bit idx q1) r) r Hr) as [sa Hput].
    rewrite Hput. cbn [mbind option_bind].
    pose proof (requeue_move_mid _ _ _ _ _ _ _ _ _ Hinv Hr Ht Hq Hni E Hadd He Hput) as Hmid.
    assert (Hra : get_rq sa c = Some (set_queue (set_rq_bit idx q1) r)).
    { rewrite (get_rq_put_rq _ _ _ _ c Hput). by rewrite decide_True. }
    destruct (update_wm_total sa c 0 true Hcfg Hmid) as [s1 Hup]; [by eexists |].
    destruct (update_wm_get_rq _ _ _ _ Hra Hup) as (w & Hr1).
    rewrite Hup. cbn [mbind option_bind].
    exists s1, 1, (set_watermark w (set_queue (set_rq_bit idx q1) r)).
    split; [done |]. split.
    { apply (sched_inv_mid s1 c). by eapply update_wm_mid. }
    split; [done |]. split; [done |]. split.
    { rewrite (update_wm_tasks _ _ _ Hup). apply (put_rq_tasks _ _ _ _ Hput). }
    split; [done |]. split; [| done].
    cbn [queue set_watermark set_queue set_rq_bit heads].
    assert (Hh1 : heads q1 = heads q) by (unfold q1; by destruct e).
    rewrite Hh1. exists l'. split.
    + rewrite (zlookup_zupdate _ _ _ _ idx Hupd). by rewrite decide_True.
    + rewrite Hperm. by left.
Qed.

Lemma check_task_changed_returns s c r p t tc :
  config_ok -> sched_inv s ->
  get_rq s c = Some r -> get_task s p = Some t -> get_task s (curr r) = Some tc ->
  (task_on_rq_queued t = true ->
     queued r p /\ p ≠ idle r /\ 0 <= task_sched_prio t < bmq_BITS) ->
  exists s',
    check_task_changed s c p = Some s' /\ sched_inv s' /\ same_but_queue s s' /\
    (task_on_rq_queued t = false \/ task_sched_prio t = bmq_idx t -> s' = s) /\
    (task_on_rq_queued t = true ->
       exists t' r' hs,
         get_task s' p = Some t' /\ bmq_idx t' = task_sched_prio t /\
         get_rq s' c = Some r' /\
         zlookup (heads (queue r')) (task_sched_prio t) = Some hs /\ p ∈ hs).
Proof.
  intros Hcfg Hinv Hr Ht Htc Hq.
  unfold check_task_changed. rewrite Ht. cbn [mbind option_bind].
  destruct (task_on_rq_queued t) eqn:Hon.
  2:{ exists s. split; [done |]. split; [done |]. split; [apply same_but_queue_refl |].
      split; done. }
  destruct (Hq eq_refl) as (Hqp & Hni & Hidx).
  destruct (requeue_task_lazy_returns s p c r t Hcfg Hinv Hr Ht Hqp Hni Hidx)
    as (s1 & rv & r1 & Hlazy & Hinv1 & Hsame & Hmoved & Ht1 & Hr1 & Hlinked & Hcurr & _).
  rewrite Hlazy. cbn [mbind option_bind fst snd].
  pose proof (requeue_task_lazy_fields _ _ _ _ _ Hlazy) as Hf1.
  assert (Hp1 : get_task s1 p = Some (set_bmq_idx (task_sched_prio t) t)).
  { unfold get_task. rewrite Ht1. apply lookup_insert_eq. }
  destruct (decide (task_sched_prio t = bmq_idx t)) as [E | E].
  - destruct (Hsame E) as [-> ->]. cbn [negb Z.eqb].
    exists s. split; [done |]. split; [done |]. split; [apply same_but_queue_refl |].
    split; [done |]. intros _. destruct Hlinked as (hs & Hhs & Hin).
    exists t, r1, hs. split; [done |]. split; [by rewrite E |]. split; [done |].
    split; done.
  - rewrite (Hmoved E). cbn [negb Z.eqb Pos.eqb].
    assert (Htc1 : is_Some (get_task s1 (curr r1))).
    { rewrite Hcurr. unfold get_task. rewrite Ht1.
      destruct (decide (p = curr r)) as [<- | Hne].
      - rewrite lookup_insert_eq. by eexists.
      - rewrite lookup_insert_ne by done. by eexists. }
    destruct Htc1 as [tc1 Htc1].
    destruct (check_preempt_curr_returns s1 c r1 p tc1 Hcfg Hinv1 Hr1 Htc1)
      as (s2 & Hcp & Hinv2 & Hrq2 & _).
    exists s2. split; [done |]. split; [done |].
    pose proof (check_preempt_curr_fields _ _ _ _ Hcp) as Hf2.
    split; [by eapply same_but_queue_trans |].
    split; [intros [H | H]; done |].
    intros _. destruct Hlinked as (hs & Hhs & Hin).
    destruct (same_but_queue_get _ _ p _ Hf2 Hp1) as (t' & Ht' & Ef).
    exists t', r1, hs. split; [done |]. split.
    { (* [bmq_idx] is not among the fields that the marks write *)
      unfold check_preempt_curr in Hcp. rewrite Hr1 in Hcp. cbn [mbind option_bind] in Hcp.
      rewrite Htc1 in Hcp. cbn [mbind option_bind] in Hcp.
      apply bind_Some in Hcp as (sx & Hsx & Hcp).
      apply bind_Some in Hcp as (rx & Hrx & Hcp).
      apply bind_Some in Hcp as (fx & Hfx & Hcp).
      assert (Hkeep : forall sa sb, resched_curr sa c = Some sb ->
                forall x ta, get_task sa x = Some ta ->
                exists tb, get_task sb x = Some tb /\ bmq_idx tb = bmq_idx ta).
      { intros sa sb H x ta Hx. unfold resched_curr in H.
        apply bind_Some in H as (ra & Hra & H). apply bind_Some in H as (tca & Htca & H).
        destruct (need_resched tca); injection H as <-; [by exists ta |].
        rewrite get_task_put_task. destruct (decide (curr ra = x)) as [<- | Hne].
        - exists (set_need_resched true tca). split; [done |]. by simplify_eq.
        - by exists ta. }
      assert (Hx1 : exists tx, get_task sx p = Some tx /\ bmq_idx tx = task_sched_prio t).
      { destruct (MAX_PRIO =? prio tc1).
        - destruct (Hkeep _ _ Hsx p _ Hp1) as (tx & Htx & Ex). by exists tx.
        - injection Hsx as <-. by eexists. }
      destruct Hx1 as (tx & Htx & Ex).
      destruct (bool_decide (fx = p)).
      - destruct (Hkeep _ _ Hcp p _ Htx) as (ty & Hty & Ey).
        rewrite Ht' in Hty. injection Hty as <-. congruence.
      - injection Hcp as <-. rewrite Ht' in Htx. injection Htx as <-. done. }
    split; [| done]. unfold get_rq. rewrite Hrq2. exact Hr1.
Qed.

(** X9: [check_task_changed] returns and keeps the runqueue invariants.  A
    task that is not on a runqueue is left alone.  A queued task ends up
    linked in the level of its current queue index, which is recorded in
    its [bmq_idx]; apart from that only [TIF_NEED_RESCHED] of the current
    task can change, and the state is unchanged when the index did not
    change. *)
Theorem check_task_changed_requeues s c r p t tc :
  config_ok -> sched_inv s ->
  get_rq s c = Some r -> get_task s p = Some t -> get_task s (curr r) = Some tc ->
  (task_on_rq_queued t = true ->
     queued r p /\ p ≠ idle r /\ 0 <= task_sched_prio t < bmq_BITS) ->
  exists s',
    check_task_changed s c p = Some s' /\ sched_inv s' /\ same_but_queue s s' /\
    (task_on_rq_queued t = false \/ task_sched_prio t = bmq_idx t -> s' = s) /\
    (task_on_rq_queued t = true ->
       exists t' r' hs,
         get_task s' p = Some t' /\ bmq_idx t' = task_sched_prio t /\
         get_rq s' c = Some r' /\
         zlookup (heads (queue r')) (task_sched_prio t) = Some hs /\ p ∈ hs).
Proof. exact (check_task_changed_returns s c r p t tc). Qed.

(** *** Queue index of a task without RT policy *)

(** X10: A task without RT policy whose [prio] is its normal priority (no
    priority inheritance in effect), with [static_prio] in the nice range
    and [boost_prio] within its bounds, is never taken for an RT task: its
    queue index is [static_prio - MAX_RT_PRIO + MAX_PRIORITY_ADJ +
    boost_prio], which lies in [0, NICE_WIDTH + 2 * MAX_PRIORITY_ADJ), and
    [task_prio] reports the same number. *)
Theorem normal_task_index t :
  prio_config_ok ->
  task_has_rt_policy t = false ->
  MAX_RT_PRIO <= static_prio t < MAX_PRIO ->
  prio t = normal_prio t ->
  boost_in_range t ->
  rt_task t = false /\
  task_sched_prio t = static_prio t - MAX_RT_PRIO + MAX_PRIORITY_ADJ + boost_prio t /\
  0 <= task_sched_prio t < NICE_WIDTH + 2 * MAX_PRIORITY_ADJ /\
  task_prio t = task_sched_prio t.
Proof.
  intros (Hrt & Hadj & Hw & Hfit) Hpol Hstatic Hprio Hboost.
  unfold boost_in_range in Hboost. unfold MAX_PRIO in *.
  assert (E : prio t = static_prio t + MAX_PRIORITY_ADJ).
  { rewrite Hprio. unfold normal_prio. rewrite Hpol.
    apply int_small. unfold fits_int. lia. }
  assert (Hnrt : (prio t <? MAX_RT_PRIO) = false) by (apply Z.ltb_ge; lia).
  assert (Hidx : task_sched_prio t
                 = static_prio t - MAX_RT_PRIO + MAX_PRIORITY_ADJ + boost_prio t).
  { unfold task_sched_prio. rewrite Hnrt.
    rewrite (int_small (prio t - MAX_RT_PRIO)) by (unfold fits_int; lia).
    rewrite int_small by (unfold fits_int; lia). lia. }
  split; [exact Hnrt |]. split; [exact Hidx |]. split; [lia |].
  unfold task_prio, task_sched_prio. by rewrite Hnrt.
Qed.

(** *** Nice values *)

Lemma nice_round_trip nice :
  prio_config_ok -> MIN_NICE <= nice <= MAX_NICE ->
  int (NICE_TO_PRIO nice) = NICE_TO_PRIO nice /\
  int (PRIO_TO_NICE (NICE_TO_PRIO nice)) = nice /\
  MAX_RT_PRIO <= NICE_TO_PRIO nice < MAX_PRIO.
Proof.
  intros (Hrt & Hadj & Hw & Hfit) Hn.
  unfold NICE_TO_PRIO, PRIO_TO_NICE, DEFAULT_PRIO, MAX_PRIO, MIN_NICE, MAX_NICE in *.
  rewrite Hw in *. change (19 - -20 + 1) with 40 in *. change (40 / 2) with 20.
  split; [apply int_small; unfold fits_int; lia |].
  split; [| lia].
  replace (nice + (MAX_RT_PRIO + 20) - (MAX_RT_PRIO + 20)) with nice by lia.
  apply int_small. unfold fits_int. lia.
Qed.

(** X11: [set_user_nice] ignores a nice value outside [MIN_NICE, MAX_NICE] and
    one the task already has.  For a task with an RT policy a new value
    only changes [static_prio]: [prio], [normal_prio] and the runqueues
    stay as they are, and [task_nice] reads the new value back. *)
Theorem set_user_nice_static s p t nice :
  prio_config_ok -> get_task s p = Some t ->
  (nice = task_nice t \/ nice < MIN_NICE \/ MAX_NICE < nice ->
     set_user_nice s p nice = Some s) /\
  (MIN_NICE <= nice <= MAX_NICE -> nice ≠ task_nice t ->
   task_has_rt_policy t = true -> is_Some (get_rq s (task_cpu t)) ->
     set_user_nice s p nice = Some (put_task s p (set_static_prio (NICE_TO_PRIO nice) t)) /\
     task_nice (set_static_prio (NICE_TO_PRIO nice) t) = nice).
Proof.
  intros Hcfg Ht. unfold set_user_nice. rewrite Ht. cbn [mbind option_bind]. split.
  - intros [-> | [H | H]].
    + by rewrite Z.eqb_refl.
    + destruct (Z.ltb_spec nice MIN_NICE); [| lia]. by rewrite orb_true_r.
    + destruct (Z.ltb_spec MAX_NICE nice); [| lia]. by rewrite orb_true_r.
  - intros Hn Hne Hrt [r Hr].
    destruct (nice_round_trip nice Hcfg Hn) as (E1 & E2 & _).
    destruct (Z.eqb_spec (task_nice t) nice); [congruence |].
    destruct (Z.ltb_spec nice MIN_NICE); [lia |].
    destruct (Z.ltb_spec MAX_NICE nice); [lia |].
    cbn [orb]. rewrite Hr. cbn [mbind option_bind]. rewrite E1.
    change (task_has_rt_policy (set_static_prio (NICE_TO_PRIO nice) t))
      with (task_has_rt_policy t).
    rewrite Hrt. split; [done |]. exact E2.
Qed.

(** X12: For a task without RT policy [set_user_nice] with a new value in
    range returns and keeps the runqueue invariants.  Afterwards
    [task_nice] reads the new value back, [normal_prio] is
    [NICE_TO_PRIO(nice) + MAX_PRIORITY_ADJ], and so is [prio] unless the
    task runs at an inherited RT priority, which it keeps; a queued task
    is linked in the level of its new queue index. *)
Theorem set_user_nice_requeues s p t r tc nice :
  prio_config_ok -> config_ok -> NICE_WIDTH + 2 * MAX_PRIORITY_ADJ <= bmq_BITS ->
  sched_inv s ->
  get_task s p = Some t -> get_rq s (task_cpu t) = Some r ->
  get_task s (curr r) = Some tc ->
  task_has_rt_policy t = false -> boost_in_range t ->
  (task_on_rq_queued t = true -> queued r p /\ p ≠ idle r) ->
  MIN_NICE <= nice <= MAX_NICE -> nice ≠ task_nice t ->
  exists s' t',
    set_user_nice s p nice = Some s' /\ sched_inv s' /\
    get_task s' p = Some t' /\ task_nice t' = nice /\
    normal_prio_of t' = NICE_TO_PRIO nice + MAX_PRIORITY_ADJ /\
    prio t' = (if rt_prio (prio t) then prio t
               else NICE_TO_PRIO nice + MAX_PRIORITY_ADJ) /\
    (task_on_rq_queued t = true ->
       bmq_idx t' = task_sched_prio t' /\
       exists r' hs, get_rq s' (task_cpu t) = Some r' /\
         zlookup (heads (queue r')) (task_sched_prio t') = Some hs /\ p ∈ hs).
Proof.
  intros Hpc Hcfg Hwidth Hinv Ht Hr Htc Hpol Hboost Hq Hn Hne.
  destruct (nice_round_trip nice Hpc Hn) as (E1 & E2 & E3).
  pose proof Hpc as (Hrt0 & Hadj & Hw & Hfit).
  unfold set_user_nice. rewrite Ht. cbn [mbind option_bind].
  destruct (Z.eqb_spec (task_nice t) nice); [congruence |].
  destruct (Z.ltb_spec nice MIN_NICE); [lia |].
  destruct (Z.ltb_spec MAX_NICE nice); [lia |].
  cbn [orb]. rewrite Hr. cbn [mbind option_bind]. rewrite E1.
  change (task_has_rt_policy (set_static_prio (NICE_TO_PRIO nice) t))
    with (task_has_rt_policy t).
  rewrite Hpol.
  set (t1 := set_static_prio (NICE_TO_PRIO nice) t).
  assert (Hnp : normal_prio t1 = NICE_TO_PRIO nice + MAX_PRIORITY_ADJ).
  { unfold normal_prio. change (task_has_rt_policy t1) with (task_has_rt_policy t).
    rewrite Hpol. cbn [t1 static_prio set_static_prio]. apply int_small.
    unfold fits_int, MAX_PRIO in *. lia. }
  set (tn := set_prio (effective_prio t1).2 (effective_prio t1).1).
  assert (Htn : tn = set_prio (if rt_prio (prio t) then prio t
                               else NICE_TO_PRIO nice + MAX_PRIORITY_ADJ)
                       (set_normal_prio (NICE_TO_PRIO nice + MAX_PRIORITY_ADJ) t1)).
  { unfold tn, effective_prio. rewrite Hnp.
    change (prio (set_normal_prio _ t1)) with (prio t).
    by destruct (rt_prio (prio t)). }
  set (s1 := put_task s p tn).
  assert (Hinv1 : sched_inv s1).
  { apply (task_write_inv s p t tn Hinv Ht). by rewrite Htn. }
  assert (Hidx : 0 <= task_sched_prio tn < bmq_BITS).
  { rewrite Htn. unfold task_sched_prio, rt_prio, boost_in_range, MAX_PRIO in *.
    cbn [prio set_prio set_normal_prio boost_prio t1 set_static_prio].
    destruct (Z.ltb_spec (prio t) MAX_RT_PRIO) as [Hlt | Hge].
    - rewrite (proj2 (Z.ltb_lt _ _) Hlt). destruct Hcfg as (? & _). lia.
    - destruct (Z.ltb_spec (NICE_TO_PRIO nice + MAX_PRIORITY_ADJ) MAX_RT_PRIO); [lia |].
      rewrite (int_small (_ - MAX_RT_PRIO)) by (unfold fits_int; lia).
      rewrite int_small by (unfold fits_int; lia). lia. }
  assert (Htc1 : exists tc1, get_task s1 (curr r) = Some tc1).
  { unfold s1. rewrite get_task_put_task. destruct (decide (p = curr r)); by eexists. }
  destruct Htc1 as [tc1 Htc1].
  destruct (check_task_changed_returns s1 (task_cpu t) r p tn tc1 Hcfg Hinv1)
    as (s' & Hs' & Hinv' & Hsame & _ & Hlinked).
  { exact Hr. }
  { apply get_task_put_task_eq. }
  { exact Htc1. }
  { intros Hon. rewrite Htn in Hon. destruct (Hq Hon) as [H1 H2].
    split; [done |]. split; [done | exact Hidx]. }
  fold tn. fold s1.
  destruct (same_but_queue_get _ _ p tn Hsame) as (t' & Ht' & Ef);
    [apply get_task_put_task_eq |].
  exists s', t'. split; [exact Hs' |]. split; [exact Hinv' |]. split; [exact Ht' |].
  assert (Ef' : task_nice t' = task_nice tn /\ normal_prio_of t' = normal_prio_of tn /\
                prio t' = prio tn /\ boost_prio t' = boost_prio tn).
  { unfold sched_fields in Ef. destruct t', tn. cbn in *. by simplify_eq. }
  destruct Ef' as (F1 & F2 & F3 & F4).
  split; [rewrite F1, Htn; exact E2 |].
  split; [by rewrite F2, Htn |].
  split; [by rewrite F3, Htn |].
  intros Hon. destruct Hlinked as (t'' & r' & hs & Ht'' & Hidx'' & Hr' & Hhs & Hin).
  { by rewrite Htn. }
  rewrite Ht' in Ht''. injection Ht'' as <-.
  assert (Eidx : task_sched_prio t' = task_sched_prio tn).
  { unfold task_sched_prio. by rewrite F3, F4. }
  rewrite Eidx. split; [done |]. by exists r', hs.
Qed.

(** X13: The [nice] system call moves the caller's nice value by [increment]
    and clamps the result to [MIN_NICE, MAX_NICE]; clamping the increment
    to the width of the range first never changes that result.  Lowering
    the value without CAP_SYS_NICE below what RLIMIT_NICE allows returns
    [-EPERM], a refusal of the security hook is returned as it is, both
    without a change of state; otherwise the call is [set_user_nice] with
    the clamped value and returns 0. *)
Theorem sys_nice_spec who s current t increment nice :
  prio_config_ok -> get_task s current = Some t ->
  MIN_NICE <= task_nice t <= MAX_NICE ->
  nice = clamp_val (task_nice t + increment) MIN_NICE MAX_NICE ->
  MIN_NICE <= nice <= MAX_NICE /\
  (increment < 0 -> nice_capable who = false ->
   rlimit_nice who < MAX_NICE - nice + 1 ->
     sys_nice who s current increment = Some (s, - EPERM)) /\
  (0 <= increment \/ nice_capable who = true \/ MAX_NICE - nice + 1 <= rlimit_nice who ->
     (security_task_setnice who ≠ 0 ->
        sys_nice who s current increment = Some (s, security_task_setnice who)) /\
     (security_task_setnice who = 0 ->
        sys_nice who s current increment
        = (s' ← set_user_nice s current nice; Some (s', 0)))).
Proof.
  intros (Hrt & Hadj & Hw & Hfit) Ht Hcur ->.
  unfold MIN_NICE, MAX_NICE in *.
  assert (Hclamp : clamp_val (task_nice t + clamp_val increment (- NICE_WIDTH) NICE_WIDTH)
                     (-20) 19
                   = clamp_val (task_nice t + increment) (-20) 19).
  { unfold clamp_val. lia. }
  assert (Hneg : (clamp_val increment (- NICE_WIDTH) NICE_WIDTH <? 0) = (increment <? 0)).
  { unfold clamp_val.
    destruct (Z.ltb_spec increment 0),
      (Z.ltb_spec (Z.min (Z.max increment (- NICE_WIDTH)) NICE_WIDTH) 0); try done; lia. }
  set (nice := clamp_val (task_nice t + increment) (-20) 19) in *.
  assert (Hn : -20 <= nice <= 19) by (unfold nice, clamp_val; lia).
  assert (Hcan : can_nice who nice = (19 - nice + 1 <=? rlimit_nice who) || nice_capable who).
  { unfold can_nice, nice_to_rlimit, MAX_NICE.
    rewrite int_small by (unfold fits_int; lia).
    rewrite ulong_small by (unfold fits_ulong; lia). done. }
  split; [done |].
  unfold sys_nice. rewrite Ht. cbn [mbind option_bind].
  unfold MIN_NICE, MAX_NICE.
  rewrite Hclamp, Hneg. fold nice. rewrite Hcan. split.
  - intros Hi Hcap Hlim. rewrite Hcap.
    destruct (Z.ltb_spec increment 0); [| lia].
    destruct (Z.leb_spec (19 - nice + 1) (rlimit_nice who)); [lia |]. done.
  - intros Hok.
    assert (E : (increment <? 0)
                && negb ((19 - nice + 1 <=? rlimit_nice who) || nice_capable who) = false).
    { destruct Hok as [H | [H | H]].
      - destruct (Z.ltb_spec increment 0); [lia | done].
      - rewrite H, orb_true_r. apply andb_false_r.
      - destruct (Z.leb_spec (19 - nice + 1) (rlimit_nice who)); [| lia].
        apply andb_false_r. }
    rewrite E. split; intros Hsec.
    + destruct (Z.eqb_spec (security_task_setnice who) 0); done.
    + by rewrite Hsec.
Qed.

(** *** Priority ranges and validation *)

Lemma setscheduler_not_deadline who s p attr user pi :
  int (sched_policy attr) ≠ SCHED_DEADLINE ->
  __sched_setscheduler who s p attr user pi
  = setscheduler_recheck 2 who s p attr user pi
      (int (MAX_RT_PRIO - 1 - sched_priority attr)) (int (sched_policy attr)) (-1).
Proof.
  intros H. unfold __sched_setscheduler.
  destruct (Z.eqb_spec SCHED_DEADLINE (int (sched_policy attr))); [congruence | done].
Qed.

(** X14: [sched_get_priority_min] and [sched_get_priority_max] report the
    range that [__sched_setscheduler] accepts.  For each of the policies
    NORMAL, FIFO, RR, BATCH and IDLE the two values form a range, a request
    with a priority outside it returns [-EINVAL] and leaves the state as it
    was, and every accepted request has its priority within it; for any
    other policy both calls return [-EINVAL]. *)
Theorem sched_priority_range_agrees who s p t attr user pi :
  MAX_RT_PRIO = 100 -> MAX_USER_RT_PRIO = 100 ->
  get_task s p = Some t -> 0 <= sched_priority attr ->
  (int (sched_policy attr) = SCHED_NORMAL \/ int (sched_policy attr) = SCHED_FIFO \/
   int (sched_policy attr) = SCHED_RR \/ int (sched_policy attr) = SCHED_BATCH \/
   int (sched_policy attr) = SCHED_IDLE ->
     0 <= sys_sched_get_priority_min (int (sched_policy attr))
       <= sys_sched_get_priority_max (int (sched_policy attr)) /\
     (sched_priority attr < sys_sched_get_priority_min (int (sched_policy attr)) \/
      sys_sched_get_priority_max (int (sched_policy attr)) < sched_priority attr ->
        __sched_setscheduler who s p attr user pi = Some (s, - EINVAL)) /\
     (forall s', __sched_setscheduler who s p attr user pi = Some (s', 0) ->
        sys_sched_get_priority_min (int (sched_policy attr)) <= sched_priority attr
          <= sys_sched_get_priority_max (int (sched_policy attr)))) /\
  (forall pol, pol ≠ SCHED_NORMAL -> pol ≠ SCHED_FIFO -> pol ≠ SCHED_RR ->
     pol ≠ SCHED_BATCH -> pol ≠ SCHED_IDLE ->
     sys_sched_get_priority_min pol = - EINVAL /\
     sys_sched_get_priority_max pol = - EINVAL).
Proof.
  intros Hrt Hurt Ht Hsp. split.
  - intros Hpol.
    assert (Hnd : int (sched_policy attr) ≠ SCHED_DEADLINE).
    { unfold SCHED_NORMAL, SCHED_FIFO, SCHED_RR, SCHED_BATCH, SCHED_IDLE, SCHED_DEADLINE in *.
      lia. }
    rewrite (setscheduler_not_deadline _ _ _ _ _ _ Hnd).
    set (pol := int (sched_policy attr)) in *.
    assert (Hmm : (pol = SCHED_FIFO \/ pol = SCHED_RR) /\
                  sys_sched_get_priority_min pol = 1 /\ sys_sched_get_priority_max pol = 99
                  \/ (pol ≠ SCHED_FIFO /\ pol ≠ SCHED_RR) /\
                  sys_sched_get_priority_min pol = 0 /\ sys_sched_get_priority_max pol = 0).
    { unfold sys_sched_get_priority_min, sys_sched_get_priority_max. rewrite Hurt.
      destruct Hpol as [-> | [-> | [-> | [-> | ->]]]]; cbn; auto 10. }
    assert (Hpos : (pol <? 0) = false).
    { apply Z.ltb_ge.
      unfold SCHED_NORMAL, SCHED_FIFO, SCHED_RR, SCHED_BATCH, SCHED_IDLE in *. lia. }
    split; [destruct Hmm as [(_ & -> & ->) | (_ & -> & ->)]; lia |]. split.
    + intros Hout. apply (recheck_invalid Hrt Hurt 1 who s p t); [done | done |].
      rewrite Hpos.
      destruct Hmm as [(Hp & Hmin & Hmax) | ((Hp1 & Hp2) & Hmin & Hmax)];
        rewrite Hmin, Hmax in Hout.
      * destruct (decide (sched_priority attr = 0)) as [E | E].
        -- right. right. left. done.
        -- right. left. lia.
      * right. right. right. split; [done |]. split; [done |]. lia.
    + intros s' H.
      destruct (recheck_outcome Hrt Hurt 1 who s p t attr user pi _ _ s' 0 Ht Hsp H)
        as [[Hne _] | (_ & _ & H1 & H0 & _)]; [done |].
      rewrite Hpos in H1, H0.
      destruct Hmm as [(Hp & -> & ->) | ((Hp1 & Hp2) & -> & ->)].
      * by apply H1.
      * rewrite (H0 Hp1 Hp2). lia.
  - intros pol H0 H1 H2 H3 H5.
    unfold sys_sched_get_priority_min, sys_sched_get_priority_max.
    destruct (Z.eqb_spec pol SCHED_FIFO); [done |].
    destruct (Z.eqb_spec pol SCHED_RR); [done |].
    destruct (Z.eqb_spec pol SCHED_NORMAL); [done |].
    destruct (Z.eqb_spec pol SCHED_BATCH); [done |].
    destruct (Z.eqb_spec pol SCHED_IDLE); [done |]. done.
Qed.

End Changes.

Lemma boot_one_reniced_inv : sched_inv (cfg := cfg2 false) boot_one_reniced.
Proof.
  apply (task_write_inv (cfg := cfg2 false) boot_one_queued 7%nat
           (default fresh_task (get_task boot_one_queued 7)));
    [apply boot_one_queued_inv | vm_compute; reflexivity | reflexivity].
Qed.

Lemma check_preempt_curr_marks_witness :
  exists s',
    check_preempt_curr (cfg := cfg2 false) boot_one_queued 0 7 = Some s' /\
    sched_inv (cfg := cfg2 false) s' /\ runqueues s' = runqueues boot_one_queued /\
    same_but_queue boot_one_queued s' /\
    (s' = boot_one_queued \/
     s' = put_task boot_one_queued
            (curr (default (boot_rq 0 0) (get_rq boot_one_queued 0)))
            (set_need_resched true (boot_idle_task 0))) /\
    (prio (boot_idle_task 0) ≠ MAX_PRIO (cfg := cfg2 false) ->
     rq_first_bmq_task (cfg := cfg2 false)
       (default (boot_rq 0 0) (get_rq boot_one_queued 0)) ≠ Some 7%nat ->
     s' = boot_one_queued) /\
    (prio (boot_idle_task 0) = MAX_PRIO (cfg := cfg2 false) \/
     rq_first_bmq_task (cfg := cfg2 false)
       (default (boot_rq 0 0) (get_rq boot_one_queued 0)) = Some 7%nat ->
     exists tc', get_task s' (curr (default (boot_rq 0 0) (get_rq boot_one_queued 0)))
                 = Some tc' /\ need_resched tc' = true).
Proof.
  apply (check_preempt_curr_marks (cfg := cfg2 false) boot_one_queued 0 _ 7%nat
           (boot_idle_task 0) (cfg2_ok false) boot_one_queued_inv boot_one_queued_rq).
  vm_compute. reflexivity.
Defined.

Lemma check_task_changed_requeues_witness :
  exists s' t' r' hs,
    check_task_changed (cfg := cfg2 false) boot_one_reniced 0 7 = Some s' /\
    sched_inv (cfg := cfg2 false) s' /\
    get_task s' 7 = Some t' /\ bmq_idx t' = 14 /\
    get_rq s' 0 = Some r' /\ zlookup (heads (queue r')) 14 = Some hs /\ 7%nat ∈ hs.
Proof.
  destruct (check_task_changed_requeues (cfg := cfg2 false) boot_one_reniced 0
              (default (boot_rq 0 0) (get_rq boot_one_queued 0)) 7%nat
              (set_prio 110 (set_on_rq TASK_ON_RQ_QUEUED
                               (default fresh_task (get_task boot_one_queued 7))))
              (boot_idle_task 0) (cfg2_ok false) boot_one_reniced_inv)
    as (s' & Hs' & Hinv & _ & _ & Hq).
  - vm_compute. reflexivity.
  - vm_compute. reflexivity.
  - vm_compute. reflexivity.
  - intros _. split; [apply boot_one_queued_linked |].
    split; [vm_compute; lia |]. vm_compute. split; [discriminate | reflexivity].
  - destruct Hq as (t' & r' & hs & Ht' & Hidx & Hr' & Hhs & Hin); [vm_compute; reflexivity |].
    exists s', t', r', hs. split; [exact Hs' |]. split; [exact Hinv |].
    split; [exact Ht' |]. split; [exact Hidx |]. split; [exact Hr' |].
    split; [exact Hhs | exact Hin].
Defined.

Lemma cfg2_prio_ok smt : prio_config_ok (H := cfg2 smt).
Proof. unfold prio_config_ok, MAX_NICE, MIN_NICE. cbn. lia. Qed.

Lemma boot_one_active_inv : sched_inv (cfg := cfg2 false) boot_one_active.
Proof.
  assert (E : boot_one_active
              = put_task boot_one_queued 7
                  (set_on_rq 1 (default fresh_task (get_task boot_one_queued 7))))
    by (vm_compute; reflexivity).
  rewrite E.
  apply (task_write_inv (cfg := cfg2 false) boot_one_queued 7%nat
           (default fresh_task (get_task boot_one_queued 7)));
    [apply boot_one_queued_inv | vm_compute; reflexivity | reflexivity].
Qed.

Lemma normal_task_index_witness :
  rt_task (cfg := cfg2 false) fresh_task = false /\
  task_sched_prio (cfg := cfg2 false) fresh_task = 120 - 100 + 4 + 4 /\
  0 <= task_sched_prio (cfg := cfg2 false) fresh_task < 40 + 2 * 4 /\
  task_prio (cfg := cfg2 false) fresh_task = task_sched_prio (cfg := cfg2 false) fresh_task.
Proof.
  apply (normal_task_index (cfg := cfg2 false) fresh_task (cfg2_prio_ok false)).
  - reflexivity.
  - vm_compute. split; [discriminate | reflexivity].
  - reflexivity.
  - unfold boost_in_range. cbn. lia.
Defined.

Lemma set_user_nice_static_witness :
  set_user_nice (cfg := cfg2 false) three_queued_state 8 5
  = Some (put_task three_queued_state 8
            (set_static_prio 125 (default rr_task (get_task three_queued_state 8)))) /\
  task_nice (cfg := cfg2 false)
    (set_static_prio 125 (default rr_task (get_task three_queued_state 8))) = 5.
Proof.
  apply (set_user_nice_static (cfg := cfg2 false) three_queued_state 8%nat
           (default rr_task (get_task three_queued_state 8)) 5 (cfg2_prio_ok false)).
  - vm_compute. reflexivity.
  - unfold MIN_NICE, MAX_NICE. lia.
  - vm_compute. lia.
  - vm_compute. reflexivity.
  - vm_compute. by eexists.
Defined.

Lemma set_user_nice_requeues_witness :
  exists s' t',
    set_user_nice (cfg := cfg2 false) boot_one_active 7 5 = Some s' /\
    sched_inv (cfg := cfg2 false) s' /\
    get_task s' 7 = Some t' /\ task_nice (cfg := cfg2 false) t' = 5 /\
    normal_prio_of t' = 129 /\ prio t' = 129 /\
    bmq_idx t' = task_sched_prio (cfg := cfg2 false) t'.
Proof.
  destruct (set_user_nice_requeues (cfg := cfg2 false) boot_one_active 7%nat
              (set_on_rq 1 (default fresh_task (get_task boot_one_queued 7)))
              (default (boot_rq 0 0) (get_rq boot_one_queued 0)) (boot_idle_task 0) 5
              (cfg2_prio_ok false) (cfg2_ok false))
    as (s' & t' & Hs' & Hinv & Ht' & Hnice & Hnp & Hprio & Hq).
  - vm_compute. discriminate.
  - apply boot_one_active_inv.
  - vm_compute. reflexivity.
  - vm_compute. reflexivity.
  - vm_compute. reflexivity.
  - reflexivity.
  - unfold boost_in_range. vm_compute. split; discriminate.
  - intros _. split; [apply boot_one_queued_linked | vm_compute; lia].
  - unfold MIN_NICE, MAX_NICE. lia.
  - vm_compute. lia.
  - destruct Hq as [Hidx _]; [vm_compute; reflexivity |].
    exists s', t'. split; [exact Hs' |]. split; [exact Hinv |]. split; [exact Ht' |].
    split; [exact Hnice |]. split; [exact Hnp |]. split; [exact Hprio | exact Hidx].
Defined.

Lemma sys_nice_spec_witness :
  sys_nice (cfg := cfg2 false) plain_nice_caller boot_one_active 7 (-5)
  = Some (boot_one_active, - EPERM).
Proof.
  destruct (sys_nice_spec (cfg := cfg2 false) plain_nice_caller boot_one_active 7%nat
              (set_on_rq 1 (default fresh_task (get_task boot_one_queued 7))) (-5) (-5)
              (cfg2_prio_ok false)) as (_ & H & _).
  - vm_compute. reflexivity.
  - vm_compute. split; discriminate.
  - vm_compute. reflexivity.
  - apply H; [lia | reflexivity | vm_compute; reflexivity].
Defined.

Lemma sched_priority_range_agrees_witness :
  sys_sched_get_priority_min (int SCHED_FIFO) = 1 /\
  sys_sched_get_priority_max (cfg := cfg2 false) (int SCHED_FIFO) = 99 /\
  __sched_setscheduler (cfg := cfg2 false) privileged three_queued_state 7
    (mk_attr SCHED_FIFO 0 0 0) true true = Some (three_queued_state, - EINVAL).
Proof.
  split; [reflexivity |]. split; [reflexivity |].
  destruct (sched_priority_range_agrees (cfg := cfg2 false) privileged three_queued_state
              7%nat (default expired_task (get_task three_queued_state 7))
              (mk_attr SCHED_FIFO 0 0 0) true true eq_refl eq_refl) as [H _].
  - vm_compute. reflexivity.
  - cbn. lia.
  - destruct H as (_ & H & _); [right; left; reflexivity |].
    apply H. left. vm_compute. reflexivity.
Defined.

(** ** Policy changes: permissions, flags and system calls *)

Section PolicyChanges.
Context `{cfg : Config}.
Hypothesis Hrt : MAX_RT_PRIO = 100.
Hypothesis Hurt : MAX_USER_RT_PRIO = 100.

Lemma valid_request_checks t attr pol :
  valid_request attr pol (if pol <? 0 then policy t else pol) ->
  negb (pol <? 0) && (SCHED_IDLE <? pol) = false /\
  negb (Z.land (sched_flags attr) (u64 (Z.lnot SCHED_FLAG_ALL)) =? 0) = false /\
  (has_mm t && (99 <? sched_priority attr))
  || (negb (has_mm t) && (99 <? sched_priority attr)) = false /\
  negb (eqb ((SCHED_RR =? (if pol <? 0 then policy t else pol))
             || (SCHED_FIFO =? (if pol <? 0 then policy t else pol)))
            (negb (sched_priority attr =? 0))) = false.
Proof.
  intros (Hpol & Hflags & Hprio).
  set (pe := if pol <? 0 then policy t else pol) in *.
  split.
  { destruct (Z.ltb_spec pol 0) as [| Hge]; [done |]. cbn.
    destruct (Hpol Hge) as [Hle _]. apply Z.ltb_ge. lia. }
  split; [by rewrite Hflags |].
  split.
  { assert ((99 <? sched_priority attr) = false) as -> by (apply Z.ltb_ge; lia).
    by rewrite !andb_false_r. }
  apply negb_false_iff, eqb_true_iff.
  destruct Hprio as [[Hp Hk] | (Hp1 & Hp2 & Hk)].
  - assert ((SCHED_RR =? pe) || (SCHED_FIFO =? pe) = true) as ->.
    { apply orb_true_iff. destruct Hp as [-> | ->]; [by right | by left]. }
    symmetry. apply negb_true_iff, Z.eqb_neq. lia.
  - assert ((SCHED_RR =? pe) || (SCHED_FIFO =? pe) = false) as ->.
    { apply orb_false_iff. split; apply Z.eqb_neq; done. }
    rewrite Hk. done.
Qed.

(** No accepted set of flags has the bit that [__sched_setscheduler]
    tests for reset-on-fork. *)
Lemma known_flags_no_reset flags :
  Z.land flags (u64 (Z.lnot SCHED_FLAG_ALL)) = 0 ->
  Z.land flags SCHED_RESET_ON_FORK = 0.
Proof.
  intros H. apply Z.bits_inj'. intros n Hn. rewrite Z.bits_0, Z.land_spec.
  destruct (decide (n = 30)) as [-> | Hne].
  - assert (Hb : Z.testbit (Z.land flags (u64 (Z.lnot SCHED_FLAG_ALL))) 30 = false)
      by (rewrite H; apply Z.bits_0).
    rewrite Z.land_spec in Hb.
    change (Z.testbit (u64 (Z.lnot SCHED_FLAG_ALL)) 30) with true in Hb.
    rewrite andb_true_r in Hb. by rewrite Hb.
  - change SCHED_RESET_ON_FORK with (2 ^ 30). rewrite Z.pow2_bits_eqb by lia.
    destruct (Z.eqb_spec 30 n); [lia |]. apply andb_false_r.
Qed.

(** X15: The permission rules of [__sched_setscheduler] for a caller without
    CAP_SYS_NICE, on a request that passes validation: [-EPERM], with the
    state as it was, when the request selects an RT policy the task does
    not have while RLIMIT_RTPRIO is 0, when it raises the RT priority above
    both the task's and the limit, when the caller does not own the task,
    or when the task has [sched_reset_on_fork] set and the request names a
    policy.  A call from the kernel ([user] false) is never refused for
    permissions: it returns 0 or [-EINVAL]. *)
Theorem setscheduler_permission who s p t attr pi :
  get_task s p = Some t ->
  int (sched_policy attr) ≠ SCHED_DEADLINE ->
  (valid_request attr (int (sched_policy attr)) (requested_policy t attr) ->
   capable_sys_nice who = false ->
   ((requested_policy t attr = SCHED_FIFO \/ requested_policy t attr = SCHED_RR) /\
    requested_policy t attr ≠ policy t /\ rlimit_rtprio who = 0) \/
   ((requested_policy t attr = SCHED_FIFO \/ requested_policy t attr = SCHED_RR) /\
    rt_priority t < sched_priority attr /\ rlimit_rtprio who < sched_priority attr) \/
   same_owner who = false \/
   (sched_reset_on_fork t = true /\ 0 <= int (sched_policy attr)) ->
     __sched_setscheduler who s p attr true pi = Some (s, - EPERM)) /\
  (forall s' ret, __sched_setscheduler who s p attr false pi = Some (s', ret) ->
     ret = 0 \/ ret = - EINVAL).
Proof.
  intros Ht Hnd. rewrite !(setscheduler_not_deadline _ _ _ _ _ _ Hnd).
  rewrite !recheck_fuel.
  unfold requested_policy. set (pol := int (sched_policy attr)) in *.
  cbn [setscheduler_recheck]. rewrite Ht. cbn [mbind option_bind].
  rewrite Hrt, Hurt. change (u32 (100 - 1)) with 99.
  set (pe := if pol <? 0 then policy t else pol).
  split.
  - intros Hv Hcap Hcase.
    pose proof Hv as (_ & Hflags & _). subst pe.
    destruct (valid_request_checks t attr pol Hv) as (-> & -> & -> & ->).
    set (pe := if pol <? 0 then policy t else pol) in *.
    rewrite Hcap. cbn [negb andb].
    assert (Hperm :
      (if ((SCHED_FIFO =? pe) || (SCHED_RR =? pe))
          && (negb (pe =? policy t) && (rlimit_rtprio who =? 0)
              || (rt_priority t <? sched_priority attr)
                 && (rlimit_rtprio who <? sched_priority attr))
       then false
       else if negb (same_owner who) then false
       else if sched_reset_on_fork t
               && negb (if pol <? 0 then sched_reset_on_fork t
                        else negb (Z.land (sched_flags attr) SCHED_RESET_ON_FORK =? 0))
            then false else true) = false).
    { destruct Hcase as [(Hp & Hne & Hlim) | [(Hp & Hk & Hlim) | [Hown | [Hrof Hpos]]]].
      - assert ((SCHED_FIFO =? pe) || (SCHED_RR =? pe) = true) as ->.
        { apply orb_true_iff. destruct Hp as [-> | ->]; [by left | by right]. }
        destruct (Z.eqb_spec pe (policy t)); [done |]. rewrite Hlim. done.
      - assert ((SCHED_FIFO =? pe) || (SCHED_RR =? pe) = true) as ->.
        { apply orb_true_iff. destruct Hp as [-> | ->]; [by left | by right]. }
        destruct (Z.ltb_spec (rt_priority t) (sched_priority attr)); [| lia].
        destruct (Z.ltb_spec (rlimit_rtprio who) (sched_priority attr)); [| lia].
        by rewrite orb_true_r.
      - rewrite Hown. by destruct (_ && _).
      - rewrite Hrof. destruct (Z.ltb_spec pol 0); [lia |].
        rewrite (known_flags_no_reset _ Hflags). cbn.
        destruct (_ && _); [done |]. by destruct (negb _). }
    rewrite Hperm. done.
  - intros s' ret. cbn [andb negb].
    repeat match goal with
           | |- (if ?b then _ else _) = Some _ -> _ => destruct b
           | |- Some _ = Some _ -> _ => intros [= <- <-]; ((by left) || (by right))
           | |- None = Some _ -> _ => done
           | |- (_ ≫= _) = Some _ -> _ =>
               let H := fresh in
               intros H; apply bind_Some in H as (? & _ & H); cbn beta in H; revert H
           end.
Qed.

(** X16: A request that names a policy and is accepted leaves the task with
    [sched_reset_on_fork] clear, whatever its flags: the flag word is
    tested with the policy bit [SCHED_RESET_ON_FORK], which no accepted
    flag word has.  A request that names no policy keeps the flag. *)
Theorem setscheduler_reset_on_fork who s p t attr user pi s' :
  get_task s p = Some t ->
  __sched_setscheduler who s p attr user pi = Some (s', 0) ->
  exists t', get_task s' p = Some t' /\
    sched_reset_on_fork t'
    = (if int (sched_policy attr) <? 0 then sched_reset_on_fork t else false).
Proof.
  intros Ht. unfold __sched_setscheduler.
  set (squash := SCHED_DEADLINE =? int (sched_policy attr)).
  assert (Hpol : ((if squash then int (sched_policy (if squash then dl_squash_attr else attr))
                   else int (sched_policy attr)) <? 0)
                 = (int (sched_policy attr) <? 0)).
  { unfold squash. destruct (Z.eqb_spec SCHED_DEADLINE (int (sched_policy attr))) as [<- | _];
      done. }
  revert Hpol.
  generalize (if squash then int (sched_policy (if squash then dl_squash_attr else attr))
              else int (sched_policy attr)).
  generalize (if squash then int (MAX_RT_PRIO - 1
                                  - sched_priority (if squash then dl_squash_attr else attr))
              else int (MAX_RT_PRIO - 1 - sched_priority attr)).
  generalize (if squash then dl_squash_attr else attr). clear squash.
  intros a newprio pol Hpol. rewrite <- Hpol. clear Hpol.
  rewrite recheck_fuel. cbn [setscheduler_recheck]. rewrite Ht. cbn [mbind option_bind].
  set (rof := if pol <? 0 then sched_reset_on_fork t
              else negb (Z.land (sched_flags a) SCHED_RESET_ON_FORK =? 0)).
  destruct (negb (pol <? 0) && (SCHED_IDLE <? pol));
    [intros [= _ H]; by unfold EINVAL in H |].
  destruct (Z.eqb_spec (Z.land (sched_flags a) (u64 (Z.lnot SCHED_FLAG_ALL))) 0)
    as [Hflags | _]; cbn [negb]; [| intros [= _ H]; by unfold EINVAL in H].
  assert (Hrof : rof = if pol <? 0 then sched_reset_on_fork t else false).
  { unfold rof. destruct (pol <? 0); [done |].
    by rewrite (known_flags_no_reset _ Hflags). }
  destruct (_ || _); [intros [= _ H]; by unfold EINVAL in H |].
  destruct (negb (eqb _ _)); [intros [= _ H]; by unfold EINVAL in H |].
  match goal with
  | |- context [if negb ?b then Some (s, - EPERM) else _] => destruct b
  end; cbn [negb]; [| intros [= _ H]; by unfold EPERM in H].
  destruct (user && negb (security_task_setscheduler who =? 0)) eqn:Hsec.
  { intros [= _ H]. apply andb_true_iff in Hsec as [_ Hsec].
    rewrite H in Hsec. done. }
  intros H. apply bind_Some in H as (r & Hr & H).
  destruct (bool_decide _); [injection H as _ H; by unfold EINVAL in H |].
  destruct (_ && _ && _).
  { injection H as <-. eexists. split; [apply get_task_put_task_eq |]. exact Hrof. }
  destruct (negb (_ =? -1) && negb (_ =? policy t)); [done |].
  apply bind_Some in H as (eff & _ & H).
  destruct (pi && _).
  { injection H as <-. eexists. split; [apply get_task_put_task_eq |]. exact Hrof. }
  apply bind_Some in H as (t2 & Ht2 & H).
  apply bind_Some in H as (s2 & Hs2 & H). injection H as <-.
  apply check_task_changed_fields in Hs2.
  destruct (same_but_queue_get _ _ p t2 Hs2) as (t' & Ht' & Ef);
    [apply get_task_put_task_eq |].
  exists t'. split; [done |].
  assert (E2 : sched_reset_on_fork t2 = rof).
  { unfold __setscheduler in Ht2.
    destruct pi; [apply bind_Some in Ht2 as (np & _ & Ht2) |]; by injection Ht2 as <-. }
  rewrite <- Hrof, <- E2. unfold sched_fields in Ef. destruct t', t2. cbn in *. by simplify_eq.
Qed.

Lemma land_lnot_id a b : Z.land a b = 0 -> Z.land a (Z.lnot b) = a.
Proof.
  intros H. apply Z.bits_inj'. intros n Hn.
  rewrite Z.land_spec, Z.lnot_spec by done.
  assert (Hb : Z.testbit (Z.land a b) n = false) by (rewrite H; apply Z.bits_0).
  rewrite Z.land_spec in Hb. destruct (Z.testbit a n), (Z.testbit b n); done.
Qed.

Lemma int_u32_small z : 0 <= z < 2 ^ 31 -> int (u32 z) = z.
Proof.
  intros H. unfold u32, uwrap. rewrite Z.mod_small by lia.
  apply int_small. unfold fits_int. lia.
Qed.

(** X17: The [sched_setscheduler] system call returns [-EINVAL] for a negative
    policy and [-ESRCH] for an unknown task.  A negative [sched_priority]
    is refused with [-EINVAL] as well, although the test
    [attr->sched_priority < 0] can never fire on the unsigned field: the
    value wraps to one above the largest valid priority.  Only a DEADLINE
    request escapes this, because its parameters are replaced before they
    are looked at.  In each case the state is left as it was. *)
Theorem sys_sched_setscheduler_edges who s p t pol prio :
  (pol < 0 -> sys_sched_setscheduler who s (Some p) pol prio = Some (s, - EINVAL)) /\
  (0 <= pol -> sys_sched_setscheduler who s None pol prio = Some (s, - ESRCH)) /\
  (get_task s p = Some t -> 0 <= pol < 2 ^ 31 -> - 2 ^ 31 <= prio < 0 ->
   Z.land pol (Z.lnot SCHED_RESET_ON_FORK) ≠ SCHED_DEADLINE ->
     sys_sched_setscheduler who s (Some p) pol prio = Some (s, - EINVAL)).
Proof.
  unfold sys_sched_setscheduler. split; [| split].
  - intros H. by destruct (Z.ltb_spec pol 0); [| lia].
  - intros H. by destruct (Z.ltb_spec pol 0); [lia |].
  - intros Ht Hpol Hprio Hnd. destruct (Z.ltb_spec pol 0); [lia |].
    unfold sched_setscheduler, _sched_setscheduler. rewrite Ht. cbn [mbind option_bind].
    set (legacy := negb (pol =? SETPARAM_POLICY)
                   && negb (Z.land pol SCHED_RESET_ON_FORK =? 0)).
    assert (Hmask : (if legacy then Z.land pol (Z.lnot SCHED_RESET_ON_FORK) else pol)
                    = Z.land pol (Z.lnot SCHED_RESET_ON_FORK)).
    { unfold legacy, SETPARAM_POLICY. destruct (Z.eqb_spec pol (-1)); [lia |].
      destruct (Z.eqb_spec (Z.land pol SCHED_RESET_ON_FORK) 0) as [E | E].
      - symmetry. by apply land_lnot_id.
      - reflexivity. }
    rewrite Hmask.
    assert (Hrange : 0 <= Z.land pol (Z.lnot SCHED_RESET_ON_FORK) < 2 ^ 31).
    { split; [apply Z.land_nonneg; lia |].
      apply bits_high_bound; [lia | apply Z.land_nonneg; lia |].
      intros j Hj. rewrite Z.land_spec.
      destruct (Z.testbit pol j) eqn:Hb; [| done].
      apply (bits_below pol 31) in Hb; lia. }
    rewrite setscheduler_not_deadline by (cbn [sched_policy]; by rewrite int_u32_small).
    cbn [sched_policy sched_priority].
    apply (recheck_invalid Hrt Hurt 1 who s p t); [done | |].
    + cbn [sched_priority]. unfold u32, uwrap. apply Z.mod_pos_bound. lia.
    + right. left. cbn [sched_priority]. unfold u32, uwrap.
      rewrite <- (Z.mod_add prio 1 (2 ^ 32)) by lia.
      rewrite Z.mod_small; lia.
Qed.

(** X18: [sched_setparam] cannot change the policy: an accepted call leaves
    the task with the policy it had, and its priority is checked against
    that policy, so it must be 0 for a task without RT policy and lie in
    1..99 for a FIFO or RR task; anything else returns [-EINVAL] and
    leaves the state as it was. *)
Theorem sched_setparam_keeps_policy who s p t prio :
  get_task s p = Some t -> - 2 ^ 31 <= prio < 2 ^ 31 ->
  (forall s', sys_sched_setparam who s (Some p) prio = Some (s', 0) ->
     exists t', get_task s' p = Some t' /\ policy t' = policy t) /\
  (rt_policy (policy t) = true ->
     (forall s', sys_sched_setparam who s (Some p) prio = Some (s', 0) -> 1 <= prio <= 99) /\
     (prio < 1 \/ 99 < prio ->
        sys_sched_setparam who s (Some p) prio = Some (s, - EINVAL))) /\
  (rt_policy (policy t) = false ->
     (forall s', sys_sched_setparam who s (Some p) prio = Some (s', 0) -> prio = 0) /\
     (prio ≠ 0 -> sys_sched_setparam who s (Some p) prio = Some (s, - EINVAL))).
Proof.
  intros Ht Hprio.
  unfold sys_sched_setparam, sched_setscheduler, _sched_setscheduler.
  rewrite Ht. cbn [mbind option_bind].
  change (negb (SETPARAM_POLICY =? SETPARAM_POLICY) && _) with false. cbn iota.
  set (attr := mk_attr (u32 SETPARAM_POLICY) 0 (PRIO_TO_NICE (static_prio t)) (u32 prio)).
  assert (Hpol : int (sched_policy attr) = -1) by reflexivity.
  rewrite setscheduler_not_deadline by (rewrite Hpol; done). rewrite Hpol.
  assert (Hk : 0 <= sched_priority attr).
  { cbn. unfold u32, uwrap. apply Z.mod_pos_bound. lia. }
  assert (Hu : (0 <= prio -> u32 prio = prio) /\ (prio < 0 -> 2 ^ 31 <= u32 prio)).
  { unfold u32, uwrap. split; intros H.
    - apply Z.mod_small. lia.
    - rewrite <- (Z.mod_add prio 1 (2 ^ 32)) by lia. rewrite Z.mod_small; lia. }
  destruct Hu as [Hu1 Hu2].
  assert (Hrtp : rt_policy (policy t) = true <->
                 policy t = SCHED_FIFO \/ policy t = SCHED_RR).
  { unfold rt_policy. rewrite orb_true_iff, !Z.eqb_eq. done. }
  assert (Hout : forall s', setscheduler_recheck 2 who s p attr true true
                   (int (MAX_RT_PRIO - 1 - sched_priority attr)) (-1) (-1) = Some (s', 0) ->
            (policy t = SCHED_FIFO \/ policy t = SCHED_RR -> 1 <= u32 prio <= 99) /\
            (policy t ≠ SCHED_FIFO -> policy t ≠ SCHED_RR -> u32 prio = 0) /\
            exists t', get_task s' p = Some t' /\ policy t' = policy t).
  { intros s' H.
    destruct (recheck_outcome Hrt Hurt 1 who s p t attr true true _ _ s' 0 Ht Hk H)
      as [[Hne _] | (_ & _ & H1 & H0 & t' & Ht' & Hp')]; [done |].
    split; [exact H1 |]. split; [exact H0 |]. exists t'. split; [done |].
    by apply Hp'. }
  split; [| split].
  - intros s' H. by destruct (Hout s' H) as (_ & _ & H3).
  - intros Hrtpol. apply Hrtp in Hrtpol. split.
    + intros s' H. destruct (Hout s' H) as (H1 & _ & _). specialize (H1 Hrtpol).
      destruct (Z.lt_ge_cases prio 0) as [Hneg | Hpos]; [specialize (Hu2 Hneg); lia |].
      rewrite Hu1 in H1 by done. done.
    + intros Hbad. apply (recheck_invalid Hrt Hurt 1 who s p t); [done | done |].
      cbn [sched_priority attr].
      destruct (Z.lt_ge_cases prio 0) as [Hneg | Hpos].
      * right. left. specialize (Hu2 Hneg). lia.
      * rewrite Hu1 by done. destruct (decide (prio = 0)) as [-> | Hne].
        -- right. right. left. done.
        -- right. left. lia.
  - intros Hnrt.
    assert (Hn : policy t ≠ SCHED_FIFO /\ policy t ≠ SCHED_RR).
    { split; intros E; assert (rt_policy (policy t) = true) by (apply Hrtp; auto);
        congruence. }
    destruct Hn as [Hn1 Hn2]. split.
    + intros s' H. destruct (Hout s' H) as (_ & H0 & _). specialize (H0 Hn1 Hn2).
      destruct (Z.lt_ge_cases prio 0) as [Hneg | Hpos]; [specialize (Hu2 Hneg); lia |].
      by rewrite Hu1 in H0.
    + intros Hne. apply (recheck_invalid Hrt Hurt 1 who s p t); [done | done |].
      cbn [sched_priority attr]. right. right. right.
      split; [done |]. split; [done |].
      destruct (Z.lt_ge_cases prio 0) as [Hneg | Hpos]; [specialize (Hu2 Hneg); lia |].
      by rewrite Hu1.
Qed.

(** X19: [sched_setscheduler_nocheck] with a FIFO or RR policy and a priority
    [k] in 1..99, on a task that is not a stop task, holds no inherited
    priority and has its [prio] at its normal priority, returns 0 for any
    caller and keeps the runqueue invariants.  Afterwards the task has the
    requested policy and [rt_priority = k], and its [prio] is
    [MAX_RT_PRIO - 1 - k], so it counts as an RT task with queue index 0. *)
Theorem sched_setscheduler_nocheck_rt who s p t r tc pol k :
  config_ok -> sched_inv s ->
  get_task s p = Some t -> get_rq s (task_cpu t) = Some r ->
  get_task s (curr r) = Some tc ->
  stop r ≠ Some p -> pi_top_task t = None -> prio t = normal_prio t ->
  (task_on_rq_queued t = true -> queued r p /\ p ≠ idle r) ->
  pol = SCHED_FIFO \/ pol = SCHED_RR -> 1 <= k <= 99 ->
  exists s' t',
    sched_setscheduler_nocheck who s p pol k = Some (s', 0) /\ sched_inv s' /\
    get_task s' p = Some t' /\ policy t' = pol /\ rt_priority t' = k /\
    prio t' = MAX_RT_PRIO - 1 - k /\ rt_task t' = true /\ task_sched_prio t' = 0.
Proof.
  intros Hcfg Hinv Ht Hr Htc Hstop Hpi Hcons Hq Hpol Hk.
  assert (Hfinish : forall s' t', sched_inv s' -> get_task s' p = Some t' ->
            policy t' = pol -> rt_priority t' = k -> prio t' = 99 - k ->
            sched_inv s' /\ get_task s' p = Some t' /\ policy t' = pol /\
            rt_priority t' = k /\ prio t' = 100 - 1 - k /\
            rt_task t' = true /\ task_sched_prio t' = 0).
  { intros s' t' H1 H2 H3 H4 H5.
    assert (Hlt : (prio t' <? MAX_RT_PRIO) = true) by (rewrite Hrt; apply Z.ltb_lt; lia).
    unfold rt_task, rt_prio, task_sched_prio. rewrite Hlt.
    do 4 (split; [done |]). split; [lia |]. done. }
  unfold sched_setscheduler_nocheck, _sched_setscheduler.
  rewrite Ht. cbn [mbind option_bind].
  assert (Hleg : negb (pol =? SETPARAM_POLICY)
                 && negb (Z.land pol SCHED_RESET_ON_FORK =? 0) = false).
  { by destruct Hpol as [-> | ->]. }
  rewrite Hleg.
  assert (Hup : u32 pol = pol) by (by destruct Hpol as [-> | ->]).
  assert (Huk : u32 k = k) by (unfold u32, uwrap; apply Z.mod_small; lia).
  rewrite Hup, Huk.
  set (attr := mk_attr pol 0 (PRIO_TO_NICE (static_prio t)) k).
  assert (Hip : int pol = pol) by (by destruct Hpol as [-> | ->]).
  assert (Hnd : int (sched_policy attr) ≠ SCHED_DEADLINE).
  { cbn. rewrite Hip. destruct Hpol as [-> | ->]; done. }
  rewrite (setscheduler_not_deadline _ _ _ _ _ _ Hnd). rewrite recheck_fuel.
  cbn [sched_policy sched_priority attr]. rewrite Hip.
  assert (Hnew : int (MAX_RT_PRIO - 1 - k) = 99 - k).
  { rewrite Hrt. apply int_small. unfold fits_int. lia. }
  rewrite Hnew.
  assert (Hpos : (pol <? 0) = false) by (by destruct Hpol as [-> | ->]).
  assert (Hv : valid_request attr pol (if pol <? 0 then policy t else pol)).
  { rewrite Hpos. split; [| split].
    - intros _. split; [| done]. by destruct Hpol as [-> | ->].
    - done.
    - left. cbn. split; [tauto | done]. }
  cbn [setscheduler_recheck]. rewrite Ht. cbn [mbind option_bind].
  rewrite Hrt, Hurt. change (u32 (100 - 1)) with 99.
  destruct (valid_request_checks t attr pol Hv) as (-> & -> & -> & ->).
  rewrite Hpos. cbn [andb negb]. rewrite Hr. cbn [mbind option_bind].
  rewrite bool_decide_eq_false_2 by congruence.
  cbn [sched_flags sched_priority sched_nice attr].
  change (negb (Z.land 0 SCHED_RESET_ON_FORK =? 0)) with false.
  assert (Hrp : rt_policy pol = true) by (by destruct Hpol as [-> | ->]).
  rewrite Hrp. cbn [negb andb]. rewrite andb_true_r.
  set (t1 := set_sched_reset_on_fork false t).
  assert (Hnp : forall x, policy x = pol -> rt_priority x = k -> normal_prio x = 99 - k).
  { intros x Hx1 Hx2. unfold normal_prio, task_has_rt_policy. rewrite Hx1, Hrp, Hx2, Hrt.
    change (int (100 - 1)) with 99. apply int_small. unfold fits_int. lia. }
  destruct ((pol =? policy t) && negb (negb (k =? rt_priority t))) eqn:Hsame.
  { (* nothing to change *)
    apply andb_true_iff in Hsame as [E1 E2].
    apply Z.eqb_eq in E1. apply negb_true_iff, negb_false_iff, Z.eqb_eq in E2.
    exists (put_task s p t1), t1. split; [done |].
    apply Hfinish; try done.
    - by apply (task_write_inv s p t).
    - apply get_task_put_task_eq.
    - cbn. rewrite Hcons. by apply Hnp. }
  change (negb (-1 =? -1) && negb (-1 =? policy t)) with false. cbn iota.
  unfold rt_effective_prio. change (pi_top_task t1) with (pi_top_task t). rewrite Hpi.
  cbn [__rt_effective_prio mbind option_bind andb].
  set (t2 := __setscheduler_params t1 attr).
  assert (Hp2 : policy t2 = pol /\ rt_priority t2 = k /\ bmq_idx t2 = bmq_idx t /\
                task_on_rq_queued t2 = task_on_rq_queued t /\ normal_prio_of t2 = 99 - k).
  { unfold t2, __setscheduler_params, SETPARAM_POLICY. cbn [sched_policy attr].
    rewrite Hip. destruct (Z.eqb_spec pol (-1)) as [E | _].
    { destruct Hpol as [-> | ->]; done. }
    split; [done |]. split; [done |]. split; [done |]. split; [done |].
    cbn [normal_prio_of set_normal_prio]. by apply Hnp. }
  destruct Hp2 as (Hp21 & Hp22 & Hp23 & Hp24 & Hp25).
  destruct (Z.eqb_spec (99 - k) (prio t1)) as [Heq | Hneq].
  { (* the effective priority stays: only the parameters are stored *)
    exists (put_task s p t2), t2. split; [done |].
    apply Hfinish; try done.
    - by apply (task_write_inv s p t).
    - apply get_task_put_task_eq. }
  unfold __setscheduler, rt_effective_prio. fold t2.
  change (pi_top_task (set_prio _ t2)) with (pi_top_task t).
  rewrite Hpi. cbn [__rt_effective_prio mbind option_bind].
  set (t3 := set_prio (prio (set_prio (normal_prio t2) t2)) (set_prio (normal_prio t2) t2)).
  assert (Hp3 : prio t3 = 99 - k).
  { unfold t3. cbn [prio set_prio]. by apply Hnp. }
  set (s1 := put_task s p t3).
  assert (Hinv1 : sched_inv s1).
  { apply (task_write_inv s p t t3 Hinv Ht). exact Hp23. }
  assert (Htc1 : exists tc1, get_task s1 (curr r) = Some tc1).
  { unfold s1. rewrite get_task_put_task. destruct (decide (p = curr r)); by eexists. }
  destruct Htc1 as [tc1 Htc1].
  destruct (check_task_changed_returns s1 (task_cpu t) r p t3 tc1 Hcfg Hinv1)
    as (s' & Hs' & Hinv' & Hsame' & _).
  { exact Hr. }
  { apply get_task_put_task_eq. }
  { exact Htc1. }
  { intros Hon. change (task_on_rq_queued t3) with (task_on_rq_queued t2) in Hon.
    rewrite Hp24 in Hon. destruct (Hq Hon) as [H1 H2].
    split; [done |]. split; [done |].
    unfold task_sched_prio. rewrite Hp3, Hrt.
    destruct (Z.ltb_spec (99 - k) 100); [| lia]. destruct Hcfg as (? & _). lia. }
  change (task_cpu t1) with (task_cpu t). fold s1. rewrite Hs'. cbn [mbind option_bind].
  destruct (same_but_queue_get _ _ p t3 Hsame') as (t' & Ht' & Ef);
    [apply get_task_put_task_eq |].
  exists s', t'. split; [done |].
  assert (Ef' : policy t' = policy t3 /\ rt_priority t' = rt_priority t3 /\
                prio t' = prio t3).
  { unfold sched_fields in Ef. destruct t', t3. cbn in *. by simplify_eq. }
  destruct Ef' as (F1 & F2 & F3).
  apply Hfinish;
    [done | done | rewrite F1; exact Hp21 | rewrite F2; exact Hp22 | rewrite F3; exact Hp3].
Qed.

End PolicyChanges.

Lemma boot_one_active_task :
  get_task boot_one_active 7
  = Some (set_on_rq 1 (default fresh_task (get_task boot_one_queued 7))).
Proof. vm_compute. reflexivity. Qed.

Lemma setscheduler_permission_witness :
  __sched_setscheduler (cfg := cfg2 false) unprivileged boot_one_active 7
    (mk_attr SCHED_FIFO 0 0 50) true true = Some (boot_one_active, - EPERM) /\
  forall s' ret,
    __sched_setscheduler (cfg := cfg2 false) unprivileged boot_one_active 7
      (mk_attr SCHED_FIFO 0 0 50) false true = Some (s', ret) ->
    ret = 0 \/ ret = - EINVAL.
Proof.
  assert (Hnd : int (sched_policy (mk_attr SCHED_FIFO 0 0 50)) ≠ SCHED_DEADLINE)
    by (vm_compute; discriminate).
  destruct (setscheduler_permission (cfg := cfg2 false) eq_refl eq_refl unprivileged
              boot_one_active 7%nat _ (mk_attr SCHED_FIFO 0 0 50) true
              boot_one_active_task Hnd) as [H1 H2].
  split; [| exact H2].
  apply H1.
  - split; [| split].
    + intros _. split; [vm_compute; discriminate | reflexivity].
    + vm_compute. reflexivity.
    + left. split; [left; reflexivity |]. cbn. lia.
  - reflexivity.
  - left. split; [left; reflexivity |]. split; [vm_compute; discriminate | reflexivity].
Defined.

Lemma setscheduler_reset_on_fork_witness :
  exists s' t',
    __sched_setscheduler (cfg := cfg2 false) privileged boot_one_active 7
      (mk_attr SCHED_BATCH SCHED_FLAG_RESET_ON_FORK 0 0) true true = Some (s', 0) /\
    get_task s' 7 = Some t' /\ sched_reset_on_fork t' = false.
Proof.
  assert (E : __sched_setscheduler (cfg := cfg2 false) privileged boot_one_active 7
                (mk_attr SCHED_BATCH SCHED_FLAG_RESET_ON_FORK 0 0) true true
              = Some (default boot_one_active
                        (fst <$> __sched_setscheduler (cfg := cfg2 false) privileged
                                   boot_one_active 7
                                   (mk_attr SCHED_BATCH SCHED_FLAG_RESET_ON_FORK 0 0)
                                   true true), 0))
    by (vm_compute; reflexivity).
  destruct (setscheduler_reset_on_fork (cfg := cfg2 false) privileged boot_one_active 7%nat _
              (mk_attr SCHED_BATCH SCHED_FLAG_RESET_ON_FORK 0 0) true true _
              boot_one_active_task E) as (t' & Ht' & Hf).
  eexists _, t'. split; [exact E |]. split; [exact Ht' | exact Hf].
Defined.

Lemma sys_sched_setscheduler_edges_witness :
  sys_sched_setscheduler (cfg := cfg2 false) privileged boot_one_active (Some 7%nat)
    (-2) 0 = Some (boot_one_active, - EINVAL) /\
  sys_sched_setscheduler (cfg := cfg2 false) privileged boot_one_active None
    SCHED_FIFO 10 = Some (boot_one_active, - ESRCH) /\
  sys_sched_setscheduler (cfg := cfg2 false) privileged boot_one_active (Some 7%nat)
    SCHED_FIFO (-1) = Some (boot_one_active, - EINVAL).
Proof.
  destruct (sys_sched_setscheduler_edges (cfg := cfg2 false) eq_refl eq_refl privileged
              boot_one_active 7%nat
              (set_on_rq 1 (default fresh_task (get_task boot_one_queued 7)))
              (-2) 0) as (H1 & _ & _).
  destruct (sys_sched_setscheduler_edges (cfg := cfg2 false) eq_refl eq_refl privileged
              boot_one_active 7%nat
              (set_on_rq 1 (default fresh_task (get_task boot_one_queued 7)))
              SCHED_FIFO 10) as (_ & H2 & _).
  destruct (sys_sched_setscheduler_edges (cfg := cfg2 false) eq_refl eq_refl privileged
              boot_one_active 7%nat
              (set_on_rq 1 (default fresh_task (get_task boot_one_queued 7)))
              SCHED_FIFO (-1)) as (_ & _ & H3).
  split; [apply H1; lia |]. split; [apply H2; vm_compute; discriminate |].
  apply H3; [exact boot_one_active_task | vm_compute; split; [discriminate | reflexivity]
            | lia | vm_compute; discriminate].
Defined.

Lemma sched_setparam_keeps_policy_witness :
  sys_sched_setparam (cfg := cfg2 false) privileged boot_one_active (Some 7%nat) 10
  = Some (boot_one_active, - EINVAL) /\
  sys_sched_setparam (cfg := cfg2 false) privileged three_queued_state (Some 8%nat) 0
  = Some (three_queued_state, - EINVAL).
Proof.
  split.
  - destruct (sched_setparam_keeps_policy (cfg := cfg2 false) eq_refl eq_refl privileged
                boot_one_active 7%nat _ 10 boot_one_active_task) as (_ & _ & H);
      [lia |].
    destruct H as [_ H]; [vm_compute; reflexivity |]. apply H. lia.
  - assert (Ht : get_task three_queued_state 8
                 = Some (default rr_task (get_task three_queued_state 8)))
      by (vm_compute; reflexivity).
    destruct (sched_setparam_keeps_policy (cfg := cfg2 false) eq_refl eq_refl privileged
                three_queued_state 8%nat _ 0 Ht) as (_ & H & _); [lia |].
    destruct H as [_ H]; [vm_compute; reflexivity |]. apply H. lia.
Defined.

Lemma sched_setscheduler_nocheck_rt_witness :
  exists s' t',
    sched_setscheduler_nocheck (cfg := cfg2 false) unprivileged boot_one_active 7
      SCHED_FIFO 50 = Some (s', 0) /\
    sched_inv (cfg := cfg2 false) s' /\ get_task s' 7 = Some t' /\
    policy t' = SCHED_FIFO /\ rt_priority t' = 50 /\ prio t' = 49 /\
    task_sched_prio (cfg := cfg2 false) t' = 0.
Proof.
  assert (Hr : get_rq boot_one_active
                 (task_cpu (set_on_rq 1 (default fresh_task (get_task boot_one_queued 7))))
               = Some (default (boot_rq 0 0) (get_rq boot_one_queued 0)))
    by (vm_compute; reflexivity).
  assert (Htc : get_task boot_one_active
                  (curr (default (boot_rq 0 0) (get_rq boot_one_queued 0)))
                = Some (boot_idle_task 0)) by (vm_compute; reflexivity).
  assert (Hstop : stop (default (boot_rq 0 0) (get_rq boot_one_queued 0)) ≠ Some 7%nat)
    by (vm_compute; discriminate).
  assert (Hcons : prio (set_on_rq 1 (default fresh_task (get_task boot_one_queued 7)))
                  = normal_prio (cfg := cfg2 false)
                      (set_on_rq 1 (default fresh_task (get_task boot_one_queued 7))))
    by (vm_compute; reflexivity).
  assert (Hq : task_on_rq_queued (set_on_rq 1 (default fresh_task (get_task boot_one_queued 7)))
               = true ->
               queued (default (boot_rq 0 0) (get_rq boot_one_queued 0)) 7%nat /\
               7%nat ≠ idle (default (boot_rq 0 0) (get_rq boot_one_queued 0))).
  { intros _. split; [apply boot_one_queued_linked | vm_compute; lia]. }
  assert (Hk : 1 <= 50 <= 99) by lia.
  destruct (sched_setscheduler_nocheck_rt (cfg := cfg2 false) eq_refl eq_refl unprivileged
              boot_one_active 7%nat _ _ _ SCHED_FIFO 50 (cfg2_ok false) boot_one_active_inv
              boot_one_active_task Hr Htc Hstop eq_refl Hcons Hq (or_introl eq_refl) Hk)
    as (s' & t' & Hs' & Hinv & Ht' & Hp & Hrp & Hprio & _ & Hidx).
  exists s', t'. split; [exact Hs' |]. split; [exact Hinv |]. split; [exact Ht' |].
  split; [exact Hp |]. split; [exact Hrp |]. split; [exact Hprio | exact Hidx].
Defined.

(** ** Fork: reset on fork *)

Section ForkReset.
Context `{cfg : Config}.

(** X20: [sched_fork] leaves the child new and unqueued on the forking CPU,
    with [sched_reset_on_fork] clear, and does not touch any runqueue.
    Without the reset flag the child keeps the copied policy, static
    priority and RT priority, and its [prio] is the parent's
    [normal_prio], so a priority the parent inherited is not passed on.
    With the flag, an RT child becomes a NORMAL task at nice 0 with RT
    priority 0, any other child keeps its policy and has a negative nice
    value raised to 0; in both cases [prio] and [normal_prio] are
    recomputed from the new values. *)
Theorem sched_fork_resets s p c current r child0 cur parent :
  get_rq s c = Some r ->
  get_task s p = Some child0 ->
  get_task s current = Some cur ->
  get_task s (curr r) = Some parent ->
  p ≠ curr r ->
  exists s' child,
    sched_fork s p c current = Some s' /\ get_task s' p = Some child /\
    runqueues s' = runqueues s /\
    state child = TASK_NEW /\ on_rq child = 0 /\ task_cpu child = c /\
    sched_reset_on_fork child = false /\
    (sched_reset_on_fork child0 = false ->
       policy child = policy child0 /\ static_prio child = static_prio child0 /\
       rt_priority child = rt_priority child0 /\ prio child = normal_prio_of cur) /\
    (sched_reset_on_fork child0 = true ->
       prio child = normal_prio child /\ normal_prio_of child = normal_prio child /\
       rt_policy (policy child) = false /\
       if rt_policy (policy child0)
       then policy child = SCHED_NORMAL /\ static_prio child = NICE_TO_PRIO 0 /\
            rt_priority child = 0
       else policy child = policy child0 /\ rt_priority child = rt_priority child0 /\
            PRIO_TO_NICE (static_prio child)
            = Z.max 0 (PRIO_TO_NICE (static_prio child0))).
Proof.
  intros Hr Hp Hcur Hpar Hne.
  unfold sched_fork. rewrite Hr. cbn [mbind option_bind].
  rewrite Hp. cbn [mbind option_bind]. rewrite Hcur. cbn [mbind option_bind].
  set (t0 := set_prio (normal_prio_of cur) _).
  set (tr := if sched_reset_on_fork t0 then _ else t0).
  set (t1 := set_boost_prio MAX_PRIORITY_ADJ tr).
  rewrite (get_task_put_task_ne _ p t1 (curr r)) by done.
  rewrite Hpar. cbn [mbind option_bind].
  rewrite get_task_put_task_eq. cbn [mbind option_bind].
  rewrite (get_task_put_task_ne _ (curr r) _ p) by done.
  rewrite get_task_put_task_eq. cbn [mbind option_bind].
  rewrite get_task_put_task_eq. cbn [mbind option_bind].
  set (par1 := set_time_slice (time_slice parent ÷ 2) parent).
  set (t2 := set_time_slice (time_slice par1) t1).
  set (s3 := put_task _ p t2).
  (* the fields of the child that the rest of the function leaves alone *)
  assert (Hrest : exists s4 t4,
            (if time_slice t2 <? RESCHED_NS
             then resched_curr (put_task s3 p (set_time_slice SCHED_TIMESLICE_NS t2)) c
             else Some s3) = Some s4 /\
            get_task s4 p = Some t4 /\ runqueues s4 = runqueues s /\
            set_time_slice 0 t4 = set_time_slice 0 t1).
  { destruct (time_slice t2 <? RESCHED_NS).
    - unfold resched_curr, s3. rewrite !get_rq_put_task, Hr. cbn [mbind option_bind].
      rewrite (get_task_put_task_ne _ p _ (curr r)) by done.
      rewrite (get_task_put_task_ne _ p _ (curr r)) by done.
      rewrite get_task_put_task_eq. cbn [mbind option_bind].
      destruct (need_resched par1).
      + eexists _, _. split; [done |]. rewrite get_task_put_task_eq. done.
      + eexists _, _. split; [done |].
        rewrite (get_task_put_task_ne _ (curr r) _ p) by done.
        rewrite get_task_put_task_eq. done.
    - eexists _, _. split; [done |]. unfold s3. rewrite get_task_put_task_eq. done. }
  destruct Hrest as (s4 & t4 & -> & Ht4 & Hrq & Hsame).
  cbn [mbind option_bind]. rewrite Ht4. cbn [mbind option_bind].
  eexists _, _. split; [done |]. rewrite get_task_put_task_eq.
  split; [done |]. split; [exact Hrq |].
  assert (F : forall f : task_struct -> Z,
            (forall v x, f (set_time_slice v x) = f x) -> f t4 = f t1).
  { intros f Hf. rewrite <- (Hf 0 t4), Hsame. apply Hf. }
  assert (Fb : sched_reset_on_fork t4 = sched_reset_on_fork t1).
  { change (sched_reset_on_fork (set_time_slice 0 t4)
            = sched_reset_on_fork (set_time_slice 0 t1)). by rewrite Hsame. }
  cbn [state on_rq task_cpu sched_reset_on_fork policy static_prio rt_priority prio
       normal_prio_of set_task_cpu_field].
  rewrite (F state), (F on_rq), (F policy), (F static_prio), (F rt_priority), (F prio),
    (F normal_prio_of), Fb by done.
  assert (Hnp : normal_prio (set_task_cpu_field c t4) = normal_prio t1).
  { unfold normal_prio, task_has_rt_policy.
    change (policy (set_task_cpu_field c t4)) with (policy t4).
    change (rt_priority (set_task_cpu_field c t4)) with (rt_priority t4).
    change (static_prio (set_task_cpu_field c t4)) with (static_prio t4).
    by rewrite (F policy), (F static_prio), (F rt_priority). }
  rewrite Hnp. clear Hnp F Fb Hsame Ht4.
  unfold t1, tr, t0. cbn [sched_reset_on_fork set_prio set_state set_sched_time set_on_rq
                          set_on_cpu set_boost_prio].
  unfold task_has_rt_policy. cbn [policy set_prio set_state set_sched_time set_on_rq set_on_cpu].
  change (static_prio (set_prio (normal_prio_of cur)
            (set_state TASK_NEW (set_sched_time 0 (set_on_rq 0 (set_on_cpu 0 child0))))))
    with (static_prio child0).
  destruct (sched_reset_on_fork child0) eqn:Hres;
    [destruct (rt_policy (policy child0)) eqn:Hrp;
       [| destruct (Z.ltb_spec (PRIO_TO_NICE (static_prio child0)) 0) as [Hlt | Hge]] |];
    unfold normal_prio, task_has_rt_policy; cbn; rewrite ?Hrp;
    (do 4 (split; [done |])); split; intros Hx; try done.
  - do 5 (split; [done |]). unfold PRIO_TO_NICE, NICE_TO_PRIO in *. lia.
  - do 5 (split; [done |]). lia.
Qed.

End ForkReset.

Lemma sched_fork_resets_witness :
  exists s' child,
    sched_fork (cfg := cfg1) fork_reset_state 10 0 7 = Some s' /\
    get_task s' 10 = Some child /\ runqueues s' = runqueues fork_reset_state /\
    state child = TASK_NEW /\ sched_reset_on_fork child = false /\
    policy child = SCHED_NORMAL /\ static_prio child = 120 /\ rt_priority child = 0.
Proof.
  destruct (sched_fork_resets (cfg := cfg1) fork_reset_state 10%nat 0 7%nat
              (mk_rq (boot_queue 0) 1 0 0 7 0 None None 0 0 0 true)
              (set_sched_reset_on_fork true rr_task) (set_sched_reset_on_fork true rr_task)
              (set_sched_reset_on_fork true rr_task))
    as (s' & child & Hs' & Hc & Hrq & Hst & _ & _ & Hf & _ & H).
  - reflexivity.
  - vm_compute. reflexivity.
  - vm_compute. reflexivity.
  - vm_compute. reflexivity.
  - cbn. lia.
  - destruct H as (_ & _ & _ & Hpol & Hsp & Hrp); [reflexivity |].
    exists s', child. split; [exact Hs' |]. split; [exact Hc |]. split; [exact Hrq |].
    split; [exact Hst |]. split; [exact Hf |]. split; [exact Hpol |].
    split; [exact Hsp | exact Hrp].
Defined.

(** ** Pulling tasks from another runqueue *)

Section Migrate.
Context `{cfg : Config}.

(** *** One migration *)

Lemma set_task_cpu_field_id t : set_task_cpu_field (task_cpu t) t = t.
Proof. by destruct t. Qed.

Lemma set_task_cpu_spec s p t new_cpu :
  sched_inv s -> get_task s p = Some t ->
  exists s', set_task_cpu s p new_cpu = Some s' /\ sched_inv s' /\
    runqueues s' = runqueues s /\
    get_task s' p = Some (set_task_cpu_field new_cpu t) /\
    forall x, x ≠ p -> get_task s' x = get_task s x.
Proof.
  intros Hinv Ht. unfold set_task_cpu. rewrite Ht. cbn [mbind option_bind].
  destruct (Z.eqb_spec (task_cpu t) new_cpu) as [<- | Hne].
  - exists s. rewrite set_task_cpu_field_id. done.
  - eexists. split; [done |]. split; [by apply (task_write_inv s p t) |].
    split; [done |]. split; [apply get_task_put_task_eq |].
    intros x Hx. by apply get_task_put_task_ne.
Qed.

Lemma migrate_one s src dst dest_cpu p rs rd t :
  config_ok -> sched_inv s -> src ≠ dst ->
  get_rq s src = Some rs -> get_rq s dst = Some rd -> get_task s p = Some t ->
  queued rs p -> p ≠ idle rs ->
  0 <= task_sched_prio t < bmq_BITS ->
  nr_running rd + 1 < 2 ^ BITS_PER_LONG ->
  exists s3 rs' rd',
    (s1 ← dequeue_task s p src; s2 ← set_task_cpu s1 p dest_cpu; enqueue_task s2 p dst)
    = Some s3 /\
    sched_inv s3 /\ get_rq s3 src = Some rs' /\ get_rq s3 dst = Some rd' /\
    heads (queue rs') = filter (λ n, n ≠ p) <$> heads (queue rs) /\
    idle rs' = idle rs /\ 1 <= nr_running rs /\ nr_running rs' = nr_running rs - 1 /\
    idle rd' = idle rd /\ cpu rd' = cpu rd /\ nr_running rd' = nr_running rd + 1 /\
    (forall x, queued rd x -> queued rd' x) /\ queued rd' p /\
    get_task s3 p
    = Some (set_bmq_idx (task_sched_prio t) (set_task_cpu_field dest_cpu t)) /\
    (forall x, x ≠ p -> get_task s3 x = get_task s x).
Proof.
  intros Hcfg Hinv Hne Hrs Hrd Ht Hq Hni Hidx Hfit.
  destruct (dequeue_task_returns s p src rs Hcfg Hinv Hrs Hq Hni)
    as (s1 & rs1 & Hs1 & Hrs1 & Hnq1 & Hheads & Hnr & Htasks & Hother1 & Ers1).
  pose proof (dequeue_task_inv s p src rs s1 Hcfg Hinv Hrs Hq Hni Hs1) as Hinv1.
  assert (Ht1 : get_task s1 p = Some t) by (unfold get_task; by rewrite Htasks).
  destruct (set_task_cpu_spec s1 p t dest_cpu Hinv1 Ht1)
    as (s2 & Hs2 & Hinv2 & Hrqs2 & Ht2 & Hother2).
  assert (Hget2 : forall c', get_rq s2 c' = get_rq s1 c').
  { intros c'. unfold get_rq. by rewrite Hrqs2. }
  assert (Hrd2 : get_rq s2 dst = Some rd).
  { rewrite Hget2, Hother1 by done. done. }
  assert (Hnq2 : forall c' r', get_rq s2 c' = Some r' -> ~ queued r' p).
  { intros c' r' Hr'. rewrite Hget2 in Hr'.
    destruct (decide (c' = src)) as [-> | Hc'].
    - by assert (r' = rs1) as -> by congruence.
    - rewrite Hother1 in Hr' by done. intros Hq'.
      destruct Hinv as [Hglob _].
      by pose proof (inv_unique _ Hglob c' src r' rs p Hr' Hrs Hq' Hq). }
  destruct (enqueue_task_returns s2 p dst rd (set_task_cpu_field dest_cpu t)
              Hcfg Hinv2 Hrd2 Ht2 Hnq2 Hidx Hfit)
    as (s3 & rd' & Hs3 & Hrd' & Ht3 & Hother3 & Hrqs3 & Erd' & l & l' & Hl & Hl' & Hin & Hfil).
  pose proof (enqueue_task_inv s2 p dst rd s3 Hcfg Hinv2 Hrd2 Hnq2 Hfit Hs3) as Hinv3.
  exists s3, rs1, rd'. rewrite Hs1. cbn [mbind option_bind]. rewrite Hs2.
  cbn [mbind option_bind]. split; [exact Hs3 |]. split; [exact Hinv3 |].
  split; [rewrite Hrqs3, Hget2 by done; exact Hrs1 |]. split; [exact Hrd' |].
  split; [exact Hheads |]. split; [by rewrite Ers1 |]. split; [exact Hnr |].
  split; [by rewrite Ers1 |]. split; [by rewrite Erd' |]. split; [by rewrite Erd' |].
  split; [by rewrite Erd' |]. split; [| split; [| split]].
  - intros x (lv & hs & Hlv & Hx).
    destruct (decide (task_sched_prio (set_task_cpu_field dest_cpu t) = lv)) as [E | E].
    + exists lv, l'. rewrite (zlookup_zupdate _ _ _ _ lv Hl'), decide_True by done.
      split; [done |]. rewrite E in Hl. assert (hs = l) as -> by congruence.
      rewrite <- Hfil in Hx. by apply list_elem_of_filter in Hx as [_ Hx].
    + exists lv, hs. rewrite (zlookup_zupdate _ _ _ _ lv Hl'), decide_False by done. done.
  - exists (task_sched_prio (set_task_cpu_field dest_cpu t)), l'.
    rewrite (zlookup_zupdate _ _ _ _ _ Hl'), decide_True by done. done.
  - exact Ht3.
  - intros x Hx. rewrite Hother3, Hother2 by done. unfold get_task. by rewrite Htasks.
Qed.

(** *** The loop *)

Lemma migration_refl dest_cpu s rs rd : migration dest_cpu s s rs rs rd rd 0.
Proof.
  unfold migration. split; [lia |]. split; [lia |]. do 2 (split; [done |]).
  split; [by left |]. do 2 (split; [done |]). intros x t Ht. exists t. by split; [| left].
Qed.

Lemma migration_trans dest_cpu s s1 s2 rs rs1 rs2 rd rd1 rd2 k1 k2 :
  migration dest_cpu s s1 rs rs1 rd rd1 k1 ->
  migration dest_cpu s1 s2 rs1 rs2 rd1 rd2 k2 ->
  migration dest_cpu s s2 rs rs2 rd rd2 (k1 + k2).
Proof.
  intros (A1 & A2 & A3 & A4 & A5 & A6 & A7 & A8) (B1 & B2 & B3 & B4 & B5 & B6 & B7 & B8).
  unfold migration. split; [lia |]. split; [lia |].
  split; [congruence |]. split; [congruence |]. split; [| split; [| split]].
  - intros x Hx. destruct (A5 x Hx) as [H | H]; [apply B5, H | right; apply B6, H].
  - intros x Hx. by apply B6, A6.
  - intros x Hx. by apply A7, B7.
  - intros x t Ht. destruct (A8 x t Ht) as (t1 & Ht1 & H1).
    destruct (B8 x t1 Ht1) as (t2 & Ht2 & H2). exists t2. split; [done |].
    destruct H1 as [-> | (Q1 & Q2 & Q3 & Q4 & Q5 & Q6 & Q7)].
    + destruct H2 as [-> | (Q1 & Q2 & Q3 & Q4 & Q5 & Q6 & Q7)]; [by left |].
      right. split; [by apply A7 |]. split; [done |]. split; [congruence |]. done.
    + destruct H2 as [-> | (P1 & _)]; [| done].
      right. split; [done |]. split; [intros H; by apply Q2, B7 |].
      split; [done |]. split; [by apply B6 |]. done.
Qed.

Lemma migrate_loop_spec src dst dest_cpu fuel :
  config_ok -> src ≠ dst ->
  forall s p tries mig pre rest rs rd,
    sched_inv s -> get_rq s src = Some rs -> get_rq s dst = Some rd ->
    concat (heads (queue rs)) = pre ++ p :: rest -> idle rs ∈ p :: rest ->
    (length (p :: rest) <= fuel)%nat ->
    0 <= tries -> 0 <= mig -> tries + mig <= SCHED_RQ_NR_MIGRATION ->
    nr_running rd + tries < 2 ^ BITS_PER_LONG ->
    (forall x t, get_task s x = Some t -> 0 <= task_sched_prio t < bmq_BITS) ->
    exists s' n rs' rd',
      migrate_loop fuel s src dst dest_cpu p tries mig = Some (s', n) /\
      sched_inv s' /\ get_rq s' src = Some rs' /\ get_rq s' dst = Some rd' /\
      mig <= n <= mig + tries /\ migration dest_cpu s s' rs rs' rd rd' (n - mig).
Proof.
  intros Hcfg Hne. induction fuel as [| fuel IH];
    intros s p tries mig pre rest rs rd Hinv Hrs Hrd Hwalk Hidle Hfuel Htries Hmig Hsum
           Hfit Hprio.
  { cbn in Hfuel. lia. }
  cbn [migrate_loop]. rewrite Hrs. cbn [mbind option_bind].
  destruct ((tries =? 0) || bool_decide (p = idle rs)) eqn:Hexit.
  { exists s, mig, rs, rd. split; [done |]. split; [done |]. split; [done |].
    split; [done |]. split; [lia |]. replace (mig - mig) with 0 by lia.
    apply migration_refl. }
  apply orb_false_iff in Hexit as [Ht0 Hpi].
  apply Z.eqb_neq in Ht0. apply bool_decide_eq_false in Hpi.
  apply elem_of_cons in Hidle as [Hidle | Hidle]; [congruence |].
  destruct rest as [| n0 rest0]; [by apply elem_of_nil in Hidle |].
  pose proof Hinv as [_ Hrqs]. destruct (Hrqs src rs Hrs) as [Hb _].
  assert (Hqp : queued rs p).
  { apply queued_concat. rewrite Hwalk. apply elem_of_app. right. by left. }
  pose proof Hqp as (lv & hs & Hlv & Hin).
  destruct (inv_level _ _ _ _ Hb lv hs p Hlv Hin) as (t & Ht & _).
  rewrite Ht. cbn [mbind option_bind].
  rewrite (rq_next_walk s src rs 0 pre p n0 rest0 Hcfg Hb Hwalk). cbn [mbind option_bind].
  destruct (task_running t) eqn:Hrun.
  - (* a running task is passed over *)
    apply (IH s n0 tries mig (pre ++ [p]) rest0 rs rd); try done.
    + by rewrite <- app_assoc.
    + cbn in Hfuel |- *. lia.
  - assert (Hstep : exists sA migA rsA rdA preA,
              (if cpumask_test_cpu dest_cpu (cpus_mask t)
               then s1 ← dequeue_task s p src;
                    s2 ← set_task_cpu s1 p dest_cpu;
                    s3 ← enqueue_task s2 p dst; Some (s3, int (mig + 1))
               else Some (s, mig)) = Some (sA, migA) /\
              sched_inv sA /\ get_rq sA src = Some rsA /\ get_rq sA dst = Some rdA /\
              mig <= migA <= mig + 1 /\
              migration dest_cpu s sA rs rsA rd rdA (migA - mig) /\
              concat (heads (queue rsA)) = preA ++ n0 :: rest0 /\
              nr_running rdA + (tries - 1) < 2 ^ BITS_PER_LONG /\
              (forall x t, get_task sA x = Some t -> 0 <= task_sched_prio t < bmq_BITS)).
    { destruct (cpumask_test_cpu dest_cpu (cpus_mask t)) eqn:Hallowed.
      - destruct (migrate_one s src dst dest_cpu p rs rd t Hcfg Hinv Hne Hrs Hrd Ht Hqp Hpi)
          as (s3 & rs3 & rd3 & Hs3 & Hinv3 & Hrs3 & Hrd3 & Hheads & Hi3 & Hnr & Hnr3 & Hid3
              & _ & Hnd3 & Hmono & Hqd & Ht3 & Hother).
        { by apply (Hprio p). }
        { lia. }
        apply bind_Some in Hs3 as (s1 & Hs1 & Hs3).
        apply bind_Some in Hs3 as (s2 & Hs2 & Hs3).
        rewrite Hs1. cbn [mbind option_bind]. rewrite Hs2. cbn [mbind option_bind].
        rewrite Hs3. cbn [mbind option_bind].
        assert (Hm : int (mig + 1) = mig + 1).
        { apply int_small. unfold fits_int, SCHED_RQ_NR_MIGRATION in *. lia. }
        rewrite Hm.
        assert (Hwalk3 : concat (heads (queue rs3)) = pre ++ n0 :: rest0).
        { rewrite Hheads, concat_filter, Hwalk. apply filter_ne_NoDup.
          rewrite <- Hwalk. by apply (walk_NoDup s src rs 0). }
        assert (Hnq3 : ~ queued rs3 p).
        { rewrite queued_concat, Hheads, concat_filter.
          intros [H _]%list_elem_of_filter. by apply H. }
        exists s3, (mig + 1), rs3, rd3, pre. split; [done |]. split; [done |].
        split; [done |]. split; [done |]. split; [lia |]. split; [| split; [done |]; split].
        + replace (mig + 1 - mig) with 1 by lia. unfold migration.
          split; [done |]. split; [done |]. split; [done |]. split; [done |].
          split; [| split; [done |]; split].
          * intros x Hx. destruct (decide (x = p)) as [-> | Hxp]; [by right |].
            left. rewrite queued_concat, Hheads, concat_filter.
            apply list_elem_of_filter. split; [done |]. by apply queued_concat.
          * intros x. rewrite !queued_concat, Hheads, concat_filter.
            by intros [_ H]%list_elem_of_filter.
          * intros x tx Hx. destruct (decide (x = p)) as [-> | Hxp].
            -- assert (tx = t) as -> by congruence. eexists. split; [exact Ht3 |].
               right. done.
            -- exists tx. rewrite Hother by done. split; [done | by left].
        + lia.
        + intros x tx. destruct (decide (x = p)) as [-> | Hxp].
          * rewrite Ht3. intros [= <-].
            change (task_sched_prio (set_bmq_idx _ (set_task_cpu_field dest_cpu t)))
              with (task_sched_prio t). by apply (Hprio p).
          * rewrite Hother by done. apply Hprio.
      - exists s, mig, rs, rd, (pre ++ [p]). split; [done |]. split; [done |].
        split; [done |]. split; [done |]. split; [lia |].
        replace (mig - mig) with 0 by lia. split; [apply migration_refl |].
        split; [by rewrite <- app_assoc |]. split; [lia | done]. }
    destruct Hstep as (sA & migA & rsA & rdA & preA & -> & HinvA & HrsA & HrdA & HmigA
                       & HrelA & HwalkA & HfitA & HprioA).
    cbn [mbind option_bind fst snd]. rewrite HrsA. cbn [mbind option_bind].
    assert (HidA : idle rsA = idle rs) by (by destruct HrelA as (_ & _ & ? & _)).
    destruct (decide (n0 = idle rsA)) as [Hn0 | Hn0].
    + rewrite bool_decide_eq_true_2 by done.
      exists sA, migA, rsA, rdA. split; [done |]. split; [done |]. split; [done |].
      split; [done |]. split; [lia | done].
    + rewrite bool_decide_eq_false_2 by done.
      apply elem_of_cons in Hidle as [Hidle | Hidle]; [congruence |].
      destruct rest0 as [| n1 rest1]; [by apply elem_of_nil in Hidle |].
      pose proof HinvA as [_ HrqsA]. destruct (HrqsA src rsA HrsA) as [HbA _].
      rewrite (rq_next_walk sA src rsA 0 preA n0 n1 rest1 Hcfg HbA HwalkA).
      cbn [mbind option_bind].
      assert (Ht1 : int (tries - 1) = tries - 1).
      { apply int_small. unfold fits_int, SCHED_RQ_NR_MIGRATION in *. lia. }
      rewrite Ht1.
      destruct (IH sA n1 (tries - 1) migA (preA ++ [n0]) rest1 rsA rdA HinvA HrsA HrdA)
        as (s' & n & rs' & rd' & Hloop & Hinv' & Hrs' & Hrd' & Hn & Hrel');
        try done.
      * by rewrite <- app_assoc.
      * by rewrite HidA.
      * cbn in Hfuel |- *. lia.
      * lia.
      * lia.
      * unfold SCHED_RQ_NR_MIGRATION in *. lia.
      * exists s', n, rs', rd'. split; [done |]. split; [done |]. split; [done |].
        split; [done |]. split; [lia |].
        replace (n - mig) with ((migA - mig) + (n - migA)) by lia.
        by apply (migration_trans dest_cpu s sA s' rs rsA rs' rd rdA rd').
Qed.

(** X21: [migrate_pending_tasks] between two different runqueues always
    returns, with the invariants kept.  It moves at most half of the
    source's tasks, rounded up, and at most [SCHED_RQ_NR_MIGRATION]; the
    returned number is the number of tasks the source lost and the
    destination gained.  No task is lost, the idle task and the running
    tasks stay, and only tasks allowed on the destination CPU move. *)
Theorem migrate_pending_tasks_spec s src dst rs rd :
  config_ok -> sched_inv s -> src ≠ dst ->
  get_rq s src = Some rs -> get_rq s dst = Some rd ->
  nr_running rd + SCHED_RQ_NR_MIGRATION < 2 ^ BITS_PER_LONG ->
  (forall x t, get_task s x = Some t -> 0 <= task_sched_prio t < bmq_BITS) ->
  exists s' n rs' rd',
    migrate_pending_tasks s src dst = Some (s', n) /\
    sched_inv s' /\ get_rq s' src = Some rs' /\ get_rq s' dst = Some rd' /\
    0 <= n <= Z.min ((nr_running rs + 1) / 2) SCHED_RQ_NR_MIGRATION /\
    migration (cpu_of rd) s s' rs rs' rd rd' n.
Proof.
  intros Hcfg Hinv Hne Hrs Hrd Hfit Hprio.
  pose proof Hinv as [_ Hrqs]. destruct (Hrqs src rs Hrs) as [Hb _].
  unfold migrate_pending_tasks. rewrite Hrs. cbn [mbind option_bind].
  rewrite Hrd. cbn [mbind option_bind].
  destruct (first_level_lookup s src rs 0 Hcfg Hb) as (p & hs & _ & Hl & _).
  assert (Hfirst : rq_first_bmq_task rs = Some p).
  { unfold rq_first_bmq_task. by rewrite Hl. }
  rewrite Hfirst. cbn [mbind option_bind].
  destruct (rq_first_walk s src rs 0 p Hcfg Hb Hfirst) as [rest Hwalk].
  set (tries := int (Z.min (ulong (nr_running rs + 1) / 2) SCHED_RQ_NR_MIGRATION)).
  pose proof (inv_nr_fit _ _ _ _ Hb) as [Hnr0 Hnr1].
  assert (Hul : 0 <= ulong (nr_running rs + 1) <= nr_running rs + 1).
  { unfold ulong, uwrap, BITS_PER_LONG. split; [apply Z.mod_pos_bound; lia |].
    apply Z.mod_le; lia. }
  assert (Hdiv : 0 <= ulong (nr_running rs + 1) / 2 <= (nr_running rs + 1) / 2).
  { split; [apply Z.div_pos; lia | apply Z.div_le_mono; lia]. }
  assert (Htries : 0 <= tries <= Z.min ((nr_running rs + 1) / 2) SCHED_RQ_NR_MIGRATION).
  { unfold tries. rewrite int_small; [| unfold fits_int, SCHED_RQ_NR_MIGRATION; lia].
    unfold SCHED_RQ_NR_MIGRATION in *. lia. }
  destruct (migrate_loop_spec src dst (cpu_of rd) (S (length (concat (heads (queue rs)))))
              Hcfg Hne s p tries 0 [] rest rs rd Hinv Hrs Hrd Hwalk)
    as (s' & n & rs' & rd' & Hloop & Hinv' & Hrs' & Hrd' & Hn & Hrel); try done.
  - rewrite <- Hwalk. apply queued_concat, (inv_idle _ _ _ _ Hb).
  - rewrite Hwalk. lia.
  - lia.
  - unfold SCHED_RQ_NR_MIGRATION in *. lia.
  - unfold SCHED_RQ_NR_MIGRATION in *. lia.
  - exists s', n, rs', rd'. split; [done |]. split; [done |]. split; [done |].
    split; [done |]. split; [lia |]. by rewrite Z.sub_0_r in Hrel.
Qed.

End Migrate.

Lemma boot_one_active_prio x t :
  get_task boot_one_active x = Some t ->
  0 <= task_sched_prio (cfg := cfg2 false) t < bmq_BITS (Config := cfg2 false).
Proof.
  assert (E : tasks boot_one_active
              = <[7%nat := default fresh_task (get_task boot_one_active 7)]>
                  (tasks (boot false))) by (vm_compute; reflexivity).
  unfold get_task. rewrite E. intros [[<- <-] | [_ H]]%lookup_insert_Some.
  { vm_compute. split; [discriminate | reflexivity]. }
  cbn [boot tasks] in H. apply lookup_insert_Some in H as [[_ <-] | [_ H]].
  { vm_compute. split; [discriminate | reflexivity]. }
  apply lookup_singleton_Some in H as [_ <-].
  vm_compute. split; [discriminate | reflexivity].
Qed.

Lemma migrate_pending_tasks_spec_witness :
  exists s' t',
    migrate_pending_tasks (cfg := cfg2 false) boot_one_active 0 1 = Some (s', 1) /\
    sched_inv (cfg := cfg2 false) s' /\
    get_task s' 7 = Some t' /\ task_cpu t' = 1.
Proof.
  assert (Hrs : get_rq boot_one_active 0
                = Some (default (boot_rq 0 0) (get_rq boot_one_active 0)))
    by (vm_compute; reflexivity).
  assert (Hrd : get_rq boot_one_active 1 = Some (boot_rq 1 1)) by (vm_compute; reflexivity).
  assert (Hne : 0 ≠ 1) by lia.
  assert (Hfit : nr_running (boot_rq 1 1) + SCHED_RQ_NR_MIGRATION < 2 ^ BITS_PER_LONG)
    by (vm_compute; reflexivity).
  destruct (migrate_pending_tasks_spec (cfg := cfg2 false) boot_one_active 0 1 _ _
              (cfg2_ok false) boot_one_active_inv Hne Hrs Hrd Hfit boot_one_active_prio)
    as (s' & n & rs' & rd' & Hs' & Hinv' & _ & _ & _ & Hrel).
  assert (Hn : snd <$> migrate_pending_tasks (cfg := cfg2 false) boot_one_active 0 1
               = Some 1) by (vm_compute; reflexivity).
  rewrite Hs' in Hn. cbn in Hn. injection Hn as ->.
  destruct Hrel as (_ & _ & _ & _ & _ & _ & _ & Htasks).
  destruct (Htasks 7%nat _ boot_one_active_task) as (t' & Ht' & Hcase).
  exists s', t'. split; [exact Hs' |]. split; [exact Hinv' |]. split; [exact Ht' |].
  destruct Hcase as [-> | (_ & _ & _ & _ & _ & _ & ->)]; [| reflexivity].
  assert (Hcpu : (x ← migrate_pending_tasks (cfg := cfg2 false) boot_one_active 0 1;
                  t ← get_task x.1 7; Some (task_cpu t)) = Some 1)
    by (vm_compute; reflexivity).
  rewrite Hs' in Hcpu. cbn in Hcpu. rewrite Ht' in Hcpu. vm_compute in Hcpu.
  discriminate Hcpu.
Defined.
